(** * sticky: the note buffer (usr/lib/sticky/note_buffer.py)

    A shallow embedding of [NoteBuffer], its undo/redo actions and its
    internal markup, with the properties of the specification stated
    against it.

    The toolkit's [Gtk.TextBuffer] is not part of the repository.  It is
    taken as follows.
    - The buffer is the sequence of its cells, each a character or a
      child anchor with its widget, together with the tags applied to the
      cell, and the offsets of its two marks, [insert] and
      [selection_bound].  A tag is identified by its name.
    - [get_iter_at_offset] gives the end iterator for an offset outside
      the buffer.
    - What is inserted between two cells carries the tags that both of
      them carry.  A mark at the offset of an insertion moves behind it; a
      mark inside a deleted range moves to its start.
    - [apply_tag_by_name] and [remove_tag_by_name] warn and change nothing
      for a name that is not in the tag table.
    - [insert] emits [insert-text] unless the text is empty, [delete]
      emits [delete-range] unless the range is empty; the handlers of the
      class run before the default handler, and a handler that raises has
      its traceback printed while the emission goes on.
    - A character of a string is one of the 8-bit range or U+FFFC, the
      character [get_slice] and [get_char] give for a child anchor. *)

From Stdlib Require Import List ZArith Lia Bool Ascii String Sorted.
Import ListNotations.
Open Scope Z_scope.
Set Warnings "-register-all".

(** ** Python strings *)

(** A character of a Python [str].  The model keeps the 8-bit range and
    U+FFFC, the character the toolkit reports in place of a child anchor. *)
Inductive char : Type :=
| Ch (a : ascii)
| ObjRepl.

Definition char_eqb (x y : char) : bool :=
  match x, y with
  | Ch a, Ch b => Ascii.eqb a b
  | ObjRepl, ObjRepl => true
  | _, _ => false
  end.

Definition str := list char.

Definition lit (s : string) : str := map Ch (list_ascii_of_string s).

Fixpoint str_eqb (s t : str) : bool :=
  match s, t with
  | [], [] => true
  | x :: s', y :: t' => char_eqb x y && str_eqb s' t'
  | _, _ => false
  end.

Definition py_len {A : Type} (s : list A) : Z := Z.of_nat (List.length s).

(** How a slice bound is read: a negative bound counts from the end, and
    every bound is clipped to the string. *)
Definition slice_bound (n i : Z) : Z :=
  if i <? 0 then Z.max (i + n) 0 else Z.min i n.

(** [s[lo:hi]] *)
Definition py_slice {A : Type} (s : list A) (lo hi : Z) : list A :=
  let n := py_len s in
  let lo' := slice_bound n lo in
  let hi' := slice_bound n hi in
  firstn (Z.to_nat (hi' - lo')) (skipn (Z.to_nat lo') s).

(** [s[lo:]] *)
Definition py_slice_from {A : Type} (s : list A) (lo : Z) : list A :=
  skipn (Z.to_nat (slice_bound (py_len s) lo)) s.

(** [s[i]]; [None] stands for IndexError. *)
Definition py_index {A : Type} (s : list A) (i : Z) : option A :=
  let n := py_len s in
  if (0 <=? i) && (i <? n) then nth_error s (Z.to_nat i)
  else if (- n <=? i) && (i <? 0) then nth_error s (Z.to_nat (i + n))
  else None.

Fixpoint find_char (c : char) (s : str) (i : Z) : Z :=
  match s with
  | [] => -1
  | x :: r => if char_eqb x c then i else find_char c r (i + 1)
  end.

(** [s.find(c, start)] for a one-character [c]. *)
Definition py_find (s : str) (c : char) (start : Z) : Z :=
  let st := slice_bound (py_len s) start in
  find_char c (skipn (Z.to_nat st) s) st.

(** [int(c)] for a one-character string; [None] stands for ValueError. *)
Definition py_int (c : char) : option Z :=
  match c with
  | Ch a =>
      let n := Z.of_N (N_of_ascii a) in
      if (48 <=? n) && (n <=? 57) then Some (n - 48) else None
  | ObjRepl => None
  end.

Fixpoint mem (t : str) (l : list str) : bool :=
  match l with
  | [] => false
  | x :: r => str_eqb x t || mem t r
  end.

(** [l.remove(t)]: the first occurrence goes. *)
Fixpoint remove_first (t : str) (l : list str) : list str :=
  match l with
  | [] => []
  | x :: r => if str_eqb x t then r else x :: remove_first t r
  end.

(** ** The toolkit's text buffer *)

(** A [Gtk.TextTag], identified by its name.  A tag without a name is the
    tag of the empty name; Python's [not name] holds of both. *)
Definition tag := str.

Definition TAG_DEFINITIONS : list tag :=
  [lit "bold"; lit "italic"; lit "underline"; lit "link"; lit "red"].

Inductive widget : Type :=
| CheckButton (active : bool)
| Image.

Inductive content : Type :=
| Chr (c : char)
| Anchor (w : widget).

Record cell : Type := mkCell {
  cell_content : content;
  cell_tags : list tag
}.

Record TextBuffer : Type := mkTextBuffer {
  cells : list cell;
  insert_mark : nat;
  selection_bound : nat
}.

Definition get_char_count (b : TextBuffer) : nat := List.length (cells b).

(** [get_iter_at_offset]: an offset outside the buffer gives the end
    iterator. *)
Definition get_iter_at_offset (b : TextBuffer) (z : Z) : nat :=
  if (z <? 0) || (py_len (cells b) <? z) then get_char_count b else Z.to_nat z.

Definition tags_at (cs : list cell) (i : nat) : list tag :=
  match nth_error cs i with
  | Some c => cell_tags c
  | None => []
  end.

Definition tags_before (cs : list cell) (i : nat) : list tag :=
  match i with
  | O => []
  | S j => tags_at cs j
  end.

(** [iter.get_toggled_tags(toggled_on)] *)
Definition get_toggled_tags (cs : list cell) (i : nat) (toggled_on : bool) : list tag :=
  if toggled_on
  then filter (fun t => negb (mem t (tags_before cs i))) (tags_at cs i)
  else filter (fun t => negb (mem t (tags_at cs i))) (tags_before cs i).

(** [iter.get_char()]: a child anchor reads as U+FFFC. *)
Definition content_char (c : content) : char :=
  match c with
  | Chr x => x
  | Anchor _ => ObjRepl
  end.

Definition get_child_anchor (cs : list cell) (i : nat) : option widget :=
  match nth_error cs i with
  | Some (mkCell (Anchor w) _) => Some w
  | _ => None
  end.

(** [get_slice(start, end, True)] *)
Definition get_slice (b : TextBuffer) (s e : nat) : str :=
  map (fun c => content_char (cell_content c)) (firstn (e - s) (skipn s (cells b))).

(** What is inserted between two cells carries the tags both of them
    carry: the toggles of a tag stay outside an insertion at either end
    of its range. *)
Definition inherited_tags (cs : list cell) (i : nat) : list tag :=
  filter (fun t => mem t (tags_at cs i)) (tags_before cs i).

Definition shift_mark_insert (i n m : nat) : nat :=
  if (i <=? m)%nat then (m + n)%nat else m.

Definition shift_mark_delete (s e m : nat) : nat :=
  if (m <=? s)%nat then m else if (m <? e)%nat then s else (m - (e - s))%nat.

Definition insert_contents (b : TextBuffer) (i : nat) (l : list content) : TextBuffer :=
  let cs := cells b in
  let new := map (fun c => mkCell c (inherited_tags cs i)) l in
  mkTextBuffer (firstn i cs ++ new ++ skipn i cs)
               (shift_mark_insert i (List.length l) (insert_mark b))
               (shift_mark_insert i (List.length l) (selection_bound b)).

(** The default handler of [insert-text]. *)
Definition raw_insert (b : TextBuffer) (i : nat) (text : str) : TextBuffer :=
  insert_contents b i (map Chr text).

(** [create_child_anchor] followed by the view's [add_child_at_anchor]. *)
Definition raw_insert_anchor (b : TextBuffer) (i : nat) (w : widget) : TextBuffer :=
  insert_contents b i [Anchor w].

(** The default handler of [delete-range]. *)
Definition raw_delete (b : TextBuffer) (s e : nat) : TextBuffer :=
  let cs := cells b in
  mkTextBuffer (firstn s cs ++ skipn e cs)
               (shift_mark_delete s e (insert_mark b))
               (shift_mark_delete s e (selection_bound b)).

Fixpoint map_range {A : Type} (f : A -> A) (s e : nat) (i : nat) (l : list A) : list A :=
  match l with
  | [] => []
  | x :: r => (if (s <=? i)%nat && (i <? e)%nat then f x else x) :: map_range f s e (S i) r
  end.

Definition add_tag_to_cell (t : tag) (c : cell) : cell :=
  if mem t (cell_tags c) then c else mkCell (cell_content c) (cell_tags c ++ [t]).

Definition remove_tag_from_cell (t : tag) (c : cell) : cell :=
  mkCell (cell_content c) (filter (fun x => negb (str_eqb x t)) (cell_tags c)).

(** [apply_tag_by_name]: the table holds the tags of [TAG_DEFINITIONS];
    for another name the toolkit warns and changes nothing.  The two
    iterators are put in order first. *)
Definition apply_tag_by_name (b : TextBuffer) (name : tag) (s e : nat) : TextBuffer :=
  if mem name TAG_DEFINITIONS
  then mkTextBuffer (map_range (add_tag_to_cell name) (Nat.min s e) (Nat.max s e) 0 (cells b))
                    (insert_mark b) (selection_bound b)
  else b.

Definition remove_tag_by_name (b : TextBuffer) (name : tag) (s e : nat) : TextBuffer :=
  if mem name TAG_DEFINITIONS
  then mkTextBuffer (map_range (remove_tag_from_cell name) (Nat.min s e) (Nat.max s e) 0 (cells b))
                    (insert_mark b) (selection_bound b)
  else b.

Definition get_has_selection (b : TextBuffer) : bool :=
  negb (insert_mark b =? selection_bound b)%nat.

Definition get_selection_bounds (b : TextBuffer) : nat * nat :=
  (Nat.min (insert_mark b) (selection_bound b), Nat.max (insert_mark b) (selection_bound b)).

(** ** get_internal_markup *)

Definition valid_name (name : tag) : bool :=
  negb (str_eqb name []) && mem name TAG_DEFINITIONS.

Definition tag_marker (name : tag) : str := lit "#tag:" ++ name ++ lit ":".

(** The loop over the end tags.  [stack] is [current_tags] with its last
    element first, so that [pop] takes the head. *)
Fixpoint close_tags (stack tags unclosed : list tag) (text : str)
  : list tag * list tag * str :=
  match stack with
  | [] => (stack, unclosed, text)
  | t :: rest =>
      match tags with
      | [] => (stack, unclosed, text)
      | _ :: _ =>
          if negb (valid_name t) then close_tags rest tags unclosed text
          else if negb (mem t tags) then close_tags rest tags (unclosed ++ [t]) text
          else close_tags rest (remove_first t tags) unclosed (text ++ tag_marker t)
      end
  end.

(** The loop over the start tags; [tags] has its last element first. *)
Fixpoint open_tags_loop (tags current_tags : list tag) (text : str) : list tag * str :=
  match tags with
  | [] => (current_tags, text)
  | t :: rest =>
      if negb (valid_name t) then open_tags_loop rest current_tags text
      else open_tags_loop rest (current_tags ++ [t]) (text ++ tag_marker t)
  end.

Definition emit_content (c : content) : str :=
  match c with
  | Chr x => if char_eqb x (Ch "#") then lit "#" else [x]
  | Anchor (CheckButton checked) => lit "#check:" ++ (if checked then lit "1" else lit "0")
  | Anchor Image => lit "#bullet:"
  end.

(** One turn of the outer loop, at offset [i]. *)
Definition markup_step (cs : list cell) (acc : list tag * str) (i : nat) : list tag * str :=
  let '(current_tags, text) := acc in
  let '(stack, unclosed, text1) :=
    close_tags (rev current_tags) (get_toggled_tags cs i false) [] text in
  let current_tags1 := rev stack ++ unclosed in
  let '(current_tags2, text2) :=
    open_tags_loop (rev (get_toggled_tags cs i true)) current_tags1 text1 in
  match nth_error cs i with
  | Some c => (current_tags2, text2 ++ emit_content (cell_content c))
  | None => (current_tags2, text2)
  end.

(** The scan from the start iterator to the end iterator: the tags still
    open at the end and the text. *)
Definition markup_scan (cs : list cell) : list tag * str :=
  fold_left (markup_step cs) (seq 0 (List.length cs)) ([], []).

(** ** Actions *)

Inductive deletion_type : Type :=
| selection
| other
| backward
| foreward.

Definition deletion_type_eqb (x y : deletion_type) : bool :=
  match x, y with
  | selection, selection | other, other
  | backward, backward | foreward, foreward => true
  | _, _ => false
  end.

Inductive anchor_type : Type :=
| check
| bullet.

(** The action classes.  The [buffer] field is the one [NoteBuffer] of
    the model; [checked] is [None] until [remove] assigns the attribute. *)
Inductive Action : Type :=
| AdditionAction (text : str) (position : Z)
| DeletionAction (text : str) (position : Z) (dtype : deletion_type)
| ObjectInsertAction (is_addition : bool) (atype : anchor_type)
                     (position : Z) (checked : option bool)
| TagAction (name : tag) (tstart tend : Z) (is_addition : bool)
| CompositeAction (child_actions : list Action).

(** [self.maybe_join(new_action)]: [Some] of the receiver as it is left
    when the answer is [True], [None] when the answer is [False] (the
    receiver is then as it was). *)
Definition maybe_join (self new_action : Action) : option Action :=
  match self with
  | AdditionAction text position =>
      match new_action with
      | AdditionAction ntext nposition =>
          if nposition =? position + py_len text
          then Some (AdditionAction (text ++ ntext) position)
          else None
      | _ => None
      end
  | DeletionAction text position dtype =>
      match new_action with
      | DeletionAction ntext nposition ndtype =>
          if negb (deletion_type_eqb ndtype dtype) then None
          else if deletion_type_eqb dtype foreward && (nposition =? position)
          then Some (DeletionAction (text ++ ntext) position dtype)
          else if deletion_type_eqb dtype backward && (nposition =? position - 1)
          then Some (DeletionAction (ntext ++ text) nposition dtype)
          else None
      | _ => None
      end
  | _ => None
  end.

(** ** The state of a NoteBuffer *)

Inductive exn : Type :=
| AttributeError
| IndexError
| ValueError
| UnboundLocalError.

(** What the program prints. *)
Inductive diagnostic : Type :=
| NothingToUndo
| NothingToRedo
| TagsNotClosed (tags : list tag)
| Traceback (e : exn).

(** One instance.  [undo_actions], [redo_actions] and [composite_actions]
    are lists kept by the class; the model has the one instance that uses
    them.  Each list has its last element last, as in the source. *)
Record NoteBuffer : Type := mkNoteBuffer {
  buffer : TextBuffer;
  internal_action_count : Z;
  in_composite : Z;
  composite_actions : list Action;
  undo_actions : list Action;
  redo_actions : list Action;
  printed : list diagnostic;
  idle_callbacks : nat;
  content_changed : nat
}.

Definition set_buffer (b : TextBuffer) (s : NoteBuffer) : NoteBuffer :=
  mkNoteBuffer b (internal_action_count s) (in_composite s) (composite_actions s)
               (undo_actions s) (redo_actions s) (printed s) (idle_callbacks s)
               (content_changed s).

Definition set_internal_action_count (n : Z) (s : NoteBuffer) : NoteBuffer :=
  mkNoteBuffer (buffer s) n (in_composite s) (composite_actions s)
               (undo_actions s) (redo_actions s) (printed s) (idle_callbacks s)
               (content_changed s).

Definition set_in_composite (n : Z) (s : NoteBuffer) : NoteBuffer :=
  mkNoteBuffer (buffer s) (internal_action_count s) n (composite_actions s)
               (undo_actions s) (redo_actions s) (printed s) (idle_callbacks s)
               (content_changed s).

Definition set_composite_actions (l : list Action) (s : NoteBuffer) : NoteBuffer :=
  mkNoteBuffer (buffer s) (internal_action_count s) (in_composite s) l
               (undo_actions s) (redo_actions s) (printed s) (idle_callbacks s)
               (content_changed s).

Definition set_undo_actions (l : list Action) (s : NoteBuffer) : NoteBuffer :=
  mkNoteBuffer (buffer s) (internal_action_count s) (in_composite s)
               (composite_actions s) l (redo_actions s) (printed s)
               (idle_callbacks s) (content_changed s).

Definition set_redo_actions (l : list Action) (s : NoteBuffer) : NoteBuffer :=
  mkNoteBuffer (buffer s) (internal_action_count s) (in_composite s)
               (composite_actions s) (undo_actions s) l (printed s)
               (idle_callbacks s) (content_changed s).

Definition print (d : diagnostic) (s : NoteBuffer) : NoteBuffer :=
  mkNoteBuffer (buffer s) (internal_action_count s) (in_composite s)
               (composite_actions s) (undo_actions s) (redo_actions s)
               (printed s ++ [d]) (idle_callbacks s) (content_changed s).

(** [GLib.idle_add(self.trigger_changed)] *)
Definition idle_add (s : NoteBuffer) : NoteBuffer :=
  mkNoteBuffer (buffer s) (internal_action_count s) (in_composite s)
               (composite_actions s) (undo_actions s) (redo_actions s)
               (printed s) (S (idle_callbacks s)) (content_changed s).

(** [self.emit('content-changed')] *)
Definition emit_content_changed (s : NoteBuffer) : NoteBuffer :=
  mkNoteBuffer (buffer s) (internal_action_count s) (in_composite s)
               (composite_actions s) (undo_actions s) (redo_actions s)
               (printed s) (idle_callbacks s) (S (content_changed s)).

Definition new_NoteBuffer : NoteBuffer :=
  mkNoteBuffer (mkTextBuffer [] 0 0) 0 0 [] [] [] [] 0 0.

(** A method either returns or raises, and leaves a state either way. *)
Inductive outcome (A : Type) : Type :=
| Done (a : A) (s : NoteBuffer)
| Raised (e : exn) (s : NoteBuffer).

Arguments Done {A} a s.
Arguments Raised {A} e s.

Definition M (A : Type) : Type := NoteBuffer -> outcome A.

Definition ret {A : Type} (a : A) : M A := fun s => Done a s.

Definition raise {A : Type} (e : exn) : M A := fun s => Raised e s.

Definition bind {A B : Type} (m : M A) (k : A -> M B) : M B :=
  fun s =>
    match m s with
    | Done a s' => k a s'
    | Raised e s' => Raised e s'
    end.

Definition get : M NoteBuffer := fun s => Done s s.

Definition modify (f : NoteBuffer -> NoteBuffer) : M unit := fun s => Done tt (f s).

Declare Scope py_scope.
Delimit Scope py_scope with py.
Notation "x <- m ;; k" := (bind m (fun x => k))
  (at level 61, m at next level, right associativity) : py_scope.
Notation "m ;;; k" := (bind m (fun _ => k))
  (at level 61, right associativity) : py_scope.
Open Scope py_scope.

Definition final_state {A : Type} (o : outcome A) : NoteBuffer :=
  match o with
  | Done _ s => s
  | Raised _ s => s
  end.

(** [trigger_changed] *)
Definition trigger_changed (s : NoteBuffer) : NoteBuffer :=
  if internal_action_count s =? 0 then emit_content_changed s else s.

(** The main loop runs one pending idle callback. *)
Definition run_idle (s : NoteBuffer) : NoteBuffer :=
  match idle_callbacks s with
  | O => s
  | S n =>
      trigger_changed
        (mkNoteBuffer (buffer s) (internal_action_count s) (in_composite s)
                      (composite_actions s) (undo_actions s) (redo_actions s)
                      (printed s) n (content_changed s))
  end.

(** [InternalActionHandler.__enter__] *)
Definition enter_internal_action (s : NoteBuffer) : NoteBuffer :=
  set_internal_action_count (internal_action_count s + 1) s.

(** [InternalActionHandler.__exit__] *)
Definition exit_internal_action (trigger_on_complete : bool) (s : NoteBuffer) : NoteBuffer :=
  let s' := set_internal_action_count (internal_action_count s - 1) s in
  if (internal_action_count s' =? 0) && trigger_on_complete then idle_add s' else s'.

(** [with self.internal_action(trigger_on_complete): body] *)
Definition with_internal_action {A : Type} (trigger_on_complete : bool) (body : M A) : M A :=
  fun s =>
    match body (enter_internal_action s) with
    | Done a s' => Done a (exit_internal_action trigger_on_complete s')
    | Raised e s' => Raised e (exit_internal_action trigger_on_complete s')
    end.

(** ** Recording actions *)

Definition begin_composite_action (s : NoteBuffer) : NoteBuffer :=
  set_in_composite (in_composite s + 1) s.

Definition add_undo_action (action : Action) (s : NoteBuffer) : NoteBuffer :=
  if negb (in_composite s =? 0)
  then set_composite_actions (composite_actions s ++ [action]) s
  else set_redo_actions [] (set_undo_actions (undo_actions s ++ [action]) s).

Definition end_composite_action (s : NoteBuffer) : NoteBuffer :=
  let s1 := set_in_composite (in_composite s - 1) s in
  if negb (in_composite s1 =? 0) || (py_len (composite_actions s1) =? 0) then s1
  else
    let s2 :=
      match composite_actions s1 with
      | [a] => add_undo_action a s1
      | l => add_undo_action (CompositeAction l) s1
      end in
    set_composite_actions [] s2.

(** [add_tag] *)
Definition add_tag (tag_name : tag) (s e : nat) : M Action :=
  fun st =>
    let st1 := set_buffer (apply_tag_by_name (buffer st) tag_name s e) st in
    let action := TagAction tag_name (Z.of_nat s) (Z.of_nat e) true in
    Done action (trigger_changed st1).

(** [add_check_button] *)
Definition add_check_button (a_iter : nat) (checked : bool) : M Action :=
  with_internal_action true
    (fun st =>
       let st1 := set_buffer (raw_insert_anchor (buffer st) a_iter (CheckButton checked)) st in
       Done (ObjectInsertAction true check (Z.of_nat a_iter) None) st1).

(** [add_bullet] *)
Definition add_bullet (a_iter : nat) : M Action :=
  with_internal_action true
    (fun st =>
       let st1 := set_buffer (raw_insert_anchor (buffer st) a_iter Image) st in
       Done (ObjectInsertAction true bullet (Z.of_nat a_iter) None) st1).

(** [tag_selection] *)
Definition tag_selection (tag_name : tag) : M unit :=
  fun st =>
    if get_has_selection (buffer st)
    then
      let '(s, e) := get_selection_bounds (buffer st) in
      (action <- add_tag tag_name s e ;; modify (add_undo_action action)) st
    else
      let cursor_location := insert_mark (buffer st) in
      (action <- add_tag tag_name cursor_location cursor_location ;;
       modify (add_undo_action action)) st.

(** ** Lists and dicts of Python *)

(** [l.pop()]: the list without its last element, and that element. *)
Fixpoint list_pop {A : Type} (l : list A) : option (list A * A) :=
  match l with
  | [] => None
  | x :: r =>
      match list_pop r with
      | None => Some ([], x)
      | Some (r', y) => Some (x :: r', y)
      end
  end.

(** A dict keeps its keys in the order of their first insertion. *)
Definition dict := list (tag * nat).

Fixpoint dict_get (k : tag) (d : dict) : option nat :=
  match d with
  | [] => None
  | (k', v) :: r => if str_eqb k' k then Some v else dict_get k r
  end.

Fixpoint dict_set (k : tag) (v : nat) (d : dict) : dict :=
  match d with
  | [] => [(k, v)]
  | (k', v') :: r => if str_eqb k' k then (k', v) :: r else (k', v') :: dict_set k v r
  end.

Fixpoint dict_del (k : tag) (d : dict) : dict :=
  match d with
  | [] => []
  | (k', v') :: r => if str_eqb k' k then r else (k', v') :: dict_del k r
  end.

(** ** Lines of the text buffer *)

Definition is_char (a : ascii) (c : cell) : bool :=
  match cell_content c with
  | Chr (Ch x) => Ascii.eqb x a
  | _ => false
  end.

(** The offsets at which a line starts after a line end: a line ends
    with a line feed, a carriage return, or the two in a row. *)
Fixpoint line_starts_from (cs : list cell) (i : nat) : list nat :=
  match cs with
  | [] => []
  | c :: r =>
      if is_char "010" c then S i :: line_starts_from r (S i)
      else if is_char "013" c then
        match r with
        | c' :: _ => if is_char "010" c' then line_starts_from r (S i)
                     else S i :: line_starts_from r (S i)
        | [] => S i :: line_starts_from r (S i)
        end
      else line_starts_from r (S i)
  end.

Definition line_starts (cs : list cell) : list nat := O :: line_starts_from cs 0.

(** [iter.get_line()] *)
Definition get_line (cs : list cell) (i : nat) : nat :=
  (List.length (filter (fun s => (s <=? i)%nat) (line_starts cs)) - 1)%nat.

(** [get_iter_at_line] *)
Definition get_iter_at_line (cs : list cell) (line : nat) : nat :=
  nth line (line_starts cs) (List.length cs).

Section NoteBuffer.

(** [util.get_url_start] is not among the sources: the offset at which
    its match starts, when it has one. *)
Variable get_url_start : str -> option Z.

(** [maybe_repeat] *)
Definition maybe_repeat (current_iter : nat) (prev_action : Action) : M bool :=
  fun st =>
    let cs := cells (buffer st) in
    let line_start := get_iter_at_line cs (get_line cs current_iter) in
    match get_child_anchor cs line_start with
    | None => Done false st
    | Some w =>
        (action <- match w with
                   | CheckButton _ => add_check_button current_iter false
                   | Image => add_bullet current_iter
                   end ;;
         modify (add_undo_action (CompositeAction [prev_action; action])) ;;;
         ret true) st
    end.

Definition delimiters : list str :=
  [[Ch "010"]; [Ch "009"]; lit " "; lit "."; lit ","; lit ";"; lit ":"].

(** The last lines of [on_insert]: the action joins the top of the undo
    stack or is added. *)
Definition join_or_add (action : Action) (st : NoteBuffer) : NoteBuffer :=
  match list_pop (undo_actions st) with
  | None => add_undo_action action st
  | Some (rest, top) =>
      match maybe_join top action with
      | Some top' => set_undo_actions (rest ++ [top']) st
      | None => add_undo_action action st
      end
  end.

(** [on_insert], the handler of [insert-text].  It leaves [location] at
    the offset it had. *)
Definition on_insert (location : nat) (text : str) : M unit :=
  fun st =>
    if negb (internal_action_count st =? 0) then Done tt st
    else
      with_internal_action true
        (let action := AdditionAction text (Z.of_nat location) in
         (fun st1 =>
            if mem text delimiters then
              match get_url_start (get_slice (buffer st1) 0 location) with
              | Some match_start =>
                  (a <- add_tag (lit "link")
                                (get_iter_at_offset (buffer st1) match_start) location ;;
                   modify (add_undo_action a)) st1
              | None => Done tt st1
              end
            else Done tt st1) ;;;
         compound <- (if str_eqb text [Ch "010"]
                      then maybe_repeat location action
                      else ret false) ;;
         if compound then ret tt else modify (join_or_add action)) st.

(** *** The signals of the text buffer *)

(** A handler that raises has its traceback printed, and the emission
    goes on. *)
Definition run_handler {A : Type} (h : M A) (default : A) : M A :=
  fun s =>
    match h s with
    | Done a s' => Done a s'
    | Raised e s' => Done default (print (Traceback e) s')
    end.

(** [Gtk.TextBuffer.insert]: nothing is emitted for an empty text;
    otherwise [on_insert] runs, then the default handler. *)
Definition buffer_insert (i : nat) (text : str) : M unit :=
  match text with
  | [] => ret tt
  | _ :: _ =>
      run_handler (on_insert i text) tt ;;;
      modify (fun s => set_buffer (raw_insert (buffer s) i text) s)
  end.

(** [Gtk.TextBuffer.delete] with a given handler of [delete-range],
    which may assign to its two iterators: the iterators are put in
    order, and nothing is emitted for an empty range. *)
Definition buffer_delete_with (handler : nat -> nat -> M (nat * nat)) (s e : nat) : M unit :=
  let s0 := Nat.min s e in
  let e0 := Nat.max s e in
  if (s0 =? e0)%nat then ret tt
  else
    r <- run_handler (handler s0 e0) (s0, e0) ;;
    modify (fun st => set_buffer (raw_delete (buffer st) (fst r) (snd r)) st).

(** [ObjectInsertAction.remove]; the value is the [checked] attribute as
    it is left. *)
Definition object_remove_with (handler : nat -> nat -> M (nat * nat))
    (atype : anchor_type) (position : Z) (checked : option bool) : M (option bool) :=
  fun st =>
    let b := buffer st in
    let start_anchor_iter := get_iter_at_offset b position in
    let end_anchor_iter := get_iter_at_offset b (position + 1) in
    match atype with
    | check =>
        match get_child_anchor (cells b) start_anchor_iter with
        | Some (CheckButton active) =>
            (buffer_delete_with handler start_anchor_iter end_anchor_iter ;;;
             ret (Some active)) st
        | _ => Raised AttributeError st
        end
    | bullet =>
        (buffer_delete_with handler start_anchor_iter end_anchor_iter ;;; ret checked) st
    end.

(** *** on_delete *)

Definition anchor_type_of (w : widget) : anchor_type :=
  match w with
  | CheckButton _ => check
  | Image => bullet
  end.

(** [DeletionAction(self, start, end)] *)
Definition new_DeletionAction (b : TextBuffer) (s e : nat) : Action :=
  DeletionAction (get_slice b s e) (Z.of_nat s)
    (if get_has_selection b then
       let '(buffer_start, buffer_end) := get_selection_bounds b in
       if (buffer_start =? s)%nat && negb (buffer_end =? e)%nat then selection else other
     else if (insert_mark b =? e)%nat then backward
     else if (insert_mark b =? s)%nat then foreward
     else other).

(** The variables of the loop of [on_delete]; [last_action] is the
    variable [action], unbound at first. *)
Record delete_scan : Type := mkScan {
  current_iter : nat;
  d_start : nat;
  d_end : nat;
  open_tags : dict;
  actions : list Action;
  last_action : option Action
}.

Definition note_toggled_on (cs : list cell) (current : nat) (d : dict) : dict :=
  fold_left (fun d t => if mem t TAG_DEFINITIONS then dict_set t current d else d)
            (get_toggled_tags cs current true) d.

Definition note_toggled_off (b : TextBuffer) (current start : nat)
    (acc : dict * list Action) : dict * list Action :=
  fold_left
    (fun (acc : dict * list Action) t =>
       let '(d, l) := acc in
       if negb (mem t TAG_DEFINITIONS) then (d, l)
       else
         match dict_get t d with
         | Some offset =>
             (dict_del t d,
              l ++ [TagAction t (Z.of_nat (get_iter_at_offset b (Z.of_nat offset)))
                              (Z.of_nat current) false])
         | None => (d, l ++ [TagAction t (Z.of_nat start) (Z.of_nat current) false])
         end)
    (get_toggled_tags (cells b) current false) acc.

(** The first part of a turn of the loop of [on_delete]: a child anchor
    at [current_iter] is removed, and the three iterators are set again,
    two of them from their marks. *)
Definition scan_anchor (nested : nat -> nat -> M (nat * nat)) (ls : delete_scan)
  : M delete_scan :=
  fun st =>
    match get_child_anchor (cells (buffer st)) (current_iter ls) with
    | None => Done ls st
    | Some w =>
        let current_offset := current_iter ls in
        let atype := anchor_type_of w in
        (c <- object_remove_with nested atype (Z.of_nat current_offset) None ;;
         fun st' =>
           let action := ObjectInsertAction false atype (Z.of_nat current_offset) c in
           Done (mkScan
                   (get_iter_at_offset (buffer st') (Z.of_nat current_offset))
                   (shift_mark_delete current_offset (S current_offset) (d_start ls))
                   (shift_mark_delete current_offset (S current_offset) (d_end ls))
                   (open_tags ls) (actions ls ++ [action]) (Some action)) st') st
    end.

(** The second part: the tags toggled at [current_iter], then
    [forward_char]. *)
Definition scan_tags (b : TextBuffer) (ls : delete_scan) : delete_scan :=
  let d1 := note_toggled_on (cells b) (current_iter ls) (open_tags ls) in
  let '(d2, l2) := note_toggled_off b (current_iter ls) (d_start ls) (d1, actions ls) in
  mkScan (Nat.min (S (current_iter ls)) (get_char_count b))
         (d_start ls) (d_end ls) d2 l2 (last_action ls).

(** The loop of [on_delete].  Each turn moves [current_iter] forward and
    never moves [end] forward, so [end - start] turns are enough
    ([on_delete_loop_fuel] below). *)
Fixpoint on_delete_loop (nested : nat -> nat -> M (nat * nat)) (fuel : nat)
    (ls : delete_scan) : M delete_scan :=
  match fuel with
  | O => ret ls
  | S fuel' =>
      if negb (current_iter ls <? d_end ls)%nat then ret ls
      else
        ls1 <- scan_anchor nested ls ;;
        fun st => on_delete_loop nested fuel' (scan_tags (buffer st) ls1) st
  end.

(** The guarded block of [on_delete]; the value is the pair of iterators
    as the handler leaves them. *)
Definition on_delete_body (nested : nat -> nat -> M (nat * nat)) (s e : nat)
  : M (nat * nat) :=
  ls <- on_delete_loop nested (e - s) (mkScan s s e [] [] None) ;;
  fun st =>
    let b := buffer st in
    let actions1 :=
      actions ls ++
      map (fun p : tag * nat =>
             TagAction (fst p) (Z.of_nat (get_iter_at_offset b (Z.of_nat (snd p))))
                       (Z.of_nat (d_end ls)) false) (open_tags ls) in
    let actions2 :=
      if negb (d_start ls =? d_end ls)%nat
      then actions1 ++ [new_DeletionAction b (d_start ls) (d_end ls)]
      else actions1 in
    match actions2 with
    | [] => Done (d_start ls, d_end ls) st
    | [a] => Done (d_start ls, d_end ls) (join_or_add a st)
    | _ :: _ :: _ =>
        match last_action ls with
        | None => Raised UnboundLocalError st
        | Some action =>
            Done (d_start ls, d_end ls)
                 (join_or_add (CompositeAction (actions2 ++ [action])) st)
        end
    end.

(** [on_delete], the handler of [delete-range].  The handler is entered
    again when it deletes a child anchor; [depth] bounds how often. *)
Fixpoint on_delete (depth : nat) (s e : nat) : M (nat * nat) :=
  match depth with
  | O => ret (s, e)
  | S d =>
      fun st =>
        if negb (internal_action_count st =? 0) then Done (s, e) st
        else with_internal_action true (on_delete_body (on_delete d) s e) st
  end.

(** The handler as connected: entered again inside its own guarded
    block it returns at its first line ([on_delete_depth] below). *)
Definition delete_range_handler : nat -> nat -> M (nat * nat) := on_delete 1.

Definition buffer_delete : nat -> nat -> M unit := buffer_delete_with delete_range_handler.

Definition object_remove : anchor_type -> Z -> option bool -> M (option bool) :=
  object_remove_with delete_range_handler.

(** *** Replaying actions *)

(** [ObjectInsertAction.add] *)
Definition object_add (atype : anchor_type) (position : Z) (checked : option bool)
  : M unit :=
  fun st =>
    match atype with
    | check =>
        match checked with
        | None => Raised AttributeError st
        | Some c =>
            (add_check_button (get_iter_at_offset (buffer st) position) c ;;; ret tt) st
        end
    | bullet => (add_bullet (get_iter_at_offset (buffer st) position) ;;; ret tt) st
    end.

(** [TagAction.remove] and [TagAction.add] *)
Definition tag_remove (name : tag) (tstart tend : Z) : M unit :=
  modify (fun st =>
    set_buffer (remove_tag_by_name (buffer st) name
                  (get_iter_at_offset (buffer st) tstart)
                  (get_iter_at_offset (buffer st) tend)) st).

Definition tag_add (name : tag) (tstart tend : Z) : M unit :=
  modify (fun st =>
    set_buffer (apply_tag_by_name (buffer st) name
                  (get_iter_at_offset (buffer st) tstart)
                  (get_iter_at_offset (buffer st) tend)) st).

(** [for action in reversed(child_actions): f(action)]; the value is the
    list of the children as the calls leave them, in the order of the
    list. *)
Definition each_reversed (f : Action -> M Action) : list Action -> M (list Action) :=
  fix reversed (l : list Action) : M (list Action) :=
    match l with
    | [] => ret []
    | x :: r => r' <- reversed r ;; x' <- f x ;; ret (x' :: r')
    end.

(** [for action in child_actions: f(action)] *)
Definition each_in_order (f : Action -> M Action) : list Action -> M (list Action) :=
  fix in_order (l : list Action) : M (list Action) :=
    match l with
    | [] => ret []
    | x :: r => x' <- f x ;; r' <- in_order r ;; ret (x' :: r')
    end.

(** [action.undo()]; the value is the action as the call leaves it. *)
Fixpoint action_undo (a : Action) : M Action :=
  match a with
  | AdditionAction text position =>
      fun st =>
        let b := buffer st in
        (buffer_delete (get_iter_at_offset b position)
                       (get_iter_at_offset b (position + py_len text)) ;;;
         ret a) st
  | DeletionAction text position _ =>
      fun st =>
        (buffer_insert (get_iter_at_offset (buffer st) position) text ;;; ret a) st
  | ObjectInsertAction is_addition atype position checked =>
      if is_addition
      then c <- object_remove atype position checked ;;
           ret (ObjectInsertAction is_addition atype position c)
      else object_add atype position checked ;;; ret a
  | TagAction name tstart tend is_addition =>
      (if is_addition then tag_remove name tstart tend else tag_add name tstart tend) ;;;
      ret a
  | CompositeAction child_actions =>
      l <- each_reversed action_undo child_actions ;;
      ret (CompositeAction l)
  end.

(** [action.redo()] *)
Fixpoint action_redo (a : Action) : M Action :=
  match a with
  | AdditionAction text position =>
      fun st =>
        (buffer_insert (get_iter_at_offset (buffer st) position) text ;;; ret a) st
  | DeletionAction text position _ =>
      fun st =>
        let b := buffer st in
        (buffer_delete (get_iter_at_offset b position)
                       (get_iter_at_offset b (position + py_len text)) ;;;
         ret a) st
  | ObjectInsertAction is_addition atype position checked =>
      if is_addition
      then object_add atype position checked ;;; ret a
      else c <- object_remove atype position checked ;;
           ret (ObjectInsertAction is_addition atype position c)
  | TagAction name tstart tend is_addition =>
      (if is_addition then tag_add name tstart tend else tag_remove name tstart tend) ;;;
      ret a
  | CompositeAction child_actions =>
      l <- each_in_order action_redo child_actions ;;
      ret (CompositeAction l)
  end.

(** [NoteBuffer.undo] *)
Definition undo : M unit :=
  fun st =>
    if py_len (undo_actions st) =? 0 then Done tt (print NothingToUndo st)
    else
      with_internal_action true
        (fun st1 =>
           match list_pop (undo_actions st1) with
           | None => Raised IndexError st1
           | Some (rest, action) =>
               (action' <- action_undo action ;;
                modify (fun s => set_redo_actions (redo_actions s ++ [action']) s))
                 (set_undo_actions rest st1)
           end) st.

(** [NoteBuffer.redo] *)
Definition redo : M unit :=
  fun st =>
    if py_len (redo_actions st) =? 0 then Done tt (print NothingToRedo st)
    else
      with_internal_action true
        (fun st1 =>
           match list_pop (redo_actions st1) with
           | None => Raised IndexError st1
           | Some (rest, action) =>
               (action' <- action_redo action ;;
                modify (fun s => set_undo_actions (undo_actions s ++ [action']) s))
                 (set_redo_actions rest st1)
           end) st.

(** *** toggle_checklist and toggle_bullets *)

Definition has_anchor (cs : list cell) (i : nat) : bool :=
  match get_child_anchor cs i with
  | Some _ => true
  | None => false
  end.

(** The second loop of the two methods. *)
Fixpoint toggle_loop (add_object : nat -> M Action) (all_have : bool)
    (lines : list nat) (acc : list Action) : M (list Action) :=
  match lines with
  | [] => ret acc
  | line :: r =>
      fun st =>
        let cs := cells (buffer st) in
        let line_iter := get_iter_at_line cs line in
        if all_have then
          match get_child_anchor cs line_iter with
          | Some w =>
              (c <- object_remove (anchor_type_of w) (Z.of_nat line_iter) None ;;
               toggle_loop add_object all_have r
                 (acc ++ [ObjectInsertAction false (anchor_type_of w) (Z.of_nat line_iter) c]))
                st
          | None => toggle_loop add_object all_have r acc st
          end
        else
          (a <- add_object line_iter ;; toggle_loop add_object all_have r (acc ++ [a])) st
  end.

(** What the two methods do inside their guarded block, up to the list
    of actions. *)
Definition toggle_lines (add_object : nat -> M Action) : M (list Action) :=
  fun st =>
    let b := buffer st in
    let '(s, e) :=
      if get_has_selection b then get_selection_bounds b
      else (insert_mark b, insert_mark b) in
    let line_index_start := get_line (cells b) s in
    let line_index_end := get_line (cells b) e in
    let lines := seq line_index_start (line_index_end + 1 - line_index_start) in
    let all_have :=
      forallb (fun line => has_anchor (cells b) (get_iter_at_line (cells b) line)) lines in
    toggle_loop add_object all_have lines [] st.

Definition add_composite (l : list Action) : M unit :=
  match l with
  | [] => ret tt
  | _ :: _ => modify (add_undo_action (CompositeAction l))
  end.

(** [toggle_checklist] *)
Definition toggle_checklist : M unit :=
  with_internal_action true
    (l <- toggle_lines (fun i => add_check_button i false) ;; add_composite l).

(** [toggle_bullets] *)
Definition toggle_bullets : M unit :=
  l <- with_internal_action true (toggle_lines add_bullet) ;; add_composite l.

(** *** The internal markup *)

(** [get_internal_markup] *)
Definition get_internal_markup : M str :=
  fun st =>
    let '(current_tags, text) := markup_scan (cells (buffer st)) in
    match current_tags with
    | [] => Done text st
    | _ :: _ => Done text (print (TagsNotClosed current_tags) st)
    end.

Definition insert_at_end (text : str) : M unit :=
  fun st => buffer_insert (get_char_count (buffer st)) text st.

(** One turn of the loop of [set_from_internal_markup]: [None] when the
    loop breaks, else [current_index] and [open_tags] for the next turn.
    A mark of [open_tags] has left gravity and stays where it was made. *)
Definition markup_turn (text : str) (current_index : Z) (open : dict)
  : M (option (Z * dict)) :=
  let next_index := py_find text (Ch "#") current_index in
  if next_index =? -1 then
    insert_at_end (py_slice_from text current_index) ;;; ret None
  else
    insert_at_end (py_slice text current_index next_index) ;;;
    if str_eqb (py_slice text next_index (next_index + 2)) (lit "##") then
      insert_at_end (lit "#") ;;; ret (Some (next_index + 2, open))
    else if str_eqb (py_slice text next_index (next_index + 6)) (lit "#check") then
      match py_index text (next_index + 7) with
      | None => raise IndexError
      | Some c =>
          match py_int c with
          | None => raise ValueError
          | Some n =>
              (fun st => add_check_button (get_char_count (buffer st)) (negb (n =? 0)) st) ;;;
              ret (Some (next_index + 8, open))
          end
      end
    else if str_eqb (py_slice text next_index (next_index + 7)) (lit "#bullet") then
      (fun st => add_bullet (get_char_count (buffer st)) st) ;;;
      ret (Some (next_index + 8, open))
    else if str_eqb (py_slice text next_index (next_index + 4)) (lit "#tag") then
      let end_tag_index := py_find text (Ch ":") (next_index + 6) in
      let tag_name := py_slice text (next_index + 5) end_tag_index in
      match dict_get tag_name open with
      | Some mark =>
          modify (fun st =>
            set_buffer (apply_tag_by_name (buffer st) tag_name mark
                                          (get_char_count (buffer st))) st) ;;;
          ret (Some (next_index + 6 + py_len tag_name, dict_del tag_name open))
      | None =>
          fun st =>
            Done (Some (next_index + 6 + py_len tag_name,
                        dict_set tag_name (get_char_count (buffer st)) open)) st
      end
    else ret (Some (current_index, open)).

(** The [while True] loop; [None] when [fuel] turns do not end it. *)
Fixpoint markup_loop (fuel : nat) (text : str) (current_index : Z) (open : dict)
    (st : NoteBuffer) : option (outcome unit) :=
  match fuel with
  | O => None
  | S fuel' =>
      match markup_turn text current_index open st with
      | Raised e s => Some (Raised e s)
      | Done None s => Some (Done tt s)
      | Done (Some (i, d)) s => markup_loop fuel' text i d s
      end
  end.

(** [set_from_internal_markup]; [set_text('')] deletes what the buffer
    holds. *)
Definition set_from_internal_markup (fuel : nat) (text : str) (st : NoteBuffer)
  : option (outcome unit) :=
  let st0 := enter_internal_action st in
  match buffer_delete 0 (get_char_count (buffer st0)) st0 with
  | Raised e s => Some (Raised e (exit_internal_action false s))
  | Done _ st1 =>
      match markup_loop fuel text 0 [] st1 with
      | None => None
      | Some (Done _ s) => Some (Done tt (exit_internal_action false s))
      | Some (Raised e s) => Some (Raised e (exit_internal_action false s))
      end
  end.

(** *** What the application and the view do to the buffer *)

(** [place_cursor] and [select_range] *)
Definition select_range (ins bound : nat) (st : NoteBuffer) : NoteBuffer :=
  let n := get_char_count (buffer st) in
  set_buffer (mkTextBuffer (cells (buffer st)) (Nat.min ins n) (Nat.min bound n)) st.

Definition place_cursor (i : nat) (st : NoteBuffer) : NoteBuffer := select_range i i st.

(** A user action of the view: [begin-user-action], the edit,
    [end-user-action]. *)
Definition user_action {A : Type} (edit : M A) : M A :=
  fun st =>
    match edit (begin_composite_action st) with
    | Done a s => Done a (end_composite_action s)
    | Raised e s => Raised e (end_composite_action s)
    end.

(** A key press: the text goes in at the cursor, inside a user action. *)
Definition type_text (text : str) : M unit :=
  user_action (fun st => buffer_insert (insert_mark (buffer st)) text st).

End NoteBuffer.

(** ** Notions used by the statements *)

(** A URL matcher that never matches, for runs on concrete inputs. *)
Definition no_url : str -> option Z := fun _ => None.

(** A composite with at least two children; any other action passes. *)
Definition proper_composite (a : Action) : bool :=
  match a with
  | CompositeAction l => (2 <=? List.length l)%nat
  | _ => true
  end.

(** The contents of a buffer, without its tags. *)
Definition contents (st : NoteBuffer) : list content :=
  map cell_content (cells (buffer st)).

(** The cells that carry a tag, in order: its intervals. *)
Definition tagged (t : tag) (st : NoteBuffer) : list bool :=
  map (fun c => mem t (cell_tags c)) (cells (buffer st)).

(** Everything of a state but its text buffer and its pending idle
    callbacks is as in another state. *)
Definition same_record (s s' : NoteBuffer) : Prop :=
  internal_action_count s' = internal_action_count s /\
  in_composite s' = in_composite s /\
  composite_actions s' = composite_actions s /\
  undo_actions s' = undo_actions s /\
  redo_actions s' = redo_actions s /\
  printed s' = printed s /\
  content_changed s' = content_changed s.

(** A state differs from another in its text buffer at most. *)
Definition only_buffer (s s' : NoteBuffer) : Prop := s' = set_buffer (buffer s') s.

(** A method that, run inside a guarded block, changes the text buffer
    at most, whether it returns or raises. *)
Definition replays {A : Type} (m : M A) : Prop :=
  forall s, internal_action_count s <> 0 -> only_buffer s (final_state (m s)).

(** [undo] called [n] times; [None] as soon as a call raises. *)
Fixpoint undo_times (g : str -> option Z) (n : nat) (st : NoteBuffer) : option NoteBuffer :=
  match n with
  | O => Some st
  | S m =>
      match undo g st with
      | Done _ s => undo_times g m s
      | Raised _ _ => None
      end
  end.

(** [redo] called [n] times. *)
Fixpoint redo_times (g : str -> option Z) (n : nat) (st : NoteBuffer) : option NoteBuffer :=
  match n with
  | O => Some st
  | S m =>
      match redo g st with
      | Done _ s => redo_times g m s
      | Raised _ _ => None
      end
  end.

(** *** Notes used as examples *)

(** The text [##] inserted into a new note. *)
Definition hash_note : NoteBuffer :=
  final_state (buffer_insert no_url 0 (lit "##") new_NoteBuffer).

(** The text [#] inserted into a new note. *)
Definition single_hash_note : NoteBuffer :=
  final_state (buffer_insert no_url 0 (lit "#") new_NoteBuffer).

(** The text [abc] inserted into a new note, selected, and made bold. *)
Definition bold_note : NoteBuffer :=
  final_state
    (tag_selection (lit "bold")
       (select_range 0 3 (final_state (buffer_insert no_url 0 (lit "abc") new_NoteBuffer)))).

(** A new note after [toggle_checklist]: one check box. *)
Definition checklist_note : NoteBuffer := final_state (toggle_checklist new_NoteBuffer).

(** Then [a] typed behind the check box. *)
Definition checklist_a_note : NoteBuffer := final_state (type_text no_url (lit "a") checklist_note).

(** Then both selected and deleted, as the Delete key does inside a user
    action. *)
Definition checklist_deleted_note : NoteBuffer :=
  final_state (user_action (buffer_delete 0 2) (select_range 0 2 checklist_a_note)).

(** A note with [ab] typed, then [c] typed at the start. *)
Definition typed_note : NoteBuffer :=
  final_state
    (type_text no_url (lit "c")
       (place_cursor 0 (final_state (type_text no_url (lit "ab") new_NoteBuffer)))).

(** Then [undo]. *)
Definition undone_note : NoteBuffer := final_state (undo no_url typed_note).

(** A note inside a guarded block. *)
Definition guarded_note : NoteBuffer := enter_internal_action hash_note.

(** *** The markup as a list of events *)

(** Contents put at the end of the text buffer, as [insert] at the end
    iterator and the two [add_*] methods do inside the guarded block;
    nothing is inserted for no content. *)
Definition at_end (l : list content) (st : NoteBuffer) : NoteBuffer :=
  match l with
  | [] => st
  | _ :: _ => set_buffer (insert_contents (buffer st) (get_char_count (buffer st)) l) st
  end.

(** What [get_internal_markup] writes: a character, a check box, a bullet,
    or the marker of a tag that starts or ends. *)
Inductive event : Type :=
| Plain (c : char)
| Check (b : bool)
| Bullet
| Toggle (t : tag).

Definition render_event (e : event) : str :=
  match e with
  | Plain c => [c]
  | Check b => lit "#check:" ++ (if b then lit "1" else lit "0")
  | Bullet => lit "#bullet:"
  | Toggle t => tag_marker t
  end.

Definition render (evs : list event) : str := List.concat (map render_event evs).

(** The [#tag] branch of [set_from_internal_markup] on [open_tags]: an
    open tag is applied from its mark to the end, another one is marked. *)
Definition toggle (t : tag) (op : dict) (st : NoteBuffer) : dict * NoteBuffer :=
  match dict_get t op with
  | Some mark =>
      (dict_del t op,
       set_buffer (apply_tag_by_name (buffer st) t mark (get_char_count (buffer st))) st)
  | None => (dict_set t (get_char_count (buffer st)) op, st)
  end.

(** The events one by one. *)
Fixpoint eval (evs : list event) (op : dict) (st : NoteBuffer) : NoteBuffer :=
  match evs with
  | [] => st
  | Plain c :: r => eval r op (at_end [Chr c] st)
  | Check b :: r => eval r op (at_end [Anchor (CheckButton b)] st)
  | Bullet :: r => eval r op (at_end [Anchor Image] st)
  | Toggle t :: r => eval r (fst (toggle t op st)) (snd (toggle t op st))
  end.

(** The events as the decoder takes them: the characters up to the next
    [#] go in with one [insert]; [pend] holds those read so far. *)
Fixpoint interp (evs : list event) (pend : str) (op : dict) (st : NoteBuffer) : NoteBuffer :=
  match evs with
  | [] => at_end (map Chr pend) st
  | Plain c :: r => interp r (pend ++ [c]) op st
  | Check b :: r => interp r [] op (at_end [Anchor (CheckButton b)] (at_end (map Chr pend) st))
  | Bullet :: r => interp r [] op (at_end [Anchor Image] (at_end (map Chr pend) st))
  | Toggle t :: r =>
      interp r [] (fst (toggle t op (at_end (map Chr pend) st)))
                  (snd (toggle t op (at_end (map Chr pend) st)))
  end.

Definition no_hash (c : char) : bool := negb (char_eqb c (Ch "#")).

(** A name the decoder reads back from its marker: it is not empty, and it
    has no [:] behind its first character, where [find] starts. *)
Definition name_ok (t : tag) : bool :=
  match t with
  | [] => false
  | _ :: r => forallb (fun x => negb (char_eqb x (Ch ":"))) r
  end.

Definition event_ok (e : event) : bool :=
  match e with
  | Plain c => no_hash c
  | Toggle t => name_ok t
  | _ => true
  end.

(** The tags the loop over the end tags closes, in the order of their
    markers. *)
Fixpoint closed_tags (stack tags : list tag) : list tag :=
  match stack with
  | [] => []
  | t :: rest =>
      match tags with
      | [] => []
      | _ :: _ =>
          if negb (valid_name t) then closed_tags rest tags
          else if negb (mem t tags) then closed_tags rest tags
          else t :: closed_tags rest (remove_first t tags)
      end
  end.

(** [current_tags] after that loop. *)
Definition kept_tags (current_tags tags : list tag) : list tag :=
  let '(stack, unclosed, _) := close_tags (rev current_tags) tags [] [] in
  rev stack ++ unclosed.

Definition content_event (c : content) : event :=
  match c with
  | Chr x => Plain x
  | Anchor (CheckButton b) => Check b
  | Anchor Image => Bullet
  end.

(** The events of one turn of the scan, and [current_tags] after it. *)
Definition step_events (cs : list cell) (current_tags : list tag) (i : nat) : list event :=
  map Toggle (closed_tags (rev current_tags) (get_toggled_tags cs i false))
  ++ map Toggle (filter valid_name (rev (get_toggled_tags cs i true)))
  ++ match nth_error cs i with
     | Some c => [content_event (cell_content c)]
     | None => []
     end.

Definition step_tags (cs : list cell) (current_tags : list tag) (i : nat) : list tag :=
  kept_tags current_tags (get_toggled_tags cs i false)
  ++ filter valid_name (rev (get_toggled_tags cs i true)).

(** The events of the scan over the offsets [idxs], and [current_tags]
    after it. *)
Fixpoint scan_events (cs : list cell) (idxs : list nat) (current_tags : list tag)
  : list event :=
  match idxs with
  | [] => []
  | i :: r => step_events cs current_tags i ++ scan_events cs r (step_tags cs current_tags i)
  end.

Fixpoint scan_tags_after (cs : list cell) (idxs : list nat) (current_tags : list tag)
  : list tag :=
  match idxs with
  | [] => current_tags
  | i :: r => scan_tags_after cs r (step_tags cs current_tags i)
  end.

(** *** Notes the markup carries *)

(** No tag twice. *)
Fixpoint distinct (l : list tag) : bool :=
  match l with
  | [] => true
  | x :: r => negb (mem x r) && distinct r
  end.

(** A cell the markup can carry: its tags are tags of the table, each
    once, and it is not the character [#]. *)
Definition cell_ok (c : cell) : bool :=
  distinct (cell_tags c) && forallb valid_name (cell_tags c) &&
  match cell_content c with
  | Chr x => no_hash x
  | Anchor _ => true
  end.

(** A note of such cells whose last cell has no tag. *)
Definition plain_note (cs : list cell) : bool :=
  forallb cell_ok cs &&
  match tags_before cs (List.length cs) with
  | [] => true
  | _ :: _ => false
  end.

(** The decoder after [i] cells of [cs]: the buffer [D] holds their
    contents; a tag of [open] is a tag of [P], to be applied from its mark
    on, where the cells of [cs] carry it and those of [D] do not yet; every
    other tag is on the same cells of [D] as of [cs]. *)
Definition track (cs D : list cell) (i : nat) (P : tag -> bool) (open : dict) : Prop :=
  List.length D = i /\
  map cell_content D = firstn i (map cell_content cs) /\
  NoDup (map fst open) /\
  forall t,
    match dict_get t open with
    | Some m =>
        P t = true /\ mem t TAG_DEFINITIONS = true /\ (m <= i)%nat /\
        (forall j, (m <= j < i)%nat ->
                   mem t (tags_at cs j) = true /\ mem t (tags_at D j) = false) /\
        (forall j, (j < m)%nat -> mem t (tags_at D j) = mem t (tags_at cs j))
    | None =>
        P t = false /\
        (forall j, (j < i)%nat -> mem t (tags_at D j) = mem t (tags_at cs j))
    end.

(** The text [abc] inserted into a new note, and [ab] made bold. *)
Definition partly_bold_note : NoteBuffer :=
  final_state
    (tag_selection (lit "bold")
       (select_range 0 2 (final_state (buffer_insert no_url 0 (lit "abc") new_NoteBuffer)))).

(** *** Texts the decoder does not read back *)

(** The token at [n] is none of those the decoder knows. *)
Definition unknown_token (text : str) (n : Z) : bool :=
  negb (str_eqb (py_slice text n (n + 2)) (lit "##")) &&
  negb (str_eqb (py_slice text n (n + 6)) (lit "#check")) &&
  negb (str_eqb (py_slice text n (n + 7)) (lit "#bullet")) &&
  negb (str_eqb (py_slice text n (n + 4)) (lit "#tag")).

(** A buffer of characters without a tag. *)
Definition text_only (cs : list cell) : bool :=
  forallb (fun c => match cell_content c, cell_tags c with
                    | Chr _, [] => true
                    | _, _ => false
                    end) cs.

(** [get_text]: the characters of the buffer. *)
Definition text_of (cs : list cell) : str :=
  map (fun c => content_char (cell_content c)) cs.

(** *** The range of an edit *)

(** The bounds of the selection, or the cursor twice when nothing is
    selected: the range [tag_selection] gives to [add_tag]. *)
Definition selection_or_cursor (b : TextBuffer) : nat * nat :=
  if get_has_selection b then get_selection_bounds b
  else (insert_mark b, insert_mark b).

(** The text [abcd] in a new note, with [bc] selected. *)
Definition selected_note : NoteBuffer :=
  select_range 1 3 (final_state (buffer_insert no_url 0 (lit "abcd") new_NoteBuffer)).

(** *** A new line in a list *)

Definition newline : str := [Ch "010"].

(** The offset at which the line of an offset starts:
    [set_line_index(0)]. *)
Definition line_start_of (cs : list cell) (i : nat) : nat :=
  get_iter_at_line cs (get_line cs i).

(** The object [maybe_repeat] puts on the new line. *)
Definition repeated (w : widget) : widget :=
  match w with
  | CheckButton _ => CheckButton false
  | Image => Image
  end.

(** A new note after [toggle_bullets], with [a] typed behind the
    bullet. *)
Definition bullet_a_note : NoteBuffer :=
  final_state (type_text no_url (lit "a") (final_state (toggle_bullets new_NoteBuffer))).

(** *** Ranges of a deletion *)

(** A tag of the table starts or ends at an offset. *)
Definition table_toggle (cs : list cell) (i : nat) : bool :=
  existsb (fun t => mem t TAG_DEFINITIONS) (get_toggled_tags cs i true) ||
  existsb (fun t => mem t TAG_DEFINITIONS) (get_toggled_tags cs i false).

(** No cell from [s] up to [e] is a child anchor. *)
Definition no_anchor_in (cs : list cell) (s e : nat) : bool :=
  forallb (fun i => negb (has_anchor cs i)) (seq s (e - s)).

(** Nor does a tag of the table start or end at one of these offsets. *)
Definition quiet_range (cs : list cell) (s e : nat) : bool :=
  forallb (fun i => negb (has_anchor cs i) && negb (table_toggle cs i)) (seq s (e - s)).

(** No cell carries a tag. *)
Definition untagged (cs : list cell) : bool :=
  forallb (fun c => match cell_tags c with [] => true | _ :: _ => false end) cs.

(** What [on_delete] has noted: the tags it holds open and the actions
    it has listed. *)
Definition noted (ls : delete_scan) : nat :=
  (List.length (open_tags ls) + List.length (actions ls))%nat.

(** The text [abcd] inserted into a new note; the cursor is behind it. *)
Definition abcd_note : NoteBuffer :=
  final_state (buffer_insert no_url 0 (lit "abcd") new_NoteBuffer).

(** *** Lines *)

(** A cell that ends no line. *)
Definition no_line_end (c : cell) : bool := negb (is_char "010" c) && negb (is_char "013" c).

(** What [ObjectInsertAction.remove] stores of the object it removes. *)
Definition checked_of (w : widget) : option bool :=
  match w with
  | CheckButton active => Some active
  | Image => None
  end.

(** The state a toggle at rest leaves: the buffer as changed, one
    composite more on the undo stack, the redo stack empty and one idle
    call-back pending. *)
Definition after_toggle (a : Action) (b' : TextBuffer) (st : NoteBuffer) : NoteBuffer :=
  idle_add (set_redo_actions []
              (set_undo_actions (undo_actions st ++ [CompositeAction [a]])
                 (set_buffer b' st))).

(** A URL matcher that matches every text at its start, for runs on
    concrete inputs. *)
Definition url_at_start : str -> option Z := fun _ => Some 0.

(** The note [abcd] with the cursor behind [b]. *)
Definition abcd_cursor_note : NoteBuffer := place_cursor 2 abcd_note.

(** *** Histories of insertions *)

(** Texts put in one after the other, each at an offset and each inside
    a user action of its own, as key presses and pastes are; [None] as
    soon as one raises. *)
Fixpoint insert_all (g : str -> option Z) (ops : list (nat * str)) (st : NoteBuffer)
  : option NoteBuffer :=
  match ops with
  | [] => Some st
  | (p, text) :: r =>
      match user_action (buffer_insert g p text) st with
      | Done _ s => insert_all g r s
      | Raised _ _ => None
      end
  end.

(** Every insertion names an offset of the buffer as it is then, and no
    text is empty or one of the delimiters of [on_insert]. *)
Fixpoint plain_insertions (n : nat) (ops : list (nat * str)) : bool :=
  match ops with
  | [] => true
  | (p, text) :: r =>
      (p <=? n)%nat && negb (List.length text =? 0)%nat && negb (mem text delimiters)
      && plain_insertions (n + List.length text) r
  end.

(** The cells after the default handler of [insert-text]. *)
Definition insert_cells (cs : list cell) (p : nat) (text : str) : list cell :=
  firstn p cs ++ map (fun c => mkCell c (inherited_tags cs p)) (map Chr text) ++ skipn p cs.

(** The cells a list of additions gives when they are played in order;
    [None] when one of them is empty or names no offset of the cells. *)
Fixpoint replay (cs : list cell) (l : list Action) : option (list cell) :=
  match l with
  | [] => Some cs
  | AdditionAction text position :: r =>
      if (0 <=? position) && (position <=? py_len cs) && negb (List.length text =? 0)%nat
      then replay (insert_cells cs (Z.to_nat position) text) r
      else None
  | _ :: _ => None
  end.

(** ** Python lists *)

Lemma list_pop_app {A : Type} (l : list A) (a : A) : list_pop (l ++ [a]) = Some (l, a).
Proof.
  induction l as [|x l IH]; simpl.
  - reflexivity.
  - rewrite IH. reflexivity.
Qed.

Lemma list_pop_nil_inv {A : Type} (l : list A) : list_pop l = None -> l = [].
Proof.
  destruct l as [|x l]; simpl; [reflexivity|].
  destruct (list_pop l) as [[r y]|]; discriminate.
Qed.

Lemma list_pop_some {A : Type} (l r : list A) (a : A) :
  list_pop l = Some (r, a) -> l = r ++ [a].
Proof.
  revert r a. induction l as [|x l IH]; simpl; intros r a H.
  - discriminate.
  - destruct (list_pop l) as [[r' y]|] eqn:E.
    + inversion H; subst. rewrite (IH r' a eq_refl). reflexivity.
    + inversion H; subst. apply list_pop_nil_inv in E. subst. reflexivity.
Qed.

Lemma py_len_app {A : Type} (l m : list A) : py_len (l ++ m) = py_len l + py_len m.
Proof. unfold py_len. rewrite length_app. lia. Qed.

Lemma py_len_nonneg {A : Type} (l : list A) : 0 <= py_len l.
Proof. unfold py_len. lia. Qed.

Lemma py_len_zero {A : Type} (l : list A) : (py_len l =? 0) = true <-> l = [].
Proof.
  unfold py_len. destruct l; simpl; split; intro H; try reflexivity; try discriminate.
Qed.

Lemma deletion_type_eqb_eq (x y : deletion_type) : deletion_type_eqb x y = true <-> x = y.
Proof. destruct x, y; simpl; split; intro H; congruence. Qed.

(** ** AdditionAction.maybe_join and DeletionAction.maybe_join *)

Lemma addition_maybe_join (atext btext : str) (apos bpos : Z) :
  maybe_join (AdditionAction atext apos) (AdditionAction btext bpos) =
  if bpos =? apos + py_len atext
  then Some (AdditionAction (atext ++ btext) apos) else None.
Proof. reflexivity. Qed.

(** C3.  Two deletions join only when they have the same class.  With
    class foreward they join iff the new position is the position of the
    receiver, and the new text is appended; with class backward they join
    iff the new position is one less, the new text is prepended and its
    position adopted; with class selection or other they never join. *)
Theorem deletion_maybe_join (atext btext : str) (apos bpos : Z) (aty bty : deletion_type) :
  let a := DeletionAction atext apos aty in
  let b := DeletionAction btext bpos bty in
  (forall a', maybe_join a b = Some a' -> bty = aty) /\
  (aty = foreward -> bty = foreward ->
   (maybe_join a b <> None <-> bpos = apos) /\
   (bpos = apos ->
    maybe_join a b = Some (DeletionAction (atext ++ btext) apos foreward))) /\
  (aty = backward -> bty = backward ->
   (maybe_join a b <> None <-> bpos = apos - 1) /\
   (bpos = apos - 1 ->
    maybe_join a b = Some (DeletionAction (btext ++ atext) bpos backward))) /\
  (aty = selection \/ aty = other -> maybe_join a b = None).
Proof.
  cbv zeta. split; [|split; [|split]].
  - intros a' H. simpl in H.
    destruct (deletion_type_eqb bty aty) eqn:E; [|discriminate].
    apply deletion_type_eqb_eq in E. exact E.
  - intros -> ->. simpl. split; [split|].
    + intro H. destruct (bpos =? apos) eqn:E; [lia|]. congruence.
    + intros ->. rewrite Z.eqb_refl. discriminate.
    + intros ->. rewrite Z.eqb_refl. reflexivity.
  - intros -> ->. simpl. split; [split|].
    + intro H. destruct (bpos =? apos - 1) eqn:E; [lia|]. congruence.
    + intros ->. rewrite Z.eqb_refl. discriminate.
    + intros ->. rewrite Z.eqb_refl. reflexivity.
  - intros [-> | ->]; simpl; destruct bty; reflexivity.
Qed.

(** The two joins of C3 on concrete deletions, and a selection that does
    not join. *)
Example deletion_maybe_join_examples :
  maybe_join (DeletionAction (lit "b") 3 foreward) (DeletionAction (lit "c") 3 foreward)
    = Some (DeletionAction (lit "bc") 3 foreward) /\
  maybe_join (DeletionAction (lit "b") 3 backward) (DeletionAction (lit "a") 2 backward)
    = Some (DeletionAction (lit "ab") 2 backward) /\
  maybe_join (DeletionAction (lit "b") 3 selection) (DeletionAction (lit "c") 3 selection)
    = None.
Proof. repeat split. Qed.

(** ** Induction on actions, through the children of a composite *)

Lemma Action_ind_nested (P : Action -> Prop) :
  (forall text position, P (AdditionAction text position)) ->
  (forall text position dtype, P (DeletionAction text position dtype)) ->
  (forall is_addition atype position checked,
      P (ObjectInsertAction is_addition atype position checked)) ->
  (forall name tstart tend is_addition, P (TagAction name tstart tend is_addition)) ->
  (forall l, Forall P l -> P (CompositeAction l)) ->
  forall a, P a.
Proof.
  intros HA HD HO HT HC.
  refine (fix IH (a : Action) : P a :=
            match a with
            | AdditionAction t p => HA t p
            | DeletionAction t p d => HD t p d
            | ObjectInsertAction i ty p c => HO i ty p c
            | TagAction n s e i => HT n s e i
            | CompositeAction l =>
                HC l ((fix go (l : list Action) : Forall P l :=
                         match l with
                         | [] => Forall_nil P
                         | x :: r => Forall_cons x (IH x) (go r)
                         end) l)
            end).
Qed.

(** ** The guard of the two handlers *)

Section Guard.

Variable get_url_start : str -> option Z.

Lemma on_insert_guard (location : nat) (text : str) (st : NoteBuffer) :
  internal_action_count st <> 0 ->
  on_insert get_url_start location text st = Done tt st.
Proof.
  intro H. unfold on_insert.
  destruct (internal_action_count st =? 0) eqn:E; [lia|]. reflexivity.
Qed.

Lemma on_delete_guard (depth s e : nat) (st : NoteBuffer) :
  internal_action_count st <> 0 ->
  on_delete depth s e st = Done (s, e) st.
Proof.
  intro H. destruct depth; simpl; [reflexivity|].
  destruct (internal_action_count st =? 0) eqn:E; [lia|]. reflexivity.
Qed.

Lemma only_buffer_refl (s : NoteBuffer) : only_buffer s s.
Proof. destruct s; reflexivity. Qed.

Lemma only_buffer_set (b : TextBuffer) (s : NoteBuffer) : only_buffer s (set_buffer b s).
Proof. destruct s; reflexivity. Qed.

Lemma only_buffer_trans (s1 s2 s3 : NoteBuffer) :
  only_buffer s1 s2 -> only_buffer s2 s3 -> only_buffer s1 s3.
Proof.
  unfold only_buffer. intros H12 H23. rewrite H23. rewrite H12.
  destruct s1; reflexivity.
Qed.

Lemma only_buffer_count (s s' : NoteBuffer) :
  only_buffer s s' -> internal_action_count s' = internal_action_count s.
Proof. unfold only_buffer. intros ->. reflexivity. Qed.

Lemma only_buffer_same_record (s s' : NoteBuffer) :
  only_buffer s s' -> same_record s s' /\ idle_callbacks s' = idle_callbacks s.
Proof. unfold only_buffer, same_record. intros ->. simpl. repeat split. Qed.

(** Inside a guarded block an insertion is the default handler alone. *)
Lemma buffer_insert_guarded (i : nat) (text : str) (st : NoteBuffer) :
  internal_action_count st <> 0 ->
  buffer_insert get_url_start i text st =
  Done tt (match text with
           | [] => st
           | _ :: _ => set_buffer (raw_insert (buffer st) i text) st
           end).
Proof.
  intro H. unfold buffer_insert. destruct text as [|c r]; [reflexivity|].
  unfold bind, run_handler. rewrite on_insert_guard by exact H. reflexivity.
Qed.

(** Inside a guarded block a deletion is the default handler alone. *)
Lemma buffer_delete_with_guarded (depth s e : nat) (st : NoteBuffer) :
  internal_action_count st <> 0 ->
  buffer_delete_with (on_delete depth) s e st =
  Done tt (if (Nat.min s e =? Nat.max s e)%nat then st
           else set_buffer (raw_delete (buffer st) (Nat.min s e) (Nat.max s e)) st).
Proof.
  intro H. unfold buffer_delete_with.
  destruct (Nat.min s e =? Nat.max s e)%nat; [reflexivity|].
  unfold bind, run_handler. rewrite on_delete_guard by exact H. reflexivity.
Qed.

Lemma buffer_delete_guarded (s e : nat) (st : NoteBuffer) :
  internal_action_count st <> 0 ->
  buffer_delete s e st =
  Done tt (if (Nat.min s e =? Nat.max s e)%nat then st
           else set_buffer (raw_delete (buffer st) (Nat.min s e) (Nat.max s e)) st).
Proof. apply buffer_delete_with_guarded. Qed.

Lemma exit_enter (t : bool) (b : TextBuffer) (s : NoteBuffer) :
  internal_action_count s <> 0 ->
  exit_internal_action t (set_buffer b (enter_internal_action s)) = set_buffer b s.
Proof.
  intro H. destruct s as [b0 c ic ca ua ra pr idl cc]. simpl in H.
  unfold exit_internal_action, enter_internal_action, set_buffer,
    set_internal_action_count; simpl.
  replace (c + 1 - 1) with c by lia.
  destruct (c =? 0) eqn:E; [lia|]. reflexivity.
Qed.

Lemma add_check_button_guarded (i : nat) (c : bool) (st : NoteBuffer) :
  internal_action_count st <> 0 ->
  add_check_button i c st =
  Done (ObjectInsertAction true check (Z.of_nat i) None)
       (set_buffer (raw_insert_anchor (buffer st) i (CheckButton c)) st).
Proof.
  intro H. unfold add_check_button, with_internal_action.
  f_equal. apply (exit_enter true _ st H).
Qed.

Lemma add_bullet_guarded (i : nat) (st : NoteBuffer) :
  internal_action_count st <> 0 ->
  add_bullet i st =
  Done (ObjectInsertAction true bullet (Z.of_nat i) None)
       (set_buffer (raw_insert_anchor (buffer st) i Image) st).
Proof.
  intro H. unfold add_bullet, with_internal_action.
  f_equal. apply (exit_enter true _ st H).
Qed.

End Guard.

(** ** Replay changes the text buffer only *)

Section Replay.

Variable get_url_start : str -> option Z.

Lemma replays_ret {A : Type} (a : A) : replays (ret a).
Proof. intros s _. apply only_buffer_refl. Qed.

Lemma replays_raise {A : Type} (e : exn) : replays (@raise A e).
Proof. intros s _. apply only_buffer_refl. Qed.

Lemma replays_bind {A B : Type} (m : M A) (k : A -> M B) :
  replays m -> (forall a, replays (k a)) -> replays (bind m k).
Proof.
  intros Hm Hk s Hs. unfold bind.
  specialize (Hm s Hs). destruct (m s) as [a s'|e s']; simpl in Hm.
  - eapply only_buffer_trans; [exact Hm|].
    apply Hk. rewrite (only_buffer_count _ _ Hm). exact Hs.
  - exact Hm.
Qed.

Lemma replays_buffer_insert (i : nat) (text : str) :
  replays (buffer_insert get_url_start i text).
Proof.
  intros s Hs. rewrite buffer_insert_guarded by exact Hs.
  destruct text; simpl; [apply only_buffer_refl | apply only_buffer_set].
Qed.

Lemma replays_buffer_delete_with (depth s e : nat) :
  replays (buffer_delete_with (on_delete depth) s e).
Proof.
  intros st Hs. rewrite buffer_delete_with_guarded by exact Hs.
  destruct (Nat.min s e =? Nat.max s e)%nat; simpl;
    [apply only_buffer_refl | apply only_buffer_set].
Qed.

Lemma replays_buffer_delete (s e : nat) : replays (buffer_delete s e).
Proof. apply replays_buffer_delete_with. Qed.

Lemma replays_add_check_button (i : nat) (c : bool) : replays (add_check_button i c).
Proof.
  intros s Hs. rewrite add_check_button_guarded by exact Hs. apply only_buffer_set.
Qed.

Lemma replays_add_bullet (i : nat) : replays (add_bullet i).
Proof.
  intros s Hs. rewrite add_bullet_guarded by exact Hs. apply only_buffer_set.
Qed.

Lemma replays_object_remove_with (depth : nat) (atype : anchor_type) (position : Z)
    (checked : option bool) :
  replays (object_remove_with (on_delete depth) atype position checked).
Proof.
  intros s Hs. unfold object_remove_with.
  destruct atype.
  - destruct (get_child_anchor (cells (buffer s)) (get_iter_at_offset (buffer s) position))
      as [[active|]|]; try apply only_buffer_refl.
    apply (replays_bind _ _ (replays_buffer_delete_with depth _ _)
             (fun _ => replays_ret _) s Hs).
  - apply (replays_bind _ _ (replays_buffer_delete_with depth _ _)
             (fun _ => replays_ret _) s Hs).
Qed.

Lemma replays_object_remove (atype : anchor_type) (position : Z) (checked : option bool) :
  replays (object_remove atype position checked).
Proof. apply replays_object_remove_with. Qed.

Lemma replays_object_add (atype : anchor_type) (position : Z) (checked : option bool) :
  replays (object_add atype position checked).
Proof.
  intros s Hs. unfold object_add. destruct atype.
  - destruct checked as [c|]; [|apply only_buffer_refl].
    apply (replays_bind _ _ (replays_add_check_button _ c) (fun _ => replays_ret _) s Hs).
  - apply (replays_bind _ _ (replays_add_bullet _) (fun _ => replays_ret _) s Hs).
Qed.

Lemma replays_tag_remove (name : tag) (tstart tend : Z) : replays (tag_remove name tstart tend).
Proof. intros s _. apply only_buffer_set. Qed.

Lemma replays_tag_add (name : tag) (tstart tend : Z) : replays (tag_add name tstart tend).
Proof. intros s _. apply only_buffer_set. Qed.

Lemma replays_each_reversed (f : Action -> M Action) (l : list Action) :
  Forall (fun a => replays (f a)) l -> replays (each_reversed f l).
Proof.
  induction 1 as [|x r Hx Hr IH]; simpl.
  - apply replays_ret.
  - apply replays_bind; [exact IH|]. intro r'.
    apply replays_bind; [exact Hx|]. intro x'. apply replays_ret.
Qed.

Lemma replays_each_in_order (f : Action -> M Action) (l : list Action) :
  Forall (fun a => replays (f a)) l -> replays (each_in_order f l).
Proof.
  induction 1 as [|x r Hx Hr IH]; simpl.
  - apply replays_ret.
  - apply replays_bind; [exact Hx|]. intro x'.
    apply replays_bind; [exact IH|]. intro r'. apply replays_ret.
Qed.

(** Undoing an action inside a guarded block changes the text buffer
    only: nothing is recorded, printed or emitted. *)
Lemma replays_action_undo (a : Action) : replays (action_undo get_url_start a).
Proof.
  induction a as [text position|text position dtype|is_addition atype position checked
                  |name tstart tend is_addition|l IH] using Action_ind_nested; simpl.
  - intros s Hs. cbv beta.
    apply (replays_bind _ _ (replays_buffer_delete _ _) (fun _ => replays_ret _) s Hs).
  - intros s Hs. cbv beta.
    apply (replays_bind _ _ (replays_buffer_insert _ _) (fun _ => replays_ret _) s Hs).
  - destruct is_addition.
    + apply replays_bind; [apply replays_object_remove | intro; apply replays_ret].
    + apply replays_bind; [apply replays_object_add | intro; apply replays_ret].
  - apply replays_bind; [|intro; apply replays_ret].
    destruct is_addition; [apply replays_tag_remove | apply replays_tag_add].
  - apply replays_bind; [|intro; apply replays_ret].
    apply replays_each_reversed. exact IH.
Qed.

(** Redoing an action inside a guarded block changes the text buffer
    only. *)
Lemma replays_action_redo (a : Action) : replays (action_redo get_url_start a).
Proof.
  induction a as [text position|text position dtype|is_addition atype position checked
                  |name tstart tend is_addition|l IH] using Action_ind_nested; simpl.
  - intros s Hs. cbv beta.
    apply (replays_bind _ _ (replays_buffer_insert _ _) (fun _ => replays_ret _) s Hs).
  - intros s Hs. cbv beta.
    apply (replays_bind _ _ (replays_buffer_delete _ _) (fun _ => replays_ret _) s Hs).
  - destruct is_addition.
    + apply replays_bind; [apply replays_object_add | intro; apply replays_ret].
    + apply replays_bind; [apply replays_object_remove | intro; apply replays_ret].
  - apply replays_bind; [|intro; apply replays_ret].
    destruct is_addition; [apply replays_tag_add | apply replays_tag_remove].
  - apply replays_bind; [|intro; apply replays_ret].
    apply replays_each_in_order. exact IH.
Qed.

End Replay.

(** ** Equality tests *)

Lemma char_eqb_eq (x y : char) : char_eqb x y = true <-> x = y.
Proof.
  destruct x as [a|], y as [b|]; simpl; split; intro H;
    try reflexivity; try discriminate.
  - apply Ascii.eqb_eq in H. congruence.
  - inversion H. apply Ascii.eqb_refl.
Qed.

Lemma str_eqb_eq (s t : str) : str_eqb s t = true <-> s = t.
Proof.
  revert t. induction s as [|x s IH]; intros [|y t]; simpl; split; intro H;
    try reflexivity; try discriminate.
  - apply andb_true_iff in H. destruct H as [H1 H2].
    apply char_eqb_eq in H1. apply IH in H2. congruence.
  - inversion H; subst. apply andb_true_iff. split.
    + apply char_eqb_eq. reflexivity.
    + apply IH. reflexivity.
Qed.

Lemma str_eqb_refl (s : str) : str_eqb s s = true.
Proof. apply str_eqb_eq. reflexivity. Qed.

Lemma str_eqb_sym (s t : str) : str_eqb s t = str_eqb t s.
Proof.
  destruct (str_eqb s t) eqn:E1, (str_eqb t s) eqn:E2; try reflexivity.
  - apply str_eqb_eq in E1. subst. rewrite str_eqb_refl in E2. discriminate.
  - apply str_eqb_eq in E2. subst. rewrite str_eqb_refl in E1. discriminate.
Qed.

(** ** What the guarded block leaves of a state *)

Lemma exit_buffer (t : bool) (s : NoteBuffer) :
  buffer (exit_internal_action t s) = buffer s.
Proof. unfold exit_internal_action. destruct (_ && t); reflexivity. Qed.

Lemma exit_count (t : bool) (s : NoteBuffer) :
  internal_action_count (exit_internal_action t s) = internal_action_count s - 1.
Proof. unfold exit_internal_action. destruct (_ && t); reflexivity. Qed.

Lemma exit_in_composite (t : bool) (s : NoteBuffer) :
  in_composite (exit_internal_action t s) = in_composite s.
Proof. unfold exit_internal_action. destruct (_ && t); reflexivity. Qed.

Lemma exit_composite_actions (t : bool) (s : NoteBuffer) :
  composite_actions (exit_internal_action t s) = composite_actions s.
Proof. unfold exit_internal_action. destruct (_ && t); reflexivity. Qed.

Lemma exit_undo_actions (t : bool) (s : NoteBuffer) :
  undo_actions (exit_internal_action t s) = undo_actions s.
Proof. unfold exit_internal_action. destruct (_ && t); reflexivity. Qed.

Lemma exit_redo_actions (t : bool) (s : NoteBuffer) :
  redo_actions (exit_internal_action t s) = redo_actions s.
Proof. unfold exit_internal_action. destruct (_ && t); reflexivity. Qed.


Lemma exit_content_changed (t : bool) (s : NoteBuffer) :
  content_changed (exit_internal_action t s) = content_changed s.
Proof. unfold exit_internal_action. destruct (_ && t); reflexivity. Qed.

Lemma trigger_changed_buffer (s : NoteBuffer) : buffer (trigger_changed s) = buffer s.
Proof. unfold trigger_changed. destruct (_ =? 0); reflexivity. Qed.

Lemma trigger_changed_count (s : NoteBuffer) :
  internal_action_count (trigger_changed s) = internal_action_count s.
Proof. unfold trigger_changed. destruct (_ =? 0); reflexivity. Qed.

Lemma trigger_changed_in_composite (s : NoteBuffer) :
  in_composite (trigger_changed s) = in_composite s.
Proof. unfold trigger_changed. destruct (_ =? 0); reflexivity. Qed.

Lemma trigger_changed_undo_actions (s : NoteBuffer) :
  undo_actions (trigger_changed s) = undo_actions s.
Proof. unfold trigger_changed. destruct (_ =? 0); reflexivity. Qed.

Lemma trigger_changed_redo_actions (s : NoteBuffer) :
  redo_actions (trigger_changed s) = redo_actions s.
Proof. unfold trigger_changed. destruct (_ =? 0); reflexivity. Qed.

(** ** add_undo_action, join_or_add and end_composite_action *)

Lemma add_undo_action_at_rest (a : Action) (st : NoteBuffer) :
  in_composite st = 0 ->
  add_undo_action a st = set_redo_actions [] (set_undo_actions (undo_actions st ++ [a]) st).
Proof. intro H. unfold add_undo_action. rewrite H. reflexivity. Qed.

Lemma add_undo_action_in_composite (a : Action) (st : NoteBuffer) :
  in_composite st <> 0 ->
  add_undo_action a st = set_composite_actions (composite_actions st ++ [a]) st.
Proof.
  intro H. unfold add_undo_action.
  destruct (in_composite st =? 0) eqn:E; [lia|]. reflexivity.
Qed.

Lemma join_or_add_joined (a : Action) (st : NoteBuffer) (rest : list Action)
    (top top' : Action) :
  undo_actions st = rest ++ [top] ->
  maybe_join top a = Some top' ->
  join_or_add a st = set_undo_actions (rest ++ [top']) st.
Proof.
  intros Hu Hj. unfold join_or_add. rewrite Hu, list_pop_app, Hj. reflexivity.
Qed.

Lemma join_or_add_added (a : Action) (st : NoteBuffer) :
  (forall rest top, undo_actions st = rest ++ [top] -> maybe_join top a = None) ->
  join_or_add a st = add_undo_action a st.
Proof.
  intro H. unfold join_or_add.
  destruct (list_pop (undo_actions st)) as [[rest top]|] eqn:E; [|reflexivity].
  apply list_pop_some in E. rewrite (H rest top E). reflexivity.
Qed.

(** ** on_insert *)

Section OnInsert.

Variable get_url_start : str -> option Z.

Lemma not_delimiter_not_newline (text : str) :
  mem text delimiters = false -> str_eqb text [Ch "010"] = false.
Proof.
  intro H. unfold delimiters in H. simpl mem in H.
  apply orb_false_iff in H. destruct H as [H _].
  rewrite str_eqb_sym. exact H.
Qed.

(** An insertion of a text that is no delimiter: the addition joins the
    top of the undo stack or is added. *)
Lemma on_insert_plain (location : nat) (text : str) (st : NoteBuffer) :
  internal_action_count st = 0 ->
  mem text delimiters = false ->
  on_insert get_url_start location text st =
  Done tt (exit_internal_action true
             (join_or_add (AdditionAction text (Z.of_nat location))
                          (enter_internal_action st))).
Proof.
  intros Hc Hd. unfold on_insert. rewrite Hc. simpl negb. cbv iota.
  unfold with_internal_action, bind.
  rewrite Hd, (not_delimiter_not_newline _ Hd). reflexivity.
Qed.

Lemma maybe_repeat_cases (location : nat) (a : Action) (s : NoteBuffer) :
  in_composite s = 0 ->
  maybe_repeat location a s = Done false s \/
  exists s', maybe_repeat location a s = Done true s' /\
             redo_actions s' = [] /\ in_composite s' = 0.
Proof.
  intro Hi. unfold maybe_repeat.
  destruct (get_child_anchor (cells (buffer s))
              (get_iter_at_line (cells (buffer s)) (get_line (cells (buffer s)) location)))
    as [w|]; [right|left; reflexivity].
  destruct w as [active|]; unfold bind, add_check_button, add_bullet,
    with_internal_action, modify, ret.
  - eexists. split; [reflexivity|].
    rewrite add_undo_action_at_rest by (rewrite exit_in_composite; exact Hi).
    split; [reflexivity|]. simpl. rewrite exit_in_composite. exact Hi.
  - eexists. split; [reflexivity|].
    rewrite add_undo_action_at_rest by (rewrite exit_in_composite; exact Hi).
    split; [reflexivity|]. simpl. rewrite exit_in_composite. exact Hi.
Qed.

Lemma join_or_add_cases (a : Action) (s : NoteBuffer) :
  in_composite s = 0 ->
  in_composite (join_or_add a s) = 0 /\
  (redo_actions (join_or_add a s) = [] \/
   exists rest top top',
     undo_actions s = rest ++ [top] /\ maybe_join top a = Some top' /\
     undo_actions (join_or_add a s) = rest ++ [top'] /\
     redo_actions (join_or_add a s) = redo_actions s).
Proof.
  intro Hi. unfold join_or_add.
  destruct (list_pop (undo_actions s)) as [[rest top]|] eqn:E.
  - apply list_pop_some in E.
    destruct (maybe_join top a) as [top'|] eqn:J.
    + split; [exact Hi|]. right. exists rest, top, top'. repeat split; assumption.
    + rewrite add_undo_action_at_rest by exact Hi. split; [exact Hi|]. left. reflexivity.
  - rewrite add_undo_action_at_rest by exact Hi. split; [exact Hi|]. left. reflexivity.
Qed.

(** The end of [on_insert], from the test for a new line on. *)
Lemma on_insert_tail_cases (location : nat) (text : str) (s : NoteBuffer) :
  in_composite s = 0 ->
  exists s',
    bind (if str_eqb text [Ch "010"]
          then maybe_repeat location (AdditionAction text (Z.of_nat location))
          else ret false)
         (fun compound : bool =>
            if compound then ret tt
            else modify (join_or_add (AdditionAction text (Z.of_nat location)))) s
    = Done tt s' /\
    (redo_actions s' = [] \/
     exists rest top top',
       undo_actions s = rest ++ [top] /\
       maybe_join top (AdditionAction text (Z.of_nat location)) = Some top' /\
       undo_actions s' = rest ++ [top'] /\
       redo_actions s' = redo_actions s).
Proof.
  intro Hi. unfold bind.
  assert (Hj : exists s',
             modify (join_or_add (AdditionAction text (Z.of_nat location))) s = Done tt s' /\
             (redo_actions s' = [] \/
              exists rest top top',
                undo_actions s = rest ++ [top] /\
                maybe_join top (AdditionAction text (Z.of_nat location)) = Some top' /\
                undo_actions s' = rest ++ [top'] /\
                redo_actions s' = redo_actions s)).
  { eexists. split; [reflexivity|]. apply join_or_add_cases. exact Hi. }
  destruct (str_eqb text [Ch "010"]).
  - destruct (maybe_repeat_cases location (AdditionAction text (Z.of_nat location)) s Hi)
      as [E|[s' [E [Hr _]]]]; rewrite E.
    + exact Hj.
    + exists s'. split; [reflexivity|]. left. exact Hr.
  - exact Hj.
Qed.

(** After [on_insert] outside a user action either the redo stack is
    empty or the addition has joined the top of the undo stack and the
    redo stack is as it was. *)
Lemma on_insert_redo_cases (location : nat) (text : str) (st : NoteBuffer) :
  internal_action_count st = 0 ->
  in_composite st = 0 ->
  exists st',
    on_insert get_url_start location text st = Done tt st' /\
    (redo_actions st' = [] \/
     exists rest top top',
       undo_actions st = rest ++ [top] /\
       maybe_join top (AdditionAction text (Z.of_nat location)) = Some top' /\
       undo_actions st' = rest ++ [top'] /\
       redo_actions st' = redo_actions st).
Proof.
  intros Hc Hi. unfold on_insert. rewrite Hc. simpl negb. cbv iota.
  unfold with_internal_action. unfold bind at 1.
  set (s1 := enter_internal_action st).
  assert (Hi1 : in_composite s1 = 0) by exact Hi.
  destruct (mem text delimiters);
    [destruct (get_url_start (get_slice (buffer s1) 0 location)) as [m|]|].
  - (* a link is tagged and recorded: the redo stack is cleared *)
    unfold bind at 1, add_tag. unfold modify at 1.
    set (s2 := add_undo_action _ _).
    assert (Hi2 : in_composite s2 = 0).
    { unfold s2. rewrite add_undo_action_at_rest;
        simpl; rewrite trigger_changed_in_composite; exact Hi1. }
    assert (Hr2 : redo_actions s2 = []).
    { unfold s2. rewrite add_undo_action_at_rest; [reflexivity|].
      rewrite trigger_changed_in_composite. exact Hi1. }
    destruct (on_insert_tail_cases location text s2 Hi2) as [s' [E H]].
    rewrite E. eexists. split; [reflexivity|]. left.
    rewrite exit_redo_actions.
    destruct H as [H|[rest [top [top' [_ [_ [_ H]]]]]]]; congruence.
  - destruct (on_insert_tail_cases location text s1 Hi1) as [s' [E H]].
    rewrite E. eexists. split; [reflexivity|].
    rewrite exit_redo_actions, exit_undo_actions. exact H.
  - destruct (on_insert_tail_cases location text s1 Hi1) as [s' [E H]].
    rewrite E. eexists. split; [reflexivity|].
    rewrite exit_redo_actions, exit_undo_actions. exact H.
Qed.

(** C4.  A new action that is neither joined to the top of the undo
    stack nor kept by an open composite empties the redo stack: so does
    [add_undo_action] outside a composite, the push of [on_insert] and
    [on_delete] when the top does not join, an insertion as a whole, and
    the end of a composite that has recorded actions.  The undo stack
    gains the new action and nothing of the old redo stack. *)
Theorem new_action_clears_redo :
  (forall st a,
      in_composite st = 0 ->
      undo_actions (add_undo_action a st) = undo_actions st ++ [a] /\
      redo_actions (add_undo_action a st) = []) /\
  (forall st a,
      in_composite st = 0 ->
      (forall rest top, undo_actions st = rest ++ [top] -> maybe_join top a = None) ->
      undo_actions (join_or_add a st) = undo_actions st ++ [a] /\
      redo_actions (join_or_add a st) = []) /\
  (forall st location text,
      internal_action_count st = 0 ->
      in_composite st = 0 ->
      (forall rest top, undo_actions st = rest ++ [top] ->
                        maybe_join top (AdditionAction text (Z.of_nat location)) = None) ->
      redo_actions (final_state (on_insert get_url_start location text st)) = []) /\
  (forall st,
      in_composite st = 1 ->
      composite_actions st <> [] ->
      redo_actions (end_composite_action st) = []).
Proof.
  split; [|split; [|split]].
  - intros st a Hi. rewrite add_undo_action_at_rest by exact Hi. split; reflexivity.
  - intros st a Hi Hn. rewrite join_or_add_added by exact Hn.
    rewrite add_undo_action_at_rest by exact Hi. split; reflexivity.
  - intros st location text Hc Hi Hn.
    destruct (on_insert_redo_cases location text st Hc Hi) as [st' [E H]].
    rewrite E. simpl.
    destruct H as [H|[rest [top [top' [Hu [Hj _]]]]]]; [exact H|].
    rewrite (Hn rest top Hu) in Hj. discriminate.
  - intros st Hi Hne. unfold end_composite_action.
    assert (H0 : in_composite (set_in_composite (in_composite st - 1) st) = 0)
      by (simpl; lia).
    rewrite H0. simpl negb. simpl orb.
    destruct (composite_actions st) as [|a l] eqn:E; [congruence|].
    simpl composite_actions. rewrite E.
    replace (py_len (a :: l) =? 0) with false by reflexivity. cbv iota.
    destruct l as [|b l]; simpl; rewrite add_undo_action_at_rest by exact H0; reflexivity.
Qed.

End OnInsert.

(** ** undo and redo *)

Section UndoRedo.

Variable get_url_start : str -> option Z.



Lemma py_len_snoc_nonzero {A : Type} (l : list A) (a : A) : (py_len (l ++ [a]) =? 0) = false.
Proof. apply Z.eqb_neq. rewrite py_len_app. unfold py_len. simpl. lia. Qed.

(** [undo] on a stack that is not empty, when the action's [undo]
    returns. *)
Lemma undo_pops (st : NoteBuffer) (rest : list Action) (a a' : Action) (s' : NoteBuffer) :
  0 <= internal_action_count st ->
  undo_actions st = rest ++ [a] ->
  action_undo get_url_start a (set_undo_actions rest (enter_internal_action st))
    = Done a' s' ->
  undo get_url_start st
    = Done tt (exit_internal_action true (set_redo_actions (redo_actions st ++ [a']) s')) /\
  only_buffer (set_undo_actions rest (enter_internal_action st)) s'.
Proof.
  intros Hc Hu Ha.
  assert (Hb : only_buffer (set_undo_actions rest (enter_internal_action st)) s').
  { pose proof (replays_action_undo get_url_start a
                  (set_undo_actions rest (enter_internal_action st))) as R.
    rewrite Ha in R. apply R. simpl. lia. }
  split; [|exact Hb].
  unfold undo. rewrite Hu, py_len_snoc_nonzero.
  unfold with_internal_action. simpl undo_actions. rewrite Hu, list_pop_app.
  unfold bind. rewrite Ha. unfold modify. do 3 f_equal.
  rewrite Hb. reflexivity.
Qed.

(** [undo] on a stack that is not empty, when the action's [undo]
    raises: the action is popped and lost. *)
Lemma undo_raises (st : NoteBuffer) (rest : list Action) (a : Action) (e : exn)
    (s' : NoteBuffer) :
  undo_actions st = rest ++ [a] ->
  action_undo get_url_start a (set_undo_actions rest (enter_internal_action st))
    = Raised e s' ->
  undo get_url_start st = Raised e (exit_internal_action true s').
Proof.
  intros Hu Ha. unfold undo. rewrite Hu, py_len_snoc_nonzero.
  unfold with_internal_action. simpl undo_actions. rewrite Hu, list_pop_app.
  unfold bind. rewrite Ha. reflexivity.
Qed.

Lemma redo_pops (st : NoteBuffer) (rest : list Action) (a a' : Action) (s' : NoteBuffer) :
  0 <= internal_action_count st ->
  redo_actions st = rest ++ [a] ->
  action_redo get_url_start a (set_redo_actions rest (enter_internal_action st))
    = Done a' s' ->
  redo get_url_start st
    = Done tt (exit_internal_action true (set_undo_actions (undo_actions st ++ [a']) s')) /\
  only_buffer (set_redo_actions rest (enter_internal_action st)) s'.
Proof.
  intros Hc Hu Ha.
  assert (Hb : only_buffer (set_redo_actions rest (enter_internal_action st)) s').
  { pose proof (replays_action_redo get_url_start a
                  (set_redo_actions rest (enter_internal_action st))) as R.
    rewrite Ha in R. apply R. simpl. lia. }
  split; [|exact Hb].
  unfold redo. rewrite Hu, py_len_snoc_nonzero.
  unfold with_internal_action. simpl redo_actions. rewrite Hu, list_pop_app.
  unfold bind. rewrite Ha. unfold modify. do 3 f_equal.
  rewrite Hb. reflexivity.
Qed.


(** ** Typing *)

Lemma join_or_add_enter (a : Action) (s : NoteBuffer) :
  join_or_add a (enter_internal_action s) = enter_internal_action (join_or_add a s).
Proof.
  unfold join_or_add, enter_internal_action. simpl undo_actions.
  destruct (list_pop (undo_actions s)) as [[rest top]|].
  - destruct (maybe_join top a); [reflexivity|].
    unfold add_undo_action. simpl in_composite. destruct (in_composite s =? 0); reflexivity.
  - unfold add_undo_action. simpl in_composite. destruct (in_composite s =? 0); reflexivity.
Qed.

Lemma join_or_add_buffer (a : Action) (s : NoteBuffer) : buffer (join_or_add a s) = buffer s.
Proof.
  unfold join_or_add, add_undo_action.
  destruct (list_pop (undo_actions s)) as [[rest top]|];
    [destruct (maybe_join top a)|]; try reflexivity;
    destruct (in_composite s =? 0); reflexivity.
Qed.

Lemma join_or_add_count (a : Action) (s : NoteBuffer) :
  internal_action_count (join_or_add a s) = internal_action_count s.
Proof.
  unfold join_or_add, add_undo_action.
  destruct (list_pop (undo_actions s)) as [[rest top]|];
    [destruct (maybe_join top a)|]; try reflexivity;
    destruct (in_composite s =? 0); reflexivity.
Qed.

Lemma join_or_add_in_composite (a : Action) (s : NoteBuffer) :
  in_composite (join_or_add a s) = in_composite s.
Proof.
  unfold join_or_add, add_undo_action.
  destruct (list_pop (undo_actions s)) as [[rest top]|];
    [destruct (maybe_join top a)|]; try reflexivity;
    destruct (in_composite s =? 0); reflexivity.
Qed.

(** [buffer.insert] of a text that is no delimiter, outside a guarded
    block: the addition is recorded, then the text goes in. *)
Lemma insert_plain (i : nat) (text : str) (st : NoteBuffer) :
  internal_action_count st = 0 ->
  text <> [] ->
  mem text delimiters = false ->
  exists st',
    buffer_insert get_url_start i text st = Done tt st' /\
    buffer st' = raw_insert (buffer st) i text /\
    internal_action_count st' = 0 /\
    in_composite st' = in_composite st /\
    composite_actions st'
      = composite_actions (join_or_add (AdditionAction text (Z.of_nat i)) st) /\
    undo_actions st' = undo_actions (join_or_add (AdditionAction text (Z.of_nat i)) st) /\
    redo_actions st' = redo_actions (join_or_add (AdditionAction text (Z.of_nat i)) st).
Proof.
  intros Hc Hn Hd. unfold buffer_insert.
  destruct text as [|c r]; [congruence|].
  unfold bind, run_handler. rewrite on_insert_plain by assumption.
  unfold modify. eexists. split; [reflexivity|].
  rewrite join_or_add_enter. simpl.
  rewrite exit_buffer, exit_count, exit_in_composite, exit_composite_actions,
    exit_undo_actions, exit_redo_actions. simpl.
  rewrite join_or_add_buffer, join_or_add_count, join_or_add_in_composite.
  repeat split. lia.
Qed.

Lemma firstn_insert {A : Type} (l new : list A) (i : nat) :
  (i <= List.length l)%nat ->
  firstn (i + List.length new) (firstn i l ++ new ++ skipn i l) = firstn i l ++ new.
Proof.
  intro H. rewrite app_assoc.
  rewrite firstn_app.
  replace (List.length (firstn i l ++ new)) with (i + List.length new)%nat
    by (rewrite length_app, length_firstn; lia).
  rewrite Nat.sub_diag. simpl. rewrite app_nil_r.
  apply firstn_all2. rewrite length_app, length_firstn. lia.
Qed.

Lemma skipn_insert {A : Type} (l new : list A) (i : nat) :
  (i <= List.length l)%nat ->
  skipn (i + List.length new) (firstn i l ++ new ++ skipn i l) = skipn i l.
Proof.
  intro H. rewrite app_assoc.
  rewrite skipn_app.
  replace (List.length (firstn i l ++ new)) with (i + List.length new)%nat
    by (rewrite length_app, length_firstn; lia).
  rewrite Nat.sub_diag. simpl.
  rewrite skipn_all2; [reflexivity|].
  rewrite length_app, length_firstn. lia.
Qed.

Lemma firstn_firstn_app {A : Type} (l new : list A) (i : nat) :
  (i <= List.length l)%nat ->
  firstn i (firstn i l ++ new) = firstn i l.
Proof.
  intro H. rewrite firstn_app.
  rewrite length_firstn. replace (i - Nat.min i (List.length l))%nat with 0%nat by lia.
  simpl. rewrite app_nil_r. apply firstn_all2. rewrite length_firstn. lia.
Qed.

(** What went in at an offset goes out again. *)
Lemma delete_inserted {A : Type} (l new : list A) (i : nat) :
  (i <= List.length l)%nat ->
  firstn i (firstn i l ++ new ++ skipn i l)
    ++ skipn (i + List.length new) (firstn i l ++ new ++ skipn i l) = l.
Proof.
  intro H. rewrite skipn_insert by exact H.
  rewrite firstn_app, length_firstn.
  replace (i - Nat.min i (List.length l))%nat with 0%nat by lia.
  simpl. rewrite app_nil_r.
  rewrite firstn_all2 by (rewrite length_firstn; lia).
  apply firstn_skipn.
Qed.

Lemma cells_raw_insert (b : TextBuffer) (i : nat) (text : str) :
  cells (raw_insert b i text)
  = firstn i (cells b)
      ++ map (fun c => mkCell c (inherited_tags (cells b) i)) (map Chr text)
      ++ skipn i (cells b).
Proof. reflexivity. Qed.

Lemma get_iter_at_offset_inside (b : TextBuffer) (i : nat) :
  (i <= List.length (cells b))%nat -> get_iter_at_offset b (Z.of_nat i) = i.
Proof.
  intro H. unfold get_iter_at_offset, py_len.
  destruct (Z.of_nat i <? 0) eqn:E1; [lia|].
  destruct (Z.of_nat (List.length (cells b)) <? Z.of_nat i) eqn:E2; [lia|].
  simpl. apply Nat2Z.id.
Qed.

Lemma end_composite_none (s : NoteBuffer) :
  in_composite s = 1 ->
  composite_actions s = [] ->
  end_composite_action s = set_in_composite 0 s.
Proof.
  intros Hi H. unfold end_composite_action. rewrite Hi. simpl. rewrite H. reflexivity.
Qed.

Lemma end_composite_single (s : NoteBuffer) (a : Action) :
  in_composite s = 1 ->
  composite_actions s = [a] ->
  end_composite_action s
  = set_composite_actions []
      (set_redo_actions []
         (set_undo_actions (undo_actions s ++ [a]) (set_in_composite 0 s))).
Proof.
  intros Hi H. unfold end_composite_action. rewrite Hi. simpl. rewrite H. reflexivity.
Qed.

Lemma end_composite_several (s : NoteBuffer) (a b : Action) (l : list Action) :
  in_composite s = 1 ->
  composite_actions s = a :: b :: l ->
  end_composite_action s
  = set_composite_actions []
      (set_redo_actions []
         (set_undo_actions (undo_actions s ++ [CompositeAction (a :: b :: l)])
            (set_in_composite 0 s))).
Proof.
  intros Hi H. unfold end_composite_action. rewrite Hi. simpl. rewrite H. reflexivity.
Qed.

(** A key press whose text is no delimiter, when the top of the undo
    stack does not take the addition: the addition waits in the open
    composite and is pushed, bare, when the user action ends. *)
Lemma type_text_added (text : str) (st : NoteBuffer) :
  internal_action_count st = 0 ->
  in_composite st = 0 ->
  composite_actions st = [] ->
  text <> [] ->
  mem text delimiters = false ->
  (forall rest top,
      undo_actions st = rest ++ [top] ->
      maybe_join top (AdditionAction text (Z.of_nat (insert_mark (buffer st)))) = None) ->
  exists st',
    type_text get_url_start text st = Done tt st' /\
    buffer st' = raw_insert (buffer st) (insert_mark (buffer st)) text /\
    internal_action_count st' = 0 /\
    in_composite st' = 0 /\
    composite_actions st' = [] /\
    undo_actions st'
    = undo_actions st ++ [AdditionAction text (Z.of_nat (insert_mark (buffer st)))] /\
    redo_actions st' = [].
Proof.
  intros Hc Hi Hca Hn Hd Htop. unfold type_text, user_action.
  destruct (insert_plain (insert_mark (buffer st)) text (begin_composite_action st)
              Hc Hn Hd) as [s1 [E [Hb [Hc1 [Hi1 [Hca1 [Hu1 Hr1]]]]]]].
  change (insert_mark (buffer (begin_composite_action st))) with (insert_mark (buffer st)).
  rewrite E.
  rewrite join_or_add_added in Hca1, Hu1, Hr1 by exact Htop.
  rewrite add_undo_action_in_composite in Hca1, Hu1, Hr1 by (simpl; lia).
  simpl in Hb, Hi1, Hca1, Hu1, Hr1. rewrite Hi in Hi1. rewrite Hca in Hca1.
  rewrite (end_composite_single s1 _ Hi1 Hca1).
  eexists. split; [reflexivity|]. simpl. rewrite Hu1. repeat split; assumption.
Qed.

(** A key press whose text is no delimiter, when the addition joins the
    top of the undo stack: the stack keeps its length and the redo stack
    is as it was. *)
Lemma type_text_joined (text : str) (st : NoteBuffer) (rest : list Action)
    (top top' : Action) :
  internal_action_count st = 0 ->
  in_composite st = 0 ->
  composite_actions st = [] ->
  text <> [] ->
  mem text delimiters = false ->
  undo_actions st = rest ++ [top] ->
  maybe_join top (AdditionAction text (Z.of_nat (insert_mark (buffer st)))) = Some top' ->
  exists st',
    type_text get_url_start text st = Done tt st' /\
    buffer st' = raw_insert (buffer st) (insert_mark (buffer st)) text /\
    internal_action_count st' = 0 /\
    in_composite st' = 0 /\
    composite_actions st' = [] /\
    undo_actions st' = rest ++ [top'] /\
    redo_actions st' = redo_actions st.
Proof.
  intros Hc Hi Hca Hn Hd Hu Hj. unfold type_text, user_action.
  destruct (insert_plain (insert_mark (buffer st)) text (begin_composite_action st)
              Hc Hn Hd) as [s1 [E [Hb [Hc1 [Hi1 [Hca1 [Hu1 Hr1]]]]]]].
  change (insert_mark (buffer (begin_composite_action st))) with (insert_mark (buffer st)).
  rewrite E.
  rewrite (join_or_add_joined _ (begin_composite_action st) rest top top' Hu Hj)
    in Hca1, Hu1, Hr1.
  simpl in Hb, Hi1, Hca1, Hu1, Hr1. rewrite Hi in Hi1. rewrite Hca in Hca1.
  rewrite (end_composite_none s1 Hi1 Hca1).
  eexists. split; [reflexivity|]. simpl. repeat split; assumption.
Qed.

Lemma cells_two_inserts (b : TextBuffer) (p : nat) (x y : str) :
  (p <= List.length (cells b))%nat ->
  exists new,
    List.length new = (List.length x + List.length y)%nat /\
    cells (raw_insert (raw_insert b p x) (p + List.length x) y)
    = firstn p (cells b) ++ new ++ skipn p (cells b).
Proof.
  intro H. rewrite (cells_raw_insert (raw_insert b p x)).
  set (Y := map _ (map Chr y)).
  rewrite (cells_raw_insert b).
  set (X := map _ (map Chr x)).
  assert (HX : List.length X = List.length x) by (unfold X; rewrite !length_map; reflexivity).
  assert (HY : List.length Y = List.length y) by (unfold Y; rewrite !length_map; reflexivity).
  rewrite <- HX. rewrite firstn_insert, skipn_insert by exact H.
  exists (X ++ Y). split.
  - rewrite length_app. lia.
  - rewrite <- !app_assoc. reflexivity.
Qed.

Lemma addition_undo_guarded (text : str) (p : nat) (s : NoteBuffer) :
  internal_action_count s <> 0 ->
  text <> [] ->
  (p + List.length text <= List.length (cells (buffer s)))%nat ->
  action_undo get_url_start (AdditionAction text (Z.of_nat p)) s
  = Done (AdditionAction text (Z.of_nat p))
         (set_buffer (raw_delete (buffer s) p (p + List.length text)) s).
Proof.
  intros Hc Hn Hl. simpl action_undo. unfold bind.
  rewrite buffer_delete_guarded by exact Hc.
  rewrite get_iter_at_offset_inside by lia.
  replace (Z.of_nat p + py_len text) with (Z.of_nat (p + List.length text))
    by (unfold py_len; lia).
  rewrite get_iter_at_offset_inside by lia.
  assert (0 < List.length text)%nat by (destruct text; [congruence|simpl; lia]).
  rewrite Nat.min_l, Nat.max_r by lia.
  destruct (p =? p + List.length text)%nat eqn:E; [apply Nat.eqb_eq in E; lia|].
  reflexivity.
Qed.

(** [undo] of the one addition that two insertions in a row have left. *)
Lemma undo_coalesced (st st2 : NoteBuffer) (rest : list Action) (p : nat) (x y : str) :
  (p <= List.length (cells (buffer st)))%nat ->
  x <> [] ->
  buffer st2 = raw_insert (raw_insert (buffer st) p x) (p + List.length x) y ->
  internal_action_count st2 = 0 ->
  undo_actions st2 = rest ++ [AdditionAction (x ++ y) (Z.of_nat p)] ->
  exists st3,
    undo get_url_start st2 = Done tt st3 /\
    cells (buffer st3) = cells (buffer st) /\
    undo_actions st3 = rest.
Proof.
  intros Hp Hx Hb2 Hc2 Hu2.
  destruct (cells_two_inserts (buffer st) p x y Hp) as [new [Hlen Hcells]].
  rewrite <- Hb2 in Hcells.
  assert (Hun : action_undo get_url_start (AdditionAction (x ++ y) (Z.of_nat p))
                  (set_undo_actions rest (enter_internal_action st2))
                = Done (AdditionAction (x ++ y) (Z.of_nat p))
                       (set_buffer (raw_delete (buffer st2) p (p + List.length (x ++ y)))
                          (set_undo_actions rest (enter_internal_action st2)))).
  { rewrite addition_undo_guarded; [reflexivity|..].
    - simpl. lia.
    - destruct x; [congruence|discriminate].
    - simpl. rewrite Hcells, !length_app, length_firstn, length_skipn, Hlen. lia. }
  destruct (undo_pops st2 _ _ _ _ (eq_ind_r (fun z => 0 <= z) (Z.le_refl 0) Hc2) Hu2 Hun)
    as [E3 _].
  eexists. split; [exact E3|]. split.
  - rewrite exit_buffer. simpl. rewrite Hcells, length_app, <- Hlen.
    apply delete_inserted. exact Hp.
  - rewrite exit_undo_actions. reflexivity.
Qed.

Lemma addition_joins_behind (x y : str) (p : nat) :
  maybe_join (AdditionAction x (Z.of_nat p))
             (AdditionAction y (Z.of_nat (p + List.length x)))
  = Some (AdditionAction (x ++ y) (Z.of_nat p)).
Proof.
  rewrite addition_maybe_join.
  replace (Z.of_nat (p + List.length x) =? Z.of_nat p + py_len x) with true;
    [reflexivity|]. symmetry. apply Z.eqb_eq. unfold py_len. lia.
Qed.

Lemma addition_stays_apart (x y : str) (p q : nat) :
  q <> (p + List.length x)%nat ->
  maybe_join (AdditionAction x (Z.of_nat p)) (AdditionAction y (Z.of_nat q)) = None.
Proof.
  intro H. rewrite addition_maybe_join.
  destruct (Z.of_nat q =? Z.of_nat p + py_len x) eqn:E; [|reflexivity].
  apply Z.eqb_eq in E. unfold py_len in E. lia.
Qed.

(** C2.  For two additions, [maybe_join] answers [True] iff the position
    of the new one is the position of the receiver plus the length of
    its text, and the receiver's text is then the two texts in a row.
    So a text inserted and another inserted right behind it leave one
    undo entry, and [undo] brings back the cells the buffer had, whether
    the two go in through [buffer.insert] or as two key presses at the
    cursor; when the second goes in anywhere else, two entries are
    left. *)
Theorem addition_coalescing :
  (forall atext btext apos bpos,
      (maybe_join (AdditionAction atext apos) (AdditionAction btext bpos) <> None
       <-> bpos = apos + py_len atext) /\
      (bpos = apos + py_len atext ->
       maybe_join (AdditionAction atext apos) (AdditionAction btext bpos)
       = Some (AdditionAction (atext ++ btext) apos))) /\
  (forall st p x y,
      internal_action_count st = 0 ->
      in_composite st = 0 ->
      (p <= List.length (cells (buffer st)))%nat ->
      x <> [] -> y <> [] ->
      mem x delimiters = false -> mem y delimiters = false ->
      (forall rest top, undo_actions st = rest ++ [top] ->
                        maybe_join top (AdditionAction x (Z.of_nat p)) = None) ->
      exists st1 st2 st3,
        buffer_insert get_url_start p x st = Done tt st1 /\
        buffer_insert get_url_start (p + List.length x) y st1 = Done tt st2 /\
        undo_actions st2 = undo_actions st ++ [AdditionAction (x ++ y) (Z.of_nat p)] /\
        undo get_url_start st2 = Done tt st3 /\
        cells (buffer st3) = cells (buffer st) /\
        undo_actions st3 = undo_actions st) /\
  (forall st x y,
      internal_action_count st = 0 ->
      in_composite st = 0 ->
      composite_actions st = [] ->
      (insert_mark (buffer st) <= List.length (cells (buffer st)))%nat ->
      x <> [] -> y <> [] ->
      mem x delimiters = false -> mem y delimiters = false ->
      (forall rest top,
          undo_actions st = rest ++ [top] ->
          maybe_join top (AdditionAction x (Z.of_nat (insert_mark (buffer st)))) = None) ->
      exists st1 st2 st3,
        type_text get_url_start x st = Done tt st1 /\
        type_text get_url_start y st1 = Done tt st2 /\
        undo_actions st2
        = undo_actions st ++ [AdditionAction (x ++ y) (Z.of_nat (insert_mark (buffer st)))] /\
        undo get_url_start st2 = Done tt st3 /\
        cells (buffer st3) = cells (buffer st) /\
        undo_actions st3 = undo_actions st) /\
  (forall st p q x y,
      internal_action_count st = 0 ->
      in_composite st = 0 ->
      x <> [] -> y <> [] ->
      mem x delimiters = false -> mem y delimiters = false ->
      (forall rest top, undo_actions st = rest ++ [top] ->
                        maybe_join top (AdditionAction x (Z.of_nat p)) = None) ->
      q <> (p + List.length x)%nat ->
      exists st1 st2,
        buffer_insert get_url_start p x st = Done tt st1 /\
        buffer_insert get_url_start q y st1 = Done tt st2 /\
        undo_actions st2
        = undo_actions st ++ [AdditionAction x (Z.of_nat p); AdditionAction y (Z.of_nat q)]).
Proof.
  split; [|split; [|split]].
  - intros atext btext apos bpos. rewrite addition_maybe_join.
    destruct (bpos =? apos + py_len atext) eqn:E.
    + apply Z.eqb_eq in E. split; [split; [intros _; exact E|discriminate]|reflexivity].
    + apply Z.eqb_neq in E. split; [split; [congruence|intro; contradiction]|].
      intro; contradiction.
  - intros st p x y Hc Hi Hp Hx Hy Hdx Hdy Htop.
    destruct (insert_plain p x st Hc Hx Hdx)
      as [st1 [E1 [Hb1 [Hc1 [Hi1 [_ [Hu1 _]]]]]]].
    rewrite join_or_add_added, add_undo_action_at_rest in Hu1 by assumption.
    simpl in Hu1.
    destruct (insert_plain (p + List.length x) y st1 Hc1 Hy Hdy)
      as [st2 [E2 [Hb2 [Hc2 [Hi2 [_ [Hu2 _]]]]]]].
    rewrite (join_or_add_joined _ st1 _ _ _ Hu1 (addition_joins_behind x y p)) in Hu2.
    simpl in Hu2. rewrite Hb1 in Hb2.
    destruct (undo_coalesced st st2 _ p x y Hp Hx Hb2 Hc2 Hu2) as [st3 [E3 [Hb3 Hu3]]].
    exists st1, st2, st3. repeat split; assumption.
  - intros st x y Hc Hi Hca Hp Hx Hy Hdx Hdy Htop.
    set (p := insert_mark (buffer st)) in *.
    destruct (type_text_added x st Hc Hi Hca Hx Hdx Htop)
      as [st1 [E1 [Hb1 [Hc1 [Hi1 [Hca1 [Hu1 _]]]]]]].
    fold p in Hb1, Hu1.
    assert (Hm : insert_mark (buffer st1) = (p + List.length x)%nat).
    { rewrite Hb1. simpl. unfold shift_mark_insert. fold p.
      rewrite Nat.leb_refl, length_map. reflexivity. }
    assert (Hj : maybe_join (AdditionAction x (Z.of_nat p))
                   (AdditionAction y (Z.of_nat (insert_mark (buffer st1))))
                 = Some (AdditionAction (x ++ y) (Z.of_nat p))).
    { rewrite Hm. apply addition_joins_behind. }
    destruct (type_text_joined y st1 _ _ _ Hc1 Hi1 Hca1 Hy Hdy Hu1 Hj)
      as [st2 [E2 [Hb2 [Hc2 [_ [_ [Hu2 _]]]]]]].
    rewrite Hm, Hb1 in Hb2.
    destruct (undo_coalesced st st2 _ p x y Hp Hx Hb2 Hc2 Hu2) as [st3 [E3 [Hb3 Hu3]]].
    exists st1, st2, st3. repeat split; assumption.
  - intros st p q x y Hc Hi Hx Hy Hdx Hdy Htop Hq.
    destruct (insert_plain p x st Hc Hx Hdx)
      as [st1 [E1 [Hb1 [Hc1 [Hi1 [_ [Hu1 _]]]]]]].
    rewrite join_or_add_added, add_undo_action_at_rest in Hu1 by assumption.
    simpl in Hu1.
    destruct (insert_plain q y st1 Hc1 Hy Hdy)
      as [st2 [E2 [Hb2 [Hc2 [Hi2 [_ [Hu2 _]]]]]]].
    exists st1, st2. repeat split; try assumption.
    rewrite Hu2. rewrite join_or_add_added, add_undo_action_at_rest.
    + simpl. rewrite Hu1, <- app_assoc. reflexivity.
    + congruence.
    + intros rest top Hr. rewrite Hu1 in Hr.
      apply app_inj_tail in Hr. destruct Hr as [_ <-].
      apply addition_stays_apart. exact Hq.
Qed.

(** C5, as amended.  When the depth of a composite comes back to zero,
    nothing is pushed for an empty list of recorded actions, the action
    itself for a list of one, and one composite of them for a list of two
    or more; so a composite built there has at least two children, and
    three actions recorded between [begin] and [end] leave one entry on
    the undo stack. *)
Theorem end_composite_pushes :
  (forall st,
      in_composite st = 1 ->
      (composite_actions st = [] ->
       end_composite_action st = set_in_composite 0 st) /\
      (forall a, composite_actions st = [a] ->
       end_composite_action st
       = set_composite_actions []
           (set_redo_actions []
              (set_undo_actions (undo_actions st ++ [a]) (set_in_composite 0 st)))) /\
      (forall a b l, composite_actions st = a :: b :: l ->
       end_composite_action st
       = set_composite_actions []
           (set_redo_actions []
              (set_undo_actions (undo_actions st ++ [CompositeAction (a :: b :: l)])
                 (set_in_composite 0 st)))) /\
      (undo_actions (end_composite_action st) = undo_actions st \/
       (exists a, composite_actions st = [a] /\
                  undo_actions (end_composite_action st) = undo_actions st ++ [a]) \/
       (exists l, (2 <= List.length l)%nat /\ composite_actions st = l /\
                  undo_actions (end_composite_action st)
                  = undo_actions st ++ [CompositeAction l]))) /\
  (forall st a b c,
      in_composite st = 0 ->
      composite_actions st = [] ->
      let st' :=
        end_composite_action
          (add_undo_action c (add_undo_action b (add_undo_action a
             (begin_composite_action st)))) in
      undo_actions st' = undo_actions st ++ [CompositeAction [a; b; c]] /\
      composite_actions st' = [] /\
      in_composite st' = 0).
Proof.
  split.
  - intros st Hi. split; [apply end_composite_none; exact Hi|].
    split; [intros a; apply end_composite_single; exact Hi|].
    split; [intros a b l; apply end_composite_several; exact Hi|].
    destruct (composite_actions st) as [|a [|b l]] eqn:E.
    + left. rewrite (end_composite_none st Hi E). reflexivity.
    + right. left. exists a. split; [reflexivity|].
      rewrite (end_composite_single st a Hi E). reflexivity.
    + right. right. exists (a :: b :: l). split; [simpl; lia|]. split; [reflexivity|].
      rewrite (end_composite_several st a b l Hi E). reflexivity.
  - intros st a b c Hi H. cbv zeta.
    unfold begin_composite_action, add_undo_action, end_composite_action.
    simpl. rewrite Hi, H. simpl. repeat split.
Qed.

End UndoRedo.

(** ** The handlers entered again *)

Lemma object_remove_with_depth (d1 d2 : nat) (atype : anchor_type) (position : Z)
    (checked : option bool) (s : NoteBuffer) :
  internal_action_count s <> 0 ->
  object_remove_with (on_delete d1) atype position checked s
  = object_remove_with (on_delete d2) atype position checked s.
Proof.
  intro Hs. unfold object_remove_with, bind.
  rewrite !buffer_delete_with_guarded by exact Hs. reflexivity.
Qed.

Lemma scan_anchor_depth (d1 d2 : nat) (ls : delete_scan) (s : NoteBuffer) :
  internal_action_count s <> 0 ->
  scan_anchor (on_delete d1) ls s = scan_anchor (on_delete d2) ls s.
Proof.
  intro Hs. unfold scan_anchor.
  destruct (get_child_anchor (cells (buffer s)) (current_iter ls)) as [w|]; [|reflexivity].
  unfold bind. rewrite (object_remove_with_depth d1 d2) by exact Hs. reflexivity.
Qed.

Lemma replays_scan_anchor (d : nat) (ls : delete_scan) : replays (scan_anchor (on_delete d) ls).
Proof.
  intros s Hs. unfold scan_anchor.
  destruct (get_child_anchor (cells (buffer s)) (current_iter ls)) as [w|];
    [|apply only_buffer_refl].
  apply (replays_bind _ _ (replays_object_remove_with d _ _ _)); [|exact Hs].
  intros c s' _. apply only_buffer_refl.
Qed.

Lemma on_delete_loop_depth (d1 d2 fuel : nat) (ls : delete_scan) (s : NoteBuffer) :
  internal_action_count s <> 0 ->
  on_delete_loop (on_delete d1) fuel ls s = on_delete_loop (on_delete d2) fuel ls s.
Proof.
  revert ls s. induction fuel as [|fuel IH]; intros ls s Hs; simpl; [reflexivity|].
  destruct (negb (current_iter ls <? d_end ls)%nat); [reflexivity|].
  unfold bind. rewrite (scan_anchor_depth d1 d2) by exact Hs.
  pose proof (replays_scan_anchor d2 ls s Hs) as R.
  destruct (scan_anchor (on_delete d2) ls s) as [ls1 s'|e s']; [|reflexivity].
  simpl in R. apply IH. rewrite (only_buffer_count _ _ R). exact Hs.
Qed.

Lemma on_delete_body_depth (d1 d2 s e : nat) (st : NoteBuffer) :
  internal_action_count st <> 0 ->
  on_delete_body (on_delete d1) s e st = on_delete_body (on_delete d2) s e st.
Proof.
  intro H. unfold on_delete_body, bind.
  rewrite (on_delete_loop_depth d1 d2) by exact H. reflexivity.
Qed.

Lemma on_delete_S (d s e : nat) (st : NoteBuffer) :
  on_delete (S d) s e st
  = if negb (internal_action_count st =? 0) then Done (s, e) st
    else with_internal_action true (on_delete_body (on_delete d) s e) st.
Proof. reflexivity. Qed.

(** [on_delete] entered again from inside its guarded block returns at
    its first line, so it does not matter how often the model lets it be
    entered. *)
Lemma on_delete_depth (d s e : nat) (st : NoteBuffer) :
  on_delete (S (S d)) s e st = on_delete 1 s e st.
Proof.
  rewrite !on_delete_S.
  destruct (negb (internal_action_count st =? 0)) eqn:E; [reflexivity|].
  apply negb_false_iff, Z.eqb_eq in E.
  unfold with_internal_action.
  rewrite (on_delete_body_depth (S d) 0) by (simpl; lia). reflexivity.
Qed.

(** ** The guarded blocks *)

Section Suppression.

Variable get_url_start : str -> option Z.

Lemma replays_insert_at_end (text : str) : replays (insert_at_end get_url_start text).
Proof. intros s Hs. unfold insert_at_end. apply replays_buffer_insert. exact Hs. Qed.

Lemma replays_markup_turn (text : str) (current_index : Z) (open : dict) :
  replays (markup_turn get_url_start text current_index open).
Proof.
  unfold markup_turn.
  destruct (py_find text (Ch "#") current_index =? -1).
  { apply replays_bind; [apply replays_insert_at_end | intro; apply replays_ret]. }
  apply replays_bind; [apply replays_insert_at_end | intros _].
  destruct (str_eqb _ (lit "##")).
  { apply replays_bind; [apply replays_insert_at_end | intro; apply replays_ret]. }
  destruct (str_eqb _ (lit "#check")).
  { destruct (py_index text _) as [c|]; [|apply replays_raise].
    destruct (py_int c) as [n|]; [|apply replays_raise].
    apply replays_bind; [|intro; apply replays_ret].
    intros s Hs. apply replays_add_check_button. exact Hs. }
  destruct (str_eqb _ (lit "#bullet")).
  { apply replays_bind; [|intro; apply replays_ret].
    intros s Hs. apply replays_add_bullet. exact Hs. }
  destruct (str_eqb _ (lit "#tag")); [|apply replays_ret].
  destruct (dict_get _ open) as [mark|].
  - apply replays_bind; [|intro; apply replays_ret].
    intros s _. apply only_buffer_set.
  - intros s _. apply only_buffer_refl.
Qed.

Lemma markup_loop_only_buffer (fuel : nat) (text : str) (current_index : Z) (open : dict)
    (s : NoteBuffer) (o : outcome unit) :
  internal_action_count s <> 0 ->
  markup_loop get_url_start fuel text current_index open s = Some o ->
  only_buffer s (final_state o).
Proof.
  revert current_index open s.
  induction fuel as [|fuel IH]; intros current_index open s Hs H; simpl in H;
    [discriminate|].
  pose proof (replays_markup_turn text current_index open s Hs) as R.
  destruct (markup_turn get_url_start text current_index open s) as [[[i d]|] s'|e s'];
    simpl in R.
  - eapply only_buffer_trans; [exact R|].
    apply (IH i d s'); [|exact H]. rewrite (only_buffer_count _ _ R). exact Hs.
  - inversion H; subst. exact R.
  - inversion H; subst. exact R.
Qed.

Lemma exit_enter_false (st s : NoteBuffer) :
  only_buffer (enter_internal_action st) s ->
  exit_internal_action false s = set_buffer (buffer s) st.
Proof.
  intro H. rewrite H. destruct st as [b0 c ic ca ua ra pr idl cc].
  unfold exit_internal_action, enter_internal_action, set_buffer,
    set_internal_action_count; simpl.
  rewrite andb_false_r. replace (c + 1 - 1) with c by lia. reflexivity.
Qed.

(** Decoding changes the text buffer only. *)
Lemma set_from_internal_markup_only_buffer (fuel : nat) (text : str) (st : NoteBuffer)
    (o : outcome unit) :
  0 <= internal_action_count st ->
  set_from_internal_markup get_url_start fuel text st = Some o ->
  only_buffer st (final_state o).
Proof.
  intros Hc H. unfold set_from_internal_markup in H.
  assert (H0 : internal_action_count (enter_internal_action st) <> 0) by (simpl; lia).
  pose proof (replays_buffer_delete 0
                (get_char_count (buffer (enter_internal_action st))) _ H0) as R1.
  destruct (buffer_delete 0 _ (enter_internal_action st)) as [u s1|e s1]; simpl in R1.
  - destruct (markup_loop get_url_start fuel text 0 [] s1) as [o'|] eqn:E; [|discriminate].
    assert (R2 : only_buffer (enter_internal_action st) (final_state o')).
    { eapply only_buffer_trans; [exact R1|].
      apply (markup_loop_only_buffer _ _ _ _ _ _ (eq_ind_r (fun z => z <> 0) H0
               (only_buffer_count _ _ R1)) E). }
    destruct o' as [u' s2|e s2]; inversion H; subst; simpl in *;
      rewrite (exit_enter_false st s2 R2); apply only_buffer_set.
  - inversion H; subst. simpl.
    rewrite (exit_enter_false st s1 R1). apply only_buffer_set.
Qed.

(** C8.  While the count of internal actions is not zero the handlers of
    [insert-text] and [delete-range] return at once and record nothing,
    so that undoing or redoing an action and decoding a markup change the
    text buffer only; [content-changed] is emitted only when the count is
    zero, and the callback that emits it is scheduled only when a guarded
    block brings the count back to zero; leaving a guarded block takes
    one from the count whether the block returns or raises. *)
Theorem suppression_counter :
  (forall st location text,
      internal_action_count st <> 0 ->
      on_insert get_url_start location text st = Done tt st) /\
  (forall st depth s e,
      internal_action_count st <> 0 ->
      on_delete depth s e st = Done (s, e) st) /\
  (forall st a,
      internal_action_count st <> 0 ->
      only_buffer st (final_state (action_undo get_url_start a st)) /\
      only_buffer st (final_state (action_redo get_url_start a st))) /\
  (forall st fuel text o,
      0 <= internal_action_count st ->
      set_from_internal_markup get_url_start fuel text st = Some o ->
      only_buffer st (final_state o)) /\
  (forall st,
      content_changed (trigger_changed st) <> content_changed st ->
      internal_action_count st = 0) /\
  (forall st,
      content_changed (run_idle st) <> content_changed st ->
      internal_action_count st = 0) /\
  (forall t st,
      idle_callbacks (exit_internal_action t st) <> idle_callbacks st ->
      internal_action_count (exit_internal_action t st) = 0) /\
  (forall (A : Type) (t : bool) (body : M A) st,
      internal_action_count (final_state (with_internal_action t body st))
      = internal_action_count (final_state (body (enter_internal_action st))) - 1).
Proof.
  split; [|split; [|split; [|split; [|split; [|split; [|split]]]]]].
  - intros st location text H. apply on_insert_guard. exact H.
  - intros st depth s e H. apply on_delete_guard. exact H.
  - intros st a H. split; [apply replays_action_undo | apply replays_action_redo]; exact H.
  - intros st fuel text o. apply set_from_internal_markup_only_buffer.
  - intros st H. unfold trigger_changed in H.
    destruct (internal_action_count st =? 0) eqn:E; [apply Z.eqb_eq; exact E|].
    congruence.
  - intros st H. unfold run_idle in H.
    destruct (idle_callbacks st) as [|n]; [congruence|].
    unfold trigger_changed in H. simpl in H.
    destruct (internal_action_count st =? 0) eqn:E; [apply Z.eqb_eq; exact E|].
    simpl in H. congruence.
  - intros t st H. unfold exit_internal_action in *.
    destruct (internal_action_count
                (set_internal_action_count (internal_action_count st - 1) st) =? 0) eqn:E;
      simpl in *.
    + destruct t; simpl in *; [lia|congruence].
    + congruence.
  - intros A t body st. unfold with_internal_action.
    destruct (body (enter_internal_action st)) as [a s|e s]; simpl; apply exit_count.
Qed.

End Suppression.

(** ** Slices and find *)

Lemma find_char_range (c : char) (s : str) (i : Z) :
  find_char c s i = -1 \/ i <= find_char c s i < i + py_len s.
Proof.
  revert i. induction s as [|x s IH]; intro i; simpl.
  - left. reflexivity.
  - destruct (char_eqb x c).
    + right. unfold py_len. simpl List.length. lia.
    + destruct (IH (i + 1)) as [H|H]; [left; exact H|right].
      unfold py_len in *. simpl List.length. lia.
Qed.

Lemma py_find_range (s : str) (c : char) (start : Z) :
  py_find s c start = -1 \/ 0 <= py_find s c start < py_len s.
Proof.
  unfold py_find.
  set (st := slice_bound (py_len s) start).
  assert (Hst : 0 <= st <= py_len s).
  { unfold st, slice_bound. pose proof (py_len_nonneg s).
    destruct (start <? 0) eqn:E; lia. }
  destruct (find_char_range c (skipn (Z.to_nat st) s) st) as [H|H]; [left; exact H|right].
  unfold py_len in *. rewrite length_skipn in H. lia.
Qed.

Lemma py_slice_prefix {A : Type} (s : list A) (i : Z) (k m : nat) :
  0 <= i -> (k <= m)%nat ->
  py_slice s i (i + Z.of_nat k) = firstn k (py_slice s i (i + Z.of_nat m)).
Proof.
  intros Hi Hk. unfold py_slice, slice_bound.
  pose proof (py_len_nonneg s) as Hn.
  destruct (i <? 0) eqn:E1; [lia|].
  destruct (i + Z.of_nat k <? 0) eqn:E2; [lia|].
  destruct (i + Z.of_nat m <? 0) eqn:E3; [lia|].
  rewrite firstn_firstn. f_equal. lia.
Qed.

Lemma py_slice_length {A : Type} (s : list A) (i : Z) (m : nat) :
  0 <= i -> (0 < m)%nat -> List.length (py_slice s i (i + Z.of_nat m)) = m ->
  i + Z.of_nat m <= py_len s.
Proof.
  intros Hi Hm H. unfold py_slice, slice_bound in H.
  pose proof (py_len_nonneg s) as Hn.
  destruct (i <? 0) eqn:E1; [lia|].
  destruct (i + Z.of_nat m <? 0) eqn:E3; [lia|].
  rewrite length_firstn, length_skipn in H. unfold py_len in *. lia.
Qed.

Lemma py_index_beyond {A : Type} (s : list A) (i : Z) :
  py_len s <= i -> py_index s i = None.
Proof.
  intro H. unfold py_index. pose proof (py_len_nonneg s) as Hn.
  destruct (0 <=? i) eqn:E1; destruct (i <? py_len s) eqn:E2; simpl; try lia;
    destruct (- py_len s <=? i) eqn:E3; destruct (i <? 0) eqn:E4; simpl; try lia;
    reflexivity.
Qed.

Lemma find_char_app (c : char) (plain rest : str) (i : Z) :
  forallb (fun x => negb (char_eqb x c)) plain = true ->
  find_char c (plain ++ c :: rest) i = i + py_len plain.
Proof.
  revert i. induction plain as [|x plain IH]; intros i H; simpl.
  - assert (E : char_eqb c c = true) by (apply char_eqb_eq; reflexivity).
    rewrite E. unfold py_len. simpl. lia.
  - simpl in H. apply andb_true_iff in H. destruct H as [H1 H2].
    apply negb_true_iff in H1. rewrite H1. rewrite IH by exact H2.
    unfold py_len. simpl List.length. lia.
Qed.

Lemma py_slice_app_mid {A : Type} (l m r : list A) :
  py_slice (l ++ m ++ r) (py_len l) (py_len l + py_len m) = m.
Proof.
  unfold py_slice, slice_bound. pose proof (py_len_nonneg l). pose proof (py_len_nonneg m).
  destruct (py_len l <? 0) eqn:E1; [lia|].
  destruct (py_len l + py_len m <? 0) eqn:E2; [lia|].
  rewrite !py_len_app.
  pose proof (py_len_nonneg r).
  rewrite Z.min_l by lia. rewrite Z.min_l by lia.
  unfold py_len. rewrite Nat2Z.id.
  rewrite skipn_app, Nat.sub_diag, skipn_all. simpl.
  replace (Z.to_nat (Z.of_nat (List.length l) + Z.of_nat (List.length m)
                     - Z.of_nat (List.length l))) with (List.length m) by lia.
  rewrite firstn_app, Nat.sub_diag, firstn_all. simpl. apply app_nil_r.
Qed.

(** ** Decoding a malformed markup *)

Section Decode.

Variable get_url_start : str -> option Z.

Lemma buffer_insert_returns (i : nat) (text : str) (st : NoteBuffer) :
  exists st', buffer_insert get_url_start i text st = Done tt st'.
Proof.
  unfold buffer_insert. destruct text as [|c r]; [eexists; reflexivity|].
  unfold bind, run_handler, modify.
  destruct (on_insert get_url_start i (c :: r) st) as [[] s|e s]; eexists; reflexivity.
Qed.

Lemma buffer_delete_returns (s e : nat) (st : NoteBuffer) :
  exists st', buffer_delete s e st = Done tt st'.
Proof.
  unfold buffer_delete, buffer_delete_with.
  destruct (Nat.min s e =? Nat.max s e)%nat; [eexists; reflexivity|].
  unfold bind, run_handler, modify.
  destruct (delete_range_handler (Nat.min s e) (Nat.max s e) st) as [r s'|x s'];
    eexists; reflexivity.
Qed.

Lemma insert_at_end_returns (text : str) (st : NoteBuffer) :
  exists st', insert_at_end get_url_start text st = Done tt st'.
Proof. apply buffer_insert_returns. Qed.

(** More turns do not change what the loop gives. *)
Lemma markup_loop_more_fuel (fuel extra : nat) (text : str) (current_index : Z)
    (open : dict) (st : NoteBuffer) (o : outcome unit) :
  markup_loop get_url_start fuel text current_index open st = Some o ->
  markup_loop get_url_start (fuel + extra) text current_index open st = Some o.
Proof.
  revert current_index open st.
  induction fuel as [|fuel IH]; intros current_index open st H; simpl in *;
    [discriminate|].
  destruct (markup_turn get_url_start text current_index open st) as [[[i d]|] s|e s];
    [apply IH; exact H | exact H | exact H].
Qed.

(** The scan at a [#check] with no character seven places on. *)
Lemma markup_turn_truncated_check (text : str) (current_index : Z) (open : dict)
    (st : NoteBuffer) :
  py_find text (Ch "#") current_index <> -1 ->
  py_slice text (py_find text (Ch "#") current_index)
                (py_find text (Ch "#") current_index + 6) = lit "#check" ->
  py_len text <= py_find text (Ch "#") current_index + 7 ->
  exists st', markup_turn get_url_start text current_index open st = Raised IndexError st'.
Proof.
  set (ni := py_find text (Ch "#") current_index).
  intros Hn H6 Hl. unfold markup_turn. fold ni.
  destruct (ni =? -1) eqn:E; [apply Z.eqb_eq in E; contradiction|].
  assert (H0 : 0 <= ni).
  { destruct (py_find_range text (Ch "#") current_index) as [H|H]; fold ni in H; lia. }
  unfold bind.
  destruct (insert_at_end_returns (py_slice text current_index ni) st) as [s1 ->].
  change (ni + 2) with (ni + Z.of_nat 2).
  rewrite (py_slice_prefix text ni 2 6 H0) by lia.
  change (Z.of_nat 6) with 6. rewrite H6.
  replace (str_eqb (firstn 2 (lit "#check")) (lit "##")) with false by reflexivity.
  rewrite str_eqb_refl, (py_index_beyond text (ni + 7) Hl).
  eexists. reflexivity.
Qed.

(** The scan at a [#tag]: whether or not a [:] follows, the turn returns
    and the loop goes on. *)
Lemma markup_turn_tag_returns (text : str) (current_index : Z) (open : dict)
    (st : NoteBuffer) :
  py_find text (Ch "#") current_index <> -1 ->
  py_slice text (py_find text (Ch "#") current_index)
                (py_find text (Ch "#") current_index + 4) = lit "#tag" ->
  exists r st', markup_turn get_url_start text current_index open st = Done (Some r) st'.
Proof.
  set (ni := py_find text (Ch "#") current_index).
  intros Hn H4. unfold markup_turn. fold ni.
  destruct (ni =? -1) eqn:E; [apply Z.eqb_eq in E; contradiction|].
  assert (H0 : 0 <= ni).
  { destruct (py_find_range text (Ch "#") current_index) as [H|H]; fold ni in H; lia. }
  unfold bind.
  destruct (insert_at_end_returns (py_slice text current_index ni) st) as [s1 ->].
  change (ni + 2) with (ni + Z.of_nat 2).
  rewrite (py_slice_prefix text ni 2 4 H0) by lia.
  change (Z.of_nat 4) with 4. rewrite H4.
  replace (str_eqb (firstn 2 (lit "#tag")) (lit "##")) with false by reflexivity.
  destruct (str_eqb (py_slice text ni (ni + 6)) (lit "#check")) eqn:E6.
  { apply str_eqb_eq in E6.
    pose proof (py_slice_prefix text ni 4 6 H0 ltac:(lia)) as P.
    change (Z.of_nat 4) with 4 in P. change (Z.of_nat 6) with 6 in P.
    rewrite H4, E6 in P. discriminate. }
  destruct (str_eqb (py_slice text ni (ni + 7)) (lit "#bullet")) eqn:E7.
  { apply str_eqb_eq in E7.
    pose proof (py_slice_prefix text ni 4 7 H0 ltac:(lia)) as P.
    change (Z.of_nat 4) with 4 in P. change (Z.of_nat 7) with 7 in P.
    rewrite H4, E7 in P. discriminate. }
  rewrite str_eqb_refl.
  destruct (dict_get _ open) as [mark|]; unfold modify, ret; eexists; eexists; reflexivity.
Qed.

(** C9, as amended.  A [#check] with no character seven places after
    its [#] makes the decoder raise: so at any turn of the scan that
    arrives at it, and so for a markup whose first [#] starts such a
    token.  A [#tag] does not: whether or not a [:] closes its name, the
    turn returns and the scan goes on. *)
Theorem truncated_check_raises :
  (forall text current_index open st,
      py_find text (Ch "#") current_index <> -1 ->
      py_slice text (py_find text (Ch "#") current_index)
                    (py_find text (Ch "#") current_index + 6) = lit "#check" ->
      py_len text <= py_find text (Ch "#") current_index + 7 ->
      exists st',
        markup_turn get_url_start text current_index open st = Raised IndexError st') /\
  (forall plain tail st fuel,
      forallb (fun c => negb (char_eqb c (Ch "#"))) plain = true ->
      (List.length tail < 2)%nat ->
      exists st',
        set_from_internal_markup get_url_start (S fuel) (plain ++ lit "#check" ++ tail) st
        = Some (Raised IndexError st')) /\
  (forall text current_index open st,
      py_find text (Ch "#") current_index <> -1 ->
      py_slice text (py_find text (Ch "#") current_index)
                    (py_find text (Ch "#") current_index + 4) = lit "#tag" ->
      exists r st',
        markup_turn get_url_start text current_index open st = Done (Some r) st').
Proof.
  split; [|split].
  - apply markup_turn_truncated_check.
  - intros plain tail st fuel Hp Ht.
    set (text := plain ++ lit "#check" ++ tail).
    assert (Hf : py_find text (Ch "#") 0 = py_len plain).
    { unfold py_find.
      assert (Hb : slice_bound (py_len text) 0 = 0).
      { unfold slice_bound. pose proof (py_len_nonneg text).
        change (0 <? 0) with false. cbv iota. lia. }
      rewrite Hb. simpl Z.to_nat. simpl skipn. unfold text.
      change (lit "#check" ++ tail) with (Ch "#" :: lit "check" ++ tail).
      rewrite find_char_app by exact Hp. lia. }
    assert (H1 : py_find text (Ch "#") 0 <> -1).
    { rewrite Hf. pose proof (py_len_nonneg plain). lia. }
    assert (H2 : py_slice text (py_find text (Ch "#") 0) (py_find text (Ch "#") 0 + 6)
                 = lit "#check").
    { rewrite Hf. unfold text. apply (py_slice_app_mid plain (lit "#check") tail). }
    assert (H3 : py_len text <= py_find text (Ch "#") 0 + 7).
    { rewrite Hf. unfold text. rewrite !py_len_app. unfold py_len at 2 3.
      simpl List.length at 1. lia. }
    unfold set_from_internal_markup.
    destruct (buffer_delete_returns 0
                (get_char_count (buffer (enter_internal_action st)))
                (enter_internal_action st)) as [s1 ->].
    simpl markup_loop.
    destruct (markup_turn_truncated_check text 0 [] s1 H1 H2 H3) as [s2 ->].
    eexists. reflexivity.
  - apply markup_turn_tag_returns.
Qed.

End Decode.

(** ** The loop of on_delete ends within its turns *)

Lemma get_child_anchor_inside (cs : list cell) (i : nat) (w : widget) :
  get_child_anchor cs i = Some w -> (i < List.length cs)%nat.
Proof.
  unfold get_child_anchor. intro H. apply nth_error_Some.
  destruct (nth_error cs i); [discriminate|discriminate].
Qed.

(** [remove] at an offset that holds a child anchor, inside a guarded
    block: the cell goes, and a check box leaves its state. *)
Lemma object_remove_at_anchor (d : nat) (w : widget) (i : nat) (checked : option bool)
    (st : NoteBuffer) :
  internal_action_count st <> 0 ->
  get_child_anchor (cells (buffer st)) i = Some w ->
  object_remove_with (on_delete d) (anchor_type_of w) (Z.of_nat i) checked st
  = Done (match w with CheckButton active => Some active | Image => checked end)
         (set_buffer (raw_delete (buffer st) i (S i)) st).
Proof.
  intros Hc Hw. pose proof (get_child_anchor_inside _ _ _ Hw) as Hi.
  unfold object_remove_with.
  rewrite get_iter_at_offset_inside by lia.
  replace (Z.of_nat i + 1) with (Z.of_nat (S i)) by lia.
  rewrite get_iter_at_offset_inside by lia.
  rewrite Hw. unfold bind.
  rewrite buffer_delete_with_guarded by exact Hc.
  rewrite Nat.min_l, Nat.max_r by lia.
  destruct (i =? S i)%nat eqn:E; [apply Nat.eqb_eq in E; lia|].
  destruct w; reflexivity.
Qed.

Lemma length_raw_delete_one (b : TextBuffer) (i : nat) :
  (i < List.length (cells b))%nat ->
  List.length (cells (raw_delete b i (S i))) = (List.length (cells b) - 1)%nat.
Proof.
  intro H. unfold raw_delete. cbn [cells].
  rewrite length_app, length_firstn, length_skipn. lia.
Qed.

Lemma scan_anchor_at_anchor (d : nat) (w : widget) (ls : delete_scan) (st : NoteBuffer) :
  internal_action_count st <> 0 ->
  (current_iter ls < d_end ls)%nat ->
  get_child_anchor (cells (buffer st)) (current_iter ls) = Some w ->
  exists a,
    scan_anchor (on_delete d) ls st
    = Done (mkScan (current_iter ls)
                   (shift_mark_delete (current_iter ls) (S (current_iter ls)) (d_start ls))
                   (d_end ls - 1)%nat (open_tags ls) (actions ls ++ [a]) (Some a))
           (set_buffer (raw_delete (buffer st) (current_iter ls) (S (current_iter ls))) st).
Proof.
  intros Hc E Hw. unfold scan_anchor. rewrite Hw. unfold bind.
  rewrite (object_remove_at_anchor d w _ None st Hc Hw).
  pose proof (get_child_anchor_inside _ _ _ Hw) as Hi.
  rewrite get_iter_at_offset_inside
    by (cbn [buffer set_buffer]; rewrite length_raw_delete_one by exact Hi; lia).
  assert (Hend : shift_mark_delete (current_iter ls) (S (current_iter ls)) (d_end ls)
                 = (d_end ls - 1)%nat).
  { unfold shift_mark_delete.
    destruct (d_end ls <=? current_iter ls)%nat eqn:E1; [apply Nat.leb_le in E1; lia|].
    destruct (d_end ls <? S (current_iter ls))%nat eqn:E2;
      [apply Nat.ltb_lt in E2; lia|]. lia. }
  rewrite Hend. eexists. reflexivity.
Qed.

Lemma scan_tags_iterators (b : TextBuffer) (ls : delete_scan) :
  current_iter (scan_tags b ls) = Nat.min (S (current_iter ls)) (get_char_count b) /\
  d_end (scan_tags b ls) = d_end ls.
Proof.
  unfold scan_tags. destruct (note_toggled_off _ _ _ _) as [d2 l2]. split; reflexivity.
Qed.

(** With the two iterators inside the buffer the loop is over after
    [end - current] turns: more turns change nothing. *)
Lemma on_delete_loop_fuel (d fuel extra : nat) (ls : delete_scan) (st : NoteBuffer) :
  internal_action_count st <> 0 ->
  (d_end ls <= List.length (cells (buffer st)))%nat ->
  (d_end ls - current_iter ls <= fuel)%nat ->
  on_delete_loop (on_delete d) (fuel + extra) ls st
  = on_delete_loop (on_delete d) fuel ls st.
Proof.
  revert ls st. induction fuel as [|fuel IH]; intros ls st Hc Hl Hf.
  - simpl. destruct extra as [|extra]; [reflexivity|]. simpl.
    destruct (current_iter ls <? d_end ls)%nat eqn:E; [apply Nat.ltb_lt in E; lia|].
    reflexivity.
  - simpl.
    destruct (current_iter ls <? d_end ls)%nat eqn:E; [|reflexivity].
    apply Nat.ltb_lt in E. cbn [negb]. unfold bind. cbv beta.
    destruct (get_child_anchor (cells (buffer st)) (current_iter ls)) as [w|] eqn:Hw.
    + destruct (scan_anchor_at_anchor d w ls st Hc E Hw) as [a ->].
      pose proof (get_child_anchor_inside _ _ _ Hw) as Hi.
      pose proof (length_raw_delete_one (buffer st) _ Hi) as Hlen.
      apply IH.
      * exact Hc.
      * rewrite (proj2 (scan_tags_iterators _ _)). cbn [d_end buffer set_buffer]. lia.
      * rewrite (proj1 (scan_tags_iterators _ _)), (proj2 (scan_tags_iterators _ _)).
        cbn [d_end current_iter buffer set_buffer]. unfold get_char_count. lia.
    + unfold scan_anchor. rewrite Hw.
      apply IH.
      * exact Hc.
      * rewrite (proj2 (scan_tags_iterators _ _)). exact Hl.
      * rewrite (proj1 (scan_tags_iterators _ _)), (proj2 (scan_tags_iterators _ _)).
        unfold get_char_count. lia.
Qed.

(** ** The markup of a note and the note of that markup *)

(** C1 fails on the text [##].  Each [#] of the buffer is written once,
    where the comment in [get_internal_markup] announces an escape, so
    the markup of the two characters is [##]; the decoder reads [##] as
    one escaped [#], and the note it builds holds one character. *)
Theorem markup_round_trip_hash :
  contents hash_note = [Chr (Ch "#"); Chr (Ch "#")] /\
  get_internal_markup hash_note = Done (lit "##") hash_note /\
  exists s,
    set_from_internal_markup no_url 2 (lit "##") hash_note = Some (Done tt s) /\
    contents s = [Chr (Ch "#")].
Proof.
  split; [reflexivity|]. split; [reflexivity|].
  eexists. split; [vm_compute; reflexivity|]. reflexivity.
Qed.

(** The markup of a single [#] is [#], and no number of turns ends the
    decoder's loop on it. *)
Lemma markup_round_trip_single_hash (fuel : nat) :
  get_internal_markup single_hash_note = Done (lit "#") single_hash_note /\
  set_from_internal_markup no_url fuel (lit "#") single_hash_note = None.
Proof.
  split; [reflexivity|].
  unfold set_from_internal_markup.
  destruct (buffer_delete_returns 0
              (get_char_count (buffer (enter_internal_action single_hash_note)))
              (enter_internal_action single_hash_note)) as [s1 E].
  rewrite E.
  assert (H : forall s, markup_loop no_url fuel (lit "#") 0 [] s = None).
  { induction fuel as [|fuel IH]; intro s; simpl; [reflexivity|]. apply IH. }
  rewrite H. reflexivity.
Qed.

(** A tag that runs to the end of the buffer is opened in the markup and
    never closed, with the warning printed; the note of that markup has
    the text and no tag. *)
Lemma markup_round_trip_tag_at_end :
  tagged (lit "bold") bold_note = [true; true; true] /\
  get_internal_markup bold_note
  = Done (lit "#tag:bold:abc") (print (TagsNotClosed [lit "bold"]) bold_note) /\
  exists s,
    set_from_internal_markup no_url 2 (lit "#tag:bold:abc") bold_note = Some (Done tt s) /\
    contents s = contents bold_note /\
    tagged (lit "bold") s = [false; false; false].
Proof.
  split; [reflexivity|]. split; [reflexivity|].
  eexists. split; [vm_compute; reflexivity|]. split; reflexivity.
Qed.

(** A tag that ends before the end of the buffer, a check box and a
    bullet come back as they were. *)
Example markup_round_trip_example :
  exists s,
    set_from_internal_markup no_url 6
      (lit "#tag:bold:ab#tag:bold:c#check:1#bullet:") new_NoteBuffer = Some (Done tt s) /\
    get_internal_markup s = Done (lit "#tag:bold:ab#tag:bold:c#check:1#bullet:") s.
Proof. eexists. split; [vm_compute; reflexivity|]. reflexivity. Qed.

(** ** The note of a markup that the scan wrote *)

(** *** Insertion at the end *)

Lemma filter_none {A : Type} (l : list A) : filter (fun _ => false) l = [].
Proof. induction l; simpl; auto. Qed.

Lemma inherited_tags_end (cs : list cell) : inherited_tags cs (List.length cs) = [].
Proof.
  unfold inherited_tags, tags_at.
  replace (nth_error cs (List.length cs)) with (@None cell)
    by (symmetry; apply nth_error_None; lia).
  simpl. apply filter_none.
Qed.

Lemma cells_at_end (l : list content) (st : NoteBuffer) :
  cells (buffer (at_end l st)) = cells (buffer st) ++ map (fun c => mkCell c []) l.
Proof.
  destruct l as [|x l]; [simpl; rewrite app_nil_r; reflexivity|].
  unfold at_end, insert_contents, get_char_count. cbn [buffer set_buffer cells].
  rewrite inherited_tags_end, firstn_all, skipn_all, app_nil_r. reflexivity.
Qed.

Lemma shift_mark_insert_twice (n k1 k2 m : nat) :
  shift_mark_insert (n + k1) k2 (shift_mark_insert n k1 m) = shift_mark_insert n (k1 + k2) m.
Proof.
  unfold shift_mark_insert.
  destruct (n <=? m)%nat eqn:E1.
  - apply Nat.leb_le in E1.
    destruct (n + k1 <=? m + k1)%nat eqn:E2; [lia | apply Nat.leb_gt in E2; lia].
  - apply Nat.leb_gt in E1.
    destruct (n + k1 <=? m)%nat eqn:E2; [apply Nat.leb_le in E2; lia | reflexivity].
Qed.

Lemma at_end_app (x y : list content) (st : NoteBuffer) :
  at_end y (at_end x st) = at_end (x ++ y) st.
Proof.
  destruct x as [|a x]; [reflexivity|].
  destruct y as [|b y]; [rewrite app_nil_r; reflexivity|].
  pose proof (cells_at_end (a :: x) st) as H1.
  destruct st as [[cs im sb] c ic ca ua ra pr idl cc].
  unfold at_end in *. cbn [app]. unfold insert_contents, get_char_count, set_buffer in *.
  cbn [buffer cells insert_mark selection_bound] in *.
  f_equal.
  rewrite H1. rewrite !inherited_tags_end.
  rewrite !firstn_all, !skipn_all, !app_nil_r.
  assert (L : List.length (cs ++ map (fun c0 : content => mkCell c0 []) (a :: x))
              = (List.length cs + List.length (a :: x))%nat)
    by (rewrite length_app, length_map; reflexivity).
  rewrite L, !shift_mark_insert_twice.
  change (a :: x ++ b :: y) with ((a :: x) ++ b :: y).
  rewrite map_app, app_assoc, length_app. reflexivity.
Qed.

(** The runs of characters can go in one character at a time. *)
Lemma interp_flush (evs : list event) (pend : str) (op : dict) (st : NoteBuffer) :
  interp evs pend op st = eval evs op (at_end (map Chr pend) st).
Proof.
  revert pend op st. induction evs as [|e r IH]; intros pend op st; cbn [interp eval].
  - reflexivity.
  - destruct e; rewrite IH; [|reflexivity|reflexivity|reflexivity].
    rewrite at_end_app, map_app. reflexivity.
Qed.

(** *** Slices of a text behind a prefix *)

Lemma slice_bound_len {A : Type} (l r : list A) :
  slice_bound (py_len (l ++ r)) (py_len l) = py_len l.
Proof.
  unfold slice_bound. pose proof (py_len_nonneg l). pose proof (py_len_nonneg r).
  rewrite py_len_app. destruct (py_len l <? 0) eqn:E; lia.
Qed.

Lemma skipn_py_len {A : Type} (l r : list A) : skipn (Z.to_nat (py_len l)) (l ++ r) = r.
Proof.
  unfold py_len. rewrite Nat2Z.id, skipn_app, Nat.sub_diag, skipn_all. reflexivity.
Qed.

Lemma find_char_none (c : char) (s : str) (i : Z) :
  forallb (fun x => negb (char_eqb x c)) s = true -> find_char c s i = -1.
Proof.
  revert i. induction s as [|x s IH]; intros i H; simpl; [reflexivity|].
  simpl in H. apply andb_true_iff in H. destruct H as [H1 H2].
  apply negb_true_iff in H1. rewrite H1. apply IH. exact H2.
Qed.

Lemma py_find_none (pre pend : str) (c : char) :
  forallb (fun x => negb (char_eqb x c)) pend = true ->
  py_find (pre ++ pend) c (py_len pre) = -1.
Proof.
  intro H. unfold py_find. rewrite slice_bound_len, skipn_py_len.
  apply find_char_none. exact H.
Qed.

Lemma py_find_app (pre pend rest : str) (c : char) :
  forallb (fun x => negb (char_eqb x c)) pend = true ->
  py_find (pre ++ pend ++ c :: rest) c (py_len pre) = py_len (pre ++ pend).
Proof.
  intro H. unfold py_find. rewrite slice_bound_len, skipn_py_len.
  rewrite find_char_app by exact H. rewrite py_len_app. reflexivity.
Qed.

Lemma py_slice_from_app {A : Type} (l r : list A) : py_slice_from (l ++ r) (py_len l) = r.
Proof. unfold py_slice_from. rewrite slice_bound_len, skipn_py_len. reflexivity. Qed.

Lemma py_slice_app_from {A : Type} (l r : list A) (k : nat) :
  py_slice (l ++ r) (py_len l) (py_len l + Z.of_nat k) = firstn k r.
Proof.
  unfold py_slice. rewrite slice_bound_len, skipn_py_len.
  unfold slice_bound. pose proof (py_len_nonneg l). pose proof (py_len_nonneg r).
  destruct (py_len l + Z.of_nat k <? 0) eqn:E; [apply Z.ltb_lt in E; lia|].
  rewrite py_len_app.
  destruct (Nat.le_gt_cases k (List.length r)) as [Hk|Hk].
  - rewrite Z.min_l by (unfold py_len; lia). f_equal. lia.
  - rewrite Z.min_r by (unfold py_len; lia).
    replace (Z.to_nat (py_len l + py_len r - py_len l)) with (List.length r)
      by (unfold py_len; lia).
    rewrite firstn_all. symmetry. apply firstn_all2. lia.
Qed.

Lemma py_index_app {A : Type} (l r : list A) (k : nat) :
  (k < List.length r)%nat ->
  py_index (l ++ r) (py_len l + Z.of_nat k) = nth_error r k.
Proof.
  intro H. unfold py_index. pose proof (py_len_nonneg l).
  rewrite py_len_app.
  replace (0 <=? py_len l + Z.of_nat k) with true by (symmetry; apply Z.leb_le; lia).
  replace (py_len l + Z.of_nat k <? py_len l + py_len r) with true
    by (symmetry; apply Z.ltb_lt; unfold py_len; lia).
  simpl. rewrite nth_error_app2 by (unfold py_len; lia).
  f_equal. unfold py_len. lia.
Qed.

(** *** The turns of the decoder's loop *)

Section Events.

Variable get_url_start : str -> option Z.

Lemma insert_at_end_guarded (text : str) (st : NoteBuffer) :
  internal_action_count st <> 0 ->
  insert_at_end get_url_start text st = Done tt (at_end (map Chr text) st).
Proof.
  intro H. unfold insert_at_end. rewrite buffer_insert_guarded by exact H.
  destruct text; reflexivity.
Qed.

Lemma at_end_count (l : list content) (st : NoteBuffer) :
  internal_action_count (at_end l st) = internal_action_count st.
Proof. destruct l; reflexivity. Qed.

(** The last turn: no [#] is left. *)
Lemma turn_end (pre pend : str) (op : dict) (st : NoteBuffer) :
  internal_action_count st <> 0 ->
  forallb no_hash pend = true ->
  markup_turn get_url_start (pre ++ pend) (py_len pre) op st
  = Done None (at_end (map Chr pend) st).
Proof.
  intros Hc Hp. unfold markup_turn.
  rewrite (py_find_none pre pend (Ch "#") Hp). simpl (-1 =? -1). cbv iota.
  unfold bind. rewrite py_slice_from_app, insert_at_end_guarded by exact Hc. reflexivity.
Qed.

(** The start of a turn that finds a [#]. *)
Lemma turn_start (pre pend tok rest : str) (op : dict) (st : NoteBuffer) :
  forallb no_hash pend = true ->
  py_find (pre ++ pend ++ (Ch "#" :: tok) ++ rest) (Ch "#") (py_len pre)
  = py_len (pre ++ pend) /\
  (py_len (pre ++ pend) =? -1) = false /\
  py_slice (pre ++ pend ++ (Ch "#" :: tok) ++ rest) (py_len pre) (py_len (pre ++ pend))
  = pend.
Proof.
  intro Hp. split; [|split].
  - apply (py_find_app pre pend (tok ++ rest) (Ch "#") Hp).
  - apply Z.eqb_neq. pose proof (py_len_nonneg (pre ++ pend)). lia.
  - rewrite py_len_app. apply py_slice_app_mid.
Qed.

(** A [#check:] token. *)
Lemma turn_check (pre pend rest : str) (b : bool) (op : dict) (st : NoteBuffer) :
  internal_action_count st <> 0 ->
  forallb no_hash pend = true ->
  markup_turn get_url_start (pre ++ pend ++ render_event (Check b) ++ rest)
              (py_len pre) op st
  = Done (Some (py_len (pre ++ pend ++ render_event (Check b)), op))
         (at_end [Anchor (CheckButton b)] (at_end (map Chr pend) st)).
Proof.
  intros Hc Hp.
  assert (Hc1 : internal_action_count (at_end (map Chr pend) st) <> 0)
    by (rewrite at_end_count; exact Hc).
  destruct (turn_start pre pend (List.tl (render_event (Check b))) rest op st Hp)
    as [Hf [Hn Hs]].
  replace (Ch "#" :: List.tl (render_event (Check b))) with (render_event (Check b))
    in Hf, Hs by (destruct b; reflexivity).
  unfold markup_turn. rewrite Hf, Hn, Hs. unfold bind.
  rewrite insert_at_end_guarded by exact Hc.
  rewrite (app_assoc pre pend).
  set (l := pre ++ pend).
  change (py_len l + 2) with (py_len l + Z.of_nat 2).
  change (py_len l + 6) with (py_len l + Z.of_nat 6).
  change (py_len l + 7) with (py_len l + Z.of_nat 7).
  rewrite !py_slice_app_from.
  rewrite py_index_app by (destruct b; simpl; lia).
  destruct b;
    cbn [render_event lit list_ascii_of_string map app firstn str_eqb char_eqb
         Ascii.eqb Bool.eqb andb nth_error];
    simpl (py_int _); cbv beta iota; simpl (negb _);
    rewrite add_check_button_guarded by exact Hc1; unfold ret;
    (apply f_equal2; [|reflexivity]); do 2 f_equal; subst l;
    rewrite !py_len_app; unfold py_len; simpl List.length; lia.
Qed.

(** A [#bullet:] token. *)
Lemma turn_bullet (pre pend rest : str) (op : dict) (st : NoteBuffer) :
  internal_action_count st <> 0 ->
  forallb no_hash pend = true ->
  markup_turn get_url_start (pre ++ pend ++ render_event Bullet ++ rest)
              (py_len pre) op st
  = Done (Some (py_len (pre ++ pend ++ render_event Bullet), op))
         (at_end [Anchor Image] (at_end (map Chr pend) st)).
Proof.
  intros Hc Hp.
  assert (Hc1 : internal_action_count (at_end (map Chr pend) st) <> 0)
    by (rewrite at_end_count; exact Hc).
  destruct (turn_start pre pend (List.tl (render_event Bullet)) rest op st Hp)
    as [Hf [Hn Hs]].
  change (Ch "#" :: List.tl (render_event Bullet)) with (render_event Bullet) in Hf, Hs.
  unfold markup_turn. rewrite Hf, Hn, Hs. unfold bind.
  rewrite insert_at_end_guarded by exact Hc.
  rewrite (app_assoc pre pend).
  set (l := pre ++ pend).
  change (py_len l + 2) with (py_len l + Z.of_nat 2).
  change (py_len l + 6) with (py_len l + Z.of_nat 6).
  change (py_len l + 7) with (py_len l + Z.of_nat 7).
  rewrite !py_slice_app_from.
  cbn [render_event lit list_ascii_of_string map app firstn str_eqb char_eqb
       Ascii.eqb Bool.eqb andb].
  cbv beta iota. rewrite add_bullet_guarded by exact Hc1. unfold ret.
  apply f_equal2; [|reflexivity]. do 2 f_equal. subst l.
  rewrite !py_len_app; unfold py_len; simpl List.length; lia.
Qed.

(** A [#tag:name:] token. *)
Lemma turn_toggle (pre pend rest : str) (t : tag) (op : dict) (st : NoteBuffer) :
  internal_action_count st <> 0 ->
  forallb no_hash pend = true ->
  name_ok t = true ->
  markup_turn get_url_start (pre ++ pend ++ render_event (Toggle t) ++ rest)
              (py_len pre) op st
  = Done (Some (py_len (pre ++ pend ++ render_event (Toggle t)),
                fst (toggle t op (at_end (map Chr pend) st))))
         (snd (toggle t op (at_end (map Chr pend) st))).
Proof.
  intros Hc Hp Ht.
  destruct (turn_start pre pend (List.tl (render_event (Toggle t))) rest op st Hp)
    as [Hf [Hn Hs]].
  change (Ch "#" :: List.tl (render_event (Toggle t))) with (render_event (Toggle t))
    in Hf, Hs.
  unfold markup_turn. rewrite Hf, Hn, Hs. unfold bind.
  rewrite insert_at_end_guarded by exact Hc.
  destruct t as [|c0 t']; [discriminate|]. simpl in Ht.
  rewrite (app_assoc pre pend).
  set (l := pre ++ pend).
  set (tok := render_event (Toggle (c0 :: t'))).
  set (T := l ++ tok ++ rest).
  assert (E2 : str_eqb (py_slice T (py_len l) (py_len l + 2)) (lit "##") = false).
  { change (py_len l + 2) with (py_len l + Z.of_nat 2).
    unfold T. rewrite py_slice_app_from. reflexivity. }
  assert (E6 : str_eqb (py_slice T (py_len l) (py_len l + 6)) (lit "#check") = false).
  { change (py_len l + 6) with (py_len l + Z.of_nat 6).
    unfold T. rewrite py_slice_app_from. reflexivity. }
  assert (E7 : str_eqb (py_slice T (py_len l) (py_len l + 7)) (lit "#bullet") = false).
  { change (py_len l + 7) with (py_len l + Z.of_nat 7).
    unfold T. rewrite py_slice_app_from. reflexivity. }
  assert (E4 : str_eqb (py_slice T (py_len l) (py_len l + 4)) (lit "#tag") = true).
  { change (py_len l + 4) with (py_len l + Z.of_nat 4).
    unfold T. rewrite py_slice_app_from. reflexivity. }
  assert (HT1 : T = (l ++ lit "#tag:" ++ [c0]) ++ t' ++ Ch ":" :: rest).
  { unfold T, tok, render_event, tag_marker.
    rewrite <- ?app_assoc. cbn [lit list_ascii_of_string map app].
    rewrite <- ?app_assoc. reflexivity. }
  assert (HT2 : T = (l ++ lit "#tag:") ++ (c0 :: t') ++ (lit ":" ++ rest)).
  { unfold T, tok, render_event, tag_marker. rewrite <- ?app_assoc. reflexivity. }
  assert (Hfind : py_find T (Ch ":") (py_len l + 6) = py_len l + 5 + py_len (c0 :: t')).
  { rewrite HT1.
    replace (py_len l + 6) with (py_len (l ++ lit "#tag:" ++ [c0]))
      by (rewrite py_len_app; unfold py_len; simpl; lia).
    rewrite (py_find_app _ t' rest (Ch ":") Ht).
    rewrite !py_len_app. unfold py_len. simpl List.length. lia. }
  assert (Hname : py_slice T (py_len l + 5) (py_len l + 5 + py_len (c0 :: t')) = c0 :: t').
  { rewrite HT2.
    replace (py_len l + 5) with (py_len (l ++ lit "#tag:"))
      by (rewrite py_len_app; unfold py_len; simpl; lia).
    apply py_slice_app_mid. }
  rewrite E2, E6, E7, E4, Hfind, Hname. unfold toggle.
  assert (Hidx : py_len l + 6 + py_len (c0 :: t') = py_len (pre ++ pend ++ tok)).
  { unfold l, tok, render_event, tag_marker. rewrite !py_len_app. unfold py_len.
    simpl List.length. lia. }
  rewrite Hidx.
  destruct (dict_get (c0 :: t') op) as [mark|]; reflexivity.
Qed.

(** Decoding what a list of events renders does what the events say. *)
Lemma run_events (evs : list event) :
  forall pre pend op st,
    internal_action_count st <> 0 ->
    forallb no_hash pend = true ->
    forallb event_ok evs = true ->
    exists fuel,
      markup_loop get_url_start fuel (pre ++ pend ++ render evs) (py_len pre) op st
      = Some (Done tt (interp evs pend op st)).
Proof.
  induction evs as [|e r IH]; intros pre pend op st Hc Hp Hok.
  - exists 1%nat. cbn [markup_loop]. unfold render. simpl List.concat. rewrite app_nil_r.
    rewrite turn_end by assumption. reflexivity.
  - simpl in Hok. apply andb_true_iff in Hok. destruct Hok as [He Hr].
    unfold render. cbn [map List.concat]. fold (render r).
    destruct e as [c|b| |t]; cbn [interp].
    + (* a plain character waits for the next turn *)
      destruct (IH pre (pend ++ [c]) op st Hc) as [fuel E]; [|exact Hr|].
      { rewrite forallb_app, Hp. simpl. simpl in He. rewrite He. reflexivity. }
      exists fuel. cbn [render_event]. rewrite <- app_assoc in E. exact E.
    + assert (Hc' : internal_action_count
                      (at_end [Anchor (CheckButton b)] (at_end (map Chr pend) st)) <> 0)
        by (rewrite !at_end_count; exact Hc).
      destruct (IH (pre ++ pend ++ render_event (Check b)) [] op _ Hc' eq_refl Hr)
        as [fuel E].
      exists (S fuel). cbn [markup_loop]. rewrite turn_check by assumption.
      simpl app in E. rewrite <- !app_assoc in E. exact E.
    + assert (Hc' : internal_action_count
                      (at_end [Anchor Image] (at_end (map Chr pend) st)) <> 0)
        by (rewrite !at_end_count; exact Hc).
      destruct (IH (pre ++ pend ++ render_event Bullet) [] op _ Hc' eq_refl Hr)
        as [fuel E].
      exists (S fuel). cbn [markup_loop]. rewrite turn_bullet by assumption.
      simpl app in E. rewrite <- !app_assoc in E. exact E.
    + assert (Hc' : internal_action_count (snd (toggle t op (at_end (map Chr pend) st))) <> 0).
      { unfold toggle. destruct (dict_get t op); cbn [snd]; simpl;
          rewrite at_end_count; exact Hc. }
      destruct (IH (pre ++ pend ++ render_event (Toggle t)) []
                  (fst (toggle t op (at_end (map Chr pend) st))) _ Hc' eq_refl Hr)
        as [fuel E].
      exists (S fuel). cbn [markup_loop]. rewrite turn_toggle by assumption.
      simpl app in E. rewrite <- !app_assoc in E. exact E.
Qed.

End Events.

(** *** The events of the encoder *)

Lemma render_app (a b : list event) : render (a ++ b) = render a ++ render b.
Proof. unfold render. rewrite map_app, concat_app. reflexivity. Qed.

Lemma close_tags_text (stack tags unclosed : list tag) (text : str) :
  close_tags stack tags unclosed text
  = (fst (fst (close_tags stack tags unclosed [])),
     snd (fst (close_tags stack tags unclosed [])),
     text ++ render (map Toggle (closed_tags stack tags))).
Proof.
  revert tags unclosed text.
  induction stack as [|t rest IH]; intros tags unclosed text; simpl.
  - rewrite app_nil_r. reflexivity.
  - destruct tags as [|t0 tags0]; [simpl; rewrite app_nil_r; reflexivity|].
    destruct (negb (valid_name t)); [apply IH|].
    destruct (negb (mem t (t0 :: tags0))); [apply IH|].
    rewrite IH. rewrite (IH _ _ ([] ++ tag_marker t)).
    cbn [map]. unfold render at 3. cbn [map List.concat]. fold (render (map Toggle
      (closed_tags rest (remove_first t (t0 :: tags0))))).
    cbn [render_event]. rewrite <- app_assoc. reflexivity.
Qed.

Lemma open_tags_loop_spec (tags current_tags : list tag) (text : str) :
  open_tags_loop tags current_tags text
  = (current_tags ++ filter valid_name tags,
     text ++ render (map Toggle (filter valid_name tags))).
Proof.
  revert current_tags text. induction tags as [|t r IH]; intros current_tags text; simpl.
  - rewrite !app_nil_r. reflexivity.
  - destruct (valid_name t); simpl.
    + rewrite IH. rewrite <- !app_assoc. reflexivity.
    + apply IH.
Qed.

Lemma emit_content_event (c : content) : emit_content c = render_event (content_event c).
Proof.
  destruct c as [x|[b|]]; simpl; try reflexivity.
  destruct (char_eqb x (Ch "#")) eqn:E; [|reflexivity].
  apply char_eqb_eq in E. subst. reflexivity.
Qed.

Lemma markup_step_events (cs : list cell) (current_tags : list tag) (text : str) (i : nat) :
  markup_step cs (current_tags, text) i
  = (step_tags cs current_tags i, text ++ render (step_events cs current_tags i)).
Proof.
  unfold markup_step, step_tags, step_events, kept_tags.
  rewrite close_tags_text.
  destruct (close_tags (rev current_tags) (get_toggled_tags cs i false) [] [])
    as [[stack unclosed] t0]. cbn [fst snd].
  rewrite open_tags_loop_spec.
  rewrite !render_app.
  destruct (nth_error cs i) as [c|].
  - rewrite emit_content_event. unfold render. cbn [map List.concat].
    rewrite app_nil_r, <- !app_assoc. reflexivity.
  - unfold render. cbn [map List.concat]. rewrite !app_nil_r, <- ?app_assoc.
    reflexivity.
Qed.

Lemma markup_fold_events (cs : list cell) (idxs : list nat) (current_tags : list tag)
    (text : str) :
  fold_left (markup_step cs) idxs (current_tags, text)
  = (scan_tags_after cs idxs current_tags,
     text ++ render (scan_events cs idxs current_tags)).
Proof.
  revert current_tags text.
  induction idxs as [|i r IH]; intros current_tags text;
    cbn [fold_left scan_events scan_tags_after].
  - unfold render. simpl. rewrite app_nil_r. reflexivity.
  - rewrite (markup_step_events cs current_tags text i), IH, render_app, <- app_assoc.
    reflexivity.
Qed.

(** The text of the scan is the rendering of its events. *)
Lemma markup_scan_events (cs : list cell) :
  markup_scan cs
  = (scan_tags_after cs (seq 0 (List.length cs)) [],
     render (scan_events cs (seq 0 (List.length cs)) [])).
Proof. unfold markup_scan. rewrite markup_fold_events. reflexivity. Qed.

(** *** Tag lists as sets *)

Lemma mem_In (t : tag) (l : list tag) : mem t l = true <-> In t l.
Proof.
  induction l as [|x r IH]; simpl.
  - split; [discriminate | tauto].
  - rewrite orb_true_iff, IH, str_eqb_eq. tauto.
Qed.

Lemma mem_not_In (t : tag) (l : list tag) : mem t l = false <-> ~ In t l.
Proof.
  rewrite <- mem_In. destruct (mem t l); split; intro H; try reflexivity;
    try discriminate; try congruence.
Qed.

Lemma mem_app (t : tag) (a b : list tag) : mem t (a ++ b) = mem t a || mem t b.
Proof. induction a as [|x r IH]; simpl; [reflexivity|]. rewrite IH, orb_assoc. reflexivity. Qed.

Lemma mem_rev (t : tag) (l : list tag) : mem t (rev l) = mem t l.
Proof.
  induction l as [|x r IH]; simpl; [reflexivity|].
  rewrite mem_app, IH. simpl. rewrite orb_false_r, orb_comm. reflexivity.
Qed.

Lemma mem_filter (P : tag -> bool) (t : tag) (l : list tag) :
  mem t (filter P l) = mem t l && P t.
Proof.
  induction l as [|x r IH]; simpl; [reflexivity|].
  destruct (str_eqb x t) eqn:E.
  - apply str_eqb_eq in E. subst x. destruct (P t) eqn:EP; simpl.
    + rewrite str_eqb_refl. reflexivity.
    + rewrite IH, andb_false_r. reflexivity.
  - destruct (P x); simpl; [rewrite E|]; rewrite IH; reflexivity.
Qed.

Lemma mem_remove_first (x t : tag) (l : list tag) :
  NoDup l -> mem x (remove_first t l) = mem x l && negb (str_eqb x t).
Proof.
  induction l as [|y r IH]; intro H; simpl; [reflexivity|].
  inversion H as [|y' r' Hy Hr]; subst.
  destruct (str_eqb y t) eqn:E.
  - apply str_eqb_eq in E. subst y.
    destruct (str_eqb t x) eqn:E2.
    + apply str_eqb_eq in E2. subst x. rewrite str_eqb_refl. simpl.
      apply mem_not_In. exact Hy.
    + rewrite (str_eqb_sym x t), E2. simpl. rewrite andb_true_r. reflexivity.
  - simpl. rewrite (IH Hr).
    destruct (str_eqb y x) eqn:E2; simpl; [|reflexivity].
    apply str_eqb_eq in E2. subst y. rewrite E. reflexivity.
Qed.

Lemma In_remove_first (x t : tag) (l : list tag) : In x (remove_first t l) -> In x l.
Proof.
  induction l as [|y r IH]; simpl; [tauto|].
  destruct (str_eqb y t); simpl; tauto.
Qed.

Lemma NoDup_remove_first (t : tag) (l : list tag) : NoDup l -> NoDup (remove_first t l).
Proof.
  induction l as [|y r IH]; intro H; simpl; [constructor|].
  inversion H as [|y' r' Hy Hr]; subst.
  destruct (str_eqb y t); [exact Hr|].
  constructor; [|exact (IH Hr)].
  intro Hin. apply Hy. exact (In_remove_first _ _ _ Hin).
Qed.

Lemma mem_nil_all (l : list tag) : (forall x, mem x l = false) -> l = [].
Proof.
  destruct l as [|y r]; [reflexivity|]. intro H. specialize (H y). simpl in H.
  rewrite str_eqb_refl in H. discriminate.
Qed.

(** What the loop over the end tags closes and keeps, when the tags of
    [current_tags] are valid and distinct. *)
Lemma close_tags_sets (stack : list tag) :
  forall tags unclosed,
    NoDup stack -> NoDup tags -> forallb valid_name stack = true ->
    exists S U0,
      fst (close_tags stack tags unclosed []) = (S, unclosed ++ U0) /\
      NoDup (closed_tags stack tags) /\
      NoDup (rev S ++ U0) /\
      (forall x, mem x (closed_tags stack tags) = mem x stack && mem x tags) /\
      (forall x, mem x (rev S ++ U0) = mem x stack && negb (mem x tags)).
Proof.
  induction stack as [|t rest IH]; intros tags unclosed Hs Ht Hv.
  - exists [], []. simpl. rewrite app_nil_r. repeat split; try constructor.
  - destruct tags as [|t0 tags0].
    + exists (t :: rest), []. cbn [close_tags closed_tags fst]. rewrite !app_nil_r.
      split; [reflexivity|]. split; [constructor|]. split; [apply NoDup_rev; exact Hs|].
      split; intro x; [simpl; rewrite andb_false_r; reflexivity|].
      rewrite mem_rev. simpl. rewrite andb_true_r. reflexivity.
    + inversion Hs as [|t' r' Hnin Hrest]; subst.
      cbn [forallb] in Hv. apply andb_true_iff in Hv. destruct Hv as [Hvt Hvr].
      cbn [close_tags closed_tags]. rewrite Hvt. cbn [negb].
      set (tg := t0 :: tags0) in *. clearbody tg.
      destruct (mem t tg) eqn:Em; cbn [negb].
      * destruct (IH (remove_first t tg) unclosed Hrest
                     (NoDup_remove_first _ _ Ht) Hvr)
          as (S & U0 & E & N1 & N2 & M1 & M2).
        exists S, U0. rewrite close_tags_text. cbn [fst snd].
        rewrite E. cbn [fst snd]. split; [reflexivity|].
        assert (Hm : mem t rest = false) by (apply mem_not_In; exact Hnin).
        split.
        { constructor; [|exact N1]. apply mem_not_In. rewrite M1, Hm. reflexivity. }
        split; [exact N2|].
        split; intro x.
        { cbn [mem]. rewrite M1, (mem_remove_first _ _ _ Ht).
          destruct (str_eqb t x) eqn:Ex.
          - apply str_eqb_eq in Ex. subst x. rewrite Em. reflexivity.
          - rewrite (str_eqb_sym x t), Ex. cbn [negb orb]. rewrite andb_true_r.
            reflexivity. }
        { rewrite M2, (mem_remove_first _ _ _ Ht). cbn [mem].
          destruct (str_eqb t x) eqn:Ex.
          - apply str_eqb_eq in Ex. subst x. rewrite Em, Hm. reflexivity.
          - rewrite (str_eqb_sym x t), Ex. cbn [negb orb]. rewrite andb_true_r.
            reflexivity. }
      * destruct (IH tg (unclosed ++ [t]) Hrest Ht Hvr)
          as (S & U0 & E & N1 & N2 & M1 & M2).
        exists S, (t :: U0). rewrite E, <- app_assoc. split; [reflexivity|].
        assert (Hm : mem t rest = false) by (apply mem_not_In; exact Hnin).
        split; [exact N1|].
        split.
        { apply (NoDup_Add (Add_app t (rev S) U0)). split; [exact N2|].
          apply mem_not_In. rewrite M2, Hm. reflexivity. }
        split; intro x.
        { rewrite M1. cbn [mem].
          destruct (str_eqb t x) eqn:Ex; [|reflexivity].
          apply str_eqb_eq in Ex. subst x. rewrite Em, Hm. reflexivity. }
        { rewrite mem_app. cbn [mem]. rewrite orb_assoc, (orb_comm (mem x (rev S))),
            <- orb_assoc, <- mem_app, M2.
          destruct (str_eqb t x) eqn:Ex; [|reflexivity].
          apply str_eqb_eq in Ex. subst x. rewrite Em. reflexivity. }
Qed.

(** *** Notes the markup carries *)

Lemma distinct_NoDup (l : list tag) : distinct l = true -> NoDup l.
Proof.
  induction l as [|x r IH]; simpl; intro H; [constructor|].
  apply andb_true_iff in H. destruct H as [H1 H2].
  constructor; [|exact (IH H2)].
  apply mem_not_In. destruct (mem x r); [discriminate|reflexivity].
Qed.

Lemma tags_at_ok (cs : list cell) (i : nat) :
  forallb cell_ok cs = true ->
  NoDup (tags_at cs i) /\ forallb valid_name (tags_at cs i) = true.
Proof.
  intro H. unfold tags_at. destruct (nth_error cs i) as [c|] eqn:E.
  - apply nth_error_In in E. rewrite forallb_forall in H. specialize (H c E).
    unfold cell_ok in H. apply andb_true_iff in H. destruct H as [H _].
    apply andb_true_iff in H. destruct H as [H1 H2].
    split; [apply distinct_NoDup; exact H1 | exact H2].
  - split; [constructor | reflexivity].
Qed.

Lemma tags_before_ok (cs : list cell) (i : nat) :
  forallb cell_ok cs = true ->
  NoDup (tags_before cs i) /\ forallb valid_name (tags_before cs i) = true.
Proof.
  intro H. destruct i as [|j]; simpl.
  - split; [constructor | reflexivity].
  - apply tags_at_ok. exact H.
Qed.

Lemma mem_valid (x : tag) (l : list tag) :
  forallb valid_name l = true -> mem x l = true -> valid_name x = true.
Proof.
  intros H Hm. rewrite forallb_forall in H. apply H. apply mem_In. exact Hm.
Qed.

(** One turn of the scan, on the sets of tags. *)
Lemma step_sets (cs : list cell) (current_tags : list tag) (i : nat) :
  forallb cell_ok cs = true ->
  NoDup current_tags ->
  (forall x, mem x current_tags = mem x (tags_before cs i)) ->
  let L := closed_tags (rev current_tags) (get_toggled_tags cs i false) in
  let O := filter valid_name (rev (get_toggled_tags cs i true)) in
  NoDup L /\
  (forall x, mem x L = mem x (tags_before cs i) && negb (mem x (tags_at cs i))) /\
  NoDup O /\
  (forall x, mem x O = mem x (tags_at cs i) && negb (mem x (tags_before cs i))) /\
  NoDup (step_tags cs current_tags i) /\
  (forall x, mem x (step_tags cs current_tags i) = mem x (tags_at cs i)).
Proof.
  intros Hok Hnd Hmem L O.
  destruct (tags_at_ok cs i Hok) as [Na Va].
  destruct (tags_before_ok cs i Hok) as [Nb Vb].
  assert (Hv : forallb valid_name (rev current_tags) = true).
  { apply forallb_forall. intros x Hx. apply (mem_valid x (tags_before cs i) Vb).
    rewrite <- Hmem. apply mem_In. apply in_rev. exact Hx. }
  assert (Noff : NoDup (get_toggled_tags cs i false))
    by (apply NoDup_filter; exact Nb).
  destruct (close_tags_sets (rev current_tags) (get_toggled_tags cs i false) []
              (NoDup_rev Hnd) Noff Hv) as (S & U0 & E & N1 & N2 & M1 & M2).
  assert (Ek : kept_tags current_tags (get_toggled_tags cs i false) = rev S ++ U0).
  { unfold kept_tags.
    destruct (close_tags (rev current_tags) (get_toggled_tags cs i false) [] [])
      as [[a b] c]. cbn [fst app] in E. inversion E. reflexivity. }
  assert (ML : forall x, mem x L = mem x (tags_before cs i) && negb (mem x (tags_at cs i))).
  { intro x. unfold L. rewrite M1, mem_rev, Hmem. unfold get_toggled_tags.
    rewrite mem_filter. destruct (mem x (tags_before cs i)), (mem x (tags_at cs i));
      reflexivity. }
  assert (MO : forall x, mem x O = mem x (tags_at cs i) && negb (mem x (tags_before cs i))).
  { intro x. unfold O, get_toggled_tags. rewrite mem_filter, mem_rev, mem_filter.
    destruct (mem x (tags_at cs i)) eqn:Ea; [|reflexivity].
    rewrite (mem_valid x _ Va Ea), andb_true_r. reflexivity. }
  assert (MK : forall x, mem x (rev S ++ U0)
                         = mem x (tags_before cs i) && mem x (tags_at cs i)).
  { intro x. rewrite M2, mem_rev, Hmem. unfold get_toggled_tags. rewrite mem_filter.
    destruct (mem x (tags_before cs i)), (mem x (tags_at cs i)); reflexivity. }
  assert (NO : NoDup O).
  { unfold O, get_toggled_tags. apply NoDup_filter, NoDup_rev, NoDup_filter. exact Na. }
  split; [exact N1|]. split; [exact ML|]. split; [exact NO|]. split; [exact MO|].
  unfold step_tags. fold O. rewrite Ek. split.
  - apply NoDup_app; [exact N2 | exact NO |].
    intros a Ha Hb. apply mem_In in Ha. apply mem_In in Hb.
    rewrite MK in Ha. rewrite MO in Hb.
    destruct (mem a (tags_before cs i)), (mem a (tags_at cs i)); discriminate.
  - intro x. rewrite mem_app, MK, MO.
    destruct (mem x (tags_before cs i)), (mem x (tags_at cs i)); reflexivity.
Qed.

(** *** Dicts *)

Lemma dict_get_set (x t : tag) (v : nat) (d : dict) :
  dict_get x (dict_set t v d) = if str_eqb t x then Some v else dict_get x d.
Proof.
  induction d as [|[k w] r IH]; simpl.
  - reflexivity.
  - destruct (str_eqb k t) eqn:E1; simpl.
    + apply str_eqb_eq in E1. subst k. destruct (str_eqb t x); reflexivity.
    + rewrite IH. destruct (str_eqb k x) eqn:E2; [|reflexivity].
      apply str_eqb_eq in E2. subst k. rewrite (str_eqb_sym t x), E1. reflexivity.
Qed.

Lemma dict_get_None (x : tag) (d : dict) : ~ In x (map fst d) -> dict_get x d = None.
Proof.
  induction d as [|[k w] r IH]; simpl; intro H; [reflexivity|].
  destruct (str_eqb k x) eqn:E.
  - apply str_eqb_eq in E. tauto.
  - apply IH. tauto.
Qed.

Lemma dict_get_del (x t : tag) (d : dict) :
  NoDup (map fst d) ->
  dict_get x (dict_del t d) = if str_eqb t x then None else dict_get x d.
Proof.
  induction d as [|[k w] r IH]; simpl; intro H.
  - destruct (str_eqb t x); reflexivity.
  - inversion H as [|k' r' Hk Hr]; subst.
    destruct (str_eqb k t) eqn:E1; simpl.
    + apply str_eqb_eq in E1. subst k. destruct (str_eqb t x) eqn:E2; [|reflexivity].
      apply str_eqb_eq in E2. subst x. apply dict_get_None. exact Hk.
    + rewrite (IH Hr). destruct (str_eqb k x) eqn:E2; [|reflexivity].
      apply str_eqb_eq in E2. subst k. rewrite (str_eqb_sym t x), E1. reflexivity.
Qed.

Lemma dict_set_keys (k t : tag) (v : nat) (d : dict) :
  In k (map fst (dict_set t v d)) -> k = t \/ In k (map fst d).
Proof.
  induction d as [|[k' w] r IH]; simpl.
  - intros [H|[]]. left. symmetry. exact H.
  - destruct (str_eqb k' t); simpl; tauto.
Qed.

Lemma dict_set_NoDup (t : tag) (v : nat) (d : dict) :
  NoDup (map fst d) -> NoDup (map fst (dict_set t v d)).
Proof.
  induction d as [|[k' w] r IH]; simpl; intro H.
  - constructor; [tauto | constructor].
  - inversion H as [|a b Hk Hr]; subst.
    destruct (str_eqb k' t) eqn:E; simpl; [constructor; assumption|].
    constructor; [|exact (IH Hr)].
    intro Hin. apply dict_set_keys in Hin. destruct Hin as [Hin|Hin]; [|tauto].
    subst k'. rewrite str_eqb_refl in E. discriminate.
Qed.

Lemma dict_del_keys (k t : tag) (d : dict) :
  In k (map fst (dict_del t d)) -> In k (map fst d).
Proof.
  induction d as [|[k' w] r IH]; simpl; [tauto|].
  destruct (str_eqb k' t); simpl; tauto.
Qed.

Lemma dict_del_NoDup (t : tag) (d : dict) :
  NoDup (map fst d) -> NoDup (map fst (dict_del t d)).
Proof.
  induction d as [|[k' w] r IH]; simpl; intro H; [constructor|].
  inversion H as [|a b Hk Hr]; subst.
  destruct (str_eqb k' t); simpl; [exact Hr|].
  constructor; [|exact (IH Hr)].
  intro Hin. apply Hk. exact (dict_del_keys _ _ _ Hin).
Qed.

(** *** The decoder follows the scan *)

Lemma nth_error_map_range {A : Type} (f : A -> A) (s e : nat) (l : list A) :
  forall k j,
    nth_error (map_range f s e k l) j
    = option_map (fun x => if (s <=? k + j)%nat && (k + j <? e)%nat then f x else x)
                 (nth_error l j).
Proof.
  induction l as [|x r IH]; intros k j; simpl.
  - destruct j; reflexivity.
  - destruct j as [|j]; simpl.
    + rewrite Nat.add_0_r. reflexivity.
    + rewrite IH. replace (S k + j)%nat with (k + S j)%nat by lia. reflexivity.
Qed.

Lemma length_map_range {A : Type} (f : A -> A) (s e : nat) (l : list A) :
  forall k, List.length (map_range f s e k l) = List.length l.
Proof. induction l as [|x r IH]; intro k; simpl; [reflexivity|]. rewrite IH. reflexivity. Qed.

Lemma content_add_tag (t : tag) (c : cell) : cell_content (add_tag_to_cell t c) = cell_content c.
Proof. unfold add_tag_to_cell. destruct (mem t (cell_tags c)); reflexivity. Qed.

Lemma contents_map_range (t : tag) (s e : nat) (l : list cell) :
  forall k, map cell_content (map_range (add_tag_to_cell t) s e k l) = map cell_content l.
Proof.
  induction l as [|x r IH]; intro k; simpl; [reflexivity|].
  rewrite IH. destruct ((s <=? k)%nat && (k <? e)%nat); [rewrite content_add_tag|];
    reflexivity.
Qed.

Lemma mem_add_tag (x t : tag) (c : cell) :
  mem x (cell_tags (add_tag_to_cell t c)) = mem x (cell_tags c) || str_eqb t x.
Proof.
  unfold add_tag_to_cell. destruct (mem t (cell_tags c)) eqn:E; simpl.
  - destruct (str_eqb t x) eqn:Ex; [|rewrite orb_false_r; reflexivity].
    apply str_eqb_eq in Ex. subst x. rewrite E. reflexivity.
  - rewrite mem_app. simpl. rewrite orb_false_r. reflexivity.
Qed.

Lemma mem_tags_at_apply (b : TextBuffer) (t x : tag) (m e j : nat) :
  mem t TAG_DEFINITIONS = true -> (m <= e)%nat -> (j < List.length (cells b))%nat ->
  mem x (tags_at (cells (apply_tag_by_name b t m e)) j)
  = mem x (tags_at (cells b) j) || ((m <=? j)%nat && (j <? e)%nat && str_eqb t x).
Proof.
  intros Ht Hme Hj. unfold apply_tag_by_name. rewrite Ht. cbn [cells].
  rewrite Nat.min_l, Nat.max_r by lia.
  unfold tags_at. rewrite nth_error_map_range. cbn [Nat.add].
  destruct (nth_error (cells b) j) as [c|] eqn:E.
  - cbn [option_map]. destruct ((m <=? j)%nat && (j <? e)%nat); cbn [andb].
    + apply mem_add_tag.
    + rewrite orb_false_r. reflexivity.
  - apply nth_error_None in E. lia.
Qed.

Lemma cells_apply (b : TextBuffer) (t : tag) (m e : nat) :
  List.length (cells (apply_tag_by_name b t m e)) = List.length (cells b) /\
  map cell_content (cells (apply_tag_by_name b t m e)) = map cell_content (cells b).
Proof.
  unfold apply_tag_by_name. destruct (mem t TAG_DEFINITIONS); [|split; reflexivity].
  cbn [cells]. split; [apply length_map_range | apply contents_map_range].
Qed.

Lemma track_ext (cs D : list cell) (i : nat) (P Q : tag -> bool) (open : dict) :
  (forall x, P x = Q x) -> track cs D i P open -> track cs D i Q open.
Proof.
  intros HPQ (H1 & H2 & H3 & H4). split; [exact H1|]. split; [exact H2|].
  split; [exact H3|]. intro t. specialize (H4 t). rewrite <- HPQ. exact H4.
Qed.

(** An end marker: the tag is applied from its mark to the end. *)
Lemma track_close (cs : list cell) (b : TextBuffer) (i : nat) (P : tag -> bool)
    (open : dict) (t : tag) (m : nat) :
  track cs (cells b) i P open ->
  dict_get t open = Some m ->
  track cs (cells (apply_tag_by_name b t m i)) i
        (fun x => P x && negb (str_eqb t x)) (dict_del t open).
Proof.
  intros (H1 & H2 & H3 & H4) Hg.
  pose proof (H4 t) as Ht. rewrite Hg in Ht. destruct Ht as (Pt & Vt & Hm & Hin & Hout).
  destruct (cells_apply b t m i) as [L1 L2].
  split; [rewrite L1; exact H1|]. split; [rewrite L2; exact H2|].
  split; [apply dict_del_NoDup; exact H3|].
  intro x. rewrite (dict_get_del _ _ _ H3).
  destruct (str_eqb t x) eqn:Ex.
  - apply str_eqb_eq in Ex. subst x. split; [rewrite andb_false_r; reflexivity|].
    intros j Hj. rewrite mem_tags_at_apply by (try assumption; lia).
    rewrite str_eqb_refl, andb_true_r.
    destruct (Nat.lt_ge_cases j m) as [Hlt|Hge].
    + rewrite (Hout j Hlt).
      replace (m <=? j)%nat with false by (symmetry; apply Nat.leb_gt; lia).
      rewrite orb_false_r. reflexivity.
    + destruct (Hin j (conj Hge Hj)) as [Hc Hd]. rewrite Hc, Hd.
      replace (m <=? j)%nat with true by (symmetry; apply Nat.leb_le; lia).
      replace (j <? i)%nat with true by (symmetry; apply Nat.ltb_lt; lia).
      reflexivity.
  - specialize (H4 x). rewrite andb_true_r.
    assert (Hsame : forall j, (j < i)%nat ->
              mem x (tags_at (cells (apply_tag_by_name b t m i)) j)
              = mem x (tags_at (cells b) j)).
    { intros j Hj. rewrite mem_tags_at_apply by (try assumption; lia).
      rewrite Ex, andb_false_r, orb_false_r. reflexivity. }
    destruct (dict_get x open) as [mx|].
    + destruct H4 as (Px & Vx & Hmx & Hinx & Houtx).
      split; [exact Px|]. split; [exact Vx|]. split; [exact Hmx|].
      split; intros j Hj; rewrite Hsame by lia; auto.
    + destruct H4 as (Px & Hx). split; [exact Px|].
      intros j Hj. rewrite Hsame by lia. auto.
Qed.

(** A start marker: the mark is made at the end. *)
Lemma track_open (cs D : list cell) (i : nat) (P : tag -> bool)
    (open : dict) (t : tag) :
  track cs D i P open ->
  dict_get t open = None ->
  mem t TAG_DEFINITIONS = true ->
  track cs D i (fun x => P x || str_eqb t x) (dict_set t i open).
Proof.
  intros (H1 & H2 & H3 & H4) Hg Vt.
  split; [exact H1|]. split; [exact H2|]. split; [apply dict_set_NoDup; exact H3|].
  intro x. rewrite dict_get_set.
  destruct (str_eqb t x) eqn:Ex.
  - apply str_eqb_eq in Ex. subst x. specialize (H4 t). rewrite Hg in H4.
    destruct H4 as (Pt & Ht). split; [rewrite orb_true_r; reflexivity|].
    split; [exact Vt|]. split; [lia|]. split; [intros j Hj; lia|exact Ht].
  - specialize (H4 x). rewrite orb_false_r. exact H4.
Qed.

Lemma firstn_S_nth_error {A : Type} (l : list A) (i : nat) (x : A) :
  nth_error l i = Some x -> firstn (S i) l = firstn i l ++ [x].
Proof.
  revert i. induction l as [|y r IH]; intros [|i] H; simpl in *; try discriminate.
  - inversion H. reflexivity.
  - rewrite (IH i H). reflexivity.
Qed.

Lemma tags_at_app_l (D E : list cell) (j : nat) :
  (j < List.length D)%nat -> tags_at (D ++ E) j = tags_at D j.
Proof. intro H. unfold tags_at. rewrite nth_error_app1 by exact H. reflexivity. Qed.

(** A cell of content: it comes without a tag. *)
Lemma track_content (cs D : list cell) (i : nat) (P : tag -> bool) (open : dict)
    (c : cell) :
  track cs D i P open ->
  nth_error cs i = Some c ->
  (forall x, P x = mem x (cell_tags c)) ->
  track cs (D ++ [mkCell (cell_content c) []]) (S i) P open.
Proof.
  intros (H1 & H2 & H3 & H4) Hc HP.
  assert (Hi : forall x, mem x (tags_at (D ++ [mkCell (cell_content c) []]) i) = false).
  { intro x. unfold tags_at. rewrite nth_error_app2 by lia.
    rewrite H1, Nat.sub_diag. reflexivity. }
  assert (Hci : forall x, mem x (tags_at cs i) = P x).
  { intro x. unfold tags_at. rewrite Hc. symmetry. apply HP. }
  split; [rewrite length_app, H1; simpl; lia|].
  split.
  { rewrite map_app, H2. cbn [map cell_content].
    rewrite (firstn_S_nth_error (map cell_content cs) i (cell_content c)); [reflexivity|].
    rewrite nth_error_map, Hc. reflexivity. }
  split; [exact H3|].
  intro t. specialize (H4 t). destruct (dict_get t open) as [m|].
  - destruct H4 as (Pt & Vt & Hm & Hin & Hout).
    split; [exact Pt|]. split; [exact Vt|]. split; [lia|]. split.
    + intros j Hj. destruct (Nat.eq_dec j i) as [->|Hne].
      * rewrite Hi, Hci. split; [exact Pt|reflexivity].
      * rewrite tags_at_app_l by lia. apply Hin. lia.
    + intros j Hj. rewrite tags_at_app_l by lia. apply Hout. exact Hj.
  - destruct H4 as (Pt & Ht). split; [exact Pt|].
    intros j Hj. destruct (Nat.eq_dec j i) as [->|Hne].
    + rewrite Hi, Hci, Pt. reflexivity.
    + rewrite tags_at_app_l by lia. apply Ht. lia.
Qed.

(** The end markers of a turn, then its start markers. *)
Lemma eval_closes (cs : list cell) (i : nat) (L : list tag) :
  forall P open st rest,
    track cs (cells (buffer st)) i P open ->
    NoDup L ->
    (forall t, In t L -> P t = true) ->
    exists open' st',
      eval (map Toggle L ++ rest) open st = eval rest open' st' /\
      track cs (cells (buffer st')) i (fun x => P x && negb (mem x L)) open'.
Proof.
  induction L as [|t L' IH]; intros P open st rest Htr Hnd HP.
  - exists open, st. split; [reflexivity|].
    apply (track_ext cs _ i P); [|exact Htr].
    intro x. simpl. rewrite andb_true_r. reflexivity.
  - inversion Hnd as [|a b Hnin Hnd']; subst.
    pose proof Htr as (H1 & _ & _ & H4).
    specialize (H4 t). destruct (dict_get t open) as [m|] eqn:Eg.
    + pose proof (track_close cs (buffer st) i P open t m Htr Eg) as Htr'.
      destruct (IH (fun x => P x && negb (str_eqb t x)) (dict_del t open)
                   (set_buffer (apply_tag_by_name (buffer st) t m i) st) rest)
        as (open' & st' & E & Htr'').
      * exact Htr'.
      * exact Hnd'.
      * intros t' Hin. rewrite (HP t' (or_intror Hin)).
        destruct (str_eqb t t') eqn:Ex; [|reflexivity].
        apply str_eqb_eq in Ex. subst t'. contradiction.
      * exists open', st'. split.
        { cbn [map app eval]. unfold toggle. rewrite Eg. cbn [fst snd].
          unfold get_char_count. rewrite H1. exact E. }
        { apply (track_ext cs _ i (fun x => (P x && negb (str_eqb t x)) && negb (mem x L')));
            [|exact Htr''].
          intro x. cbn [mem]. rewrite negb_orb, andb_assoc. reflexivity. }
    + destruct H4 as [Pt _]. rewrite (HP t (or_introl eq_refl)) in Pt. discriminate.
Qed.

Lemma eval_opens (cs : list cell) (i : nat) (L : list tag) :
  forall P open st rest,
    track cs (cells (buffer st)) i P open ->
    NoDup L ->
    (forall t, In t L -> P t = false /\ mem t TAG_DEFINITIONS = true) ->
    exists open',
      eval (map Toggle L ++ rest) open st = eval rest open' st /\
      track cs (cells (buffer st)) i (fun x => P x || mem x L) open'.
Proof.
  induction L as [|t L' IH]; intros P open st rest Htr Hnd HP.
  - exists open. split; [reflexivity|].
    apply (track_ext cs _ i P); [|exact Htr].
    intro x. simpl. rewrite orb_false_r. reflexivity.
  - inversion Hnd as [|a b Hnin Hnd']; subst.
    pose proof Htr as (H1 & _ & _ & H4).
    destruct (HP t (or_introl eq_refl)) as [Pt Vt].
    specialize (H4 t). destruct (dict_get t open) as [m|] eqn:Eg.
    + destruct H4 as [Pt' _]. rewrite Pt in Pt'. discriminate.
    + pose proof (track_open cs _ i P open t Htr Eg Vt) as Htr'.
      destruct (IH (fun x => P x || str_eqb t x) (dict_set t i open) st rest)
        as (open' & E & Htr'').
      * exact Htr'.
      * exact Hnd'.
      * intros t' Hin. destruct (HP t' (or_intror Hin)) as [Pt' Vt'].
        split; [|exact Vt']. rewrite Pt'.
        destruct (str_eqb t t') eqn:Ex; [|reflexivity].
        apply str_eqb_eq in Ex. subst t'. contradiction.
      * exists open'. split.
        { cbn [map app eval]. unfold toggle. rewrite Eg. cbn [fst snd].
          unfold get_char_count. rewrite H1. exact E. }
        { apply (track_ext cs _ i (fun x => (P x || str_eqb t x) || mem x L'));
            [|exact Htr''].
          intro x. cbn [mem]. rewrite orb_assoc. reflexivity. }
Qed.

Lemma eval_content (c : content) (rest : list event) (open : dict) (st : NoteBuffer) :
  eval (content_event c :: rest) open st = eval rest open (at_end [c] st).
Proof. destruct c as [x|[b|]]; reflexivity. Qed.

Lemma valid_in_table (t : tag) : valid_name t = true -> mem t TAG_DEFINITIONS = true.
Proof. unfold valid_name. intro H. apply andb_true_iff in H. tauto. Qed.

(** One turn of the scan, decoded. *)
Lemma step_track (cs : list cell) (i : nat) (current_tags : list tag) (open : dict)
    (st : NoteBuffer) (rest : list event) (c : cell) :
  forallb cell_ok cs = true ->
  nth_error cs i = Some c ->
  NoDup current_tags ->
  (forall x, mem x current_tags = mem x (tags_before cs i)) ->
  track cs (cells (buffer st)) i (fun x => mem x (tags_before cs i)) open ->
  exists open' st',
    eval (step_events cs current_tags i ++ rest) open st = eval rest open' st' /\
    track cs (cells (buffer st')) (S i) (fun x => mem x (tags_before cs (S i))) open' /\
    (forall t m, dict_get t open' = Some m -> (m <= i)%nat).
Proof.
  intros Hok Hc Hnd Hmem Htr.
  destruct (step_sets cs current_tags i Hok Hnd Hmem) as (NL & ML & NO & MO & _ & _).
  destruct (tags_at_ok cs i Hok) as [Na Va].
  unfold step_events. rewrite Hc.
  set (L := closed_tags (rev current_tags) (get_toggled_tags cs i false)) in *.
  set (O := filter valid_name (rev (get_toggled_tags cs i true))) in *.
  rewrite <- !app_assoc.
  destruct (eval_closes cs i L _ open st
              (map Toggle O ++ [content_event (cell_content c)] ++ rest) Htr NL)
    as (open1 & st1 & E1 & T1).
  { intros t Hin. apply mem_In in Hin. rewrite ML in Hin.
    apply andb_true_iff in Hin. tauto. }
  destruct (eval_opens cs i O _ open1 st1 ([content_event (cell_content c)] ++ rest) T1 NO)
    as (open2 & E2 & T2).
  { intros t Hin. apply mem_In in Hin. pose proof Hin as Hin'. rewrite MO in Hin.
    apply andb_true_iff in Hin. destruct Hin as [Ha Hb].
    split.
    - destruct (mem t (tags_before cs i)); [discriminate|reflexivity].
    - apply valid_in_table. exact (mem_valid t _ Va Ha). }
  exists open2, (at_end [cell_content c] st1). split; [|split].
  - rewrite E1, E2. cbn [app]. apply eval_content.
  - rewrite cells_at_end. cbn [map].
    apply track_content; [|exact Hc|].
    + apply (track_ext cs _ i
               (fun x => (mem x (tags_before cs i) && negb (mem x L)) || mem x O));
        [|exact T2].
      intro x. rewrite ML, MO. cbn [tags_before].
      destruct (mem x (tags_before cs i)), (mem x (tags_at cs i)); reflexivity.
    + intro x. cbn [tags_before]. unfold tags_at. rewrite Hc. reflexivity.
  - intros t m Hg. destruct T2 as (_ & _ & _ & T4). specialize (T4 t).
    rewrite Hg in T4. tauto.
Qed.

(** The scan from cell [i] on, decoded. *)
Lemma scan_track (cs : list cell) (k : nat) :
  forall i current_tags open st,
    forallb cell_ok cs = true ->
    (i + k = List.length cs)%nat ->
    NoDup current_tags ->
    (forall x, mem x current_tags = mem x (tags_before cs i)) ->
    track cs (cells (buffer st)) i (fun x => mem x (tags_before cs i)) open ->
    (forall t m, dict_get t open = Some m -> (m < i)%nat) ->
    exists open',
      track cs (cells (buffer (eval (scan_events cs (seq i k) current_tags) open st)))
            (List.length cs) (fun x => mem x (tags_before cs (List.length cs))) open' /\
      (forall x, mem x (scan_tags_after cs (seq i k) current_tags)
                 = mem x (tags_before cs (List.length cs))) /\
      (forall t m, dict_get t open' = Some m -> (m < List.length cs)%nat).
Proof.
  induction k as [|k IH]; intros i current_tags open st Hok Hik Hnd Hmem Htr Hmk.
  - replace (List.length cs) with i by lia. exists open.
    split; [exact Htr|]. split; [exact Hmem | exact Hmk].
  - cbn [seq scan_events scan_tags_after].
    destruct (nth_error cs i) as [c|] eqn:Hc;
      [|apply nth_error_None in Hc; lia].
    destruct (step_track cs i current_tags open st
                (scan_events cs (seq (S i) k) (step_tags cs current_tags i)) c
                Hok Hc Hnd Hmem Htr) as (open1 & st1 & E & T1 & M1).
    destruct (step_sets cs current_tags i Hok Hnd Hmem) as (_ & _ & _ & _ & NS & MS).
    rewrite E. apply (IH (S i) _ open1 st1 Hok); [lia | exact NS | exact MS | exact T1 |].
    intros t m Hg. specialize (M1 t m Hg). lia.
Qed.

(** The events of the scan are events the decoder reads back. *)
Lemma closed_tags_valid (stack tags : list tag) :
  forallb valid_name (closed_tags stack tags) = true.
Proof.
  revert tags. induction stack as [|t rest IH]; intro tags; simpl; [reflexivity|].
  destruct tags as [|t0 tags0]; [reflexivity|].
  destruct (valid_name t) eqn:Ev; cbn [negb]; [|apply IH].
  destruct (negb (mem t (t0 :: tags0))); [apply IH|].
  simpl. rewrite Ev. apply IH.
Qed.

Lemma valid_name_ok (t : tag) : valid_name t = true -> name_ok t = true.
Proof.
  intro H. apply valid_in_table in H. apply mem_In in H.
  simpl in H. repeat (destruct H as [H|H]; [subst t; reflexivity|]). destruct H.
Qed.

Lemma toggles_ok (l : list tag) :
  forallb valid_name l = true -> forallb event_ok (map Toggle l) = true.
Proof.
  induction l as [|t r IH]; simpl; intro H; [reflexivity|].
  apply andb_true_iff in H. destruct H as [H1 H2].
  rewrite (valid_name_ok t H1), (IH H2). reflexivity.
Qed.

Lemma forallb_filter_id {A : Type} (P : A -> bool) (l : list A) :
  forallb P (filter P l) = true.
Proof.
  induction l as [|x r IH]; simpl; [reflexivity|].
  destruct (P x) eqn:E; simpl; [rewrite E|]; exact IH.
Qed.

Lemma scan_events_ok (cs : list cell) (idxs : list nat) :
  forallb cell_ok cs = true ->
  forall current_tags, forallb event_ok (scan_events cs idxs current_tags) = true.
Proof.
  intro Hok. induction idxs as [|i r IH]; intro current_tags; cbn [scan_events];
    [reflexivity|].
  rewrite forallb_app, IH, andb_true_r. unfold step_events.
  rewrite !forallb_app, (toggles_ok _ (closed_tags_valid _ _)),
    (toggles_ok _ (forallb_filter_id _ _)). cbn [andb].
  destruct (nth_error cs i) as [c|] eqn:Hc; [|reflexivity].
  apply nth_error_In in Hc. rewrite forallb_forall in Hok. specialize (Hok c Hc).
  unfold cell_ok in Hok. apply andb_true_iff in Hok. destruct Hok as [_ Hc'].
  cbn [forallb]. rewrite andb_true_r.
  destruct (cell_content c) as [x|[b|]]; [exact Hc'|reflexivity|reflexivity].
Qed.

Lemma tagged_ext (t : tag) (D : list cell) :
  forall cs,
    List.length D = List.length cs ->
    (forall j, (j < List.length cs)%nat -> mem t (tags_at D j) = mem t (tags_at cs j)) ->
    map (fun c => mem t (cell_tags c)) D = map (fun c => mem t (cell_tags c)) cs.
Proof.
  induction D as [|x D' IH]; intros [|y cs'] HL H; simpl in HL; try discriminate.
  - reflexivity.
  - cbn [map]. f_equal.
    + apply (H 0%nat). simpl. lia.
    + apply IH; [lia|]. intros j Hj. apply (H (S j)). simpl. lia.
Qed.

Lemma track_start (cs : list cell) : track cs [] 0 (fun x => mem x (tags_before cs 0)) [].
Proof.
  split; [reflexivity|]. split; [reflexivity|]. split; [constructor|].
  intro t. simpl. split; [reflexivity|]. intros j Hj. lia.
Qed.

Section RoundTrip.

Variable get_url_start : str -> option Z.

(** [set_text('')] inside the guarded block leaves no cell. *)
Lemma set_text_empty (st : NoteBuffer) :
  internal_action_count st <> 0 ->
  exists st1,
    buffer_delete 0 (get_char_count (buffer st)) st = Done tt st1 /\
    cells (buffer st1) = [] /\
    internal_action_count st1 <> 0.
Proof.
  intro H. rewrite (buffer_delete_guarded 0 _ st H).
  rewrite Nat.min_0_l, Nat.max_0_l.
  destruct (0 =? get_char_count (buffer st))%nat eqn:E.
  - exists st. split; [reflexivity|]. split; [|exact H].
    apply Nat.eqb_eq in E. unfold get_char_count in E.
    apply length_zero_iff_nil. symmetry. exact E.
  - eexists. split; [reflexivity|]. split; [|exact H].
    unfold raw_delete, get_char_count. cbn [buffer set_buffer cells].
    rewrite skipn_all. reflexivity.
Qed.

(** X1.  The markup of a note without [#], whose tags are tags of the table
    and whose last cell has no tag, decodes to the contents and the tags
    of the note, on any buffer. *)
Theorem markup_round_trip_plain (st st0 : NoteBuffer) :
  plain_note (cells (buffer st)) = true ->
  0 <= internal_action_count st0 ->
  exists text,
    get_internal_markup st = Done text st /\
    exists fuel st',
      set_from_internal_markup get_url_start fuel text st0 = Some (Done tt st') /\
      contents st' = contents st /\
      forall t, tagged t st' = tagged t st.
Proof.
  intros Hplain Hc.
  set (cs := cells (buffer st)) in *.
  unfold plain_note in Hplain. apply andb_true_iff in Hplain.
  destruct Hplain as [Hok Hlast].
  assert (Hl : tags_before cs (List.length cs) = [])
    by (destruct (tags_before cs (List.length cs)); [reflexivity|discriminate]).
  set (evs := scan_events cs (seq 0 (List.length cs)) []).
  assert (H0 : internal_action_count (enter_internal_action st0) <> 0) by (simpl; lia).
  destruct (set_text_empty _ H0) as (st1 & E1 & D1 & C1).
  destruct (scan_track cs (List.length cs) 0 [] [] st1 Hok eq_refl (NoDup_nil _)
              (fun x => eq_refl)) as (open' & T & MT & _).
  { rewrite D1. apply track_start. }
  { intros t m Hg. discriminate. }
  fold evs in T.
  exists (render evs). split.
  - unfold get_internal_markup. fold cs. rewrite markup_scan_events. fold evs.
    rewrite (mem_nil_all (scan_tags_after cs (seq 0 (List.length cs)) [])); [reflexivity|].
    intro x. rewrite MT, Hl. reflexivity.
  - destruct (run_events get_url_start evs [] [] [] st1 C1 eq_refl
                (scan_events_ok cs _ Hok [])) as [fuel Hrun].
    cbn [app] in Hrun. change (py_len (@nil char)) with 0 in Hrun.
    rewrite interp_flush in Hrun. cbn [map at_end] in Hrun.
    exists fuel, (exit_internal_action false (eval evs [] st1)). split.
    + unfold set_from_internal_markup. rewrite E1, Hrun. reflexivity.
    + subst evs. destruct T as (T1 & T2 & _ & T4).
      unfold contents, tagged. rewrite exit_buffer. fold cs. split.
      * transitivity (firstn (List.length cs) (map cell_content cs)); [exact T2|].
        apply firstn_all2. rewrite length_map. lia.
      * intro t. apply tagged_ext; [exact T1|].
        intros j Hj. specialize (T4 t). destruct (dict_get t open') as [m|].
        -- destruct T4 as [Pt _]. rewrite Hl in Pt. discriminate.
        -- destruct T4 as [_ Ht]. apply Ht. exact Hj.
Qed.

End RoundTrip.

(** ** Markups that do not come back *)

Section Stuck.

Variable get_url_start : str -> option Z.

Lemma markup_turn_unknown (text : str) (i : Z) (open : dict) (st : NoteBuffer) :
  (py_find text (Ch "#") i =? -1) = false ->
  unknown_token text (py_find text (Ch "#") i) = true ->
  exists st', markup_turn get_url_start text i open st = Done (Some (i, open)) st'.
Proof.
  intros Hf Hu. unfold unknown_token in Hu.
  apply andb_true_iff in Hu. destruct Hu as [Hu H4].
  apply andb_true_iff in Hu. destruct Hu as [Hu H3].
  apply andb_true_iff in Hu. destruct Hu as [H1 H2].
  apply negb_true_iff in H1, H2, H3, H4.
  unfold markup_turn. rewrite Hf.
  destruct (insert_at_end_returns get_url_start
              (py_slice text i (py_find text (Ch "#") i)) st) as [st' E].
  exists st'. unfold bind. rewrite E, H1, H2, H3, H4. reflexivity.
Qed.

(** X3.  When the [#] the decoder finds next starts none of [##],
    [#check], [#bullet] and [#tag], the turn leaves [current_index] where
    it was, and no number of turns ends the loop; so
    [set_from_internal_markup] does not return on a text whose first [#]
    is such a one. *)
Theorem unknown_token_never_ends (text : str) (i : Z) :
  (py_find text (Ch "#") i =? -1) = false ->
  unknown_token text (py_find text (Ch "#") i) = true ->
  (forall fuel open st, markup_loop get_url_start fuel text i open st = None) /\
  (i = 0 -> forall fuel st, set_from_internal_markup get_url_start fuel text st = None).
Proof.
  intros Hf Hu.
  assert (H : forall fuel open st, markup_loop get_url_start fuel text i open st = None).
  { induction fuel as [|fuel IH]; intros open st; cbn [markup_loop]; [reflexivity|].
    destruct (markup_turn_unknown text i open st Hf Hu) as [st' E].
    rewrite E. apply IH. }
  split; [exact H|].
  intros -> fuel st. unfold set_from_internal_markup.
  destruct (buffer_delete_returns 0
              (get_char_count (buffer (enter_internal_action st)))
              (enter_internal_action st)) as [s1 E].
  rewrite E, H. reflexivity.
Qed.

End Stuck.

Lemma text_only_tags (cs : list cell) (i : nat) :
  text_only cs = true -> tags_at cs i = [].
Proof.
  intro H. unfold tags_at. destruct (nth_error cs i) as [c|] eqn:E; [|reflexivity].
  apply nth_error_In in E. unfold text_only in H. rewrite forallb_forall in H.
  specialize (H c E). destruct (cell_content c); [|discriminate].
  destruct (cell_tags c); [reflexivity|discriminate].
Qed.

Lemma text_only_step (cs : list cell) (i : nat) :
  text_only cs = true ->
  step_tags cs [] i = [] /\
  step_events cs [] i = match nth_error cs i with
                        | Some c => [content_event (cell_content c)]
                        | None => []
                        end.
Proof.
  intro H.
  assert (Ht : forall b, get_toggled_tags cs i b = []).
  { intro b. unfold get_toggled_tags.
    assert (Hb : tags_before cs i = [])
      by (destruct i; [reflexivity|apply text_only_tags; exact H]).
    rewrite Hb, (text_only_tags cs i H). destruct b; reflexivity. }
  unfold step_tags, step_events, kept_tags. rewrite !Ht. split; reflexivity.
Qed.

Lemma text_only_scan (cs : list cell) (k : nat) :
  text_only cs = true ->
  forall i,
    scan_tags_after cs (seq i k) [] = [] /\
    render (scan_events cs (seq i k) []) = text_of (firstn k (skipn i cs)).
Proof.
  intro H. induction k as [|k IH]; intro i; cbn [seq scan_tags_after scan_events].
  - split; reflexivity.
  - destruct (text_only_step cs i H) as [E1 E2]. rewrite E1, E2.
    destruct (IH (S i)) as [IH1 IH2]. split; [exact IH1|].
    rewrite render_app, IH2.
    destruct (nth_error cs i) as [c|] eqn:Ec.
    + assert (Es : skipn i cs = c :: skipn (S i) cs).
      { clear - Ec. revert i Ec. induction cs as [|x r IHr]; intros [|i] Ec;
          simpl in *; try discriminate.
        - inversion Ec. reflexivity.
        - apply IHr. exact Ec. }
      rewrite Es. cbn [firstn text_of map].
      assert (Hc : match cell_content c with Chr _ => True | Anchor _ => False end).
      { apply nth_error_In in Ec. unfold text_only in H. rewrite forallb_forall in H.
        specialize (H c Ec). destruct (cell_content c); [exact I|discriminate]. }
      destruct (cell_content c) as [x|w]; [reflexivity|destruct Hc].
    + apply nth_error_None in Ec.
      rewrite (skipn_all2 cs) by lia. rewrite (skipn_all2 cs) by lia.
      rewrite !firstn_nil. reflexivity.
Qed.

(** X2.  The markup of a buffer that holds characters only, none with a
    tag, is the text of the buffer as it is: a [#] of the text is written
    once, not as [##]. *)
Theorem markup_of_text (st : NoteBuffer) :
  text_only (cells (buffer st)) = true ->
  get_internal_markup st = Done (text_of (cells (buffer st))) st.
Proof.
  intro H. unfold get_internal_markup. rewrite markup_scan_events.
  destruct (text_only_scan _ (List.length (cells (buffer st))) H 0%nat) as [E1 E2].
  rewrite E1, E2. cbn [skipn]. rewrite firstn_all. reflexivity.
Qed.

Section TagAtEnd.

Variable get_url_start : str -> option Z.

(** X4.  When the last cell of a buffer carries a tag, with the cells of
    the buffer otherwise as the markup can carry them, the scan ends
    before the tag does: [get_internal_markup] prints its warning with
    the tag among those not closed, and the note that
    [set_from_internal_markup] builds from the markup has the contents of
    the buffer, but its last cell is without the tag. *)
Theorem tag_at_end_lost (st st0 : NoteBuffer) (t : tag) :
  forallb cell_ok (cells (buffer st)) = true ->
  mem t (tags_before (cells (buffer st)) (List.length (cells (buffer st)))) = true ->
  0 <= internal_action_count st0 ->
  exists text tags,
    get_internal_markup st = Done text (print (TagsNotClosed tags) st) /\
    mem t tags = true /\
    exists fuel st',
      set_from_internal_markup get_url_start fuel text st0 = Some (Done tt st') /\
      contents st' = contents st /\
      mem t (tags_before (cells (buffer st')) (List.length (cells (buffer st')))) = false.
Proof.
  intros Hok Hlast Hc.
  set (cs := cells (buffer st)) in *.
  set (evs := scan_events cs (seq 0 (List.length cs)) []).
  assert (H0 : internal_action_count (enter_internal_action st0) <> 0) by (simpl; lia).
  destruct (set_text_empty _ H0) as (st1 & E1 & D1 & C1).
  destruct (scan_track cs (List.length cs) 0 [] [] st1 Hok eq_refl (NoDup_nil _)
              (fun x => eq_refl)) as (open' & T & MT & MK).
  { rewrite D1. apply track_start. }
  { intros x m Hg. cbn in Hg. discriminate. }
  fold evs in T.
  exists (render evs), (scan_tags_after cs (seq 0 (List.length cs)) []).
  split; [|split].
  - unfold get_internal_markup. fold cs. rewrite markup_scan_events. fold evs.
    pose proof (MT t) as Hm. rewrite Hlast in Hm.
    match goal with
    | |- context [match ?l with [] => _ | _ :: _ => _ end] =>
        change (mem t l = true) in Hm; destruct l; [discriminate Hm | reflexivity]
    end.
  - rewrite MT. exact Hlast.
  - destruct (run_events get_url_start evs [] [] [] st1 C1 eq_refl
                (scan_events_ok cs _ Hok [])) as [fuel Hrun].
    cbn [app] in Hrun. change (py_len (@nil char)) with 0 in Hrun.
    rewrite interp_flush in Hrun. cbn [map at_end] in Hrun.
    exists fuel, (exit_internal_action false (eval evs [] st1)). split.
    + unfold set_from_internal_markup. rewrite E1, Hrun. reflexivity.
    + subst evs. destruct T as (T1 & T2 & _ & T4).
      unfold contents. rewrite exit_buffer. fold cs. split.
      * transitivity (firstn (List.length cs) (map cell_content cs)); [exact T2|].
        apply firstn_all2. rewrite length_map. lia.
      * match goal with
        | |- mem t (tags_before ?D (List.length ?D)) = false =>
            change (List.length D = List.length cs) in T1; rewrite T1
        end.
        specialize (T4 t).
        destruct (dict_get t open') as [m|] eqn:Eg.
        -- destruct T4 as (_ & _ & _ & Hin & _).
           specialize (MK t m Eg).
           destruct (List.length cs) as [|n] eqn:En; [lia|].
           cbn [tags_before]. apply (Hin n). lia.
        -- destruct T4 as [Pt _]. rewrite Hlast in Pt. discriminate.
Qed.

End TagAtEnd.

(** ** tag_selection and its undo *)

Lemma selection_or_cursor_ordered (b : TextBuffer) :
  (fst (selection_or_cursor b) <= snd (selection_or_cursor b))%nat.
Proof.
  unfold selection_or_cursor, get_selection_bounds.
  destruct (get_has_selection b); simpl; lia.
Qed.

Lemma tag_selection_unfold (t : tag) (st : NoteBuffer) :
  tag_selection t st =
  Done tt (add_undo_action
             (TagAction t (Z.of_nat (fst (selection_or_cursor (buffer st))))
                          (Z.of_nat (snd (selection_or_cursor (buffer st)))) true)
             (trigger_changed
                (set_buffer (apply_tag_by_name (buffer st) t
                               (fst (selection_or_cursor (buffer st)))
                               (snd (selection_or_cursor (buffer st)))) st))).
Proof.
  unfold tag_selection, selection_or_cursor.
  destruct (get_has_selection (buffer st)); [|reflexivity].
  unfold get_selection_bounds. reflexivity.
Qed.

Lemma mem_remove_tag (x t : tag) (c : cell) :
  mem x (cell_tags (remove_tag_from_cell t c)) = mem x (cell_tags c) && negb (str_eqb t x).
Proof.
  unfold remove_tag_from_cell. cbn [cell_tags].
  rewrite (mem_filter (fun y => negb (str_eqb y t))), (str_eqb_sym x t). reflexivity.
Qed.

Lemma content_remove_tag (t : tag) (c : cell) :
  cell_content (remove_tag_from_cell t c) = cell_content c.
Proof. reflexivity. Qed.

Lemma contents_map_range_remove (t : tag) (s e : nat) (l : list cell) :
  forall k, map cell_content (map_range (remove_tag_from_cell t) s e k l) = map cell_content l.
Proof.
  induction l as [|x r IH]; intro k; simpl; [reflexivity|].
  rewrite IH. destruct ((s <=? k)%nat && (k <? e)%nat); reflexivity.
Qed.

Lemma mem_tags_at_remove (b : TextBuffer) (t x : tag) (m e j : nat) :
  mem t TAG_DEFINITIONS = true -> (m <= e)%nat -> (j < List.length (cells b))%nat ->
  mem x (tags_at (cells (remove_tag_by_name b t m e)) j)
  = mem x (tags_at (cells b) j) && negb ((m <=? j)%nat && (j <? e)%nat && str_eqb t x).
Proof.
  intros Ht Hme Hj. unfold remove_tag_by_name. rewrite Ht. cbn [cells].
  rewrite Nat.min_l, Nat.max_r by lia.
  unfold tags_at. rewrite nth_error_map_range. cbn [Nat.add].
  destruct (nth_error (cells b) j) as [c|] eqn:E.
  - cbn [option_map]. destruct ((m <=? j)%nat && (j <? e)%nat); cbn [andb negb].
    + apply mem_remove_tag.
    + rewrite andb_true_r. reflexivity.
  - apply nth_error_None in E. lia.
Qed.

Lemma filter_not_mem (t : tag) (l : list tag) :
  mem t l = false -> @filter tag (fun x : str => negb (str_eqb x t)) l = l.
Proof.
  induction l as [|y r IH]; simpl; intro H; [reflexivity|].
  apply orb_false_iff in H. destruct H as [H1 H2].
  rewrite H1. simpl. rewrite (IH H2). reflexivity.
Qed.

Lemma remove_add_tag (t : tag) (c : cell) :
  mem t (cell_tags c) = false -> remove_tag_from_cell t (add_tag_to_cell t c) = c.
Proof.
  destruct c as [x l]. cbn [cell_tags]. intro H.
  unfold add_tag_to_cell. cbn [cell_tags cell_content]. rewrite H.
  unfold remove_tag_from_cell. cbn [cell_content cell_tags].
  rewrite filter_app, (filter_not_mem t _ H).
  cbn [filter]. rewrite str_eqb_refl. cbn [negb]. rewrite app_nil_r. reflexivity.
Qed.

Lemma map_range_remove_add (t : tag) (s e : nat) (l : list cell) :
  forall k,
    (forall j c, nth_error l j = Some c -> (s <= k + j < e)%nat ->
                 mem t (cell_tags c) = false) ->
    map_range (remove_tag_from_cell t) s e k (map_range (add_tag_to_cell t) s e k l) = l.
Proof.
  induction l as [|x r IH]; intros k H; simpl; [reflexivity|].
  rewrite IH.
  - destruct ((s <=? k)%nat && (k <? e)%nat) eqn:E; [|reflexivity].
    rewrite remove_add_tag; [reflexivity|].
    apply (H 0%nat x eq_refl). apply andb_true_iff in E. destruct E as [E1 E2].
    apply Nat.leb_le in E1. apply Nat.ltb_lt in E2. lia.
  - intros j c Hc Hj. apply (H (S j) c Hc). lia.
Qed.

Section TagSelection.

Variable get_url_start : str -> option Z.

(** X5.  [tag_selection] with a tag of the table, outside a composite:
    the cells of the selection carry the tag, every other tag and every
    other cell is as it was, one [TagAction] is added to the undo stack
    and the redo stack is emptied, and [content-changed] is emitted at
    once when no guarded block is open.  With nothing selected the range
    is empty: no cell changes, and the undo stack gets its entry and the
    redo stack is emptied all the same. *)
Theorem tag_selection_applies (t : tag) (st : NoteBuffer) :
  in_composite st = 0 ->
  mem t TAG_DEFINITIONS = true ->
  exists st',
    tag_selection t st = Done tt st' /\
    contents st' = contents st /\
    (forall j x,
        (j < List.length (cells (buffer st)))%nat ->
        mem x (tags_at (cells (buffer st')) j)
        = mem x (tags_at (cells (buffer st)) j)
          || ((fst (selection_or_cursor (buffer st)) <=? j)%nat
              && (j <? snd (selection_or_cursor (buffer st)))%nat && str_eqb t x)) /\
    (get_has_selection (buffer st) = false -> buffer st' = buffer st) /\
    undo_actions st'
    = undo_actions st
      ++ [TagAction t (Z.of_nat (fst (selection_or_cursor (buffer st))))
                      (Z.of_nat (snd (selection_or_cursor (buffer st)))) true] /\
    redo_actions st' = [] /\
    (internal_action_count st = 0 -> content_changed st' = S (content_changed st)).
Proof.
  intros Hi Ht. eexists. split; [apply tag_selection_unfold|].
  pose proof (selection_or_cursor_ordered (buffer st)) as Hse.
  set (s := fst (selection_or_cursor (buffer st))) in *.
  set (e := snd (selection_or_cursor (buffer st))) in *.
  rewrite add_undo_action_at_rest
    by (rewrite trigger_changed_in_composite; exact Hi).
  unfold contents. cbn [buffer set_redo_actions set_undo_actions undo_actions redo_actions
                        content_changed].
  rewrite trigger_changed_buffer, trigger_changed_undo_actions. cbn [buffer set_buffer].
  split; [apply cells_apply|].
  split; [intros j x Hj; apply mem_tags_at_apply; assumption|].
  split.
  { intro Hs. unfold s, e, selection_or_cursor. rewrite Hs. cbn [fst snd].
    unfold apply_tag_by_name. rewrite Ht, Nat.min_id, Nat.max_id.
    assert (Hid : forall (l : list cell) k n,
               map_range (add_tag_to_cell t) n n k l = l).
    { induction l as [|x r IH]; intros k n; simpl; [reflexivity|].
      rewrite IH. destruct (n <=? k)%nat eqn:E1, (k <? n)%nat eqn:E2; simpl;
        try reflexivity.
      apply Nat.leb_le in E1. apply Nat.ltb_lt in E2. lia. }
    rewrite Hid. destruct (buffer st); reflexivity. }
  split; [reflexivity|]. split; [reflexivity|].
  intro Hc. unfold trigger_changed. cbn [internal_action_count set_buffer].
  rewrite Hc. reflexivity.
Qed.

(** X6.  [undo] after [tag_selection] takes the tag from every cell of
    the range, also from a cell that carried it before the selection was
    tagged, and the action goes to the redo stack.  When no cell of the
    range carried the tag, the cells are again as they were. *)
Theorem tag_selection_undo (t : tag) (st : NoteBuffer) :
  internal_action_count st = 0 ->
  in_composite st = 0 ->
  mem t TAG_DEFINITIONS = true ->
  (snd (selection_or_cursor (buffer st)) <= List.length (cells (buffer st)))%nat ->
  exists st1 st2,
    tag_selection t st = Done tt st1 /\
    undo get_url_start st1 = Done tt st2 /\
    contents st2 = contents st /\
    (forall j x,
        (j < List.length (cells (buffer st)))%nat ->
        mem x (tags_at (cells (buffer st2)) j)
        = mem x (tags_at (cells (buffer st)) j)
          && negb ((fst (selection_or_cursor (buffer st)) <=? j)%nat
                   && (j <? snd (selection_or_cursor (buffer st)))%nat && str_eqb t x)) /\
    undo_actions st2 = undo_actions st /\
    redo_actions st2
    = [TagAction t (Z.of_nat (fst (selection_or_cursor (buffer st))))
                   (Z.of_nat (snd (selection_or_cursor (buffer st)))) true] /\
    ((forall j, (fst (selection_or_cursor (buffer st)) <= j
                 < snd (selection_or_cursor (buffer st)))%nat ->
                mem t (tags_at (cells (buffer st)) j) = false) ->
     cells (buffer st2) = cells (buffer st)).
Proof.
  intros Hc Hi Ht Hlen.
  pose proof (selection_or_cursor_ordered (buffer st)) as Hse.
  set (s := fst (selection_or_cursor (buffer st))) in *.
  set (e := snd (selection_or_cursor (buffer st))) in *.
  set (a := TagAction t (Z.of_nat s) (Z.of_nat e) true).
  set (b1 := apply_tag_by_name (buffer st) t s e).
  set (st1 := add_undo_action a (trigger_changed (set_buffer b1 st))).
  assert (E1 : tag_selection t st = Done tt st1) by apply tag_selection_unfold.
  assert (Est1 : st1 = set_redo_actions []
                         (set_undo_actions (undo_actions st ++ [a])
                            (trigger_changed (set_buffer b1 st)))).
  { unfold st1. rewrite add_undo_action_at_rest
      by (rewrite trigger_changed_in_composite; exact Hi).
    rewrite trigger_changed_undo_actions. reflexivity. }
  assert (Hb1 : buffer st1 = b1).
  { rewrite Est1. cbn [buffer set_redo_actions set_undo_actions].
    rewrite trigger_changed_buffer. reflexivity. }
  assert (Hu1 : undo_actions st1 = undo_actions st ++ [a]) by (rewrite Est1; reflexivity).
  assert (Hc1 : internal_action_count st1 = 0).
  { rewrite Est1. cbn [internal_action_count set_redo_actions set_undo_actions].
    rewrite trigger_changed_count. exact Hc. }
  destruct (cells_apply (buffer st) t s e) as [L1 L2]. fold b1 in L1, L2.
  set (s1 := set_undo_actions (undo_actions st) (enter_internal_action st1)).
  set (b2 := remove_tag_by_name b1 t s e).
  assert (Ea : action_undo get_url_start a s1 = Done a (set_buffer b2 s1)).
  { unfold a. cbn [action_undo]. unfold bind, tag_remove, modify, ret.
    do 2 f_equal. unfold b2.
    assert (Hbs : buffer s1 = b1) by (unfold s1; cbn [buffer set_undo_actions
      enter_internal_action set_internal_action_count]; exact Hb1).
    rewrite Hbs, !get_iter_at_offset_inside by (rewrite L1; lia). reflexivity. }
  destruct (undo_pops get_url_start st1 (undo_actions st) a a (set_buffer b2 s1))
    as [Eu _]; [lia | exact Hu1 | exact Ea |].
  exists st1, (exit_internal_action true
                 (set_redo_actions (redo_actions st1 ++ [a]) (set_buffer b2 s1))).
  split; [exact E1|]. split; [exact Eu|].
  unfold contents. rewrite exit_buffer, exit_undo_actions, exit_redo_actions.
  cbn [buffer set_redo_actions set_buffer undo_actions redo_actions].
  assert (Hcb2 : cells b2
                 = map_range (remove_tag_from_cell t) s e 0 (cells b1)).
  { unfold b2, remove_tag_by_name. rewrite Ht. cbn [cells].
    rewrite Nat.min_l, Nat.max_r by lia. reflexivity. }
  split.
  { rewrite Hcb2, contents_map_range_remove. exact L2. }
  split.
  { intros j x Hj. unfold b2.
    rewrite mem_tags_at_remove by (try assumption; rewrite L1; lia).
    unfold b1. rewrite mem_tags_at_apply by assumption.
    destruct (mem x (tags_at (cells (buffer st)) j)),
      ((s <=? j)%nat && (j <? e)%nat && str_eqb t x); reflexivity. }
  split; [reflexivity|].
  split.
  { rewrite Est1. reflexivity. }
  intro Hfresh. rewrite Hcb2. unfold b1, apply_tag_by_name. rewrite Ht. cbn [cells].
  rewrite Nat.min_l, Nat.max_r by lia.
  apply map_range_remove_add.
  intros j c Hjc Hj. specialize (Hfresh j). unfold tags_at in Hfresh.
  rewrite Hjc in Hfresh. apply Hfresh. lia.
Qed.

End TagSelection.

(** ** A new line typed in a list *)

Lemma contents_insert (b : TextBuffer) (i : nat) (l : list content) :
  map cell_content (cells (insert_contents b i l))
  = firstn i (map cell_content (cells b)) ++ l ++ skipn i (map cell_content (cells b)).
Proof.
  unfold insert_contents. cbn [cells].
  rewrite !map_app, map_map. cbn [cell_content]. rewrite map_id.
  rewrite firstn_map, skipn_map. reflexivity.
Qed.

Lemma length_insert (b : TextBuffer) (i : nat) (l : list content) :
  (i <= List.length (cells b))%nat ->
  List.length (cells (insert_contents b i l)) = (List.length (cells b) + List.length l)%nat.
Proof.
  intro H. unfold insert_contents. cbn [cells].
  rewrite !length_app, length_map, length_firstn, length_skipn. lia.
Qed.

Lemma nth_error_insert (b : TextBuffer) (i : nat) (l : list content) (k : nat) :
  (i <= List.length (cells b))%nat ->
  (k < List.length l)%nat ->
  option_map cell_content (nth_error (cells (insert_contents b i l)) (i + k))
  = nth_error l k.
Proof.
  intros Hi Hk. rewrite <- nth_error_map, contents_insert.
  rewrite nth_error_app2 by (rewrite length_firstn, length_map; lia).
  rewrite length_firstn, length_map.
  replace (i + k - Nat.min i (List.length (cells b)))%nat with k by lia.
  rewrite nth_error_app1 by exact Hk. reflexivity.
Qed.

Section NewLine.

Variable get_url_start : str -> option Z.

(** [on_insert] of a line feed on a line that starts with an object,
    when no link ends at the cursor. *)
Lemma on_insert_newline_list (p : nat) (w : widget) (st : NoteBuffer) :
  internal_action_count st = 0 ->
  get_url_start (get_slice (buffer st) 0 p) = None ->
  get_child_anchor (cells (buffer st)) (line_start_of (cells (buffer st)) p) = Some w ->
  on_insert get_url_start p newline st =
  Done tt (exit_internal_action true
             (add_undo_action
                (CompositeAction
                   [AdditionAction newline (Z.of_nat p);
                    ObjectInsertAction true (anchor_type_of w) (Z.of_nat p) None])
                (set_buffer (raw_insert_anchor (buffer st) p (repeated w))
                   (enter_internal_action st)))).
Proof.
  intros Hc Hu Hw. unfold on_insert. rewrite Hc. cbn [negb Z.eqb].
  unfold with_internal_action.
  assert (H1 : internal_action_count (enter_internal_action st) <> 0) by (simpl; lia).
  unfold bind at 1.
  change (mem newline delimiters) with true. cbv iota.
  change (buffer (enter_internal_action st)) with (buffer st). rewrite Hu.
  unfold bind at 1.
  change (str_eqb newline [Ch "010"]) with true. cbv iota.
  unfold maybe_repeat.
  change (buffer (enter_internal_action st)) with (buffer st).
  unfold line_start_of in Hw. rewrite Hw.
  unfold bind.
  destruct w as [active|]; cbn [anchor_type_of repeated].
  - rewrite (add_check_button_guarded p false _ H1). reflexivity.
  - rewrite (add_bullet_guarded p _ H1). reflexivity.
Qed.

(** The note after the key press: the line feed is in front of the new
    object, and the composite holds the offset of the cursor twice. *)
Lemma newline_in_list (p : nat) (w : widget) (st : NoteBuffer) :
  internal_action_count st = 0 ->
  in_composite st = 0 ->
  (p <= List.length (cells (buffer st)))%nat ->
  get_url_start (get_slice (buffer st) 0 p) = None ->
  get_child_anchor (cells (buffer st)) (line_start_of (cells (buffer st)) p) = Some w ->
  exists st1,
    buffer_insert get_url_start p newline st = Done tt st1 /\
    buffer st1 = raw_insert (raw_insert_anchor (buffer st) p (repeated w)) p newline /\
    contents st1
    = firstn p (contents st)
        ++ [Chr (Ch "010"); Anchor (repeated w)] ++ skipn p (contents st) /\
    internal_action_count st1 = 0 /\
    undo_actions st1
    = undo_actions st
      ++ [CompositeAction
            [AdditionAction newline (Z.of_nat p);
             ObjectInsertAction true (anchor_type_of w) (Z.of_nat p) None]] /\
    redo_actions st1 = [].
Proof.
  intros Hc Hi Hp Hu Hw. unfold buffer_insert, newline.
  fold newline. unfold bind, run_handler.
  rewrite (on_insert_newline_list p w st Hc Hu Hw). unfold modify.
  rewrite add_undo_action_at_rest by exact Hi.
  eexists. split; [reflexivity|].
  rewrite exit_buffer. cbn [buffer set_buffer set_redo_actions set_undo_actions].
  split; [reflexivity|].
  unfold contents. cbn [buffer set_buffer internal_action_count undo_actions redo_actions].
  rewrite exit_count, exit_undo_actions, exit_redo_actions.
  cbn [internal_action_count undo_actions redo_actions set_buffer set_redo_actions
         set_undo_actions enter_internal_action set_internal_action_count].
  split; [|split; [lia|split; reflexivity]].
  unfold raw_insert, raw_insert_anchor, newline. cbn [map].
  rewrite contents_insert, contents_insert.
  set (C := map cell_content (cells (buffer st))).
  assert (HC : (p <= List.length C)%nat) by (unfold C; rewrite length_map; exact Hp).
  rewrite firstn_app, firstn_firstn, Nat.min_id, length_firstn.
  replace (p - Nat.min p (List.length C))%nat with 0%nat by lia.
  cbn [firstn]. rewrite app_nil_r.
  rewrite skipn_app, length_firstn.
  replace (p - Nat.min p (List.length C))%nat with 0%nat by lia.
  cbn [skipn]. rewrite (skipn_all2 (firstn p C)) by (rewrite length_firstn; lia).
  reflexivity.
Qed.

(** The key press, inside its user action, leaves the state the
    insertion leaves outside one. *)
Lemma type_newline_in_list (w : widget) (st : NoteBuffer) :
  internal_action_count st = 0 ->
  in_composite st = 0 ->
  composite_actions st = [] ->
  get_url_start (get_slice (buffer st) 0 (insert_mark (buffer st))) = None ->
  get_child_anchor (cells (buffer st))
                   (line_start_of (cells (buffer st)) (insert_mark (buffer st))) = Some w ->
  type_text get_url_start newline st
  = buffer_insert get_url_start (insert_mark (buffer st)) newline st.
Proof.
  intros Hc Hi Hca Hu Hw.
  unfold type_text, user_action.
  change (buffer (begin_composite_action st)) with (buffer st).
  unfold buffer_insert, newline. fold newline. unfold bind, run_handler.
  rewrite (on_insert_newline_list (insert_mark (buffer st)) w st Hc Hu Hw).
  rewrite (on_insert_newline_list (insert_mark (buffer st)) w (begin_composite_action st)
             Hc Hu Hw).
  unfold modify. f_equal.
  destruct st as [b c ic ca ua ra pr idl cc]. cbn in Hc, Hi, Hca. subst c ic ca.
  reflexivity.
Qed.

(** X10.  A line feed inserted on a line that starts with a check box, at
    rest and with no link to mark, through [insert] or as a key press at
    the cursor: the buffer gets the line feed and,
    behind it, a check box that is not checked, and the undo stack gets a
    composite of the addition and of the object, both at the offset of
    the cursor, where the line feed now is.  [undo] then finds no child
    anchor at that offset: it raises [AttributeError], the buffer is as it
    was after the key press, and the composite is on neither stack. *)
Theorem newline_in_checklist_undo_raises (p : nat) (active : bool) (st : NoteBuffer) :
  internal_action_count st = 0 ->
  in_composite st = 0 ->
  (p <= List.length (cells (buffer st)))%nat ->
  get_url_start (get_slice (buffer st) 0 p) = None ->
  get_child_anchor (cells (buffer st)) (line_start_of (cells (buffer st)) p)
  = Some (CheckButton active) ->
  exists st1 st2,
    buffer_insert get_url_start p newline st = Done tt st1 /\
    (insert_mark (buffer st) = p -> composite_actions st = [] ->
     type_text get_url_start newline st = Done tt st1) /\
    contents st1
    = firstn p (contents st)
        ++ [Chr (Ch "010"); Anchor (CheckButton false)] ++ skipn p (contents st) /\
    undo_actions st1
    = undo_actions st
      ++ [CompositeAction
            [AdditionAction newline (Z.of_nat p);
             ObjectInsertAction true check (Z.of_nat p) None]] /\
    redo_actions st1 = [] /\
    undo get_url_start st1 = Raised AttributeError st2 /\
    buffer st2 = buffer st1 /\
    undo_actions st2 = undo_actions st /\
    redo_actions st2 = [] /\
    internal_action_count st2 = 0.
Proof.
  intros Hc Hi Hp Hu Hw.
  destruct (newline_in_list p (CheckButton active) st Hc Hi Hp Hu Hw)
    as (st1 & E1 & Hb1 & C1 & Hc1 & U1 & R1).
  cbn [repeated anchor_type_of] in *.
  set (s1 := set_undo_actions (undo_actions st) (enter_internal_action st1)).
  assert (Hlen : List.length (cells (buffer st1)) = (List.length (cells (buffer st)) + 2)%nat).
  { rewrite Hb1. unfold raw_insert, raw_insert_anchor.
    rewrite length_insert; [rewrite length_insert by exact Hp; simpl; lia|].
    rewrite length_insert by exact Hp. lia. }
  assert (Hnl : get_child_anchor (cells (buffer st1)) p = None).
  { pose proof (nth_error_insert (raw_insert_anchor (buffer st) p (CheckButton false))
                  p (map Chr newline) 0) as N.
    rewrite Nat.add_0_r in N. unfold get_child_anchor. rewrite Hb1. unfold raw_insert.
    destruct (nth_error _ p) as [[c tg]|]; [|reflexivity].
    cbn [option_map cell_content map newline nth_error] in N.
    assert (Hcc : Some c = Some (Chr (Ch "010"))).
    { apply N; [|simpl; lia]. unfold raw_insert_anchor.
      rewrite length_insert by exact Hp. lia. }
    inversion Hcc. reflexivity. }
  assert (Ea : action_undo get_url_start
                 (CompositeAction
                    [AdditionAction newline (Z.of_nat p);
                     ObjectInsertAction true check (Z.of_nat p) None]) s1
               = Raised AttributeError s1).
  { cbn [action_undo each_reversed]. unfold bind, ret.
    unfold object_remove, object_remove_with.
    change (buffer s1) with (buffer st1).
    rewrite get_iter_at_offset_inside by lia. rewrite Hnl. reflexivity. }
  exists st1, (exit_internal_action true s1).
  split; [exact E1|].
  split.
  { intros Hm Hca.
    rewrite (type_newline_in_list (CheckButton active) st Hc Hi Hca)
      by (rewrite Hm; assumption).
    rewrite Hm. exact E1. }
  split; [exact C1|]. split; [exact U1|]. split; [exact R1|].
  split; [apply (undo_raises get_url_start st1 _ _ _ _ U1 Ea)|].
  rewrite exit_buffer, exit_undo_actions, exit_redo_actions, exit_count.
  unfold s1. cbn [buffer undo_actions redo_actions internal_action_count set_undo_actions
                    enter_internal_action set_internal_action_count].
  split; [reflexivity|]. split; [reflexivity|]. split; [exact R1|lia].
Qed.

Lemma cells_delete_inserted (b : TextBuffer) (p : nat) (l : list content) :
  (p <= List.length (cells b))%nat ->
  cells (raw_delete (insert_contents b p l) p (p + List.length l)) = cells b.
Proof.
  intro H. unfold raw_delete, insert_contents. cbn [cells].
  rewrite <- (length_map (fun c => mkCell c (inherited_tags (cells b) p)) l).
  apply delete_inserted. exact H.
Qed.

(** X11.  The same key press on a line that starts with a bullet.  [undo]
    deletes the cell at the recorded offset twice, the line feed as if it
    were the bullet and then the bullet as if it were the line feed, and
    the cells are as before the key press.  [redo] then inserts the line
    feed and the bullet, both at the recorded offset, so that the bullet
    comes in front of the line feed, at the end of the old line, and not
    on the new line where the key press had put it. *)
Theorem newline_in_bullet_list_redo (p : nat) (st : NoteBuffer) :
  internal_action_count st = 0 ->
  in_composite st = 0 ->
  (p <= List.length (cells (buffer st)))%nat ->
  get_url_start (get_slice (buffer st) 0 p) = None ->
  get_child_anchor (cells (buffer st)) (line_start_of (cells (buffer st)) p) = Some Image ->
  exists st1 st2 st3,
    buffer_insert get_url_start p newline st = Done tt st1 /\
    (insert_mark (buffer st) = p -> composite_actions st = [] ->
     type_text get_url_start newline st = Done tt st1) /\
    contents st1
    = firstn p (contents st) ++ [Chr (Ch "010"); Anchor Image] ++ skipn p (contents st) /\
    undo get_url_start st1 = Done tt st2 /\
    cells (buffer st2) = cells (buffer st) /\
    undo_actions st2 = undo_actions st /\
    redo get_url_start st2 = Done tt st3 /\
    contents st3
    = firstn p (contents st) ++ [Anchor Image; Chr (Ch "010")] ++ skipn p (contents st) /\
    undo_actions st3 = undo_actions st1.
Proof.
  intros Hc Hi Hp Hu Hw.
  destruct (newline_in_list p Image st Hc Hi Hp Hu Hw)
    as (st1 & E1 & Hb1 & C1 & Hc1 & U1 & R1).
  cbn [repeated anchor_type_of] in *.
  set (A := AdditionAction newline (Z.of_nat p)) in *.
  set (O := ObjectInsertAction true bullet (Z.of_nat p) None) in *.
  set (ba := raw_insert_anchor (buffer st) p Image) in *.
  assert (Hla : List.length (cells ba) = S (List.length (cells (buffer st)))).
  { unfold ba, raw_insert_anchor. rewrite length_insert by exact Hp. simpl. lia. }
  assert (Hl1 : List.length (cells (buffer st1)) = S (S (List.length (cells (buffer st))))).
  { rewrite Hb1. unfold raw_insert. rewrite length_insert by lia. rewrite Hla.
    unfold newline. cbn [map List.length]. lia. }
  (* undo *)
  set (s1 := set_undo_actions (undo_actions st) (enter_internal_action st1)).
  assert (H1 : internal_action_count s1 <> 0) by (unfold s1; simpl; lia).
  set (b2 := raw_delete (buffer st1) p (p + 1)).
  assert (Hc2 : cells b2 = cells ba).
  { unfold b2. rewrite Hb1. unfold raw_insert.
    apply (cells_delete_inserted ba p (map Chr newline)). lia. }
  set (b3 := raw_delete b2 p (p + 1)).
  assert (Hc3 : cells b3 = cells (buffer st)).
  { unfold b3, raw_delete. cbn [cells]. rewrite Hc2.
    apply (cells_delete_inserted (buffer st) p [Anchor Image] Hp). }
  assert (EO : action_undo get_url_start O s1 = Done O (set_buffer b2 s1)).
  { unfold O. cbn [action_undo]. unfold bind, ret, object_remove, object_remove_with.
    change (buffer s1) with (buffer st1).
    replace (Z.of_nat p + 1) with (Z.of_nat (p + 1)) by lia.
    rewrite !get_iter_at_offset_inside by lia. unfold bind.
    change delete_range_handler with (on_delete 1).
    rewrite (buffer_delete_with_guarded 1 p (p + 1) s1 H1).
    rewrite Nat.min_l, Nat.max_r by lia.
    destruct (p =? p + 1)%nat eqn:E; [apply Nat.eqb_eq in E; lia|]. reflexivity. }
  assert (EA : action_undo get_url_start A (set_buffer b2 s1)
               = Done A (set_buffer b3 s1)).
  { unfold A. rewrite addition_undo_guarded.
    - reflexivity.
    - exact H1.
    - discriminate.
    - cbn [buffer set_buffer]. rewrite Hc2, Hla. simpl. lia. }
  assert (EC : action_undo get_url_start (CompositeAction [A; O]) s1
               = Done (CompositeAction [A; O]) (set_buffer b3 s1)).
  { cbn [action_undo each_reversed]. unfold bind at 1. unfold bind at 1.
    unfold bind at 1. unfold ret at 1. fold (action_undo get_url_start O).
    unfold bind at 1. rewrite EO. unfold ret at 1.
    unfold bind at 1. fold (action_undo get_url_start A). rewrite EA. reflexivity. }
  destruct (undo_pops get_url_start st1 (undo_actions st) _ _ _ ltac:(lia) U1 EC)
    as [Eu _].
  set (st2 := exit_internal_action true
                (set_redo_actions (redo_actions st1 ++ [CompositeAction [A; O]])
                   (set_buffer b3 s1))) in *.
  assert (Hb2 : buffer st2 = b3) by (unfold st2; rewrite exit_buffer; reflexivity).
  assert (Hu2 : undo_actions st2 = undo_actions st)
    by (unfold st2; rewrite exit_undo_actions; reflexivity).
  assert (Hr2 : redo_actions st2 = [] ++ [CompositeAction [A; O]]).
  { unfold st2. rewrite exit_redo_actions. cbn [redo_actions set_redo_actions].
    rewrite R1. reflexivity. }
  assert (Hcount2 : internal_action_count st2 = 0).
  { unfold st2. rewrite exit_count. unfold s1. simpl. lia. }
  (* redo *)
  set (r1 := set_redo_actions [] (enter_internal_action st2)).
  assert (G1 : internal_action_count r1 <> 0) by (unfold r1; simpl; lia).
  set (b4 := raw_insert b3 p newline).
  set (b5 := raw_insert_anchor b4 p Image).
  assert (RA : action_redo get_url_start A r1 = Done A (set_buffer b4 r1)).
  { unfold A. cbn [action_redo]. unfold bind, ret.
    change (buffer r1) with (buffer st2). rewrite Hb2.
    rewrite get_iter_at_offset_inside by (rewrite Hc3; exact Hp).
    rewrite (buffer_insert_guarded get_url_start p newline r1 G1).
    unfold newline. change (buffer r1) with (buffer st2). rewrite Hb2. reflexivity. }
  assert (Hl4 : List.length (cells b4) = S (List.length (cells (buffer st)))).
  { unfold b4, raw_insert. rewrite length_insert by (rewrite Hc3; exact Hp).
    rewrite Hc3. simpl. lia. }
  assert (RO : action_redo get_url_start O (set_buffer b4 r1) = Done O (set_buffer b5 r1)).
  { unfold O. cbn [action_redo]. unfold bind, ret, object_add.
    cbn [buffer set_buffer]. rewrite get_iter_at_offset_inside by lia.
    unfold bind. rewrite add_bullet_guarded by exact G1. reflexivity. }
  assert (RC : action_redo get_url_start (CompositeAction [A; O]) r1
               = Done (CompositeAction [A; O]) (set_buffer b5 r1)).
  { cbn [action_redo each_in_order]. unfold bind at 1. unfold bind at 1.
    fold (action_redo get_url_start A). rewrite RA.
    unfold bind at 1. unfold bind at 1. fold (action_redo get_url_start O). rewrite RO.
    reflexivity. }
  destruct (redo_pops get_url_start st2 [] _ _ _ ltac:(lia) Hr2 RC) as [Er _].
  exists st1, st2, (exit_internal_action true
                      (set_undo_actions (undo_actions st2 ++ [CompositeAction [A; O]])
                         (set_buffer b5 r1))).
  split; [exact E1|].
  split.
  { intros Hm Hca.
    rewrite (type_newline_in_list Image st Hc Hi Hca) by (rewrite Hm; assumption).
    rewrite Hm. exact E1. }
  split; [exact C1|]. split; [exact Eu|].
  split; [rewrite Hb2; exact Hc3|]. split; [exact Hu2|]. split; [exact Er|].
  unfold contents. rewrite exit_buffer, exit_undo_actions.
  cbn [buffer undo_actions set_undo_actions set_buffer]. split.
  - unfold b5, raw_insert_anchor, b4, raw_insert, newline. cbn [map].
    rewrite contents_insert, contents_insert, Hc3.
    set (C := map cell_content (cells (buffer st))).
    assert (HC : (p <= List.length C)%nat) by (unfold C; rewrite length_map; exact Hp).
    rewrite firstn_app, firstn_firstn, Nat.min_id, length_firstn.
    replace (p - Nat.min p (List.length C))%nat with 0%nat by lia.
    cbn [firstn]. rewrite app_nil_r.
    rewrite skipn_app, length_firstn.
    replace (p - Nat.min p (List.length C))%nat with 0%nat by lia.
    cbn [skipn]. rewrite (skipn_all2 (firstn p C)) by (rewrite length_firstn; lia).
    reflexivity.
  - rewrite Hu2, U1. reflexivity.
Qed.

End NewLine.

(** ** on_delete on a range without a child anchor *)

(** The top of a stack given as a list: [H] says that the list is
    [rest ++ [top]]. *)
Ltac top_of_stack H :=
  apply (f_equal (@List.rev Action)) in H; rewrite rev_app_distr in H;
  vm_compute in H; inversion H; subst.

Lemma dict_set_length (k : tag) (v : nat) (d : dict) :
  (List.length d <= List.length (dict_set k v d))%nat /\
  (1 <= List.length (dict_set k v d))%nat.
Proof.
  induction d as [|[k' v'] r IH]; simpl; [lia|].
  destruct (str_eqb k' k); simpl; lia.
Qed.

Lemma dict_del_length (k : tag) (d : dict) :
  (List.length d <= S (List.length (dict_del k d)))%nat.
Proof.
  induction d as [|[k' v'] r IH]; simpl; [lia|].
  destruct (str_eqb k' k); simpl; lia.
Qed.

Lemma note_toggled_on_length (cs : list cell) (i : nat) (d : dict) :
  (List.length d <= List.length (note_toggled_on cs i d))%nat /\
  (existsb (fun t => mem t TAG_DEFINITIONS) (get_toggled_tags cs i true) = true ->
   1 <= List.length (note_toggled_on cs i d))%nat.
Proof.
  unfold note_toggled_on.
  generalize (get_toggled_tags cs i true) as l. intro l. revert d.
  induction l as [|t r IH]; intro d; cbn [fold_left existsb].
  - split; [lia | discriminate].
  - destruct (mem t TAG_DEFINITIONS) eqn:Et; cbn [orb].
    + destruct (IH (dict_set t i d)) as [IH1 _].
      destruct (dict_set_length t i d) as [L1 L2]. split; [lia|]. intros _. lia.
    + apply IH.
Qed.

Lemma note_toggled_off_length (b : TextBuffer) (i s : nat) (d : dict) (l : list Action) :
  let r := note_toggled_off b i s (d, l) in
  (List.length d + List.length l <= List.length (fst r) + List.length (snd r))%nat /\
  (List.length l <= List.length (snd r))%nat /\
  (existsb (fun t => mem t TAG_DEFINITIONS) (get_toggled_tags (cells b) i false) = true ->
   1 <= List.length (snd r))%nat.
Proof.
  unfold note_toggled_off.
  generalize (get_toggled_tags (cells b) i false) as ts. intro ts. revert d l.
  induction ts as [|t r IH]; intros d l; cbn [fold_left existsb fst snd].
  - split; [lia|]. split; [lia | discriminate].
  - destruct (mem t TAG_DEFINITIONS) eqn:Et; cbn [negb orb].
    + destruct (dict_get t d) as [offset|].
      * match goal with |- context [fold_left ?f r (?d', ?l')] =>
          destruct (IH d' l') as (I1 & I2 & _) end.
        rewrite length_app in I1, I2. cbn [List.length] in I1, I2.
        pose proof (dict_del_length t d). split; [lia|]. split; [lia|]. intros _. lia.
      * match goal with |- context [fold_left ?f r (?d', ?l')] =>
          destruct (IH d' l') as (I1 & I2 & _) end.
        rewrite length_app in I1, I2. cbn [List.length] in I1, I2.
        split; [lia|]. split; [lia|]. intros _. lia.
    + apply IH.
Qed.

Lemma scan_tags_fields (b : TextBuffer) (ls : delete_scan) :
  current_iter (scan_tags b ls) = Nat.min (S (current_iter ls)) (get_char_count b) /\
  d_start (scan_tags b ls) = d_start ls /\
  d_end (scan_tags b ls) = d_end ls /\
  last_action (scan_tags b ls) = last_action ls.
Proof.
  unfold scan_tags. destruct (note_toggled_off _ _ _ _) as [d2 l2]. repeat split.
Qed.

Lemma scan_tags_noted (b : TextBuffer) (ls : delete_scan) :
  (noted ls <= noted (scan_tags b ls))%nat /\
  (table_toggle (cells b) (current_iter ls) = true -> 1 <= noted (scan_tags b ls))%nat.
Proof.
  unfold noted, scan_tags, table_toggle.
  pose proof (note_toggled_on_length (cells b) (current_iter ls) (open_tags ls)) as [A1 A2].
  pose proof (note_toggled_off_length b (current_iter ls) (d_start ls)
                (note_toggled_on (cells b) (current_iter ls) (open_tags ls))
                (actions ls)) as (B1 & B2 & B3).
  cbv zeta in B1, B2, B3.
  destruct (note_toggled_off _ _ _ _) as [d2 l2]. cbn [fst snd open_tags actions] in *.
  split; [lia|]. intro H. apply orb_true_iff in H. destruct H as [H|H].
  - specialize (A2 H). lia.
  - specialize (B3 H). lia.
Qed.

Lemma scan_tags_quiet (b : TextBuffer) (ls : delete_scan) :
  table_toggle (cells b) (current_iter ls) = false ->
  scan_tags b ls
  = mkScan (Nat.min (S (current_iter ls)) (get_char_count b))
           (d_start ls) (d_end ls) (open_tags ls) (actions ls) (last_action ls).
Proof.
  intro H. unfold table_toggle in H. apply orb_false_iff in H. destruct H as [H1 H2].
  unfold scan_tags.
  assert (E1 : note_toggled_on (cells b) (current_iter ls) (open_tags ls) = open_tags ls).
  { unfold note_toggled_on. revert H1.
    generalize (get_toggled_tags (cells b) (current_iter ls) true) as l.
    generalize (open_tags ls) as d.
    intros d l. revert d. induction l as [|t r IH]; intros d H; cbn [fold_left];
      [reflexivity|].
    cbn [existsb] in H. apply orb_false_iff in H. destruct H as [Ht Hr].
    rewrite Ht. apply IH. exact Hr. }
  rewrite E1.
  assert (E2 : note_toggled_off b (current_iter ls) (d_start ls) (open_tags ls, actions ls)
               = (open_tags ls, actions ls)).
  { unfold note_toggled_off. revert H2.
    generalize (get_toggled_tags (cells b) (current_iter ls) false) as l.
    generalize (open_tags ls, actions ls) as acc.
    intros acc l. revert acc. induction l as [|t r IH]; intros acc H; cbn [fold_left];
      [reflexivity|].
    cbn [existsb] in H. apply orb_false_iff in H. destruct H as [Ht Hr].
    destruct acc as [d l0]. rewrite Ht. cbn [negb]. apply IH. exact Hr. }
  rewrite E2. reflexivity.
Qed.

Lemma in_range_forallb (f : nat -> bool) (s e i : nat) :
  forallb f (seq s (e - s)) = true -> (s <= i < e)%nat -> f i = true.
Proof.
  intros H Hi. rewrite forallb_forall in H. apply H. apply in_seq. lia.
Qed.

Section Loop.

Variable nested : nat -> nat -> M (nat * nat).

(** The loop leaves the buffer alone when it meets no child anchor, and
    what it has noted does not get less. *)
Lemma on_delete_loop_no_anchor (fuel : nat) :
  forall ls st,
    (d_end ls <= List.length (cells (buffer st)))%nat ->
    (d_end ls - current_iter ls <= fuel)%nat ->
    (forall i, (current_iter ls <= i < d_end ls)%nat ->
               has_anchor (cells (buffer st)) i = false) ->
    exists ls',
      on_delete_loop nested fuel ls st = Done ls' st /\
      d_start ls' = d_start ls /\ d_end ls' = d_end ls /\
      last_action ls' = last_action ls /\
      (noted ls <= noted ls')%nat /\
      ((exists i, (current_iter ls <= i < d_end ls)%nat /\
                  table_toggle (cells (buffer st)) i = true) ->
       (1 <= noted ls')%nat) /\
      ((forall i, (current_iter ls <= i < d_end ls)%nat ->
                  table_toggle (cells (buffer st)) i = false) ->
       (current_iter ls <= d_end ls)%nat ->
       ls' = mkScan (d_end ls) (d_start ls) (d_end ls) (open_tags ls) (actions ls)
                    (last_action ls)).
Proof.
  induction fuel as [|fuel IH]; intros ls st Hl Hf Ha.
  - exists ls. cbn [on_delete_loop]. split; [reflexivity|].
    repeat split; try lia.
    + intros (i & Hi & _). lia.
    + intros _ Hle. assert (current_iter ls = d_end ls) by lia.
      destruct ls; cbn in *. subst. reflexivity.
  - cbn [on_delete_loop].
    destruct (current_iter ls <? d_end ls)%nat eqn:E; cbn [negb].
    + apply Nat.ltb_lt in E. unfold bind. unfold scan_anchor.
      pose proof (Ha (current_iter ls) ltac:(lia)) as Hn. unfold has_anchor in Hn.
      destruct (get_child_anchor (cells (buffer st)) (current_iter ls)); [discriminate|].
      destruct (scan_tags_fields (buffer st) ls) as (F1 & F2 & F3 & F4).
      destruct (scan_tags_noted (buffer st) ls) as [N1 N2].
      assert (Hcur : current_iter (scan_tags (buffer st) ls) = S (current_iter ls)).
      { rewrite F1. unfold get_char_count. lia. }
      destruct (IH (scan_tags (buffer st) ls) st) as (ls' & E' & G1 & G2 & G3 & G4 & G5 & G6).
      * rewrite F3. exact Hl.
      * rewrite F3, Hcur. lia.
      * intros i Hi. apply Ha. rewrite F3, Hcur in Hi. lia.
      * exists ls'. split; [exact E'|].
        split; [congruence|]. split; [congruence|]. split; [congruence|].
        split; [lia|]. split.
        -- intros (i & Hi & Ht).
           destruct (Nat.eq_dec i (current_iter ls)) as [->|Hne].
           ++ specialize (N2 Ht). lia.
           ++ apply G5. exists i. rewrite F3, Hcur. split; [lia | exact Ht].
        -- intros Hq Hle. rewrite G6.
           ++ rewrite F2, F3, F4.
              rewrite (scan_tags_quiet (buffer st) ls (Hq (current_iter ls) ltac:(lia))).
              cbn [open_tags actions]. reflexivity.
           ++ intros i Hi. apply Hq. rewrite F3, Hcur in Hi. lia.
           ++ rewrite F3, Hcur. lia.
    + apply Nat.ltb_ge in E. exists ls. split; [reflexivity|].
      repeat split; try lia.
      * intros (i & Hi & _). lia.
      * intros _ Hle. assert (current_iter ls = d_end ls) by lia.
        destruct ls; cbn in *. subst. reflexivity.
Qed.

End Loop.

Lemma exit_enter_at_rest (st : NoteBuffer) :
  internal_action_count st = 0 ->
  exit_internal_action true (enter_internal_action st) = idle_add st.
Proof.
  intro H. destruct st as [b c ic ca ua ra pr idl cc]. cbn in H. subst c. reflexivity.
Qed.

Lemma no_anchor_in_range (cs : list cell) (s e i : nat) :
  no_anchor_in cs s e = true -> (s <= i < e)%nat -> has_anchor cs i = false.
Proof.
  intros H Hi. apply (in_range_forallb _ s e i H) in Hi.
  apply negb_true_iff in Hi. exact Hi.
Qed.

Lemma quiet_range_no_anchor (cs : list cell) (s e : nat) :
  quiet_range cs s e = true -> no_anchor_in cs s e = true.
Proof.
  unfold quiet_range, no_anchor_in. rewrite !forallb_forall.
  intros H i Hi. specialize (H i Hi). apply andb_true_iff in H. tauto.
Qed.

Lemma quiet_range_no_toggle (cs : list cell) (s e i : nat) :
  quiet_range cs s e = true -> (s <= i < e)%nat -> table_toggle cs i = false.
Proof.
  intros H Hi. apply (in_range_forallb _ s e i H) in Hi.
  apply andb_true_iff in Hi. destruct Hi as [_ Hi].
  apply negb_true_iff in Hi. exact Hi.
Qed.

(** The guarded block of [on_delete] on a range without a child anchor
    in which a tag of the table starts or ends: two actions or more are
    listed, and the variable [action] is not bound. *)
Lemma on_delete_body_toggle (nested : nat -> nat -> M (nat * nat)) (s e : nat)
    (st : NoteBuffer) :
  (s < e <= List.length (cells (buffer st)))%nat ->
  no_anchor_in (cells (buffer st)) s e = true ->
  existsb (table_toggle (cells (buffer st))) (seq s (e - s)) = true ->
  on_delete_body nested s e st = Raised UnboundLocalError st.
Proof.
  intros Hse Ha Ht. unfold on_delete_body, bind.
  destruct (on_delete_loop_no_anchor nested (e - s) (mkScan s s e [] [] None) st)
    as (ls & E & G1 & G2 & G3 & G4 & G5 & _).
  - cbn [d_end]. lia.
  - cbn [d_end current_iter]. lia.
  - cbn [d_end current_iter]. intros i Hi. exact (no_anchor_in_range _ s e i Ha Hi).
  - rewrite E. cbn [d_start d_end last_action] in G1, G2, G3.
    rewrite G1, G2, G3.
    assert (Hn : (1 <= noted ls)%nat).
    { apply G5. apply existsb_exists in Ht. destruct Ht as (i & Hi & Hti).
      apply in_seq in Hi. exists i. cbn [current_iter d_end]. split; [lia | exact Hti]. }
    destruct (s =? e)%nat eqn:Ese; [apply Nat.eqb_eq in Ese; lia|]. cbn [negb].
    set (tail := map _ (open_tags ls)).
    assert (Hl : (1 <= List.length (actions ls ++ tail))%nat).
    { rewrite length_app. unfold tail. rewrite length_map. unfold noted in Hn. lia. }
    destruct (actions ls ++ tail) as [|a1 r1]; [simpl in Hl; lia|].
    destruct r1 as [|a2 r2]; reflexivity.
Qed.

(** The same on a range in which no tag of the table starts or ends:
    the deletion is the one action. *)
Lemma on_delete_body_quiet (nested : nat -> nat -> M (nat * nat)) (s e : nat)
    (st : NoteBuffer) :
  (s < e <= List.length (cells (buffer st)))%nat ->
  quiet_range (cells (buffer st)) s e = true ->
  on_delete_body nested s e st
  = Done (s, e) (join_or_add (new_DeletionAction (buffer st) s e) st).
Proof.
  intros Hse Hq. unfold on_delete_body, bind.
  destruct (on_delete_loop_no_anchor nested (e - s) (mkScan s s e [] [] None) st)
    as (ls & E & _ & _ & _ & _ & _ & G6).
  - cbn [d_end]. lia.
  - cbn [d_end current_iter]. lia.
  - cbn [d_end current_iter]. intros i Hi.
    exact (no_anchor_in_range _ s e i (quiet_range_no_anchor _ _ _ Hq) Hi).
  - rewrite E. rewrite G6.
    + cbn [d_start d_end actions open_tags last_action map app].
      destruct (s =? e)%nat eqn:Ese; [apply Nat.eqb_eq in Ese; lia|]. reflexivity.
    + cbn [d_end current_iter]. intros i Hi. exact (quiet_range_no_toggle _ s e i Hq Hi).
    + cbn [d_end current_iter]. lia.
Qed.

Lemma buffer_delete_unfold (s e : nat) (st : NoteBuffer) :
  internal_action_count st = 0 ->
  (s < e)%nat ->
  buffer_delete s e st
  = match on_delete_body (on_delete 0) s e (enter_internal_action st) with
    | Done r s' =>
        Done tt (set_buffer (raw_delete (buffer s') (fst r) (snd r))
                            (exit_internal_action true s'))
    | Raised x s' =>
        Done tt (set_buffer (raw_delete (buffer s') s e)
                            (print (Traceback x) (exit_internal_action true s')))
    end.
Proof.
  intros Hc Hse. unfold buffer_delete, buffer_delete_with.
  rewrite Nat.min_l, Nat.max_r by lia.
  destruct (s =? e)%nat eqn:Ese; [apply Nat.eqb_eq in Ese; lia|].
  unfold bind, run_handler, delete_range_handler. rewrite on_delete_S, Hc.
  cbn [negb Z.eqb]. unfold with_internal_action.
  destruct (on_delete_body (on_delete 0) s e (enter_internal_action st)) as [r s'|x s'];
    unfold modify.
  - rewrite exit_buffer. reflexivity.
  - cbn [fst snd]. f_equal. f_equal. f_equal.
    destruct s'; unfold exit_internal_action; cbn.
    destruct (_ && true); reflexivity.
Qed.

(** X15.  A deletion, at rest, of a range that holds no check box and no
    bullet, but in which a tag of the table starts or ends: [on_delete]
    lists two actions or more and raises [UnboundLocalError] at
    [actions.append(action)].  The traceback is printed and the range is
    deleted, and nothing is recorded: the three lists of actions are as
    they were.  The Delete key, inside its user action, leaves the same
    state. *)
Theorem deletion_with_tag_toggle_unrecorded (s e : nat) (st : NoteBuffer) :
  internal_action_count st = 0 ->
  (s < e <= List.length (cells (buffer st)))%nat ->
  no_anchor_in (cells (buffer st)) s e = true ->
  existsb (table_toggle (cells (buffer st))) (seq s (e - s)) = true ->
  exists st',
    buffer_delete s e st = Done tt st' /\
    (in_composite st = 0 -> composite_actions st = [] ->
     user_action (buffer_delete s e) st = Done tt st') /\
    cells (buffer st') = firstn s (cells (buffer st)) ++ skipn e (cells (buffer st)) /\
    printed st' = printed st ++ [Traceback UnboundLocalError] /\
    undo_actions st' = undo_actions st /\
    redo_actions st' = redo_actions st /\
    composite_actions st' = composite_actions st /\
    internal_action_count st' = 0.
Proof.
  intros Hc Hse Ha Ht.
  assert (E : forall st0,
             internal_action_count st0 = 0 -> buffer st0 = buffer st ->
             buffer_delete s e st0
             = Done tt (set_buffer (raw_delete (buffer st) s e)
                          (print (Traceback UnboundLocalError) (idle_add st0)))).
  { intros st0 Hc0 Hb0. rewrite (buffer_delete_unfold s e st0 Hc0) by lia.
    rewrite on_delete_body_toggle
      by (change (buffer (enter_internal_action st0)) with (buffer st0);
          rewrite Hb0; assumption).
    change (buffer (enter_internal_action st0)) with (buffer st0).
    rewrite Hb0, (exit_enter_at_rest st0 Hc0). reflexivity. }
  eexists. split; [apply (E st Hc eq_refl)|].
  split.
  { intros Hi Hca. unfold user_action.
    rewrite (E (begin_composite_action st) Hc eq_refl). f_equal.
    destruct st as [b c ic ca ua ra pr idl cc]. cbn in Hc, Hi, Hca. subst c ic ca.
    reflexivity. }
  cbn. repeat split. exact Hc.
Qed.

Lemma firstn_skipn_range {A : Type} (l : list A) (s e : nat) :
  (s <= e)%nat -> firstn s l ++ firstn (e - s) (skipn s l) ++ skipn e l = l.
Proof.
  intro H. rewrite <- (firstn_skipn s l) at 4. f_equal.
  rewrite <- (firstn_skipn (e - s) (skipn s l)) at 2. f_equal.
  rewrite skipn_skipn. f_equal. lia.
Qed.

Lemma length_get_slice (b : TextBuffer) (s e : nat) :
  (s <= e <= List.length (cells b))%nat -> List.length (get_slice b s e) = (e - s)%nat.
Proof.
  intro H. unfold get_slice. rewrite length_map, length_firstn, length_skipn. lia.
Qed.

Lemma cells_raw_delete (b : TextBuffer) (s e : nat) :
  cells (raw_delete b s e) = firstn s (cells b) ++ skipn e (cells b).
Proof. reflexivity. Qed.

Lemma length_raw_delete (b : TextBuffer) (s e : nat) :
  (s <= e <= List.length (cells b))%nat ->
  List.length (cells (raw_delete b s e)) = (List.length (cells b) - (e - s))%nat.
Proof.
  intro H. rewrite cells_raw_delete, length_app, length_firstn, length_skipn. lia.
Qed.

Lemma untagged_tags_at (cs : list cell) (i : nat) : untagged cs = true -> tags_at cs i = [].
Proof.
  intro H. unfold tags_at. destruct (nth_error cs i) as [c|] eqn:E; [|reflexivity].
  apply nth_error_In in E. unfold untagged in H. rewrite forallb_forall in H.
  specialize (H c E). destruct (cell_tags c); [reflexivity|discriminate].
Qed.

Lemma untagged_no_toggle (cs : list cell) (i : nat) :
  untagged cs = true -> table_toggle cs i = false.
Proof.
  intro H. unfold table_toggle, get_toggled_tags.
  assert (Hb : tags_before cs i = [])
    by (destruct i; [reflexivity | apply untagged_tags_at; exact H]).
  rewrite Hb, (untagged_tags_at cs i H). reflexivity.
Qed.

Lemma untagged_quiet (cs : list cell) (s e : nat) :
  untagged cs = true -> no_anchor_in cs s e = true -> quiet_range cs s e = true.
Proof.
  intros Hu Ha. unfold quiet_range, no_anchor_in in *. rewrite forallb_forall in *.
  intros i Hi. rewrite (Ha i Hi), (untagged_no_toggle cs i Hu). reflexivity.
Qed.

Lemma untagged_inherited (cs : list cell) (i : nat) :
  untagged cs = true -> inherited_tags cs i = [].
Proof.
  intro H. unfold inherited_tags.
  assert (Hb : tags_before cs i = [])
    by (destruct i; [reflexivity | apply untagged_tags_at; exact H]).
  rewrite Hb. reflexivity.
Qed.

Lemma forallb_firstn {A : Type} (f : A -> bool) (n : nat) (l : list A) :
  forallb f l = true -> forallb f (firstn n l) = true.
Proof.
  revert n. induction l as [|x r IH]; intros [|n] H; simpl in *; try reflexivity.
  apply andb_true_iff in H. destruct H as [H1 H2]. rewrite H1, (IH n H2). reflexivity.
Qed.

Lemma forallb_skipn {A : Type} (f : A -> bool) (n : nat) (l : list A) :
  forallb f l = true -> forallb f (skipn n l) = true.
Proof.
  revert n. induction l as [|x r IH]; intros [|n] H; simpl in *; try reflexivity.
  - exact H.
  - apply andb_true_iff in H. destruct H as [_ H2]. exact (IH n H2).
Qed.

Lemma untagged_raw_delete (b : TextBuffer) (s e : nat) :
  untagged (cells b) = true -> untagged (cells (raw_delete b s e)) = true.
Proof.
  unfold untagged. rewrite cells_raw_delete, forallb_app. intro H.
  rewrite (forallb_firstn _ s _ H), (forallb_skipn _ e _ H). reflexivity.
Qed.

(** The characters of an untagged range without a child anchor, put
    back without a tag, are the cells of the range. *)
Lemma untagged_range_cells (cs : list cell) (s e : nat) :
  untagged cs = true ->
  no_anchor_in cs s e = true ->
  map (fun x => mkCell (Chr x) [])
      (map (fun c => content_char (cell_content c)) (firstn (e - s) (skipn s cs)))
  = firstn (e - s) (skipn s cs).
Proof.
  intros Hu Ha. rewrite map_map. rewrite <- (map_id (firstn (e - s) (skipn s cs))) at 2.
  apply map_ext_in. intros c Hc.
  apply In_nth_error in Hc. destruct Hc as [k Hk].
  rewrite nth_error_firstn in Hk.
  destruct (k <? e - s)%nat eqn:Ek; [|discriminate].
  apply Nat.ltb_lt in Ek. rewrite nth_error_skipn in Hk.
  pose proof (no_anchor_in_range cs s e (s + k) Ha ltac:(lia)) as Hn.
  unfold has_anchor, get_child_anchor in Hn. rewrite Hk in Hn.
  pose proof (untagged_tags_at cs (s + k) Hu) as Ht. unfold tags_at in Ht.
  rewrite Hk in Ht. destruct c as [[x|w] tg]; cbn in *; [|discriminate].
  subst tg. reflexivity.
Qed.

Section Deletion.

Variable get_url_start : str -> option Z.

(** A deletion at rest of a range in which nothing starts or ends, that
    the top of the undo stack does not absorb; then [undo], and
    [redo]. *)
Lemma quiet_deletion (s e : nat) (st : NoteBuffer) :
  internal_action_count st = 0 ->
  in_composite st = 0 ->
  (s < e <= List.length (cells (buffer st)))%nat ->
  quiet_range (cells (buffer st)) s e = true ->
  (forall rest top, undo_actions st = rest ++ [top] ->
                    maybe_join top (new_DeletionAction (buffer st) s e) = None) ->
  exists st1 st2 st3,
    buffer_delete s e st = Done tt st1 /\
    buffer st1 = raw_delete (buffer st) s e /\
    internal_action_count st1 = 0 /\
    in_composite st1 = 0 /\
    undo_actions st1 = undo_actions st ++ [new_DeletionAction (buffer st) s e] /\
    redo_actions st1 = [] /\
    undo get_url_start st1 = Done tt st2 /\
    cells (buffer st2)
    = firstn s (cells (buffer st))
        ++ map (fun x => mkCell (Chr x)
                           (inherited_tags (cells (raw_delete (buffer st) s e)) s))
               (get_slice (buffer st) s e)
        ++ skipn e (cells (buffer st)) /\
    undo_actions st2 = undo_actions st /\
    redo_actions st2 = [new_DeletionAction (buffer st) s e] /\
    redo get_url_start st2 = Done tt st3 /\
    cells (buffer st3) = cells (buffer st1) /\
    undo_actions st3 = undo_actions st1 /\
    redo_actions st3 = [].
Proof.
  intros Hc Hi Hse Hq Hj.
  set (b := buffer st) in *.
  set (D := new_DeletionAction b s e) in *.
  set (b1 := raw_delete b s e).
  set (st1 := set_buffer b1
                (exit_internal_action true
                   (set_redo_actions []
                      (set_undo_actions (undo_actions st ++ [D])
                         (enter_internal_action st))))).
  assert (E1 : buffer_delete s e st = Done tt st1).
  { rewrite (buffer_delete_unfold s e st Hc) by lia.
    rewrite on_delete_body_quiet by assumption.
    change (buffer (enter_internal_action st)) with b. fold D. cbn [fst snd].
    rewrite join_or_add_buffer. change (buffer (enter_internal_action st)) with b.
    rewrite join_or_add_enter, (join_or_add_added D st Hj).
    rewrite add_undo_action_at_rest by exact Hi. reflexivity. }
  assert (Hb1 : buffer st1 = b1) by reflexivity.
  assert (Hc1 : internal_action_count st1 = 0).
  { unfold st1. cbn [internal_action_count set_buffer]. rewrite exit_count. simpl. lia. }
  assert (Hi1 : in_composite st1 = 0).
  { unfold st1. cbn [in_composite set_buffer]. rewrite exit_in_composite. exact Hi. }
  assert (Hu1 : undo_actions st1 = undo_actions st ++ [D]).
  { unfold st1. cbn [undo_actions set_buffer]. rewrite exit_undo_actions. reflexivity. }
  assert (Hr1 : redo_actions st1 = []).
  { unfold st1. cbn [redo_actions set_buffer]. rewrite exit_redo_actions. reflexivity. }
  assert (Hl1 : List.length (cells b1) = (List.length (cells b) - (e - s))%nat)
    by (apply length_raw_delete; lia).
  assert (Hlt : List.length (get_slice b s e) = (e - s)%nat)
    by (apply length_get_slice; lia).
  assert (HD : D = DeletionAction (get_slice b s e) (Z.of_nat s)
                     match D with DeletionAction _ _ dt => dt | _ => other end)
    by reflexivity.
  set (dt := match D with DeletionAction _ _ dt => dt | _ => other end) in HD.
  (* undo *)
  set (s1 := set_undo_actions (undo_actions st) (enter_internal_action st1)).
  assert (G1 : internal_action_count s1 <> 0).
  { unfold s1. cbn [internal_action_count set_undo_actions enter_internal_action
                      set_internal_action_count]. rewrite Hc1. lia. }
  set (b2 := raw_insert b1 s (get_slice b s e)).
  assert (EU : action_undo get_url_start D s1 = Done D (set_buffer b2 s1)).
  { rewrite HD. cbn [action_undo]. unfold bind, ret.
    change (buffer s1) with b1.
    rewrite get_iter_at_offset_inside by lia.
    rewrite (buffer_insert_guarded get_url_start s _ s1 G1).
    unfold b2.
    destruct (get_slice b s e) as [|x r]; [cbn [List.length] in Hlt; lia|].
    reflexivity. }
  destruct (undo_pops get_url_start st1 (undo_actions st) _ _ _ ltac:(lia) Hu1 EU)
    as [Eu _].
  set (st2 := exit_internal_action true
                (set_redo_actions (redo_actions st1 ++ [D]) (set_buffer b2 s1))) in *.
  assert (Hb2 : buffer st2 = b2) by (unfold st2; rewrite exit_buffer; reflexivity).
  assert (Hu2 : undo_actions st2 = undo_actions st)
    by (unfold st2; rewrite exit_undo_actions; reflexivity).
  assert (Hr2 : redo_actions st2 = [] ++ [D]).
  { unfold st2. rewrite exit_redo_actions. cbn [redo_actions set_redo_actions].
    rewrite Hr1. reflexivity. }
  assert (Hc2 : internal_action_count st2 = 0).
  { unfold st2. rewrite exit_count. unfold s1.
    cbn [internal_action_count set_redo_actions set_buffer set_undo_actions
           enter_internal_action set_internal_action_count]. rewrite Hc1. lia. }
  assert (Hcells2 : cells b2
                    = firstn s (cells b)
                        ++ map (fun x => mkCell (Chr x) (inherited_tags (cells b1) s))
                               (get_slice b s e)
                        ++ skipn e (cells b)).
  { unfold b2. rewrite cells_raw_insert, map_map.
    unfold b1 at 1 3. rewrite cells_raw_delete.
    rewrite firstn_app, firstn_firstn, Nat.min_id, length_firstn.
    replace (s - Nat.min s (List.length (cells b)))%nat with 0%nat by lia.
    cbn [firstn]. rewrite app_nil_r.
    rewrite skipn_app, length_firstn.
    replace (s - Nat.min s (List.length (cells b)))%nat with 0%nat by lia.
    cbn [skipn]. rewrite (skipn_all2 (firstn s (cells b))) by (rewrite length_firstn; lia).
    reflexivity. }
  assert (Hl2 : List.length (cells b2) = List.length (cells b)).
  { rewrite Hcells2, !length_app, length_map, length_firstn, length_skipn, Hlt. lia. }
  (* redo *)
  set (r1 := set_redo_actions [] (enter_internal_action st2)).
  assert (G2 : internal_action_count r1 <> 0).
  { unfold r1. cbn [internal_action_count set_redo_actions enter_internal_action
                      set_internal_action_count]. rewrite Hc2. lia. }
  set (b3 := raw_delete b2 s e).
  assert (ER : action_redo get_url_start D r1 = Done D (set_buffer b3 r1)).
  { rewrite HD. cbn [action_redo]. unfold bind, ret.
    change (buffer r1) with (buffer st2). rewrite Hb2.
    replace (Z.of_nat s + py_len (get_slice b s e)) with (Z.of_nat e)
      by (unfold py_len; rewrite Hlt; lia).
    rewrite !get_iter_at_offset_inside by lia.
    rewrite (buffer_delete_guarded s e r1 G2).
    rewrite Nat.min_l, Nat.max_r by lia.
    destruct (s =? e)%nat eqn:Ese; [apply Nat.eqb_eq in Ese; lia|].
    unfold b3. change (buffer r1) with (buffer st2). rewrite Hb2. reflexivity. }
  destruct (redo_pops get_url_start st2 [] _ _ _ ltac:(lia) Hr2 ER) as [Er _].
  exists st1, st2, (exit_internal_action true
                      (set_undo_actions (undo_actions st2 ++ [D]) (set_buffer b3 r1))).
  split; [exact E1|]. split; [exact Hb1|]. split; [exact Hc1|]. split; [exact Hi1|].
  split; [exact Hu1|]. split; [exact Hr1|]. split; [exact Eu|].
  split; [rewrite Hb2; exact Hcells2|]. split; [exact Hu2|]. split; [exact Hr2|].
  split; [exact Er|].
  rewrite exit_buffer, exit_undo_actions, exit_redo_actions.
  cbn [buffer undo_actions redo_actions set_undo_actions set_buffer].
  split; [|split; [rewrite Hu2, Hu1; reflexivity | reflexivity]].
  rewrite Hb1. unfold b3. rewrite !cells_raw_delete, Hcells2.
  rewrite firstn_app, firstn_firstn, Nat.min_id, length_firstn.
  replace (s - Nat.min s (List.length (cells b)))%nat with 0%nat by lia.
  cbn [firstn]. rewrite app_nil_r. f_equal.
  rewrite skipn_app, length_firstn.
  rewrite (skipn_all2 (firstn s (cells b))) by (rewrite length_firstn; lia).
  replace (e - Nat.min s (List.length (cells b)))%nat with (e - s)%nat by lia.
  rewrite skipn_app, length_map, Hlt, Nat.sub_diag. cbn [skipn app].
  rewrite skipn_all2 by (rewrite length_map, Hlt; lia). reflexivity.
Qed.

(** The key that deletes, inside its user action, leaves the state the
    deletion leaves outside one. *)
Lemma quiet_deletion_key (s e : nat) (st : NoteBuffer) :
  internal_action_count st = 0 ->
  in_composite st = 0 ->
  composite_actions st = [] ->
  (s < e <= List.length (cells (buffer st)))%nat ->
  quiet_range (cells (buffer st)) s e = true ->
  user_action (buffer_delete s e) st = buffer_delete s e st /\
  composite_actions (final_state (buffer_delete s e st)) = [].
Proof.
  intros Hc Hi Hca Hse Hq. unfold user_action.
  rewrite (buffer_delete_unfold s e (begin_composite_action st) Hc) by lia.
  rewrite (buffer_delete_unfold s e st Hc) by lia.
  rewrite !on_delete_body_quiet by assumption.
  change (buffer (enter_internal_action (begin_composite_action st))) with (buffer st).
  change (buffer (enter_internal_action st)) with (buffer st).
  unfold join_or_add.
  change (undo_actions (enter_internal_action (begin_composite_action st)))
    with (undo_actions st).
  change (undo_actions (enter_internal_action st)) with (undo_actions st).
  destruct st as [b c ic ca ua ra pr idl cc]. cbn in Hc, Hi, Hca. subst c ic ca.
  cbn [undo_actions buffer enter_internal_action begin_composite_action set_in_composite
         set_internal_action_count].
  destruct (list_pop ua) as [[rest top]|];
    [destruct (maybe_join top (new_DeletionAction b s e))|]; split; reflexivity.
Qed.

(** X12.  In a buffer without tags, a deletion at rest of a range of
    characters, that the top of the undo stack does not absorb, is
    recorded as one [DeletionAction] and empties the redo stack; [undo]
    puts back the cells the buffer had, and [redo] deletes them again. *)
Theorem plain_deletion_round_trip (s e : nat) (st : NoteBuffer) :
  internal_action_count st = 0 ->
  in_composite st = 0 ->
  (s < e <= List.length (cells (buffer st)))%nat ->
  untagged (cells (buffer st)) = true ->
  no_anchor_in (cells (buffer st)) s e = true ->
  (forall rest top, undo_actions st = rest ++ [top] ->
                    maybe_join top (new_DeletionAction (buffer st) s e) = None) ->
  exists st1 st2 st3,
    buffer_delete s e st = Done tt st1 /\
    (composite_actions st = [] -> user_action (buffer_delete s e) st = Done tt st1) /\
    cells (buffer st1) = firstn s (cells (buffer st)) ++ skipn e (cells (buffer st)) /\
    undo_actions st1 = undo_actions st ++ [new_DeletionAction (buffer st) s e] /\
    redo_actions st1 = [] /\
    undo get_url_start st1 = Done tt st2 /\
    cells (buffer st2) = cells (buffer st) /\
    undo_actions st2 = undo_actions st /\
    redo_actions st2 = [new_DeletionAction (buffer st) s e] /\
    redo get_url_start st2 = Done tt st3 /\
    cells (buffer st3) = cells (buffer st1) /\
    undo_actions st3 = undo_actions st1 /\
    redo_actions st3 = [].
Proof.
  intros Hc Hi Hse Hu Ha Hj.
  destruct (quiet_deletion s e st Hc Hi Hse (untagged_quiet _ s e Hu Ha) Hj)
    as (st1 & st2 & st3 & E1 & B1 & _ & _ & U1 & R1 & E2 & C2 & U2 & R2 & E3 & C3 & U3 & R3).
  exists st1, st2, st3.
  split; [exact E1|].
  split.
  { intro Hca.
    rewrite (proj1 (quiet_deletion_key s e st Hc Hi Hca Hse (untagged_quiet _ s e Hu Ha))).
    exact E1. }
  split; [rewrite B1; reflexivity|]. split; [exact U1|].
  split; [exact R1|]. split; [exact E2|].
  split.
  { rewrite C2, (untagged_inherited _ s (untagged_raw_delete _ s e Hu)).
    unfold get_slice. rewrite (untagged_range_cells _ s e Hu Ha).
    apply firstn_skipn_range. lia. }
  split; [exact U2|]. split; [exact R2|]. split; [exact E3|]. split; [exact C3|].
  split; [exact U3 | exact R3].
Qed.

(** X16.  A deletion at rest of a range without a child anchor, in which
    no tag of the table starts or ends, but at whose end a tag [t] ends
    (the last cell of the range carries it, the cell behind the range
    does not): the loop of [on_delete] stops in front of the end of the
    range and notes nothing for the tag.  [undo] puts the characters back,
    and none of them carries [t]. *)
Theorem deletion_at_tag_end_loses_tag (s e : nat) (t : tag) (st : NoteBuffer) :
  internal_action_count st = 0 ->
  in_composite st = 0 ->
  (s < e <= List.length (cells (buffer st)))%nat ->
  quiet_range (cells (buffer st)) s e = true ->
  mem t (tags_at (cells (buffer st)) (e - 1)) = true ->
  mem t (tags_at (cells (buffer st)) e) = false ->
  (forall rest top, undo_actions st = rest ++ [top] ->
                    maybe_join top (new_DeletionAction (buffer st) s e) = None) ->
  exists st1 st2,
    buffer_delete s e st = Done tt st1 /\
    (composite_actions st = [] -> user_action (buffer_delete s e) st = Done tt st1) /\
    undo_actions st1 = undo_actions st ++ [new_DeletionAction (buffer st) s e] /\
    undo get_url_start st1 = Done tt st2 /\
    contents st2 = contents st /\
    undo_actions st2 = undo_actions st /\
    (forall j, (s <= j < e)%nat -> mem t (tags_at (cells (buffer st2)) j) = false).
Proof.
  intros Hc Hi Hse Hq Ht1 Ht2 Hj.
  destruct (quiet_deletion s e st Hc Hi Hse Hq Hj)
    as (st1 & st2 & _ & E1 & _ & _ & _ & U1 & _ & E2 & C2 & U2 & _).
  exists st1, st2.
  split; [exact E1|].
  split.
  { intro Hca. rewrite (proj1 (quiet_deletion_key s e st Hc Hi Hca Hse Hq)). exact E1. }
  split; [exact U1|]. split; [exact E2|].
  set (cs := cells (buffer st)) in *.
  set (inh := inherited_tags (cells (raw_delete (buffer st) s e)) s) in *.
  assert (Hinh : mem t inh = false).
  { unfold inh, inherited_tags. rewrite mem_filter.
    assert (Hat : tags_at (cells (raw_delete (buffer st) s e)) s = tags_at cs e).
    { unfold tags_at. rewrite cells_raw_delete. fold cs.
      rewrite nth_error_app2 by (rewrite length_firstn; lia).
      rewrite length_firstn, nth_error_skipn.
      replace (e + (s - Nat.min s (List.length cs)))%nat with e by lia. reflexivity. }
    rewrite Hat, Ht2. apply andb_false_r. }
  assert (Hlen : List.length (get_slice (buffer st) s e) = (e - s)%nat)
    by (apply length_get_slice; fold cs; lia).
  split; [|split; [exact U2|]].
  - unfold contents. rewrite C2. fold cs.
    transitivity (map cell_content
                    (firstn s cs ++ firstn (e - s) (skipn s cs) ++ skipn e cs));
      [|rewrite firstn_skipn_range by lia; reflexivity].
    rewrite !map_app. f_equal. f_equal.
    unfold get_slice. fold cs. rewrite !map_map. cbn [cell_content].
    apply map_ext_in. intros c Hc0.
    apply In_nth_error in Hc0. destruct Hc0 as [k Hk].
    rewrite nth_error_firstn in Hk.
    destruct (k <? e - s)%nat eqn:Ek; [|discriminate].
    apply Nat.ltb_lt in Ek. rewrite nth_error_skipn in Hk.
    pose proof (no_anchor_in_range cs s e (s + k) (quiet_range_no_anchor _ _ _ Hq)
                  ltac:(lia)) as Hn.
    unfold has_anchor, get_child_anchor in Hn. rewrite Hk in Hn.
    destruct c as [[x|w] tg]; cbn in *; [reflexivity|discriminate].
  - intros j Hj'. unfold tags_at. rewrite C2.
    rewrite nth_error_app2 by (rewrite length_firstn; fold cs; lia).
    rewrite length_firstn. fold cs.
    replace (j - Nat.min s (List.length cs))%nat with (j - s)%nat by lia.
    rewrite nth_error_app1 by (rewrite length_map, Hlen; lia).
    rewrite nth_error_map.
    destruct (nth_error (get_slice (buffer st) s e) (j - s)) as [x|]; [|reflexivity].
    cbn [option_map cell_tags]. exact Hinh.
Qed.

(** The same deletion when the top of the undo stack absorbs it. *)
Lemma quiet_deletion_joined (s e : nat) (st : NoteBuffer) (rest : list Action)
    (top top' : Action) :
  internal_action_count st = 0 ->
  (s < e <= List.length (cells (buffer st)))%nat ->
  quiet_range (cells (buffer st)) s e = true ->
  undo_actions st = rest ++ [top] ->
  maybe_join top (new_DeletionAction (buffer st) s e) = Some top' ->
  exists st1,
    buffer_delete s e st = Done tt st1 /\
    buffer st1 = raw_delete (buffer st) s e /\
    internal_action_count st1 = 0 /\
    undo_actions st1 = rest ++ [top'] /\
    redo_actions st1 = redo_actions st.
Proof.
  intros Hc Hse Hq Hu Hj.
  rewrite (buffer_delete_unfold s e st Hc) by lia.
  rewrite on_delete_body_quiet by assumption.
  change (buffer (enter_internal_action st)) with (buffer st). cbn [fst snd].
  rewrite join_or_add_buffer. change (buffer (enter_internal_action st)) with (buffer st).
  rewrite join_or_add_enter, (join_or_add_joined _ st rest top top' Hu Hj).
  eexists. split; [reflexivity|].
  cbn [buffer set_buffer internal_action_count undo_actions redo_actions].
  rewrite exit_count, exit_undo_actions, exit_redo_actions. cbn.
  repeat split. lia.
Qed.

(** [undo] of a deletion of characters in a buffer without tags. *)
Lemma undo_deletion_untagged (cs : list cell) (s e : nat) (dt : deletion_type)
    (rest : list Action) (st : NoteBuffer) :
  internal_action_count st = 0 ->
  (s < e <= List.length cs)%nat ->
  untagged cs = true ->
  no_anchor_in cs s e = true ->
  cells (buffer st) = firstn s cs ++ skipn e cs ->
  undo_actions st
  = rest ++ [DeletionAction
               (map (fun c => content_char (cell_content c)) (firstn (e - s) (skipn s cs)))
               (Z.of_nat s) dt] ->
  exists st',
    undo get_url_start st = Done tt st' /\
    cells (buffer st') = cs /\
    undo_actions st' = rest.
Proof.
  intros Hc Hse Hu Ha Hcells Hun.
  set (text := map (fun c => content_char (cell_content c)) (firstn (e - s) (skipn s cs)))
    in *.
  set (D := DeletionAction text (Z.of_nat s) dt) in *.
  assert (Hlt : List.length text = (e - s)%nat)
    by (unfold text; rewrite length_map, length_firstn, length_skipn; lia).
  set (s1 := set_undo_actions rest (enter_internal_action st)).
  assert (G1 : internal_action_count s1 <> 0) by (unfold s1; simpl; lia).
  assert (Hlen : List.length (cells (buffer st)) = (List.length cs - (e - s))%nat).
  { rewrite Hcells, length_app, length_firstn, length_skipn. lia. }
  assert (EU : action_undo get_url_start D s1
               = Done D (set_buffer (raw_insert (buffer st) s text) s1)).
  { unfold D. cbn [action_undo]. unfold bind, ret.
    change (buffer s1) with (buffer st).
    rewrite get_iter_at_offset_inside by lia.
    rewrite (buffer_insert_guarded get_url_start s _ s1 G1).
    destruct text as [|x r]; [cbn [List.length] in Hlt; lia|]. reflexivity. }
  destruct (undo_pops get_url_start st rest _ _ _ ltac:(lia) Hun EU) as [Eu _].
  eexists. split; [exact Eu|].
  rewrite exit_buffer, exit_undo_actions.
  cbn [buffer undo_actions set_redo_actions set_buffer]. split; [|reflexivity].
  rewrite cells_raw_insert, map_map, Hcells.
  assert (Hut : untagged (firstn s cs ++ skipn e cs) = true).
  { unfold untagged in *. rewrite forallb_app, (forallb_firstn _ s _ Hu),
      (forallb_skipn _ e _ Hu). reflexivity. }
  rewrite (untagged_inherited _ s Hut).
  rewrite firstn_app, firstn_firstn, Nat.min_id, length_firstn.
  replace (s - Nat.min s (List.length cs))%nat with 0%nat by lia.
  cbn [firstn]. rewrite app_nil_r.
  rewrite skipn_app, length_firstn.
  replace (s - Nat.min s (List.length cs))%nat with 0%nat by lia.
  cbn [skipn]. rewrite (skipn_all2 (firstn s cs)) by (rewrite length_firstn; lia).
  unfold text. rewrite (untagged_range_cells cs s e Hu Ha). cbn [app].
  apply firstn_skipn_range. lia.
Qed.

Lemma firstn_add {A : Type} (n k : nat) (l : list A) :
  firstn (n + k) l = firstn n l ++ firstn k (skipn n l).
Proof.
  revert l. induction n as [|n IH]; intro l; [reflexivity|].
  destruct l as [|x r]; [rewrite ?firstn_nil, ?skipn_nil, ?firstn_nil; reflexivity|].
  cbn [Nat.add firstn skipn app]. rewrite IH. reflexivity.
Qed.

Lemma get_slice_app (b : TextBuffer) (a m c : nat) :
  (a <= m <= c)%nat -> get_slice b a m ++ get_slice b m c = get_slice b a c.
Proof.
  intro H. unfold get_slice. rewrite <- map_app. f_equal.
  replace (c - a)%nat with ((m - a) + (c - m))%nat by lia.
  rewrite firstn_add, skipn_skipn. do 3 f_equal. lia.
Qed.

Lemma get_slice_before_delete (b : TextBuffer) (s e a c : nat) :
  (a <= c <= s)%nat -> (s <= List.length (cells b))%nat ->
  get_slice (raw_delete b s e) a c = get_slice b a c.
Proof.
  intros H Hs. unfold get_slice. rewrite cells_raw_delete. f_equal.
  rewrite skipn_app, length_firstn.
  replace (a - Nat.min s (List.length (cells b)))%nat with 0%nat by lia.
  cbn [skipn]. rewrite skipn_firstn_comm.
  rewrite firstn_app, length_firstn, length_skipn.
  replace (c - a - Nat.min (s - a) (List.length (cells b) - a))%nat with 0%nat by lia.
  cbn [firstn]. rewrite app_nil_r, firstn_firstn. f_equal. lia.
Qed.

Lemma get_slice_behind_delete (b : TextBuffer) (s e k : nat) :
  (s <= e <= List.length (cells b))%nat ->
  get_slice (raw_delete b s e) s (s + k) = get_slice b e (e + k).
Proof.
  intro H. unfold get_slice. rewrite cells_raw_delete. f_equal.
  rewrite skipn_app, length_firstn.
  replace (s - Nat.min s (List.length (cells b)))%nat with 0%nat by lia.
  cbn [skipn]. rewrite (skipn_all2 (firstn s (cells b))) by (rewrite length_firstn; lia).
  cbn [app]. f_equal; lia.
Qed.

Lemma no_anchor_in_sub (cs : list cell) (s e s' e' : nat) :
  no_anchor_in cs s e = true -> (s <= s')%nat -> (e' <= e)%nat ->
  no_anchor_in cs s' e' = true.
Proof.
  unfold no_anchor_in. rewrite !forallb_forall. intros H H1 H2 i Hi.
  apply H. apply in_seq. apply in_seq in Hi. lia.
Qed.

Lemma nth_error_raw_delete_before (b : TextBuffer) (s e i : nat) :
  (i < s <= List.length (cells b))%nat ->
  nth_error (cells (raw_delete b s e)) i = nth_error (cells b) i.
Proof.
  intro H. rewrite cells_raw_delete.
  rewrite nth_error_app1 by (rewrite length_firstn; lia).
  rewrite nth_error_firstn.
  destruct (i <? s)%nat eqn:E; [reflexivity | apply Nat.ltb_ge in E; lia].
Qed.

Lemma nth_error_raw_delete_behind (b : TextBuffer) (s e k : nat) :
  (s <= e <= List.length (cells b))%nat ->
  nth_error (cells (raw_delete b s e)) (s + k) = nth_error (cells b) (e + k).
Proof.
  intro H. rewrite cells_raw_delete.
  rewrite nth_error_app2 by (rewrite length_firstn; lia).
  rewrite length_firstn, nth_error_skipn. f_equal. lia.
Qed.

Lemma raw_delete_twice (b : TextBuffer) (s m e : nat) :
  (s <= m <= e)%nat -> (e <= List.length (cells b))%nat ->
  cells (raw_delete (raw_delete b m e) s m) = firstn s (cells b) ++ skipn e (cells b).
Proof.
  intros H He. rewrite cells_raw_delete, cells_raw_delete.
  rewrite firstn_app, firstn_firstn, length_firstn.
  replace (Nat.min s m) with s by lia.
  replace (s - Nat.min m (List.length (cells b)))%nat with 0%nat by lia.
  cbn [firstn]. rewrite app_nil_r. f_equal.
  rewrite skipn_app, length_firstn.
  rewrite (skipn_all2 (firstn m (cells b))) by (rewrite length_firstn; lia).
  replace (m - Nat.min m (List.length (cells b)))%nat with 0%nat by lia.
  reflexivity.
Qed.

Lemma raw_delete_twice_at (b : TextBuffer) (s : nat) :
  (s + 2 <= List.length (cells b))%nat ->
  cells (raw_delete (raw_delete b s (s + 1)) s (s + 1))
  = firstn s (cells b) ++ skipn (s + 2) (cells b).
Proof.
  intro H. rewrite cells_raw_delete, cells_raw_delete.
  rewrite firstn_app, firstn_firstn, Nat.min_id, length_firstn.
  replace (s - Nat.min s (List.length (cells b)))%nat with 0%nat by lia.
  cbn [firstn]. rewrite app_nil_r. f_equal.
  rewrite skipn_app, length_firstn.
  rewrite (skipn_all2 (firstn s (cells b))) by (rewrite length_firstn; lia).
  replace (s + 1 - Nat.min s (List.length (cells b)))%nat with 1%nat by lia.
  cbn [app]. rewrite skipn_skipn. f_equal. lia.
Qed.

Lemma no_selection_bound (b : TextBuffer) :
  get_has_selection b = false -> selection_bound b = insert_mark b.
Proof.
  unfold get_has_selection. intro H. apply negb_false_iff, Nat.eqb_eq in H.
  symmetry. exact H.
Qed.

(** X13.  In a buffer without tags and with nothing selected, two
    presses of the Backspace key (each deletes the character in front of
    the cursor) leave one [DeletionAction] of class [backward] that holds
    the two characters in the order of the text, and two presses of the
    Delete key (each deletes the character at the cursor) leave one of
    class [foreward]; either way [undo], once, puts back the cells the
    buffer had. *)
Theorem deletion_coalescing (st : NoteBuffer) :
  internal_action_count st = 0 ->
  in_composite st = 0 ->
  untagged (cells (buffer st)) = true ->
  get_has_selection (buffer st) = false ->
  (forall e,
      insert_mark (buffer st) = e ->
      (2 <= e <= List.length (cells (buffer st)))%nat ->
      no_anchor_in (cells (buffer st)) (e - 2) e = true ->
      (forall rest top, undo_actions st = rest ++ [top] ->
                        maybe_join top (new_DeletionAction (buffer st) (e - 1) e) = None) ->
      exists st1 st2 st3,
        buffer_delete (e - 1) e st = Done tt st1 /\
        buffer_delete (e - 2) (e - 1) st1 = Done tt st2 /\
        (composite_actions st = [] ->
         user_action (buffer_delete (e - 1) e) st = Done tt st1 /\
         user_action (buffer_delete (e - 2) (e - 1)) st1 = Done tt st2) /\
        undo_actions st2
        = undo_actions st
          ++ [DeletionAction (get_slice (buffer st) (e - 2) e) (Z.of_nat (e - 2)) backward] /\
        undo get_url_start st2 = Done tt st3 /\
        cells (buffer st3) = cells (buffer st) /\
        undo_actions st3 = undo_actions st) /\
  (forall s,
      insert_mark (buffer st) = s ->
      (s + 2 <= List.length (cells (buffer st)))%nat ->
      no_anchor_in (cells (buffer st)) s (s + 2) = true ->
      (forall rest top, undo_actions st = rest ++ [top] ->
                        maybe_join top (new_DeletionAction (buffer st) s (s + 1)) = None) ->
      exists st1 st2 st3,
        buffer_delete s (s + 1) st = Done tt st1 /\
        buffer_delete s (s + 1) st1 = Done tt st2 /\
        (composite_actions st = [] ->
         user_action (buffer_delete s (s + 1)) st = Done tt st1 /\
         user_action (buffer_delete s (s + 1)) st1 = Done tt st2) /\
        undo_actions st2
        = undo_actions st
          ++ [DeletionAction (get_slice (buffer st) s (s + 2)) (Z.of_nat s) foreward] /\
        undo get_url_start st2 = Done tt st3 /\
        cells (buffer st3) = cells (buffer st) /\
        undo_actions st3 = undo_actions st).
Proof.
  intros Hc Hi Hu Hsel.
  pose proof (no_selection_bound _ Hsel) as Hsb.
  set (b := buffer st) in *. set (cs := cells b) in *.
  split.
  - intros e Hm He Ha Hj.
    pose proof (no_anchor_in_sub cs _ _ (e - 1) e Ha ltac:(lia) ltac:(lia)) as Ha1.
    pose proof (no_anchor_in_sub cs _ _ (e - 2) (e - 1) Ha ltac:(lia) ltac:(lia)) as Ha2.
    destruct (quiet_deletion (e - 1) e st Hc Hi ltac:(fold b; fold cs; lia)
                (untagged_quiet _ _ _ Hu Ha1) Hj)
      as (st1 & _ & _ & E1 & B1 & C1 & I1 & U1 & _).
    fold b in B1, U1.
    assert (HD1 : new_DeletionAction b (e - 1) e
                  = DeletionAction (get_slice b (e - 1) e) (Z.of_nat (e - 1)) backward).
    { unfold new_DeletionAction. rewrite Hsel, Hm, Nat.eqb_refl. reflexivity. }
    set (b1 := raw_delete b (e - 1) e) in *.
    assert (Hm1 : insert_mark b1 = (e - 1)%nat).
    { unfold b1, raw_delete. cbn [insert_mark]. rewrite Hm. unfold shift_mark_delete.
      destruct (e <=? e - 1)%nat eqn:E; [apply Nat.leb_le in E; lia|].
      destruct (e <? e)%nat eqn:E'; [apply Nat.ltb_lt in E'; lia|]. lia. }
    assert (Hsel1 : get_has_selection b1 = false).
    { unfold get_has_selection, b1, raw_delete. cbn [insert_mark selection_bound].
      rewrite Hsb, Nat.eqb_refl. reflexivity. }
    assert (Hu1 : untagged (cells b1) = true) by (apply untagged_raw_delete; exact Hu).
    assert (Hl1 : List.length (cells b1) = (List.length cs - 1)%nat).
    { unfold b1. rewrite length_raw_delete by (fold cs; lia). fold cs. lia. }
    assert (Ha1' : no_anchor_in (cells b1) (e - 2) (e - 1) = true).
    { unfold no_anchor_in in *. rewrite forallb_forall in *. intros i Hi'.
      specialize (Ha2 i Hi'). apply in_seq in Hi'.
      unfold has_anchor, get_child_anchor in *. unfold b1.
      rewrite nth_error_raw_delete_before by (fold cs; lia). exact Ha2. }
    assert (HD2 : new_DeletionAction b1 (e - 2) (e - 1)
                  = DeletionAction (get_slice b (e - 2) (e - 1)) (Z.of_nat (e - 2)) backward).
    { unfold new_DeletionAction. rewrite Hsel1, Hm1, Nat.eqb_refl.
      unfold b1. rewrite get_slice_before_delete by (fold cs; lia). reflexivity. }
    assert (HJ : maybe_join (new_DeletionAction b (e - 1) e)
                            (new_DeletionAction b1 (e - 2) (e - 1))
                 = Some (DeletionAction (get_slice b (e - 2) e) (Z.of_nat (e - 2)) backward)).
    { rewrite HD1, HD2. cbn [maybe_join deletion_type_eqb negb andb].
      replace (Z.of_nat (e - 2) =? Z.of_nat (e - 1) - 1) with true
        by (symmetry; apply Z.eqb_eq; lia).
      rewrite get_slice_app by lia. reflexivity. }
    destruct (quiet_deletion_joined (e - 2) (e - 1) st1 (undo_actions st) _ _ C1
                ltac:(rewrite B1, Hl1; lia)
                ltac:(rewrite B1; exact (untagged_quiet _ _ _ Hu1 Ha1'))
                U1 ltac:(rewrite B1; exact HJ))
      as (st2 & E2 & B2 & C2 & U2 & _).
    destruct (undo_deletion_untagged cs (e - 2) e backward (undo_actions st) st2 C2
                ltac:(lia) Hu Ha)
      as (st3 & E3 & C3 & U3).
    { rewrite B2, B1. unfold b1. apply raw_delete_twice; fold cs; lia. }
    { rewrite U2. reflexivity. }
    exists st1, st2, st3.
    split; [exact E1|]. split; [exact E2|].
    split; [|repeat split; assumption].
    intro Hca.
    destruct (quiet_deletion_key (e - 1) e st Hc Hi Hca ltac:(fold b; fold cs; lia)
                (untagged_quiet _ _ _ Hu Ha1)) as [K1 K2].
    rewrite E1 in K2. cbn [final_state] in K2.
    destruct (quiet_deletion_key (e - 2) (e - 1) st1 C1 I1 K2
                ltac:(rewrite B1, Hl1; lia)
                ltac:(rewrite B1; exact (untagged_quiet _ _ _ Hu1 Ha1'))) as [K3 _].
    rewrite K1, K3. split; assumption.
  - intros s Hm Hs Ha Hj.
    pose proof (no_anchor_in_sub cs _ _ s (s + 1) Ha ltac:(lia) ltac:(lia)) as Ha1.
    pose proof (no_anchor_in_sub cs _ _ (s + 1) (s + 2) Ha ltac:(lia) ltac:(lia)) as Ha2.
    destruct (quiet_deletion s (s + 1) st Hc Hi ltac:(fold b; fold cs; lia)
                (untagged_quiet _ _ _ Hu Ha1) Hj)
      as (st1 & _ & _ & E1 & B1 & C1 & I1 & U1 & _).
    fold b in B1, U1.
    assert (HD1 : new_DeletionAction b s (s + 1)
                  = DeletionAction (get_slice b s (s + 1)) (Z.of_nat s) foreward).
    { unfold new_DeletionAction. rewrite Hsel, Hm, Nat.eqb_refl.
      destruct (s =? s + 1)%nat eqn:E; [apply Nat.eqb_eq in E; lia|]. reflexivity. }
    set (b1 := raw_delete b s (s + 1)) in *.
    assert (Hm1 : insert_mark b1 = s).
    { unfold b1, raw_delete. cbn [insert_mark]. rewrite Hm. unfold shift_mark_delete.
      rewrite Nat.leb_refl. reflexivity. }
    assert (Hsel1 : get_has_selection b1 = false).
    { unfold get_has_selection, b1, raw_delete. cbn [insert_mark selection_bound].
      rewrite Hsb, Nat.eqb_refl. reflexivity. }
    assert (Hu1 : untagged (cells b1) = true) by (apply untagged_raw_delete; exact Hu).
    assert (Hl1 : List.length (cells b1) = (List.length cs - 1)%nat).
    { unfold b1. rewrite length_raw_delete by (fold cs; lia). fold cs. lia. }
    assert (Ha1' : no_anchor_in (cells b1) s (s + 1) = true).
    { unfold no_anchor_in in *. rewrite forallb_forall in *. intros i Hi'.
      apply in_seq in Hi'. assert (i = s) by lia. subst i.
      specialize (Ha2 (s + 1)%nat ltac:(apply in_seq; lia)).
      unfold has_anchor, get_child_anchor in *. unfold b1.
      pose proof (nth_error_raw_delete_behind b s (s + 1) 0 ltac:(fold cs; lia)) as N.
      rewrite !Nat.add_0_r in N. rewrite N. exact Ha2. }
    assert (HD2 : new_DeletionAction b1 s (s + 1)
                  = DeletionAction (get_slice b (s + 1) (s + 2)) (Z.of_nat s) foreward).
    { unfold new_DeletionAction. rewrite Hsel1, Hm1, Nat.eqb_refl.
      destruct (s =? s + 1)%nat eqn:E; [apply Nat.eqb_eq in E; lia|].
      unfold b1. rewrite (get_slice_behind_delete b s (s + 1) 1) by (fold cs; lia).
      replace (s + 1 + 1)%nat with (s + 2)%nat by lia. reflexivity. }
    assert (HJ : maybe_join (new_DeletionAction b s (s + 1)) (new_DeletionAction b1 s (s + 1))
                 = Some (DeletionAction (get_slice b s (s + 2)) (Z.of_nat s) foreward)).
    { rewrite HD1, HD2. cbn [maybe_join deletion_type_eqb negb andb].
      rewrite Z.eqb_refl. rewrite get_slice_app by lia. reflexivity. }
    destruct (quiet_deletion_joined s (s + 1) st1 (undo_actions st) _ _ C1
                ltac:(rewrite B1, Hl1; lia)
                ltac:(rewrite B1; exact (untagged_quiet _ _ _ Hu1 Ha1'))
                U1 ltac:(rewrite B1; exact HJ))
      as (st2 & E2 & B2 & C2 & U2 & _).
    destruct (undo_deletion_untagged cs s (s + 2) foreward (undo_actions st) st2 C2
                ltac:(lia) Hu Ha)
      as (st3 & E3 & C3 & U3).
    { rewrite B2, B1. unfold b1. apply raw_delete_twice_at. fold cs. lia. }
    { rewrite U2. unfold get_slice. fold cs.
      replace (s + 2 - s)%nat with 2%nat by lia. reflexivity. }
    exists st1, st2, st3.
    split; [exact E1|]. split; [exact E2|].
    split; [|repeat split; assumption].
    intro Hca.
    destruct (quiet_deletion_key s (s + 1) st Hc Hi Hca ltac:(fold b; fold cs; lia)
                (untagged_quiet _ _ _ Hu Ha1)) as [K1 K2].
    rewrite E1 in K2. cbn [final_state] in K2.
    destruct (quiet_deletion_key s (s + 1) st1 C1 I1 K2
                ltac:(rewrite B1, Hl1; lia)
                ltac:(rewrite B1; exact (untagged_quiet _ _ _ Hu1 Ha1'))) as [K3 _].
    rewrite K1, K3. split; assumption.
Qed.

End Deletion.

(** ** The lines of a buffer *)

Lemma line_starts_from_gt (cs : list cell) :
  forall i x, In x (line_starts_from cs i) -> (i < x <= i + List.length cs)%nat.
Proof.
  induction cs as [|c r IH]; intros i x H; cbn [line_starts_from] in H; [destruct H|].
  cbn [List.length].
  destruct (is_char "010" c).
  - destruct H as [<-|H]; [lia|]. specialize (IH _ _ H). lia.
  - destruct (is_char "013" c).
    + destruct r as [|c' r'].
      * destruct H as [<-|H]; [simpl; lia|]. destruct H.
      * destruct (is_char "010" c').
        -- specialize (IH _ _ H). lia.
        -- destruct H as [<-|H]; [lia|]. specialize (IH _ _ H). lia.
    + specialize (IH _ _ H). lia.
Qed.

Lemma line_starts_from_shift (cs : list cell) :
  forall i, line_starts_from cs (S i) = map S (line_starts_from cs i).
Proof.
  induction cs as [|c r IH]; intro i; cbn [line_starts_from map]; [reflexivity|].
  destruct (is_char "010" c); [cbn [map]; rewrite IH; reflexivity|].
  destruct (is_char "013" c); [|apply IH].
  destruct r as [|c' r']; [reflexivity|].
  destruct (is_char "010" c'); [apply IH|]. cbn [map]. rewrite IH. reflexivity.
Qed.

(** The line starts are in order. *)
Lemma line_starts_from_sorted (cs : list cell) :
  forall i, StronglySorted lt (line_starts_from cs i).
Proof.
  induction cs as [|c r IH]; intro i; cbn [line_starts_from]; [constructor|].
  assert (Hc : StronglySorted lt (S i :: line_starts_from r (S i))).
  { constructor; [apply IH|]. apply Forall_forall. intros x Hx.
    apply line_starts_from_gt in Hx. lia. }
  destruct (is_char "010" c); [exact Hc|].
  destruct (is_char "013" c); [|apply IH].
  destruct r as [|c' r']; [exact Hc|].
  destruct (is_char "010" c'); [apply IH | exact Hc].
Qed.

Lemma line_starts_sorted (cs : list cell) : StronglySorted lt (line_starts cs).
Proof.
  unfold line_starts. constructor; [apply line_starts_from_sorted|].
  apply Forall_forall. intros x Hx. apply line_starts_from_gt in Hx. lia.
Qed.

Lemma line_starts_le (cs : list cell) (x : nat) :
  In x (line_starts cs) -> (x <= List.length cs)%nat.
Proof.
  unfold line_starts. intros [<-|H]; [lia|]. apply line_starts_from_gt in H. lia.
Qed.

(** In a sorted list, the elements up to [i] are a prefix, and the last
    of them is the greatest. *)
Lemma sorted_filter_le (l : list nat) (i : nat) :
  StronglySorted lt l ->
  l = filter (fun s => (s <=? i)%nat) l ++ filter (fun s => negb (s <=? i)%nat) l.
Proof.
  induction l as [|x r IH]; intro H; cbn [filter]; [reflexivity|].
  inversion H as [|x' r' Hr Hx]; subst.
  destruct (x <=? i)%nat eqn:E; cbn [negb app].
  - f_equal. exact (IH Hr).
  - assert (Hn : filter (fun s => (s <=? i)%nat) r = []).
    { apply Nat.leb_gt in E. clear - Hx E. induction r as [|y r IHr]; [reflexivity|].
      inversion Hx; subst. cbn [filter].
      destruct (y <=? i)%nat eqn:Ey; [apply Nat.leb_le in Ey; lia|]. apply IHr. assumption. }
    assert (Hp : filter (fun s => negb (s <=? i)%nat) r = r).
    { rewrite (IH Hr) at 2. rewrite Hn. reflexivity. }
    rewrite Hn, Hp. reflexivity.
Qed.

Lemma line_start_of_spec (cs : list cell) (i : nat) :
  In (line_start_of cs i) (line_starts cs) /\
  (line_start_of cs i <= i)%nat /\
  (forall s, In s (line_starts cs) -> (s <= i)%nat -> (s <= line_start_of cs i)%nat).
Proof.
  unfold line_start_of, get_iter_at_line, get_line.
  pose proof (line_starts_sorted cs) as Hs.
  pose proof (sorted_filter_le (line_starts cs) i Hs) as Hsplit.
  set (P := filter (fun s => (s <=? i)%nat) (line_starts cs)) in *.
  set (Q := filter (fun s => negb (s <=? i)%nat) (line_starts cs)) in *.
  assert (HP : P <> []).
  { unfold P, line_starts. cbn [filter]. destruct (0 <=? i)%nat eqn:E; [discriminate|].
    apply Nat.leb_gt in E. lia. }
  destruct (exists_last HP) as (P0 & x & EP).
  assert (Hn : nth (List.length P - 1) (line_starts cs) (List.length cs) = x).
  { rewrite Hsplit, EP, length_app. cbn [List.length].
    replace (List.length P0 + 1 - 1)%nat with (List.length P0) by lia.
    rewrite <- app_assoc. rewrite app_nth2 by lia. rewrite Nat.sub_diag. reflexivity. }
  rewrite Hn.
  assert (HxP : In x P) by (rewrite EP; apply in_or_app; right; left; reflexivity).
  unfold P in HxP. apply filter_In in HxP. destruct HxP as [Hx1 Hx2].
  apply Nat.leb_le in Hx2.
  split; [exact Hx1|]. split; [exact Hx2|].
  intros s Hs1 Hs2.
  assert (HsP : In s P) by (unfold P; apply filter_In; split; [exact Hs1|apply Nat.leb_le; exact Hs2]).
  rewrite EP in HsP. apply in_app_or in HsP. destruct HsP as [HsP|[<-|[]]]; [|lia].
  assert (Hsorted : StronglySorted lt (P0 ++ [x])).
  { rewrite <- EP. unfold P. clear - Hs. induction Hs as [|y r Hr IH Hy]; cbn [filter];
      [constructor|].
    destruct (y <=? i)%nat; [|exact IH].
    constructor; [exact IH|]. apply Forall_forall. intros z Hz.
    apply filter_In in Hz. destruct Hz as [Hz _].
    rewrite Forall_forall in Hy. exact (Hy z Hz). }
  clear - Hsorted HsP. induction P0 as [|y r IH]; [destruct HsP|].
  inversion Hsorted as [|y' r' Hr Hy]; subst. destruct HsP as [<-|HsP].
  - rewrite Forall_forall in Hy. specialize (Hy x ltac:(apply in_or_app; right; left; reflexivity)).
    lia.
  - exact (IH HsP Hr).
Qed.

Lemma line_start_of_le_length (cs : list cell) (i : nat) :
  (line_start_of cs i <= List.length cs)%nat.
Proof. apply line_starts_le. apply line_start_of_spec. Qed.

(** A cell that ends no line, put in at a line start, moves the line
    starts behind it by one. *)
Lemma line_starts_from_insert (x : cell) (cs : list cell) :
  no_line_end x = true ->
  forall i k,
    (k <= List.length cs)%nat ->
    k = 0%nat \/ In (i + k)%nat (line_starts_from cs i) ->
    line_starts_from (firstn k cs ++ x :: skipn k cs) i
    = map (fun s => if (s <=? i + k)%nat then s else S s) (line_starts_from cs i).
Proof.
  intro Hx. unfold no_line_end in Hx. apply andb_true_iff in Hx.
  destruct Hx as [Hx1 Hx2]. apply negb_true_iff in Hx1, Hx2.
  assert (Hzero : forall r i, line_starts_from (x :: r) i
                              = map (fun s => if (s <=? i + 0)%nat then s else S s)
                                    (line_starts_from r i)).
  { intros r i. cbn [line_starts_from]. rewrite Hx1, Hx2, line_starts_from_shift.
    apply map_ext_in. intros s Hs. apply line_starts_from_gt in Hs.
    destruct (s <=? i + 0)%nat eqn:E; [apply Nat.leb_le in E; lia | reflexivity]. }
  induction cs as [|c r IH]; intros i k Hk H.
  - cbn [List.length] in Hk. assert (k = 0%nat) by lia. subst k. apply Hzero.
  - destruct k as [|k']; [apply Hzero|].
    cbn [List.length] in Hk.
    cbn [firstn skipn app].
    assert (Hf : forall l, map (fun s => if (s <=? i + S k')%nat then s else S s) l
                           = map (fun s => if (s <=? S i + k')%nat then s else S s) l).
    { intro l. apply map_ext. intro s. replace (i + S k')%nat with (S i + k')%nat by lia.
      reflexivity. }
    assert (Hhead : (S i <=? i + S k')%nat = true) by (apply Nat.leb_le; lia).
    assert (H' := H). destruct H' as [H'|H']; [discriminate|]. clear H.
    cbn [line_starts_from] in H' |- *.
    destruct (is_char "010" c) eqn:E1.
    + cbn [map]. rewrite Hhead, Hf. f_equal. apply IH; [lia|].
      destruct H' as [H|H]; [left; lia | right].
      replace (S i + k')%nat with (i + S k')%nat by lia. exact H.
    + destruct (is_char "013" c) eqn:E2.
      * destruct k' as [|k''].
        -- (* the cell goes in right behind the carriage return *)
           cbn [firstn skipn app]. rewrite Hx1.
           assert (Hemit : match r with
                           | [] => S i :: line_starts_from r (S i)
                           | c' :: _ =>
                               if is_char "010" c' then line_starts_from r (S i)
                               else S i :: line_starts_from r (S i)
                           end = S i :: line_starts_from r (S i)).
           { destruct r as [|c' r']; [reflexivity|].
             destruct (is_char "010" c') eqn:E3; [|reflexivity].
             cbv beta iota in H'. try rewrite E3 in H'. apply line_starts_from_gt in H'. lia. }
           rewrite Hemit. cbn [map]. rewrite Hhead, Hf. f_equal.
           apply (IH (S i) 0%nat); [lia | left; reflexivity].
        -- destruct r as [|c' r']; [cbn [List.length] in Hk; lia|].
           cbn [firstn skipn app].
           change (c' :: firstn k'' r' ++ x :: skipn k'' r')
             with (firstn (S k'') (c' :: r') ++ x :: skipn (S k'') (c' :: r')).
           destruct (is_char "010" c') eqn:E3.
           ++ rewrite Hf. apply IH; [cbn [List.length] in *; lia|]. right.
              cbv beta iota in H'. try rewrite E3 in H'.
              replace (S i + S k'')%nat with (i + S (S k''))%nat by lia. exact H'.
           ++ cbn [map]. rewrite Hhead, Hf. f_equal.
              apply IH; [cbn [List.length] in *; lia|]. right.
              cbv beta iota in H'. try rewrite E3 in H'. destruct H' as [H|H]; [lia|].
              replace (S i + S k'')%nat with (i + S (S k''))%nat by lia. exact H.
      * rewrite Hf. apply IH; [lia|]. right.
        replace (S i + k')%nat with (i + S k')%nat by lia. exact H'.
Qed.

Lemma line_starts_insert (x : cell) (cs : list cell) (L : nat) :
  no_line_end x = true ->
  In L (line_starts cs) ->
  line_starts (firstn L cs ++ x :: skipn L cs)
  = map (fun s => if (s <=? L)%nat then s else S s) (line_starts cs).
Proof.
  intros Hx HL. pose proof (line_starts_le cs L HL) as Hle.
  unfold line_starts in *. cbn [map]. f_equal.
  rewrite (line_starts_from_insert x cs Hx 0 L Hle).
  - reflexivity.
  - destruct HL as [<-|HL]; [left; reflexivity | right; exact HL].
Qed.

Lemma filter_map_swap {A B : Type} (f : A -> B) (p : B -> bool) (l : list A) :
  filter p (map f l) = map f (filter (fun a => p (f a)) l).
Proof.
  induction l as [|a r IH]; cbn [map filter]; [reflexivity|].
  destruct (p (f a)); cbn [map]; rewrite IH; reflexivity.
Qed.

(** The cursor stays on its line, and the line starts where it did. *)
Lemma line_start_of_insert (x : cell) (cs : list cell) (i : nat) :
  no_line_end x = true ->
  line_start_of (firstn (line_start_of cs i) cs ++ x :: skipn (line_start_of cs i) cs) (S i)
  = line_start_of cs i.
Proof.
  intros Hx.
  destruct (line_start_of_spec cs i) as (HL1 & HL2 & HL3).
  set (L := line_start_of cs i) in *.
  set (f := fun s => if (s <=? L)%nat then s else S s).
  unfold line_start_of at 1, get_iter_at_line, get_line.
  rewrite (line_starts_insert x cs L Hx HL1). fold f.
  rewrite filter_map_swap, length_map.
  assert (Hfilter : filter (fun a => (f a <=? S i)%nat) (line_starts cs)
                    = filter (fun s => (s <=? i)%nat) (line_starts cs)).
  { apply filter_ext. intro s. unfold f.
    destruct (s <=? L)%nat eqn:E.
    - apply Nat.leb_le in E.
      replace (s <=? S i)%nat with true by (symmetry; apply Nat.leb_le; lia).
      symmetry. apply Nat.leb_le. lia.
    - reflexivity. }
  rewrite Hfilter.
  set (n := (List.length (filter (fun s => (s <=? i)%nat) (line_starts cs)) - 1)%nat).
  assert (Hn : (n < List.length (line_starts cs))%nat).
  { unfold n.
    pose proof (filter_length_le (fun s => (s <=? i)%nat) (line_starts cs)).
    assert (0 < List.length (line_starts cs))%nat by (unfold line_starts; simpl; lia).
    lia. }
  rewrite (nth_indep _ _ (f (List.length cs))) by (rewrite length_map; exact Hn).
  rewrite map_nth.
  change (nth n (line_starts cs) (List.length cs)) with L.
  unfold f. rewrite Nat.leb_refl. reflexivity.
Qed.

(** ** toggle_checklist and toggle_bullets at the cursor *)

Lemma toggle_lines_cursor (add_object : nat -> M Action) (st : NoteBuffer) :
  get_has_selection (buffer st) = false ->
  toggle_lines add_object st
  = toggle_loop add_object
      (has_anchor (cells (buffer st))
                  (line_start_of (cells (buffer st)) (insert_mark (buffer st))))
      [get_line (cells (buffer st)) (insert_mark (buffer st))] [] st.
Proof.
  intro Hs. unfold toggle_lines. rewrite Hs.
  replace (get_line (cells (buffer st)) (insert_mark (buffer st)) + 1
           - get_line (cells (buffer st)) (insert_mark (buffer st)))%nat with 1%nat by lia.
  cbn [seq forallb]. rewrite andb_true_r. reflexivity.
Qed.

Lemma toggle_lines_cursor_add (add_object : nat -> M Action) (a : Action)
    (st st' : NoteBuffer) :
  get_has_selection (buffer st) = false ->
  get_child_anchor (cells (buffer st))
                   (line_start_of (cells (buffer st)) (insert_mark (buffer st))) = None ->
  add_object (line_start_of (cells (buffer st)) (insert_mark (buffer st))) st = Done a st' ->
  toggle_lines add_object st = Done [a] st'.
Proof.
  intros Hs Hn Ha. rewrite toggle_lines_cursor by exact Hs.
  unfold has_anchor. rewrite Hn. cbn [toggle_loop]. unfold bind.
  fold (line_start_of (cells (buffer st)) (insert_mark (buffer st))).
  rewrite Ha. reflexivity.
Qed.

Lemma toggle_lines_cursor_remove (add_object : nat -> M Action) (w : widget)
    (st : NoteBuffer) :
  internal_action_count st <> 0 ->
  get_has_selection (buffer st) = false ->
  get_child_anchor (cells (buffer st))
                   (line_start_of (cells (buffer st)) (insert_mark (buffer st))) = Some w ->
  toggle_lines add_object st
  = Done [ObjectInsertAction false (anchor_type_of w)
            (Z.of_nat (line_start_of (cells (buffer st)) (insert_mark (buffer st))))
            (checked_of w)]
         (set_buffer (raw_delete (buffer st)
                        (line_start_of (cells (buffer st)) (insert_mark (buffer st)))
                        (S (line_start_of (cells (buffer st)) (insert_mark (buffer st)))))
                     st).
Proof.
  intros Hc Hs Hw. rewrite toggle_lines_cursor by exact Hs.
  unfold has_anchor. rewrite Hw. cbn [toggle_loop].
  fold (line_start_of (cells (buffer st)) (insert_mark (buffer st))).
  rewrite Hw. unfold bind, object_remove.
  change delete_range_handler with (on_delete 1).
  rewrite (object_remove_at_anchor 1 w _ None st Hc Hw).
  destruct w; reflexivity.
Qed.

Lemma toggle_checklist_adds (st : NoteBuffer) :
  internal_action_count st = 0 ->
  in_composite st = 0 ->
  get_has_selection (buffer st) = false ->
  get_child_anchor (cells (buffer st))
                   (line_start_of (cells (buffer st)) (insert_mark (buffer st))) = None ->
  toggle_checklist st
  = Done tt (after_toggle
               (ObjectInsertAction true check
                  (Z.of_nat (line_start_of (cells (buffer st)) (insert_mark (buffer st)))) None)
               (raw_insert_anchor (buffer st)
                  (line_start_of (cells (buffer st)) (insert_mark (buffer st)))
                  (CheckButton false))
               st).
Proof.
  intros Hc Hi Hs Hn.
  assert (H1 : internal_action_count (enter_internal_action st) <> 0) by (simpl; lia).
  unfold toggle_checklist, with_internal_action, bind.
  rewrite (toggle_lines_cursor_add _ _ (enter_internal_action st) _ Hs Hn
             (add_check_button_guarded _ false _ H1)).
  cbn [add_composite]. unfold modify. rewrite add_undo_action_at_rest by exact Hi.
  destruct st as [b c ic ca ua ra pr idl cc]. cbn in Hc. subst c. reflexivity.
Qed.

Lemma toggle_bullets_adds (st : NoteBuffer) :
  internal_action_count st = 0 ->
  in_composite st = 0 ->
  get_has_selection (buffer st) = false ->
  get_child_anchor (cells (buffer st))
                   (line_start_of (cells (buffer st)) (insert_mark (buffer st))) = None ->
  toggle_bullets st
  = Done tt (after_toggle
               (ObjectInsertAction true bullet
                  (Z.of_nat (line_start_of (cells (buffer st)) (insert_mark (buffer st)))) None)
               (raw_insert_anchor (buffer st)
                  (line_start_of (cells (buffer st)) (insert_mark (buffer st))) Image)
               st).
Proof.
  intros Hc Hi Hs Hn.
  assert (H1 : internal_action_count (enter_internal_action st) <> 0) by (simpl; lia).
  unfold toggle_bullets, with_internal_action, bind.
  rewrite (toggle_lines_cursor_add _ _ (enter_internal_action st) _ Hs Hn
             (add_bullet_guarded _ _ H1)).
  cbn [add_composite]. unfold modify.
  rewrite add_undo_action_at_rest by (rewrite exit_in_composite; exact Hi).
  destruct st as [b c ic ca ua ra pr idl cc]. cbn in Hc. subst c. reflexivity.
Qed.

Lemma toggle_removes (w : widget) (st : NoteBuffer) :
  internal_action_count st = 0 ->
  in_composite st = 0 ->
  get_has_selection (buffer st) = false ->
  get_child_anchor (cells (buffer st))
                   (line_start_of (cells (buffer st)) (insert_mark (buffer st))) = Some w ->
  let L := line_start_of (cells (buffer st)) (insert_mark (buffer st)) in
  let st1 := after_toggle (ObjectInsertAction false (anchor_type_of w) (Z.of_nat L) (checked_of w))
                          (raw_delete (buffer st) L (S L)) st in
  toggle_checklist st = Done tt st1 /\ toggle_bullets st = Done tt st1.
Proof.
  intros Hc Hi Hs Hw L st1.
  assert (H1 : internal_action_count (enter_internal_action st) <> 0) by (simpl; lia).
  split.
  - unfold toggle_checklist, with_internal_action, bind.
    rewrite (toggle_lines_cursor_remove _ w (enter_internal_action st) H1 Hs Hw).
    cbn [add_composite]. unfold modify. rewrite add_undo_action_at_rest by exact Hi.
    unfold st1, L.
    destruct st as [b c ic ca ua ra pr idl cc]. cbn in Hc. subst c. reflexivity.
  - unfold toggle_bullets, with_internal_action, bind.
    rewrite (toggle_lines_cursor_remove _ w (enter_internal_action st) H1 Hs Hw).
    cbn [add_composite]. unfold modify.
    rewrite add_undo_action_at_rest by (rewrite exit_in_composite; exact Hi).
    unfold st1, L.
    destruct st as [b c ic ca ua ra pr idl cc]. cbn in Hc. subst c. reflexivity.
Qed.

(** Behind the object a toggle has put in, the cursor is on the line of
    the object, and taking the object out gives the buffer back. *)
Lemma after_toggle_adds (a : Action) (w : widget) (st : NoteBuffer) :
  get_has_selection (buffer st) = false ->
  let L := line_start_of (cells (buffer st)) (insert_mark (buffer st)) in
  let st1 := after_toggle a (raw_insert_anchor (buffer st) L w) st in
  get_has_selection (buffer st1) = false /\
  line_start_of (cells (buffer st1)) (insert_mark (buffer st1)) = L /\
  get_child_anchor (cells (buffer st1)) L = Some w /\
  raw_delete (buffer st1) L (S L) = buffer st.
Proof.
  intros Hs L st1.
  destruct (line_start_of_spec (cells (buffer st)) (insert_mark (buffer st)))
    as (HL1 & HL2 & HL3). fold L in HL1, HL2.
  pose proof (line_start_of_le_length (cells (buffer st)) (insert_mark (buffer st))) as HL.
  fold L in HL.
  unfold get_has_selection in Hs. apply negb_false_iff, Nat.eqb_eq in Hs.
  change (buffer st1) with (raw_insert_anchor (buffer st) L w).
  assert (Hm : shift_mark_insert L 1 (insert_mark (buffer st)) = S (insert_mark (buffer st))).
  { unfold shift_mark_insert. replace (L <=? insert_mark (buffer st))%nat with true
      by (symmetry; apply Nat.leb_le; exact HL2). lia. }
  assert (Hd : shift_mark_delete L (S L) (S (insert_mark (buffer st)))
               = insert_mark (buffer st)).
  { unfold shift_mark_delete.
    replace (S (insert_mark (buffer st)) <=? L)%nat with false
      by (symmetry; apply Nat.leb_gt; lia).
    replace (S (insert_mark (buffer st)) <? S L)%nat with false
      by (symmetry; apply Nat.ltb_ge; lia).
    lia. }
  split; [|split; [|split]].
  - unfold get_has_selection, raw_insert_anchor, insert_contents.
    cbn [insert_mark selection_bound List.length]. rewrite <- Hs.
    rewrite Nat.eqb_refl. reflexivity.
  - unfold raw_insert_anchor, insert_contents.
    cbn [cells insert_mark List.length map app]. rewrite Hm.
    apply (line_start_of_insert _ (cells (buffer st)) (insert_mark (buffer st))).
    reflexivity.
  - unfold get_child_anchor.
    pose proof (nth_error_insert (buffer st) L [Anchor w] 0 HL ltac:(simpl; lia)) as N.
    rewrite Nat.add_0_r in N. unfold raw_insert_anchor.
    destruct (nth_error _ L) as [[c tg]|]; cbn in N; [|discriminate].
    inversion N. reflexivity.
  - pose proof (cells_delete_inserted (buffer st) L [Anchor w] HL) as C.
    cbn [List.length] in C. rewrite Nat.add_1_r in C.
    unfold raw_insert_anchor in *. unfold raw_delete at 1. rewrite cells_raw_delete in C.
    rewrite C. unfold insert_contents. cbn [insert_mark selection_bound List.length].
    rewrite <- Hs, Hm, Hd. clear - Hs.
    destruct (buffer st) as [cs im sb]. cbn [cells insert_mark selection_bound] in *.
    rewrite <- Hs. reflexivity.
Qed.

(** Taking a cell out of a list and putting one of the same content back. *)
Lemma contents_put_back (cs : list cell) :
  forall (L : nat) (c : cell),
    nth_error cs L = Some c ->
    firstn L (map cell_content (firstn L cs ++ skipn (S L) cs))
    ++ [cell_content c] ++ skipn L (map cell_content (firstn L cs ++ skipn (S L) cs))
    = map cell_content cs.
Proof.
  induction cs as [|c0 r IH]; intros [|L] c H; cbn [nth_error] in H; try discriminate.
  - injection H as ->. reflexivity.
  - specialize (IH L c H).
    change (skipn (S (S L)) (c0 :: r)) with (skipn (S L) r).
    change (firstn (S L) (c0 :: r)) with (c0 :: firstn L r).
    set (m := firstn L r ++ skipn (S L) r) in *.
    change (map cell_content ((c0 :: firstn L r) ++ skipn (S L) r))
      with (cell_content c0 :: map cell_content m).
    change (firstn (S L) (cell_content c0 :: map cell_content m))
      with (cell_content c0 :: firstn L (map cell_content m)).
    change (skipn (S L) (cell_content c0 :: map cell_content m))
      with (skipn L (map cell_content m)).
    cbn [map]. rewrite <- IH. reflexivity.
Qed.

Section Toggle.

Variable get_url_start : str -> option Z.

(** X18.  [toggle_checklist] and [toggle_bullets] at rest, with nothing
    selected, on a line that does not start with an object: a check box
    that is not checked, or a bullet, is put at the start of the line of
    the cursor, and the undo stack gets a composite of the one object
    action.  After [toggle_checklist], [undo] takes the check box away
    again and [redo] puts it back. *)
Theorem toggle_adds_object (st : NoteBuffer) :
  internal_action_count st = 0 ->
  in_composite st = 0 ->
  get_has_selection (buffer st) = false ->
  get_child_anchor (cells (buffer st))
                   (line_start_of (cells (buffer st)) (insert_mark (buffer st))) = None ->
  let L := line_start_of (cells (buffer st)) (insert_mark (buffer st)) in
  exists st1 st1' st2 st3,
    toggle_checklist st = Done tt st1 /\
    buffer st1 = raw_insert_anchor (buffer st) L (CheckButton false) /\
    undo_actions st1
    = undo_actions st ++ [CompositeAction [ObjectInsertAction true check (Z.of_nat L) None]] /\
    redo_actions st1 = [] /\
    toggle_bullets st = Done tt st1' /\
    buffer st1' = raw_insert_anchor (buffer st) L Image /\
    undo_actions st1'
    = undo_actions st ++ [CompositeAction [ObjectInsertAction true bullet (Z.of_nat L) None]] /\
    redo_actions st1' = [] /\
    undo get_url_start st1 = Done tt st2 /\
    cells (buffer st2) = cells (buffer st) /\
    undo_actions st2 = undo_actions st /\
    redo get_url_start st2 = Done tt st3 /\
    cells (buffer st3) = cells (buffer st1) /\
    undo_actions st3
    = undo_actions st
      ++ [CompositeAction [ObjectInsertAction true check (Z.of_nat L) (Some false)]].
Proof.
  intros Hc Hi Hs Hn L.
  pose proof (line_start_of_le_length (cells (buffer st)) (insert_mark (buffer st))) as HL.
  fold L in HL, Hn.
  assert (H1 : internal_action_count (enter_internal_action st) <> 0) by (simpl; lia).
  set (O := ObjectInsertAction true check (Z.of_nat L) None).
  set (b1 := raw_insert_anchor (buffer st) L (CheckButton false)).
  (* toggle_checklist *)
  set (st1 := exit_internal_action true
                (add_undo_action (CompositeAction [O])
                   (set_buffer b1 (enter_internal_action st)))).
  assert (E1 : toggle_checklist st = Done tt st1).
  { unfold toggle_checklist, with_internal_action, bind.
    rewrite (toggle_lines_cursor_add _ O (enter_internal_action st)
               (set_buffer b1 (enter_internal_action st)) Hs Hn
               (add_check_button_guarded L false _ H1)).
    reflexivity. }
  assert (Est1 : st1 = idle_add (set_redo_actions []
                                   (set_undo_actions (undo_actions st ++ [CompositeAction [O]])
                                      (set_buffer b1 st)))).
  { unfold st1. rewrite add_undo_action_at_rest by exact Hi.
    destruct st as [b c ic ca ua ra pr idl cc]. cbn in Hc. subst c. reflexivity. }
  (* toggle_bullets *)
  set (O' := ObjectInsertAction true bullet (Z.of_nat L) None).
  set (b1' := raw_insert_anchor (buffer st) L Image).
  assert (E1' : toggle_bullets st
                = Done tt (add_undo_action (CompositeAction [O'])
                             (exit_internal_action true
                                (set_buffer b1' (enter_internal_action st))))).
  { unfold toggle_bullets, with_internal_action, bind.
    rewrite (toggle_lines_cursor_add _ O' (enter_internal_action st)
               (set_buffer b1' (enter_internal_action st)) Hs Hn
               (add_bullet_guarded L _ H1)).
    reflexivity. }
  (* undo *)
  assert (Hb1 : buffer st1 = b1) by (rewrite Est1; reflexivity).
  assert (Hu1 : undo_actions st1 = undo_actions st ++ [CompositeAction [O]])
    by (rewrite Est1; reflexivity).
  assert (Hr1 : redo_actions st1 = []) by (rewrite Est1; reflexivity).
  assert (Hc1 : internal_action_count st1 = 0) by (rewrite Est1; exact Hc).
  set (s1 := set_undo_actions (undo_actions st) (enter_internal_action st1)).
  assert (G1 : internal_action_count s1 <> 0).
  { unfold s1. cbn [internal_action_count set_undo_actions enter_internal_action
                      set_internal_action_count]. rewrite Hc1. lia. }
  assert (Hw1 : get_child_anchor (cells (buffer s1)) L = Some (CheckButton false)).
  { change (buffer s1) with (buffer st1). rewrite Hb1. unfold get_child_anchor, b1.
    pose proof (nth_error_insert (buffer st) L [Anchor (CheckButton false)] 0 HL
                  ltac:(simpl; lia)) as N.
    rewrite Nat.add_0_r in N. unfold raw_insert_anchor.
    destruct (nth_error _ L) as [[c tg]|]; cbn in N; [|discriminate].
    inversion N. reflexivity. }
  set (O2 := ObjectInsertAction true check (Z.of_nat L) (Some false)).
  set (b2 := raw_delete (buffer st1) L (S L)).
  assert (EU : action_undo get_url_start (CompositeAction [O]) s1
               = Done (CompositeAction [O2]) (set_buffer b2 s1)).
  { assert (EO : action_undo get_url_start O s1 = Done O2 (set_buffer b2 s1)).
    { unfold O. cbn [action_undo]. unfold bind, ret, object_remove.
      change delete_range_handler with (on_delete 1).
      pose proof (object_remove_at_anchor 1 (CheckButton false) L None s1 G1 Hw1) as R.
      cbn [anchor_type_of] in R. rewrite R. reflexivity. }
    cbn [action_undo each_reversed]. unfold bind at 1. unfold bind at 1. unfold ret at 1.
    fold (action_undo get_url_start O). unfold bind at 1. rewrite EO. reflexivity. }
  destruct (undo_pops get_url_start st1 (undo_actions st) _ _ _ ltac:(lia) Hu1 EU) as [Eu _].
  assert (Hc2 : cells b2 = cells (buffer st)).
  { unfold b2. rewrite Hb1. unfold b1, raw_insert_anchor.
    replace (S L) with (L + List.length [Anchor (CheckButton false)])%nat by (simpl; lia).
    apply cells_delete_inserted. exact HL. }
  set (st2 := exit_internal_action true
                (set_redo_actions (redo_actions st1 ++ [CompositeAction [O2]])
                   (set_buffer b2 s1))) in *.
  assert (Hb2 : buffer st2 = b2) by (unfold st2; rewrite exit_buffer; reflexivity).
  assert (Hu2 : undo_actions st2 = undo_actions st)
    by (unfold st2; rewrite exit_undo_actions; reflexivity).
  assert (Hr2 : redo_actions st2 = [] ++ [CompositeAction [O2]]).
  { unfold st2. rewrite exit_redo_actions. cbn [redo_actions set_redo_actions].
    rewrite Hr1. reflexivity. }
  assert (Hcount2 : internal_action_count st2 = 0).
  { unfold st2. rewrite exit_count. unfold s1.
    cbn [internal_action_count set_redo_actions set_buffer set_undo_actions
           enter_internal_action set_internal_action_count]. rewrite Hc1. lia. }
  (* redo *)
  set (r1 := set_redo_actions [] (enter_internal_action st2)).
  assert (G2 : internal_action_count r1 <> 0).
  { unfold r1. cbn [internal_action_count set_redo_actions enter_internal_action
                      set_internal_action_count]. rewrite Hcount2. lia. }
  set (b3 := raw_insert_anchor b2 L (CheckButton false)).
  assert (ER : action_redo get_url_start (CompositeAction [O2]) r1
               = Done (CompositeAction [O2]) (set_buffer b3 r1)).
  { assert (RO : action_redo get_url_start O2 r1 = Done O2 (set_buffer b3 r1)).
    { unfold O2. cbn [action_redo]. unfold bind, ret, object_add.
      change (buffer r1) with (buffer st2). rewrite Hb2.
      rewrite get_iter_at_offset_inside by (rewrite Hc2; exact HL).
      unfold bind. rewrite add_check_button_guarded by exact G2.
      change (buffer r1) with (buffer st2). rewrite Hb2. reflexivity. }
    cbn [action_redo each_in_order]. unfold bind at 1. unfold bind at 1.
    fold (action_redo get_url_start O2). rewrite RO. reflexivity. }
  destruct (redo_pops get_url_start st2 [] _ _ _ ltac:(lia) Hr2 ER) as [Er _].
  exists st1, (add_undo_action (CompositeAction [O'])
                 (exit_internal_action true (set_buffer b1' (enter_internal_action st)))),
         st2,
         (exit_internal_action true
            (set_undo_actions (undo_actions st2 ++ [CompositeAction [O2]])
               (set_buffer b3 r1))).
  split; [exact E1|]. split; [exact Hb1|]. split; [exact Hu1|]. split; [exact Hr1|].
  split; [exact E1'|].
  rewrite add_undo_action_at_rest by (rewrite exit_in_composite; exact Hi).
  cbn [buffer undo_actions redo_actions set_redo_actions set_undo_actions].
  rewrite !exit_buffer, !exit_undo_actions.
  split; [reflexivity|]. split; [reflexivity|]. split; [reflexivity|].
  split; [exact Eu|]. split; [rewrite Hb2; exact Hc2|]. split; [exact Hu2|].
  split; [exact Er|].
  cbn [buffer undo_actions set_undo_actions set_buffer].
  split; [|rewrite Hu2; reflexivity].
  rewrite Hb1. unfold b3, b1, raw_insert_anchor, insert_contents. cbn [cells].
  rewrite Hc2. reflexivity.
Qed.

(** X19.  [toggle_checklist] and [toggle_bullets] at rest, with nothing
    selected, on a line that starts with an object: either method takes
    the object away, whichever kind it is, and puts nothing in its
    place; the undo stack gets a composite of the one removal, which
    holds the state of a check box.  [undo] then puts the object back,
    a check box checked as it was. *)
Theorem toggle_removes_object (w : widget) (st : NoteBuffer) :
  internal_action_count st = 0 ->
  in_composite st = 0 ->
  get_has_selection (buffer st) = false ->
  get_child_anchor (cells (buffer st))
                   (line_start_of (cells (buffer st)) (insert_mark (buffer st))) = Some w ->
  let L := line_start_of (cells (buffer st)) (insert_mark (buffer st)) in
  exists st1 st2,
    toggle_checklist st = Done tt st1 /\
    toggle_bullets st = Done tt st1 /\
    cells (buffer st1) = firstn L (cells (buffer st)) ++ skipn (S L) (cells (buffer st)) /\
    undo_actions st1
    = undo_actions st
      ++ [CompositeAction [ObjectInsertAction false (anchor_type_of w) (Z.of_nat L)
                             (checked_of w)]] /\
    redo_actions st1 = [] /\
    undo get_url_start st1 = Done tt st2 /\
    contents st2 = contents st /\
    get_child_anchor (cells (buffer st2)) L = Some w /\
    undo_actions st2 = undo_actions st.
Proof.
  intros Hc Hi Hs Hw L.
  destruct (toggle_removes w st Hc Hi Hs Hw) as [E1 E1']. fold L in E1, E1'.
  set (O := ObjectInsertAction false (anchor_type_of w) (Z.of_nat L) (checked_of w)) in *.
  set (b1 := raw_delete (buffer st) L (S L)) in *.
  set (st1 := after_toggle O b1 st) in *.
  pose proof (get_child_anchor_inside _ _ _ Hw) as HL. fold L in HL, Hw.
  assert (Hlen1 : (L <= List.length (cells b1))%nat).
  { unfold b1. rewrite length_raw_delete by lia. lia. }
  set (s1 := set_undo_actions (undo_actions st) (enter_internal_action st1)).
  assert (G1 : internal_action_count s1 <> 0).
  { unfold s1, st1, after_toggle.
    cbn [internal_action_count set_undo_actions enter_internal_action
           set_internal_action_count idle_add set_redo_actions set_buffer].
    rewrite Hc. lia. }
  set (b2 := raw_insert_anchor b1 L w).
  assert (EO : action_undo get_url_start O s1 = Done O (set_buffer b2 s1)).
  { unfold O. cbn [action_undo]. unfold bind, ret, object_add.
    change (buffer s1) with b1.
    rewrite get_iter_at_offset_inside by exact Hlen1.
    destruct w as [active|]; cbn [anchor_type_of checked_of]; unfold bind.
    - rewrite add_check_button_guarded by exact G1. reflexivity.
    - rewrite add_bullet_guarded by exact G1. reflexivity. }
  assert (EU : action_undo get_url_start (CompositeAction [O]) s1
               = Done (CompositeAction [O]) (set_buffer b2 s1)).
  { cbn [action_undo each_reversed]. unfold bind at 1. unfold bind at 1. unfold ret at 1.
    fold (action_undo get_url_start O). unfold bind at 1. rewrite EO. reflexivity. }
  assert (Hu1 : undo_actions st1 = undo_actions st ++ [CompositeAction [O]]) by reflexivity.
  assert (Hc1 : internal_action_count st1 = 0) by exact Hc.
  destruct (undo_pops get_url_start st1 (undo_actions st) _ _ _ ltac:(lia) Hu1 EU) as [Eu _].
  eexists st1, _.
  split; [exact E1|]. split; [exact E1'|]. split; [reflexivity|].
  split; [exact Hu1|]. split; [reflexivity|]. split; [exact Eu|].
  unfold contents. rewrite !exit_buffer, exit_undo_actions.
  cbn [buffer undo_actions set_redo_actions set_buffer set_undo_actions].
  split; [|split; [|reflexivity]].
  - unfold b2, raw_insert_anchor. rewrite contents_insert.
    unfold b1. rewrite cells_raw_delete.
    unfold get_child_anchor in Hw.
    destruct (nth_error (cells (buffer st)) L) as [[c tg]|] eqn:N; [|discriminate].
    destruct c as [ch|w']; [discriminate|]. injection Hw as ->.
    apply (contents_put_back _ _ _ N).
  - unfold get_child_anchor, b2.
    pose proof (nth_error_insert b1 L [Anchor w] 0 Hlen1 ltac:(simpl; lia)) as N.
    rewrite Nat.add_0_r in N. unfold raw_insert_anchor.
    destruct (nth_error _ L) as [[c tg]|]; cbn in N; [|discriminate].
    inversion N. reflexivity.
Qed.

(** X20.  A toggle that has put an object at the start of the line of the
    cursor is taken back by either toggle: after [toggle_checklist]
    or [toggle_bullets] and then any of the two, the text buffer,
    marks and tags with it, is what it was, and the undo stack holds the
    insertion and the removal as two entries. *)
Theorem toggle_twice (st : NoteBuffer) :
  internal_action_count st = 0 ->
  in_composite st = 0 ->
  get_has_selection (buffer st) = false ->
  get_child_anchor (cells (buffer st))
                   (line_start_of (cells (buffer st)) (insert_mark (buffer st))) = None ->
  let L := line_start_of (cells (buffer st)) (insert_mark (buffer st)) in
  exists st1 st2 st1' st2',
    toggle_checklist st = Done tt st1 /\
    toggle_checklist st1 = Done tt st2 /\
    toggle_bullets st1 = Done tt st2 /\
    buffer st2 = buffer st /\
    undo_actions st2
    = undo_actions st
      ++ [CompositeAction [ObjectInsertAction true check (Z.of_nat L) None];
          CompositeAction [ObjectInsertAction false check (Z.of_nat L) (Some false)]] /\
    toggle_bullets st = Done tt st1' /\
    toggle_bullets st1' = Done tt st2' /\
    toggle_checklist st1' = Done tt st2' /\
    buffer st2' = buffer st /\
    undo_actions st2'
    = undo_actions st
      ++ [CompositeAction [ObjectInsertAction true bullet (Z.of_nat L) None];
          CompositeAction [ObjectInsertAction false bullet (Z.of_nat L) None]].
Proof.
  intros Hc Hi Hs Hn L.
  pose proof (toggle_checklist_adds st Hc Hi Hs Hn) as E1.
  pose proof (toggle_bullets_adds st Hc Hi Hs Hn) as E1'.
  fold L in E1, E1'.
  set (O := ObjectInsertAction true check (Z.of_nat L) None) in *.
  set (O' := ObjectInsertAction true bullet (Z.of_nat L) None) in *.
  destruct (after_toggle_adds O (CheckButton false) st Hs) as (S1 & L1 & W1 & D1).
  destruct (after_toggle_adds O' Image st Hs) as (S1' & L1' & W1' & D1').
  fold L in S1, L1, W1, D1, S1', L1', W1', D1'.
  set (st1 := after_toggle O (raw_insert_anchor (buffer st) L (CheckButton false)) st) in *.
  set (st1' := after_toggle O' (raw_insert_anchor (buffer st) L Image) st) in *.
  assert (W1a : get_child_anchor (cells (buffer st1))
                  (line_start_of (cells (buffer st1)) (insert_mark (buffer st1)))
                = Some (CheckButton false)) by (rewrite L1; exact W1).
  assert (W1a' : get_child_anchor (cells (buffer st1'))
                   (line_start_of (cells (buffer st1')) (insert_mark (buffer st1')))
                 = Some Image) by (rewrite L1'; exact W1').
  destruct (toggle_removes (CheckButton false) st1 Hc Hi S1 W1a) as [E2 E2b].
  destruct (toggle_removes Image st1' Hc Hi S1' W1a') as [E2' E2b'].
  rewrite L1 in E2, E2b. rewrite L1' in E2', E2b'.
  rewrite D1 in E2, E2b. rewrite D1' in E2', E2b'.
  cbn [anchor_type_of checked_of] in E2, E2b, E2', E2b'.
  eexists st1, _, st1', _.
  split; [exact E1|]. split; [exact E2|]. split; [exact E2b|].
  split; [reflexivity|].
  split; [cbn [undo_actions after_toggle idle_add set_redo_actions set_undo_actions];
          unfold st1; cbn [undo_actions after_toggle idle_add set_redo_actions
                             set_undo_actions]; rewrite <- app_assoc; reflexivity|].
  split; [exact E1'|]. split; [exact E2b'|]. split; [exact E2'|].
  split; [reflexivity|].
  cbn [undo_actions after_toggle idle_add set_redo_actions set_undo_actions].
  unfold st1'. cbn [undo_actions after_toggle idle_add set_redo_actions set_undo_actions].
  rewrite <- app_assoc. reflexivity.
Qed.

End Toggle.

(** ** Links *)

Section Links.

Variable get_url_start : str -> option Z.

Lemma trigger_changed_guarded (s : NoteBuffer) :
  internal_action_count s <> 0 -> trigger_changed s = s.
Proof.
  intro H. unfold trigger_changed.
  destruct (internal_action_count s =? 0) eqn:E; [lia | reflexivity].
Qed.

(** [on_insert] of a delimiter that is no new line, behind a text in
    which [get_url_start] has a match. *)
Lemma on_insert_link (p m : nat) (d : str) (st : NoteBuffer) :
  internal_action_count st = 0 ->
  mem d delimiters = true ->
  str_eqb d [Ch "010"] = false ->
  (m <= List.length (cells (buffer st)))%nat ->
  get_url_start (get_slice (buffer st) 0 p) = Some (Z.of_nat m) ->
  on_insert get_url_start p d st
  = Done tt (exit_internal_action true
               (join_or_add (AdditionAction d (Z.of_nat p))
                  (add_undo_action (TagAction (lit "link") (Z.of_nat m) (Z.of_nat p) true)
                     (set_buffer (apply_tag_by_name (buffer st) (lit "link") m p)
                        (enter_internal_action st))))).
Proof.
  intros Hc Hd Hn Hm Hu. unfold on_insert. rewrite Hc. simpl negb. cbv iota.
  unfold with_internal_action. unfold bind at 1.
  rewrite Hd. change (buffer (enter_internal_action st)) with (buffer st). rewrite Hu.
  rewrite get_iter_at_offset_inside by exact Hm.
  unfold bind at 1, add_tag. rewrite trigger_changed_guarded by (simpl; lia).
  unfold modify at 1. rewrite Hn. unfold bind, ret, modify. reflexivity.
Qed.

Lemma tags_before_insert (b : TextBuffer) (p j : nat) (l : list content) :
  (j < p <= List.length (cells b))%nat ->
  tags_at (cells (insert_contents b p l)) j = tags_at (cells b) j.
Proof.
  intro H. unfold tags_at, insert_contents. cbn [cells].
  rewrite nth_error_app1 by (rewrite length_firstn; lia).
  rewrite nth_error_firstn.
  destruct (j <? p)%nat eqn:E; [reflexivity | apply Nat.ltb_ge in E; lia].
Qed.

(** The states an insertion of a delimiter leaves behind a text in which
    [get_url_start] has a match, outside a user action and as one. *)
Lemma insert_delimiter_link (p m : nat) (d : str) (st : NoteBuffer) :
  internal_action_count st = 0 ->
  in_composite st = 0 ->
  composite_actions st = [] ->
  mem d delimiters = true ->
  str_eqb d [Ch "010"] = false ->
  (m <= p <= List.length (cells (buffer st)))%nat ->
  get_url_start (get_slice (buffer st) 0 p) = Some (Z.of_nat m) ->
  let tagging := TagAction (lit "link") (Z.of_nat m) (Z.of_nat p) true in
  let addition := AdditionAction d (Z.of_nat p) in
  let b1 := raw_insert (apply_tag_by_name (buffer st) (lit "link") m p) p d in
  (forall j, (m <= j < p)%nat -> mem (lit "link") (tags_at (cells b1) j) = true) /\
  map cell_content (cells b1)
  = firstn p (map cell_content (cells (buffer st))) ++ map Chr d
    ++ skipn p (map cell_content (cells (buffer st))) /\
  exists st1 st2,
    buffer_insert get_url_start p d st = Done tt st1 /\
    buffer st1 = b1 /\
    undo_actions st1 = undo_actions st ++ [tagging; addition] /\
    redo_actions st1 = [] /\
    user_action (buffer_insert get_url_start p d) st = Done tt st2 /\
    buffer st2 = b1 /\
    internal_action_count st2 = 0 /\
    redo_actions st2 = [] /\
    ((forall rest top, undo_actions st = rest ++ [top] -> maybe_join top addition = None) ->
     undo_actions st2 = undo_actions st ++ [CompositeAction [tagging; addition]]) /\
    (forall rest x q,
        undo_actions st = rest ++ [AdditionAction x q] ->
        q + py_len x = Z.of_nat p ->
        undo_actions st2 = rest ++ [AdditionAction (x ++ d) q; tagging]).
Proof.
  intros Hc Hi Hca Hd Hn [Hm Hp] Hu tagging addition b1.
  assert (Ht : mem (lit "link") TAG_DEFINITIONS = true) by reflexivity.
  destruct (cells_apply (buffer st) (lit "link") m p) as [Hlen Hcont].
  split; [|split].
  - intros j Hj. unfold b1, raw_insert.
    rewrite tags_before_insert by (rewrite Hlen; lia).
    rewrite mem_tags_at_apply by (try exact Ht; lia).
    replace (m <=? j)%nat with true by (symmetry; apply Nat.leb_le; lia).
    replace (j <? p)%nat with true by (symmetry; apply Nat.ltb_lt; lia).
    apply orb_true_r.
  - unfold b1, raw_insert. rewrite contents_insert, Hcont. reflexivity.
  - assert (Hne : exists c r, d = c :: r).
    { destruct d as [|c r]; [discriminate Hd|]. exists c, r. reflexivity. }
    destruct Hne as (c & r & Ed).
    (* outside a user action *)
    assert (E1 : buffer_insert get_url_start p d st
                 = Done tt
                     (set_buffer b1
                        (exit_internal_action true
                           (join_or_add addition
                              (add_undo_action tagging
                                 (set_buffer (apply_tag_by_name (buffer st) (lit "link") m p)
                                    (enter_internal_action st))))))).
    { unfold buffer_insert. rewrite Ed. rewrite <- Ed.
      unfold bind, run_handler.
      rewrite (on_insert_link p m d st Hc Hd Hn ltac:(lia) Hu).
      unfold modify. f_equal. f_equal. unfold b1. f_equal.
      rewrite exit_buffer, join_or_add_buffer.
      rewrite add_undo_action_at_rest by exact Hi. reflexivity. }
    (* inside one *)
    set (s0 := begin_composite_action st).
    assert (Hi0 : in_composite s0 <> 0) by (unfold s0; simpl; lia).
    assert (E2 : buffer_insert get_url_start p d s0
                 = Done tt
                     (set_buffer b1
                        (exit_internal_action true
                           (join_or_add addition
                              (add_undo_action tagging
                                 (set_buffer (apply_tag_by_name (buffer st) (lit "link") m p)
                                    (enter_internal_action s0))))))).
    { unfold buffer_insert. rewrite Ed. rewrite <- Ed.
      unfold bind, run_handler.
      rewrite (on_insert_link p m d s0 Hc Hd Hn ltac:(simpl; lia) Hu).
      unfold modify. f_equal. f_equal. unfold b1. f_equal.
      rewrite exit_buffer, join_or_add_buffer.
      rewrite add_undo_action_in_composite by exact Hi0. reflexivity. }
    exists (set_buffer b1
              (exit_internal_action true
                 (join_or_add addition
                    (add_undo_action tagging
                       (set_buffer (apply_tag_by_name (buffer st) (lit "link") m p)
                          (enter_internal_action st)))))),
           (end_composite_action
              (set_buffer b1
                 (exit_internal_action true
                    (join_or_add addition
                       (add_undo_action tagging
                          (set_buffer (apply_tag_by_name (buffer st) (lit "link") m p)
                             (enter_internal_action s0))))))).
    split; [exact E1|]. split; [reflexivity|].
    rewrite add_undo_action_at_rest by exact Hi.
    split.
    { cbn [undo_actions set_buffer]. rewrite exit_undo_actions.
      rewrite join_or_add_added.
      - rewrite add_undo_action_at_rest by exact Hi.
        cbn [undo_actions set_redo_actions set_undo_actions set_buffer enter_internal_action
               set_internal_action_count].
        rewrite <- app_assoc. reflexivity.
      - intros rest top H.
        cbn [undo_actions set_redo_actions set_undo_actions set_buffer enter_internal_action
               set_internal_action_count] in H.
        apply app_inj_tail in H. destruct H as [_ <-]. reflexivity. }
    split.
    { cbn [redo_actions set_buffer]. rewrite exit_redo_actions.
      rewrite join_or_add_added.
      - rewrite add_undo_action_at_rest by exact Hi. reflexivity.
      - intros rest top H.
        cbn [undo_actions set_redo_actions set_undo_actions set_buffer enter_internal_action
               set_internal_action_count] in H.
        apply app_inj_tail in H. destruct H as [_ <-]. reflexivity. }
    split; [unfold user_action; fold s0; rewrite E2; reflexivity|].
    rewrite add_undo_action_in_composite by exact Hi0.
    set (s1 := set_composite_actions _ _).
    assert (Hu1 : undo_actions s1 = undo_actions st) by reflexivity.
    assert (Hca1 : composite_actions s1 = [tagging]) by (unfold s1; simpl; rewrite Hca; reflexivity).
    assert (Hi1 : in_composite s1 = 1) by (unfold s1, s0; simpl; lia).
    assert (Hi1' : in_composite s1 <> 0) by lia.
    destruct (list_pop (undo_actions st)) as [[rest top]|] eqn:EP.
    + apply list_pop_some in EP.
      destruct (maybe_join top addition) as [top'|] eqn:EJ.
      * (* the delimiter joins the top *)
        rewrite (join_or_add_joined addition s1 rest top top') by (try exact EJ; congruence).
        set (s2 := set_buffer b1 _).
        assert (H2i : in_composite s2 = 1)
          by (unfold s2; cbn [in_composite set_buffer]; rewrite exit_in_composite; exact Hi1).
        assert (H2c : composite_actions s2 = [tagging])
          by (unfold s2; cbn [composite_actions set_buffer];
              rewrite exit_composite_actions; exact Hca1).
        assert (H2n : internal_action_count s2 = 0)
          by (unfold s2; cbn [internal_action_count set_buffer]; rewrite exit_count;
              cbn; rewrite Hc; reflexivity).
        rewrite (end_composite_single s2 _ H2i H2c).
        split; [reflexivity|]. split; [exact H2n|]. split; [reflexivity|].
        split.
        -- intro H. rewrite (H rest top EP) in EJ. discriminate.
        -- intros rest' x q H Hq.
           rewrite EP in H. apply app_inj_tail in H. destruct H as [-> ->].
           unfold addition in EJ. cbn [maybe_join] in EJ.
           replace (Z.of_nat p =? q + py_len x) with true in EJ
             by (symmetry; apply Z.eqb_eq; lia).
           injection EJ as <-.
           cbn [undo_actions set_redo_actions set_undo_actions set_composite_actions
                  set_in_composite]. unfold s2. cbn [undo_actions set_buffer].
           rewrite exit_undo_actions. cbn [undo_actions set_undo_actions].
           rewrite <- app_assoc. reflexivity.
      * rewrite join_or_add_added
          by (intros rest' top' H; rewrite Hu1, EP in H; apply app_inj_tail in H;
              destruct H as [_ <-]; exact EJ).
        rewrite add_undo_action_in_composite by exact Hi1'.
        set (s2 := set_buffer b1 _).
        assert (H2i : in_composite s2 = 1)
          by (unfold s2; cbn [in_composite set_buffer]; rewrite exit_in_composite; exact Hi1).
        assert (H2c : composite_actions s2 = [tagging; addition])
          by (unfold s2; cbn [composite_actions set_buffer];
              rewrite exit_composite_actions; cbn [composite_actions set_composite_actions];
              rewrite Hca1; reflexivity).
        assert (H2n : internal_action_count s2 = 0)
          by (unfold s2; cbn [internal_action_count set_buffer]; rewrite exit_count;
              cbn; rewrite Hc; reflexivity).
        rewrite (end_composite_several s2 _ _ _ H2i H2c).
        split; [reflexivity|]. split; [exact H2n|]. split; [reflexivity|].
        split.
        -- intros _. cbn [undo_actions set_redo_actions set_undo_actions set_composite_actions
                            set_in_composite]. unfold s2. cbn [undo_actions set_buffer].
           rewrite exit_undo_actions. reflexivity.
        -- intros rest' x q H Hq.
           rewrite EP in H. apply app_inj_tail in H. destruct H as [-> ->].
           unfold addition in EJ. cbn [maybe_join] in EJ.
           replace (Z.of_nat p =? q + py_len x) with true in EJ
             by (symmetry; apply Z.eqb_eq; lia).
           discriminate.
    + apply list_pop_nil_inv in EP.
      rewrite join_or_add_added
        by (intros rest' top' H; rewrite Hu1, EP in H; destruct rest'; discriminate).
      rewrite add_undo_action_in_composite by exact Hi1'.
      set (s2 := set_buffer b1 _).
      assert (H2i : in_composite s2 = 1)
        by (unfold s2; cbn [in_composite set_buffer]; rewrite exit_in_composite; exact Hi1).
      assert (H2c : composite_actions s2 = [tagging; addition])
        by (unfold s2; cbn [composite_actions set_buffer];
            rewrite exit_composite_actions; cbn [composite_actions set_composite_actions];
            rewrite Hca1; reflexivity).
      assert (H2n : internal_action_count s2 = 0)
        by (unfold s2; cbn [internal_action_count set_buffer]; rewrite exit_count;
            cbn; rewrite Hc; reflexivity).
      rewrite (end_composite_several s2 _ _ _ H2i H2c).
      split; [reflexivity|]. split; [exact H2n|]. split; [reflexivity|].
      split.
      * intros _. cbn [undo_actions set_redo_actions set_undo_actions set_composite_actions
                         set_in_composite]. unfold s2. cbn [undo_actions set_buffer].
        rewrite exit_undo_actions. reflexivity.
      * intros rest' x q H Hq. rewrite EP in H. destruct rest'; discriminate.
Qed.

(** X8.  An insertion of a tab, a space or one of [. , ; :] behind a
    text in which [get_url_start] has a match at [m]: the cells from
    [m] up to the insertion carry the tag [link] before the delimiter
    goes in.  Outside a user action the undo stack gets the tagging and
    then the addition, as two entries.  As a key press, the two are
    pushed as one composite when the top of the undo stack does not
    take the addition; when the top is an addition that ends where the
    delimiter goes in, the delimiter joins it and the tagging comes on
    top of it. *)
Theorem link_detected (p m : nat) (d : str) (st : NoteBuffer) :
  internal_action_count st = 0 ->
  in_composite st = 0 ->
  composite_actions st = [] ->
  mem d delimiters = true ->
  str_eqb d [Ch "010"] = false ->
  (m <= p <= List.length (cells (buffer st)))%nat ->
  get_url_start (get_slice (buffer st) 0 p) = Some (Z.of_nat m) ->
  let tagging := TagAction (lit "link") (Z.of_nat m) (Z.of_nat p) true in
  let addition := AdditionAction d (Z.of_nat p) in
  let b1 := raw_insert (apply_tag_by_name (buffer st) (lit "link") m p) p d in
  (forall j, (m <= j < p)%nat -> mem (lit "link") (tags_at (cells b1) j) = true) /\
  map cell_content (cells b1)
  = firstn p (map cell_content (cells (buffer st))) ++ map Chr d
    ++ skipn p (map cell_content (cells (buffer st))) /\
  exists st1 st2,
    buffer_insert get_url_start p d st = Done tt st1 /\
    buffer st1 = b1 /\
    undo_actions st1 = undo_actions st ++ [tagging; addition] /\
    redo_actions st1 = [] /\
    user_action (buffer_insert get_url_start p d) st = Done tt st2 /\
    buffer st2 = b1 /\
    redo_actions st2 = [] /\
    ((forall rest top, undo_actions st = rest ++ [top] -> maybe_join top addition = None) ->
     undo_actions st2 = undo_actions st ++ [CompositeAction [tagging; addition]]) /\
    (forall rest x q,
        undo_actions st = rest ++ [AdditionAction x q] ->
        q + py_len x = Z.of_nat p ->
        undo_actions st2 = rest ++ [AdditionAction (x ++ d) q; tagging]).
Proof.
  intros Hc Hi Hca Hd Hn Hmp Hu tagging addition b1.
  destruct (insert_delimiter_link p m d st Hc Hi Hca Hd Hn Hmp Hu)
    as (T & C & st1 & st2 & E1 & B1 & U1 & R1 & E2 & B2 & _ & R2 & UA & UB).
  split; [exact T|]. split; [exact C|].
  exists st1, st2. repeat split; assumption.
Qed.

Lemma undo_pair (a b a' b' : Action) (s s1 s2 : NoteBuffer) :
  action_undo get_url_start b s = Done b' s1 ->
  action_undo get_url_start a s1 = Done a' s2 ->
  action_undo get_url_start (CompositeAction [a; b]) s = Done (CompositeAction [a'; b']) s2.
Proof.
  intros Hb Ha.
  change (action_undo get_url_start (CompositeAction [a; b]) s)
    with ((l <- each_reversed (action_undo get_url_start) [a; b] ;;
           ret (CompositeAction l)) s).
  cbn [each_reversed]. unfold bind, ret. rewrite Hb, Ha. reflexivity.
Qed.

(** X9.  A key press of a delimiter that has made a link, when the top
    of the undo stack does not take the addition: one [undo] takes the
    delimiter out and the tag [link] off every cell of the match, also
    off a cell that carried it before.  The contents are as before the
    key press, and so are the cells when no cell of the match was a
    link. *)
Theorem link_undo (p m : nat) (d : str) (st : NoteBuffer) :
  internal_action_count st = 0 ->
  in_composite st = 0 ->
  composite_actions st = [] ->
  mem d delimiters = true ->
  str_eqb d [Ch "010"] = false ->
  (m <= p <= List.length (cells (buffer st)))%nat ->
  get_url_start (get_slice (buffer st) 0 p) = Some (Z.of_nat m) ->
  (forall rest top,
      undo_actions st = rest ++ [top] ->
      maybe_join top (AdditionAction d (Z.of_nat p)) = None) ->
  exists st2 st3,
    user_action (buffer_insert get_url_start p d) st = Done tt st2 /\
    undo get_url_start st2 = Done tt st3 /\
    contents st3 = contents st /\
    (forall j, (m <= j < p)%nat ->
               mem (lit "link") (tags_at (cells (buffer st3)) j) = false) /\
    undo_actions st3 = undo_actions st /\
    redo_actions st3
    = [CompositeAction [TagAction (lit "link") (Z.of_nat m) (Z.of_nat p) true;
                        AdditionAction d (Z.of_nat p)]] /\
    ((forall j, (m <= j < p)%nat ->
                mem (lit "link") (tags_at (cells (buffer st)) j) = false) ->
     cells (buffer st3) = cells (buffer st)).
Proof.
  intros Hc Hi Hca Hd Hn Hmp Hu Hj.
  destruct (insert_delimiter_link p m d st Hc Hi Hca Hd Hn Hmp Hu)
    as (_ & _ & _ & st2 & _ & _ & _ & _ & E2 & B2 & C2 & R2 & UA & _).
  specialize (UA Hj).
  set (T := TagAction (lit "link") (Z.of_nat m) (Z.of_nat p) true) in *.
  set (A := AdditionAction d (Z.of_nat p)) in *.
  set (ba := apply_tag_by_name (buffer st) (lit "link") m p) in *.
  assert (Ht : mem (lit "link") TAG_DEFINITIONS = true) by reflexivity.
  destruct (cells_apply (buffer st) (lit "link") m p) as [Hlen Hcont]. fold ba in Hlen, Hcont.
  assert (Hne : d <> []) by (intros ->; discriminate Hd).
  set (s1 := set_undo_actions (undo_actions st) (enter_internal_action st2)).
  assert (G1 : internal_action_count s1 <> 0).
  { unfold s1. cbn [internal_action_count set_undo_actions enter_internal_action
                      set_internal_action_count]. rewrite C2. lia. }
  assert (Hb1 : buffer s1 = raw_insert ba p d) by exact B2.
  set (bd := raw_delete (buffer s1) p (p + List.length d)).
  assert (Hcd : cells bd = cells ba).
  { unfold bd. rewrite Hb1. unfold raw_insert.
    rewrite <- (length_map Chr d). apply cells_delete_inserted. lia. }
  assert (EA : action_undo get_url_start A s1 = Done A (set_buffer bd s1)).
  { apply addition_undo_guarded; [exact G1 | exact Hne |].
    rewrite Hb1. unfold raw_insert. rewrite length_insert by lia.
    rewrite length_map. lia. }
  set (b3 := remove_tag_by_name bd (lit "link") m p).
  assert (ET : action_undo get_url_start T (set_buffer bd s1) = Done T (set_buffer b3 s1)).
  { unfold T. cbn [action_undo]. unfold bind, tag_remove, modify, ret.
    cbn [buffer set_buffer].
    rewrite !get_iter_at_offset_inside by (rewrite Hcd; lia). reflexivity. }
  pose proof (undo_pair T A T A s1 _ _ EA ET) as EU.
  destruct (undo_pops get_url_start st2 (undo_actions st) _ _ _ ltac:(lia) UA EU) as [Eu _].
  assert (Hc3 : cells b3 = map_range (remove_tag_from_cell (lit "link")) m p 0 (cells ba)).
  { unfold b3, remove_tag_by_name. rewrite Ht. cbn [cells].
    rewrite Nat.min_l, Nat.max_r by lia. rewrite Hcd. reflexivity. }
  eexists st2, _.
  split; [exact E2|]. split; [exact Eu|].
  unfold contents. rewrite exit_buffer, exit_undo_actions, exit_redo_actions.
  cbn [buffer set_redo_actions set_buffer undo_actions redo_actions].
  split; [rewrite Hc3, contents_map_range_remove; exact Hcont|].
  split.
  { intros j Hjr. unfold b3.
    rewrite mem_tags_at_remove by (try exact Ht; rewrite ?Hcd; lia).
    replace (m <=? j)%nat with true by (symmetry; apply Nat.leb_le; lia).
    replace (j <? p)%nat with true by (symmetry; apply Nat.ltb_lt; lia).
    apply andb_false_r. }
  split; [reflexivity|].
  split.
  { change (redo_actions s1) with (redo_actions st2). rewrite R2. reflexivity. }
  intro Hfresh. rewrite Hc3. unfold ba, apply_tag_by_name. rewrite Ht. cbn [cells].
  rewrite Nat.min_l, Nat.max_r by lia.
  apply map_range_remove_add. intros j c Hnth Hr.
  specialize (Hfresh j ltac:(lia)). unfold tags_at in Hfresh. rewrite Hnth in Hfresh.
  exact Hfresh.
Qed.

End Links.

(** ** A deletion that joins a Backspace from the wrong side *)

Lemma firstn_pre {A : Type} (pre l : list A) (k : nat) :
  firstn (List.length pre + k) (pre ++ l) = pre ++ firstn k l.
Proof. apply firstn_app_2. Qed.

Lemma skipn_pre {A : Type} (pre l : list A) (k : nat) :
  skipn (List.length pre + k) (pre ++ l) = skipn k l.
Proof.
  rewrite skipn_app. rewrite skipn_all2 by lia.
  replace (List.length pre + k - List.length pre)%nat with k by lia. reflexivity.
Qed.

Lemma nth_error_pre {A : Type} (pre l : list A) (k : nat) :
  nth_error (pre ++ l) (List.length pre + k) = nth_error l k.
Proof.
  rewrite nth_error_app2 by lia.
  replace (List.length pre + k - List.length pre)%nat with k by lia. reflexivity.
Qed.

Lemma firstn_pre0 {A : Type} (pre l : list A) : firstn (List.length pre) (pre ++ l) = pre.
Proof.
  rewrite firstn_app, Nat.sub_diag, firstn_all. cbn [firstn]. apply app_nil_r.
Qed.

Lemma skipn_pre0 {A : Type} (pre l : list A) : skipn (List.length pre) (pre ++ l) = l.
Proof. rewrite skipn_app, Nat.sub_diag, skipn_all. reflexivity. Qed.

Lemma nth_error_pre0 {A : Type} (pre l : list A) :
  nth_error (pre ++ l) (List.length pre) = nth_error l 0.
Proof. rewrite nth_error_app2 by lia. rewrite Nat.sub_diag. reflexivity. Qed.

Lemma untagged_app (l1 l2 : list cell) :
  untagged (l1 ++ l2) = untagged l1 && untagged l2.
Proof. apply forallb_app. Qed.

Section BackwardJoin.

Variable get_url_start : str -> option Z.

(** X14.  A deletion of class [backward] joins the [DeletionAction] on
    top of the undo stack whenever it starts one offset before it,
    however long it is.  In a text [a x c] without tags: Backspace behind
    [x], the cursor moved one to the right, and then a deletion of the
    two characters in front of the cursor leave one action that holds
    [a c x], and [undo] puts [a c x] where the buffer had [a x c]. *)
Theorem backward_join_misorders (pre post : list cell) (a x c : char) (st : NoteBuffer) :
  internal_action_count st = 0 ->
  in_composite st = 0 ->
  cells (buffer st)
  = pre ++ [mkCell (Chr a) []; mkCell (Chr x) []; mkCell (Chr c) []] ++ post ->
  untagged (cells (buffer st)) = true ->
  get_has_selection (buffer st) = false ->
  insert_mark (buffer st) = (List.length pre + 2)%nat ->
  (forall rest top,
      undo_actions st = rest ++ [top] ->
      maybe_join top (DeletionAction [x] (Z.of_nat (List.length pre + 1)) backward) = None) ->
  let s := List.length pre in
  exists st1 st2 st3,
    buffer_delete (s + 1) (s + 2) st = Done tt st1 /\
    cells (buffer st1) = pre ++ [mkCell (Chr a) []; mkCell (Chr c) []] ++ post /\
    insert_mark (buffer st1) = (s + 1)%nat /\
    buffer_delete s (s + 2) (place_cursor (s + 2) st1) = Done tt st2 /\
    (composite_actions st = [] ->
     user_action (buffer_delete (s + 1) (s + 2)) st = Done tt st1 /\
     user_action (buffer_delete s (s + 2)) (place_cursor (s + 2) st1) = Done tt st2) /\
    cells (buffer st2) = pre ++ post /\
    undo_actions st2 = undo_actions st ++ [DeletionAction [a; c; x] (Z.of_nat s) backward] /\
    undo get_url_start st2 = Done tt st3 /\
    cells (buffer st3)
    = pre ++ [mkCell (Chr a) []; mkCell (Chr c) []; mkCell (Chr x) []] ++ post /\
    undo_actions st3 = undo_actions st.
Proof.
  intros Hc Hi Hcs Hu Hsel Hm Hj s.
  pose proof (no_selection_bound _ Hsel) as Hsb.
  set (b := buffer st) in *. set (cs := cells b) in *.
  assert (Hlen : List.length cs = (s + 3 + List.length post)%nat).
  { rewrite Hcs, !length_app. cbn [List.length]. fold s. lia. }
  assert (Hup : untagged pre = true /\ untagged post = true).
  { rewrite Hcs, !untagged_app in Hu. apply andb_true_iff in Hu. destruct Hu as [H1 H2].
    apply andb_true_iff in H2. destruct H2 as [_ H2]. split; assumption. }
  destruct Hup as [Hupre Hupost].
  assert (Hanchor : forall k, (k < 3)%nat -> has_anchor cs (s + k) = false).
  { intros k Hk. unfold has_anchor, get_child_anchor. rewrite Hcs. unfold s.
    rewrite nth_error_pre.
    destruct k as [|[|[|k]]]; [reflexivity | reflexivity | reflexivity | lia]. }
  assert (Ha1 : no_anchor_in cs (s + 1) (s + 2) = true).
  { unfold no_anchor_in. replace (s + 2 - (s + 1))%nat with 1%nat by lia.
    cbn [seq forallb]. rewrite (Hanchor 1%nat) by lia. reflexivity. }
  (* Backspace *)
  assert (HS1 : get_slice b (s + 1) (s + 2) = [x]).
  { unfold get_slice. fold cs. rewrite Hcs. unfold s. rewrite skipn_pre.
    replace (List.length pre + 2 - (List.length pre + 1))%nat with 1%nat by lia.
    reflexivity. }
  assert (HD1 : new_DeletionAction b (s + 1) (s + 2)
                = DeletionAction [x] (Z.of_nat (s + 1)) backward).
  { unfold new_DeletionAction. rewrite Hsel, Hm. fold s. rewrite Nat.eqb_refl, HS1.
    reflexivity. }
  destruct (quiet_deletion get_url_start (s + 1) (s + 2) st Hc Hi
              ltac:(fold b; fold cs; lia) (untagged_quiet _ _ _ Hu Ha1)
              ltac:(fold b; rewrite HD1; exact Hj))
    as (st1 & _ & _ & E1 & B1 & C1 & I1 & U1 & _).
  fold b in B1, U1. rewrite HD1 in U1.
  set (b1 := raw_delete b (s + 1) (s + 2)) in *.
  assert (Hc1 : cells b1 = pre ++ [mkCell (Chr a) []; mkCell (Chr c) []] ++ post).
  { unfold b1. rewrite cells_raw_delete. fold cs. rewrite Hcs. unfold s.
    rewrite firstn_pre, skipn_pre. cbn [firstn skipn app]. rewrite <- app_assoc.
    reflexivity. }
  assert (Hm1 : insert_mark b1 = (s + 1)%nat).
  { unfold b1, raw_delete. cbn [insert_mark]. rewrite Hm. fold s. unfold shift_mark_delete.
    destruct (s + 2 <=? s + 1)%nat eqn:E; [apply Nat.leb_le in E; lia|].
    destruct (s + 2 <? s + 2)%nat eqn:E'; [apply Nat.ltb_lt in E'; lia|]. lia. }
  assert (Hl1 : List.length (cells b1) = (s + 2 + List.length post)%nat).
  { rewrite Hc1, !length_app. cbn [List.length]. fold s. lia. }
  (* the cursor goes one to the right *)
  set (st1c := place_cursor (s + 2) st1).
  set (b1c := mkTextBuffer (cells b1) (s + 2) (s + 2)).
  assert (B1c : buffer st1c = b1c).
  { unfold st1c, place_cursor, select_range, get_char_count. cbn [buffer set_buffer].
    rewrite B1. rewrite Nat.min_l by lia. reflexivity. }
  assert (HS2 : get_slice b1c s (s + 2) = [a; c]).
  { unfold get_slice, b1c. cbn [cells]. rewrite Hc1. unfold s.
    rewrite skipn_pre0.
    replace (List.length pre + 2 - List.length pre)%nat with 2%nat by lia.
    reflexivity. }
  assert (HD2 : new_DeletionAction b1c s (s + 2)
                = DeletionAction [a; c] (Z.of_nat s) backward).
  { unfold new_DeletionAction. rewrite HS2. unfold get_has_selection, b1c.
    cbn [insert_mark selection_bound]. rewrite Nat.eqb_refl. reflexivity. }
  assert (HJ : maybe_join (DeletionAction [x] (Z.of_nat (s + 1)) backward)
                          (new_DeletionAction b1c s (s + 2))
               = Some (DeletionAction [a; c; x] (Z.of_nat s) backward)).
  { rewrite HD2. cbn [maybe_join deletion_type_eqb negb andb].
    replace (Z.of_nat s =? Z.of_nat (s + 1) - 1) with true
      by (symmetry; apply Z.eqb_eq; lia).
    reflexivity. }
  assert (Hu1 : untagged (cells b1c) = true).
  { cbn [cells b1c]. rewrite Hc1, !untagged_app, Hupre, Hupost. reflexivity. }
  assert (Ha2 : no_anchor_in (cells b1c) s (s + 2) = true).
  { unfold no_anchor_in. replace (s + 2 - s)%nat with 2%nat by lia.
    cbn [seq forallb cells b1c]. unfold has_anchor, get_child_anchor. rewrite Hc1.
    replace (S s) with (s + 1)%nat by lia. unfold s.
    rewrite nth_error_pre0, nth_error_pre. reflexivity. }
  assert (C1c : internal_action_count st1c = 0) by exact C1.
  assert (I1c : in_composite st1c = 0) by exact I1.
  assert (U1c : undo_actions st1c
                = undo_actions st ++ [DeletionAction [x] (Z.of_nat (s + 1)) backward])
    by exact U1.
  destruct (quiet_deletion_joined s (s + 2) st1c (undo_actions st) _ _ C1c
              ltac:(rewrite B1c; cbn [cells b1c]; rewrite Hl1; lia)
              ltac:(rewrite B1c; exact (untagged_quiet _ _ _ Hu1 Ha2))
              U1c ltac:(rewrite B1c; exact HJ))
    as (st2 & E2 & B2 & C2 & U2 & _).
  assert (Hc2 : cells (buffer st2) = pre ++ post).
  { rewrite B2, B1c, cells_raw_delete. cbn [cells b1c]. rewrite Hc1. unfold s.
    rewrite firstn_pre0, skipn_pre. reflexivity. }
  (* undo *)
  set (cs' := pre ++ [mkCell (Chr a) []; mkCell (Chr c) []; mkCell (Chr x) []] ++ post).
  assert (Hlen' : List.length cs' = (s + 3 + List.length post)%nat).
  { unfold cs'. rewrite !length_app. cbn [List.length]. fold s. lia. }
  assert (Hu' : untagged cs' = true).
  { unfold cs'. rewrite !untagged_app, Hupre, Hupost. reflexivity. }
  assert (Ha' : no_anchor_in cs' s (s + 3) = true).
  { unfold no_anchor_in. replace (s + 3 - s)%nat with 3%nat by lia.
    cbn [seq forallb]. unfold has_anchor, get_child_anchor, cs'.
    replace (S s) with (s + 1)%nat by lia. replace (S (s + 1)) with (s + 2)%nat by lia.
    unfold s. rewrite nth_error_pre0, !nth_error_pre. reflexivity. }
  destruct (undo_deletion_untagged get_url_start cs' s (s + 3) backward (undo_actions st) st2 C2
              ltac:(lia) Hu' Ha')
    as (st3 & E3 & C3 & U3).
  { rewrite Hc2. unfold cs', s. rewrite firstn_pre0, skipn_pre. reflexivity. }
  { rewrite U2. do 3 f_equal. unfold cs', s. rewrite skipn_pre0.
    replace (List.length pre + 3 - List.length pre)%nat with 3%nat by lia.
    reflexivity. }
  exists st1, st2, st3.
  split; [exact E1|]. split; [rewrite B1; exact Hc1|]. split; [rewrite B1; exact Hm1|].
  split; [exact E2|].
  split; [|repeat split; assumption].
  intro Hca.
  destruct (quiet_deletion_key (s + 1) (s + 2) st Hc Hi Hca ltac:(fold b; fold cs; lia)
              (untagged_quiet _ _ _ Hu Ha1)) as [K1 K2].
  rewrite E1 in K2. cbn [final_state] in K2.
  destruct (quiet_deletion_key s (s + 2) st1c C1c I1c K2
              ltac:(rewrite B1c; cbn [cells b1c]; rewrite Hl1; lia)
              ltac:(rewrite B1c; exact (untagged_quiet _ _ _ Hu1 Ha2))) as [K3 _].
  fold st1c. rewrite K1, K3. split; assumption.
Qed.

End BackwardJoin.

(** ** Histories of insertions *)

Lemma cells_raw_insert_cells (b : TextBuffer) (p : nat) (text : str) :
  cells (raw_insert b p text) = insert_cells (cells b) p text.
Proof. reflexivity. Qed.

Lemma length_insert_cells (cs : list cell) (p : nat) (text : str) :
  (p <= List.length cs)%nat ->
  List.length (insert_cells cs p text) = (List.length cs + List.length text)%nat.
Proof.
  intro H. unfold insert_cells.
  rewrite !length_app, !length_map, length_firstn, length_skipn. lia.
Qed.

Lemma delete_inserted_cells (cs : list cell) (p : nat) (text : str) :
  (p <= List.length cs)%nat ->
  firstn p (insert_cells cs p text) ++ skipn (p + List.length text) (insert_cells cs p text)
  = cs.
Proof.
  intro H.
  pose proof (cells_delete_inserted (mkTextBuffer cs 0 0) p (map Chr text) H) as D.
  rewrite length_map in D. exact D.
Qed.

Lemma filter_twice {A : Type} (f : A -> bool) (l : list A) :
  filter f (filter f l) = filter f l.
Proof.
  induction l as [|a r IH]; cbn [filter]; [reflexivity|].
  destruct (f a) eqn:E; cbn [filter]; rewrite ?E, IH; reflexivity.
Qed.

(** What goes in right behind an insertion carries the tags the
    insertion carries. *)
Lemma inherited_behind_insertion (cs : list cell) (q : nat) (x : str) :
  (q <= List.length cs)%nat ->
  x <> [] ->
  inherited_tags (insert_cells cs q x) (q + List.length x) = inherited_tags cs q.
Proof.
  intros Hq Hx.
  assert (Hl : (0 < List.length x)%nat) by (destruct x; [congruence | simpl; lia]).
  set (T := inherited_tags cs q).
  set (X := map (fun c => mkCell c T) (map Chr x)).
  assert (HX : List.length X = List.length x) by (unfold X; rewrite !length_map; reflexivity).
  assert (HC : insert_cells cs q x = firstn q cs ++ X ++ skipn q cs) by reflexivity.
  unfold inherited_tags at 1.
  assert (Hat : tags_at (insert_cells cs q x) (q + List.length x) = tags_at cs q).
  { unfold tags_at. rewrite HC, app_assoc.
    rewrite nth_error_app2 by (rewrite length_app, length_firstn; lia).
    replace (q + List.length x - List.length (firstn q cs ++ X))%nat with 0%nat
      by (rewrite length_app, length_firstn; lia).
    rewrite <- (Nat.add_0_r q) at 2. rewrite <- nth_error_skipn. reflexivity. }
  assert (Hbefore : tags_before (insert_cells cs q x) (q + List.length x) = T).
  { unfold tags_before.
    destruct (q + List.length x)%nat as [|j] eqn:E; [lia|].
    unfold tags_at. rewrite HC.
    rewrite nth_error_app2 by (rewrite length_firstn; lia).
    rewrite length_firstn, Nat.min_l by lia.
    rewrite nth_error_app1 by lia.
    destruct (nth_error X (j - q)) as [c|] eqn:N.
    - apply nth_error_In in N. unfold X in N. apply in_map_iff in N.
      destruct N as (y & <- & _). reflexivity.
    - apply nth_error_None in N. lia. }
  rewrite Hat, Hbefore. unfold T, inherited_tags. apply filter_twice.
Qed.

Lemma insert_cells_join (cs : list cell) (q : nat) (x text : str) :
  (q <= List.length cs)%nat ->
  x <> [] ->
  insert_cells (insert_cells cs q x) (q + List.length x) text
  = insert_cells cs q (x ++ text).
Proof.
  intros Hq Hx. unfold insert_cells at 1.
  rewrite inherited_behind_insertion by assumption.
  unfold insert_cells.
  set (T := inherited_tags cs q).
  set (X := map (fun c => mkCell c T) (map Chr x)).
  assert (HX : List.length X = List.length x) by (unfold X; rewrite !length_map; reflexivity).
  rewrite <- HX. rewrite firstn_insert, skipn_insert by exact Hq.
  rewrite !map_app, <- !app_assoc. reflexivity.
Qed.

Lemma replay_snoc (l : list Action) (a : Action) :
  forall cs,
    replay cs (l ++ [a])
    = match replay cs l with
      | Some cs' => replay cs' [a]
      | None => None
      end.
Proof.
  induction l as [|b r IH]; intro cs.
  - reflexivity.
  - cbn [app replay]. destruct b; try reflexivity.
    destruct ((0 <=? position) && (position <=? py_len cs)
              && negb (List.length text =? 0)%nat); [apply IH | reflexivity].
Qed.

Lemma replay_one (cs cs' : list cell) (a : Action) :
  replay cs [a] = Some cs' ->
  exists text p,
    a = AdditionAction text (Z.of_nat p) /\ (p <= List.length cs)%nat /\ text <> [] /\
    cs' = insert_cells cs p text.
Proof.
  intro H. destruct a as [text position| | | |]; try discriminate.
  cbn [replay] in H.
  destruct ((0 <=? position) && (position <=? py_len cs)
            && negb (List.length text =? 0)%nat) eqn:E; [|discriminate].
  apply andb_true_iff in E. destruct E as [E E3].
  apply andb_true_iff in E. destruct E as [E1 E2].
  apply Z.leb_le in E1, E2. apply negb_true_iff, Nat.eqb_neq in E3.
  unfold py_len in E2.
  exists text, (Z.to_nat position).
  rewrite Z2Nat.id by lia.
  split; [reflexivity|]. split; [lia|].
  split; [intros ->; apply E3; reflexivity|].
  injection H as <-. reflexivity.
Qed.

Lemma replay_addition (cs : list cell) (text : str) (p : nat) :
  (p <= List.length cs)%nat -> text <> [] ->
  replay cs [AdditionAction text (Z.of_nat p)] = Some (insert_cells cs p text).
Proof.
  intros Hp Ht. cbn [replay]. unfold py_len.
  replace (0 <=? Z.of_nat p) with true by (symmetry; apply Z.leb_le; lia).
  replace (Z.of_nat p <=? Z.of_nat (List.length cs)) with true
    by (symmetry; apply Z.leb_le; lia).
  replace (List.length text =? 0)%nat with false
    by (symmetry; apply Nat.eqb_neq; destruct text; [congruence | simpl; lia]).
  cbn [andb negb]. rewrite Nat2Z.id. reflexivity.
Qed.

Section Histories.

Variable get_url_start : str -> option Z.

(** An insertion inside a user action of its own: the addition is
    pushed, or it joins the addition on top of the undo stack that ends
    where it starts. *)
Lemma key_insert_cases (p : nat) (text : str) (st : NoteBuffer) :
  internal_action_count st = 0 ->
  in_composite st = 0 ->
  composite_actions st = [] ->
  text <> [] ->
  mem text delimiters = false ->
  exists st',
    user_action (buffer_insert get_url_start p text) st = Done tt st' /\
    buffer st' = raw_insert (buffer st) p text /\
    internal_action_count st' = 0 /\
    in_composite st' = 0 /\
    composite_actions st' = [] /\
    (undo_actions st' = undo_actions st ++ [AdditionAction text (Z.of_nat p)] \/
     exists rest x q,
       undo_actions st = rest ++ [AdditionAction x q] /\
       Z.of_nat p = q + py_len x /\
       undo_actions st' = rest ++ [AdditionAction (x ++ text) q]).
Proof.
  intros Hc Hi Hca Hn Hd. unfold user_action.
  destruct (insert_plain get_url_start p text (begin_composite_action st) Hc Hn Hd)
    as [s1 [E [Hb [Hc1 [Hi1 [Hca1 [Hu1 Hr1]]]]]]].
  rewrite E.
  destruct (list_pop (undo_actions st)) as [[rest top]|] eqn:EP.
  - apply list_pop_some in EP.
    destruct (maybe_join top (AdditionAction text (Z.of_nat p))) as [top'|] eqn:EJ.
    + rewrite (join_or_add_joined _ (begin_composite_action st) rest top top' EP EJ)
        in Hca1, Hu1, Hr1.
      simpl in Hb, Hi1, Hca1, Hu1, Hr1. rewrite Hi in Hi1. rewrite Hca in Hca1.
      rewrite (end_composite_none s1 Hi1 Hca1).
      eexists. split; [reflexivity|]. simpl.
      split; [exact Hb|]. split; [exact Hc1|]. split; [reflexivity|]. split; [exact Hca1|].
      right. destruct top as [x q| | | |]; try discriminate.
      cbn [maybe_join] in EJ.
      destruct (Z.of_nat p =? q + py_len x) eqn:EQ; [|discriminate].
      apply Z.eqb_eq in EQ. injection EJ as <-.
      exists rest, x, q. split; [exact EP|]. split; [exact EQ|]. exact Hu1.
    + rewrite join_or_add_added in Hca1, Hu1, Hr1
        by (intros rest' top' H; change (undo_actions (begin_composite_action st))
              with (undo_actions st) in H; rewrite EP in H; apply app_inj_tail in H;
            destruct H as [_ <-]; exact EJ).
      rewrite add_undo_action_in_composite in Hca1, Hu1, Hr1 by (simpl; lia).
      simpl in Hb, Hi1, Hca1, Hu1, Hr1. rewrite Hi in Hi1. rewrite Hca in Hca1.
      rewrite (end_composite_single s1 _ Hi1 Hca1).
      eexists. split; [reflexivity|]. simpl.
      split; [exact Hb|]. split; [exact Hc1|]. split; [reflexivity|]. split; [reflexivity|].
      left. rewrite Hu1. reflexivity.
  - apply list_pop_nil_inv in EP.
    rewrite join_or_add_added in Hca1, Hu1, Hr1
      by (intros rest' top' H; change (undo_actions (begin_composite_action st))
            with (undo_actions st) in H; rewrite EP in H; destruct rest'; discriminate).
    rewrite add_undo_action_in_composite in Hca1, Hu1, Hr1 by (simpl; lia).
    simpl in Hb, Hi1, Hca1, Hu1, Hr1. rewrite Hi in Hi1. rewrite Hca in Hca1.
    rewrite (end_composite_single s1 _ Hi1 Hca1).
    eexists. split; [reflexivity|]. simpl.
    split; [exact Hb|]. split; [exact Hc1|]. split; [reflexivity|]. split; [reflexivity|].
    left. rewrite Hu1. reflexivity.
Qed.

(** The undo stack after a history of insertions plays the cells of the
    buffer from the cells at the start. *)
Lemma insert_all_replay (ops : list (nat * str)) :
  forall (st : NoteBuffer) (cs0 : list cell),
    internal_action_count st = 0 ->
    in_composite st = 0 ->
    composite_actions st = [] ->
    replay cs0 (undo_actions st) = Some (cells (buffer st)) ->
    plain_insertions (List.length (cells (buffer st))) ops = true ->
    exists st1,
      insert_all get_url_start ops st = Some st1 /\
      buffer st1 = fold_left (fun b op => raw_insert b (fst op) (snd op)) ops (buffer st) /\
      internal_action_count st1 = 0 /\
      replay cs0 (undo_actions st1) = Some (cells (buffer st1)) /\
      (List.length (undo_actions st1) <= List.length (undo_actions st) + List.length ops)%nat.
Proof.
  induction ops as [|[p text] r IH]; intros st cs0 Hc Hi Hca Hr Hp.
  - exists st. cbn [insert_all fold_left List.length]. repeat split; try assumption. lia.
  - cbn [plain_insertions] in Hp.
    apply andb_true_iff in Hp. destruct Hp as [Hp Hp4].
    apply andb_true_iff in Hp. destruct Hp as [Hp Hp3].
    apply andb_true_iff in Hp. destruct Hp as [Hp1 Hp2].
    apply Nat.leb_le in Hp1. apply negb_true_iff, Nat.eqb_neq in Hp2.
    apply negb_true_iff in Hp3.
    assert (Hn : text <> []) by (intros ->; apply Hp2; reflexivity).
    destruct (key_insert_cases p text st Hc Hi Hca Hn Hp3)
      as (s1 & E & B1 & C1 & I1 & CA1 & HU).
    assert (Hcells : cells (buffer s1) = insert_cells (cells (buffer st)) p text)
      by (rewrite B1; reflexivity).
    assert (Hr1 : replay cs0 (undo_actions s1) = Some (cells (buffer s1))).
    { destruct HU as [HU|(rest & x & q & HU0 & Hq & HU)]; rewrite HU, replay_snoc.
      - rewrite Hr, Hcells. apply replay_addition; assumption.
      - rewrite HU0, replay_snoc in Hr.
        destruct (replay cs0 rest) as [cs1|]; [|discriminate].
        destruct (replay_one _ _ _ Hr) as (x' & q' & Ea & Hq' & Hx' & Hcs).
        injection Ea as -> ->.
        rewrite replay_addition
          by (try exact Hq'; intro H0; apply app_eq_nil in H0; destruct H0; contradiction).
        f_equal. rewrite Hcells, Hcs.
        replace p with (q' + List.length x')%nat by (unfold py_len in Hq; lia).
        symmetry. apply insert_cells_join; assumption. }
    assert (Hlen1 : List.length (cells (buffer s1))
                    = (List.length (cells (buffer st)) + List.length text)%nat)
      by (rewrite Hcells; apply length_insert_cells; exact Hp1).
    destruct (IH s1 cs0 C1 I1 CA1 Hr1 ltac:(rewrite Hlen1; exact Hp4))
      as (st1 & E1 & B & C & R & L).
    exists st1. cbn [insert_all fold_left fst snd List.length]. rewrite E.
    split; [exact E1|]. split; [rewrite B, B1; reflexivity|]. split; [exact C|].
    split; [exact R|].
    destruct HU as [HU|(rest & x & q & HU0 & Hq & HU)].
    + rewrite HU, length_app in L. cbn [List.length] in L. lia.
    + rewrite HU, length_app in L. rewrite HU0, length_app. cbn [List.length] in *. lia.
Qed.

(** As many calls of [undo] as the stack is long take every addition
    out again. *)
Lemma undo_all_additions (l : list Action) :
  forall (st : NoteBuffer) (cs0 : list cell),
    internal_action_count st = 0 ->
    undo_actions st = l ->
    replay cs0 l = Some (cells (buffer st)) ->
    exists st',
      undo_times get_url_start (List.length l) st = Some st' /\
      cells (buffer st') = cs0 /\
      internal_action_count st' = 0 /\
      undo_actions st' = [] /\
      redo_actions st' = redo_actions st ++ rev l.
Proof.
  induction l as [|a l IH] using rev_ind; intros st cs0 Hc Hu Hr.
  - exists st. cbn [List.length undo_times rev] in *. injection Hr as ->.
    rewrite app_nil_r. repeat split; assumption.
  - rewrite replay_snoc in Hr.
    destruct (replay cs0 l) as [cs1|] eqn:R1; [|discriminate].
    destruct (replay_one _ _ _ Hr) as (text & p & -> & Hp & Ht & Hcs).
    set (s1 := set_undo_actions l (enter_internal_action st)).
    assert (G1 : internal_action_count s1 <> 0).
    { unfold s1. cbn [internal_action_count set_undo_actions enter_internal_action
                        set_internal_action_count]. lia. }
    assert (Hlen : (p + List.length text <= List.length (cells (buffer s1)))%nat).
    { change (buffer s1) with (buffer st). rewrite Hcs, length_insert_cells by exact Hp. lia. }
    pose proof (addition_undo_guarded get_url_start text p s1 G1 Ht Hlen) as EA.
    destruct (undo_pops get_url_start st l _ _ _ ltac:(lia) Hu EA) as [Eu _].
    set (st' := exit_internal_action true _) in Eu.
    assert (Hc' : internal_action_count st' = 0).
    { unfold st'. rewrite exit_count.
      cbn [internal_action_count set_redo_actions set_buffer]. unfold s1.
      cbn [internal_action_count set_undo_actions enter_internal_action
             set_internal_action_count]. lia. }
    assert (Hu' : undo_actions st' = l) by (unfold st'; rewrite exit_undo_actions; reflexivity).
    assert (Hb' : cells (buffer st') = cs1).
    { unfold st'. rewrite exit_buffer. cbn [buffer set_redo_actions set_buffer].
      rewrite cells_raw_delete. change (buffer s1) with (buffer st). rewrite Hcs.
      apply delete_inserted_cells. exact Hp. }
    assert (Hrd : redo_actions st' = redo_actions st ++ [AdditionAction text (Z.of_nat p)]).
    { unfold st'. rewrite exit_redo_actions. reflexivity. }
    destruct (IH st' cs0 Hc' Hu' ltac:(rewrite Hb'; exact R1)) as (st2 & E2 & B2 & C2 & U2 & R2).
    exists st2. rewrite length_app. cbn [List.length]. rewrite Nat.add_1_r.
    cbn [undo_times]. rewrite Eu.
    split; [exact E2|]. split; [exact B2|]. split; [exact C2|]. split; [exact U2|].
    rewrite R2, Hrd, rev_app_distr, <- app_assoc. reflexivity.
Qed.

(** As many calls of [redo] put them in again. *)
Lemma redo_all_additions (l : list Action) :
  forall (st : NoteBuffer) (cs : list cell) (r : list Action),
    internal_action_count st = 0 ->
    redo_actions st = r ++ rev l ->
    replay (cells (buffer st)) l = Some cs ->
    exists st',
      redo_times get_url_start (List.length l) st = Some st' /\
      cells (buffer st') = cs /\
      undo_actions st' = undo_actions st ++ l /\
      redo_actions st' = r.
Proof.
  induction l as [|a l IH]; intros st cs r Hc Hrd Hr.
  - exists st. cbn [List.length redo_times rev replay] in *. injection Hr as <-.
    rewrite app_nil_r in *. repeat split; auto.
  - change (a :: l) with ([a] ++ l) in Hr.
    destruct a as [text position| | | |]; try discriminate.
    cbn [app replay] in Hr.
    destruct ((0 <=? position) && (position <=? py_len (cells (buffer st)))
              && negb (List.length text =? 0)%nat) eqn:E; [|discriminate].
    apply andb_true_iff in E. destruct E as [E E3].
    apply andb_true_iff in E. destruct E as [E1 E2].
    apply Z.leb_le in E1, E2. apply negb_true_iff, Nat.eqb_neq in E3.
    unfold py_len in E2.
    set (p := Z.to_nat position) in *.
    assert (Hpos : position = Z.of_nat p) by (unfold p; lia).
    assert (Hp : (p <= List.length (cells (buffer st)))%nat) by lia.
    cbn [rev] in Hrd. rewrite app_assoc in Hrd.
    set (s1 := set_redo_actions (r ++ rev l) (enter_internal_action st)).
    assert (G1 : internal_action_count s1 <> 0).
    { unfold s1. cbn [internal_action_count set_redo_actions enter_internal_action
                        set_internal_action_count]. lia. }
    assert (EA : action_redo get_url_start (AdditionAction text position) s1
                 = Done (AdditionAction text position)
                        (set_buffer (raw_insert (buffer s1) p text) s1)).
    { cbn [action_redo]. unfold bind, ret.
      rewrite buffer_insert_guarded by exact G1.
      rewrite Hpos, get_iter_at_offset_inside by exact Hp.
      destruct text as [|c t]; [exfalso; apply E3; reflexivity|]. reflexivity. }
    destruct (redo_pops get_url_start st (r ++ rev l) _ _ _ ltac:(lia) Hrd EA) as [Er _].
    set (st' := exit_internal_action true _) in Er.
    assert (Hc' : internal_action_count st' = 0).
    { unfold st'. rewrite exit_count.
      cbn [internal_action_count set_undo_actions set_buffer]. unfold s1.
      cbn [internal_action_count set_redo_actions enter_internal_action
             set_internal_action_count]. lia. }
    assert (Hrd' : redo_actions st' = r ++ rev l)
      by (unfold st'; rewrite exit_redo_actions; reflexivity).
    assert (Hb' : cells (buffer st') = insert_cells (cells (buffer st)) p text).
    { unfold st'. rewrite exit_buffer. reflexivity. }
    assert (Hu' : undo_actions st' = undo_actions st ++ [AdditionAction text position]).
    { unfold st'. rewrite exit_undo_actions. reflexivity. }
    destruct (IH st' cs r Hc' Hrd' ltac:(rewrite Hb'; exact Hr)) as (st2 & Et & B2 & U2 & R2).
    exists st2. cbn [List.length redo_times]. rewrite Er.
    split; [exact Et|]. split; [exact B2|]. split; [|exact R2].
    rewrite U2, Hu', <- app_assoc. reflexivity.
Qed.

(** X7.  In a note whose undo stack is empty, after any history of
    insertions of texts that are not empty and no delimiters, each at an
    offset of the buffer and inside a user action of its own: the buffer
    is what the insertions alone give, the undo stack is no longer than
    the history, as many calls of [undo] as the stack is long give back
    the cells the note had, and as many calls of [redo] give back the
    cells and the undo stack the history had left. *)
Theorem insertions_undo_redo (ops : list (nat * str)) (st : NoteBuffer) :
  internal_action_count st = 0 ->
  in_composite st = 0 ->
  composite_actions st = [] ->
  undo_actions st = [] ->
  plain_insertions (List.length (cells (buffer st))) ops = true ->
  exists st1 st2 st3,
    insert_all get_url_start ops st = Some st1 /\
    buffer st1 = fold_left (fun b op => raw_insert b (fst op) (snd op)) ops (buffer st) /\
    (List.length (undo_actions st1) <= List.length ops)%nat /\
    undo_times get_url_start (List.length (undo_actions st1)) st1 = Some st2 /\
    cells (buffer st2) = cells (buffer st) /\
    undo_actions st2 = [] /\
    redo_times get_url_start (List.length (undo_actions st1)) st2 = Some st3 /\
    cells (buffer st3) = cells (buffer st1) /\
    undo_actions st3 = undo_actions st1 /\
    redo_actions st3 = redo_actions st1.
Proof.
  intros Hc Hi Hca Hu Hp.
  destruct (insert_all_replay ops st (cells (buffer st)) Hc Hi Hca
              ltac:(rewrite Hu; reflexivity) Hp) as (st1 & E1 & B1 & C1 & R1 & L1).
  rewrite Hu in L1. cbn [List.length] in L1.
  destruct (undo_all_additions (undo_actions st1) st1 (cells (buffer st)) C1 eq_refl R1)
    as (st2 & E2 & B2 & C2 & U2 & Rd2).
  destruct (redo_all_additions (undo_actions st1) st2 (cells (buffer st1)) (redo_actions st1)
              C2 Rd2 ltac:(rewrite B2; exact R1)) as (st3 & E3 & B3 & U3 & Rd3).
  exists st1, st2, st3.
  split; [exact E1|]. split; [exact B1|]. split; [lia|]. split; [exact E2|].
  split; [exact B2|]. split; [exact U2|]. split; [exact E3|]. split; [exact B3|].
  split; [rewrite U3, U2; reflexivity | exact Rd3].
Qed.

End Histories.

(** ** The deletion of one object *)

Lemma maybe_join_object (top : Action) (is_addition : bool) (ty : anchor_type) (p : Z)
    (c : option bool) :
  maybe_join top (ObjectInsertAction is_addition ty p c) = None.
Proof. destruct top; reflexivity. Qed.

Lemma raw_delete_nothing (b : TextBuffer) (i : nat) : raw_delete b i i = b.
Proof.
  assert (H : forall m, shift_mark_delete i i m = m).
  { intro m. unfold shift_mark_delete.
    destruct (m <=? i)%nat eqn:E0; [reflexivity|]. apply Nat.leb_gt in E0.
    destruct (m <? i)%nat eqn:E.
    - apply Nat.ltb_lt in E. lia.
    - lia. }
  unfold raw_delete. rewrite !H, firstn_skipn. destruct b; reflexivity.
Qed.

(** The guarded block of [on_delete] on a range that is one object,
    when no tag of the table starts or ends behind it. *)
Lemma on_delete_body_object (i : nat) (w : widget) (st : NoteBuffer) :
  internal_action_count st <> 0 ->
  get_child_anchor (cells (buffer st)) i = Some w ->
  table_toggle (cells (raw_delete (buffer st) i (S i))) i = false ->
  on_delete_body (on_delete 0) i (S i) st
  = Done (i, i)
         (join_or_add (ObjectInsertAction false (anchor_type_of w) (Z.of_nat i) (checked_of w))
                      (set_buffer (raw_delete (buffer st) i (S i)) st)).
Proof.
  intros Hc Hw Ht.
  pose proof (get_child_anchor_inside _ _ _ Hw) as Hi.
  set (b1 := raw_delete (buffer st) i (S i)) in *.
  set (O := ObjectInsertAction false (anchor_type_of w) (Z.of_nat i) (checked_of w)).
  assert (Hl : List.length (cells b1) = (List.length (cells (buffer st)) - 1)%nat).
  { unfold b1. rewrite length_raw_delete by lia. lia. }
  assert (Hs : shift_mark_delete i (S i) i = i).
  { unfold shift_mark_delete. rewrite Nat.leb_refl. reflexivity. }
  assert (He : shift_mark_delete i (S i) (S i) = i).
  { unfold shift_mark_delete.
    replace (S i <=? i)%nat with false by (symmetry; apply Nat.leb_gt; lia).
    replace (S i <? S i)%nat with false by (symmetry; apply Nat.ltb_ge; lia).
    lia. }
  assert (ES : scan_anchor (on_delete 0) (mkScan i i (S i) [] [] None) st
               = Done (mkScan i i i [] [O] (Some O)) (set_buffer b1 st)).
  { unfold scan_anchor. cbn [current_iter d_start d_end open_tags actions app].
    rewrite Hw. unfold bind.
    rewrite (object_remove_at_anchor 0 w i None st Hc Hw).
    cbn [buffer set_buffer]. fold b1.
    rewrite get_iter_at_offset_inside by lia.
    rewrite Hs, He. unfold O. destruct w; reflexivity. }
  assert (EL : on_delete_loop (on_delete 0) 1 (mkScan i i (S i) [] [] None) st
               = Done (mkScan (Nat.min (S i) (get_char_count b1)) i i [] [O] (Some O))
                      (set_buffer b1 st)).
  { cbn [on_delete_loop current_iter d_end].
    replace (i <? S i)%nat with true by (symmetry; apply Nat.ltb_lt; lia).
    cbn [negb]. unfold bind. rewrite ES. cbn [buffer set_buffer].
    rewrite scan_tags_quiet by exact Ht. reflexivity. }
  unfold on_delete_body, bind.
  replace (S i - i)%nat with 1%nat by lia.
  rewrite EL. cbn [d_start d_end open_tags actions last_action map app].
  rewrite Nat.eqb_refl. reflexivity.
Qed.

Section ObjectDeletion.

Variable get_url_start : str -> option Z.

(** [undo] of the removal of one object. *)
Lemma undo_object_removal (cs : list cell) (i : nat) (w : widget) (rest : list Action)
    (st : NoteBuffer) :
  internal_action_count st = 0 ->
  get_child_anchor cs i = Some w ->
  cells (buffer st) = firstn i cs ++ skipn (S i) cs ->
  undo_actions st
  = rest ++ [ObjectInsertAction false (anchor_type_of w) (Z.of_nat i) (checked_of w)] ->
  exists st',
    undo get_url_start st = Done tt st' /\
    buffer st' = raw_insert_anchor (buffer st) i w /\
    internal_action_count st' = 0 /\
    undo_actions st' = rest /\
    redo_actions st'
    = redo_actions st
      ++ [ObjectInsertAction false (anchor_type_of w) (Z.of_nat i) (checked_of w)] /\
    map cell_content (cells (buffer st')) = map cell_content cs /\
    get_child_anchor (cells (buffer st')) i = Some w.
Proof.
  intros Hc Hw Hcells Hu.
  pose proof (get_child_anchor_inside _ _ _ Hw) as Hi.
  set (O := ObjectInsertAction false (anchor_type_of w) (Z.of_nat i) (checked_of w)) in *.
  assert (Hlen : (i <= List.length (cells (buffer st)))%nat).
  { rewrite Hcells, length_app, length_firstn, length_skipn. lia. }
  set (s1 := set_undo_actions rest (enter_internal_action st)).
  assert (G1 : internal_action_count s1 <> 0).
  { unfold s1. cbn [internal_action_count set_undo_actions enter_internal_action
                      set_internal_action_count]. lia. }
  set (b2 := raw_insert_anchor (buffer st) i w).
  assert (EO : action_undo get_url_start O s1 = Done O (set_buffer b2 s1)).
  { unfold O. cbn [action_undo]. unfold bind, ret, object_add.
    change (buffer s1) with (buffer st).
    rewrite get_iter_at_offset_inside by exact Hlen.
    destruct w as [active|]; cbn [anchor_type_of checked_of]; unfold bind.
    - rewrite add_check_button_guarded by exact G1. reflexivity.
    - rewrite add_bullet_guarded by exact G1. reflexivity. }
  destruct (undo_pops get_url_start st rest _ _ _ ltac:(lia) Hu EO) as [Eu _].
  eexists. split; [exact Eu|].
  rewrite exit_buffer, exit_count, exit_undo_actions, exit_redo_actions.
  cbn [buffer undo_actions redo_actions internal_action_count set_redo_actions set_buffer].
  split; [reflexivity|].
  split; [unfold s1; cbn [internal_action_count set_undo_actions enter_internal_action
                            set_internal_action_count]; lia|].
  split; [reflexivity|]. split; [reflexivity|].
  split.
  - unfold b2, raw_insert_anchor. rewrite contents_insert, Hcells.
    unfold get_child_anchor in Hw.
    destruct (nth_error cs i) as [[c tg]|] eqn:N; [|discriminate].
    destruct c as [ch|w']; [discriminate|]. injection Hw as ->.
    apply (contents_put_back _ _ _ N).
  - unfold get_child_anchor, b2.
    pose proof (nth_error_insert (buffer st) i [Anchor w] 0 Hlen ltac:(simpl; lia)) as N.
    rewrite Nat.add_0_r in N. unfold raw_insert_anchor.
    destruct (nth_error _ i) as [[c tg]|]; cbn in N; [|discriminate].
    inversion N. reflexivity.
Qed.

(** X17.  A deletion of one object, a check box or a bullet, when no tag
    of the table starts or ends behind it: the object is taken out by
    [on_delete] itself, the undo stack gets one [ObjectInsertAction]
    that is no addition and holds the state of a check box, never joined
    to the action below it, and the redo stack is emptied.  [undo] puts
    the object back, a check box checked as it was, and [redo] takes it
    out again. *)
Theorem object_deletion (i : nat) (w : widget) (st : NoteBuffer) :
  internal_action_count st = 0 ->
  in_composite st = 0 ->
  get_child_anchor (cells (buffer st)) i = Some w ->
  table_toggle (cells (raw_delete (buffer st) i (S i))) i = false ->
  let removal := ObjectInsertAction false (anchor_type_of w) (Z.of_nat i) (checked_of w) in
  exists st1 st2 st3,
    buffer_delete i (S i) st = Done tt st1 /\
    (composite_actions st = [] -> user_action (buffer_delete i (S i)) st = Done tt st1) /\
    buffer st1 = raw_delete (buffer st) i (S i) /\
    undo_actions st1 = undo_actions st ++ [removal] /\
    redo_actions st1 = [] /\
    undo get_url_start st1 = Done tt st2 /\
    contents st2 = contents st /\
    get_child_anchor (cells (buffer st2)) i = Some w /\
    undo_actions st2 = undo_actions st /\
    redo_actions st2 = [removal] /\
    redo get_url_start st2 = Done tt st3 /\
    cells (buffer st3) = cells (buffer st1) /\
    undo_actions st3 = undo_actions st1 /\
    redo_actions st3 = [].
Proof.
  intros Hc Hi Hw Ht removal.
  pose proof (get_child_anchor_inside _ _ _ Hw) as Hlt.
  set (b1 := raw_delete (buffer st) i (S i)).
  assert (G : internal_action_count (enter_internal_action st) <> 0) by (simpl; lia).
  set (st1 := set_buffer b1
                (exit_internal_action true
                   (set_redo_actions []
                      (set_undo_actions (undo_actions st ++ [removal])
                         (set_buffer b1 (enter_internal_action st)))))).
  assert (E1 : buffer_delete i (S i) st = Done tt st1).
  { rewrite (buffer_delete_unfold i (S i) st Hc) by lia.
    rewrite (on_delete_body_object i w (enter_internal_action st) G Hw Ht).
    cbn [fst snd]. rewrite raw_delete_nothing.
    rewrite join_or_add_added by (intros; apply maybe_join_object).
    rewrite add_undo_action_at_rest by exact Hi. reflexivity. }
  assert (Hc1 : internal_action_count st1 = 0).
  { unfold st1. cbn [internal_action_count set_buffer]. rewrite exit_count. simpl. lia. }
  assert (Hu1 : undo_actions st1 = undo_actions st ++ [removal]).
  { unfold st1. cbn [undo_actions set_buffer]. rewrite exit_undo_actions. reflexivity. }
  assert (Hr1 : redo_actions st1 = []).
  { unfold st1. cbn [redo_actions set_buffer]. rewrite exit_redo_actions. reflexivity. }
  assert (Hb1 : buffer st1 = b1) by reflexivity.
  destruct (undo_object_removal (cells (buffer st)) i w (undo_actions st) st1 Hc1 Hw
              ltac:(rewrite Hb1; apply cells_raw_delete) Hu1)
    as (st2 & E2 & B2 & C2 & U2 & R2 & K2 & W2).
  (* redo *)
  set (r1 := set_redo_actions [] (enter_internal_action st2)).
  assert (G2 : internal_action_count r1 <> 0).
  { unfold r1. cbn [internal_action_count set_redo_actions enter_internal_action
                      set_internal_action_count]. rewrite C2. lia. }
  assert (W2' : get_child_anchor (cells (buffer r1)) i = Some w) by exact W2.
  assert (ER : action_redo get_url_start removal r1
               = Done removal (set_buffer (raw_delete (buffer st2) i (S i)) r1)).
  { unfold removal. cbn [action_redo]. unfold bind, ret, object_remove.
    change delete_range_handler with (on_delete 1).
    rewrite (object_remove_at_anchor 1 w i (checked_of w) r1 G2 W2').
    destruct w; reflexivity. }
  rewrite Hr1 in R2. cbn [app] in R2.
  destruct (redo_pops get_url_start st2 [] _ _ _ ltac:(lia) R2 ER) as [Er _].
  eexists st1, st2, _.
  split; [exact E1|].
  split.
  { intro Hca. unfold user_action.
    rewrite (buffer_delete_unfold i (S i) (begin_composite_action st) Hc) by lia.
    rewrite (on_delete_body_object i w (enter_internal_action (begin_composite_action st))
               G Hw Ht).
    cbn [fst snd]. rewrite raw_delete_nothing.
    rewrite join_or_add_added by (intros; apply maybe_join_object).
    unfold st1, removal.
    destruct st as [b c ic ca ua ra pr idl cc]. cbn in Hc, Hi, Hca. subst c ic ca.
    reflexivity. }
  split; [exact Hb1|]. split; [exact Hu1|]. split; [exact Hr1|]. split; [exact E2|].
  split; [exact K2|]. split; [exact W2|]. split; [exact U2|]. split; [exact R2|].
  split; [exact Er|].
  rewrite exit_buffer, exit_undo_actions, exit_redo_actions.
  cbn [buffer undo_actions redo_actions set_undo_actions set_buffer].
  split.
  - rewrite B2, Hb1. unfold raw_insert_anchor.
    pose proof (cells_delete_inserted b1 i [Anchor w]) as D. cbn [List.length] in D.
    rewrite Nat.add_1_r in D. apply D.
    unfold b1. rewrite length_raw_delete by lia. lia.
  - split; [rewrite U2, Hu1; reflexivity | reflexivity].
Qed.

End ObjectDeletion.

(** ** Edits that join, and the redo stack *)

Section MergeKeepsRedo.

Variable get_url_start : str -> option Z.

(** [on_insert] when it makes no link and repeats no object: the
    addition joins the top of the undo stack or is added, and nothing
    else is recorded. *)
Lemma on_insert_alone (location : nat) (text : str) (st : NoteBuffer) :
  internal_action_count st = 0 ->
  mem text delimiters = false \/
  get_url_start (get_slice (buffer st) 0 location) = None ->
  (text = newline ->
   get_child_anchor (cells (buffer st)) (line_start_of (cells (buffer st)) location) = None) ->
  on_insert get_url_start location text st =
  Done tt (exit_internal_action true
             (join_or_add (AdditionAction text (Z.of_nat location))
                          (enter_internal_action st))).
Proof.
  intros Hc Hl Hr. unfold on_insert. rewrite Hc. simpl negb. cbv iota.
  unfold with_internal_action. unfold bind at 1.
  change (buffer (enter_internal_action st)) with (buffer st).
  assert (E1 : (if mem text delimiters
                then match get_url_start (get_slice (buffer st) 0 location) with
                     | Some match_start =>
                         (a <- add_tag (lit "link")
                                 (get_iter_at_offset (buffer st) match_start) location ;;
                          modify (add_undo_action a)) (enter_internal_action st)
                     | None => Done tt (enter_internal_action st)
                     end
                else Done tt (enter_internal_action st))
               = Done tt (enter_internal_action st)).
  { destruct (mem text delimiters); [|reflexivity].
    destruct Hl as [Hl|Hl]; [discriminate|]. rewrite Hl. reflexivity. }
  rewrite E1. unfold bind.
  destruct (str_eqb text [Ch "010"]) eqn:En.
  - apply str_eqb_eq in En. specialize (Hr En).
    unfold maybe_repeat. change (buffer (enter_internal_action st)) with (buffer st).
    unfold line_start_of in Hr. rewrite Hr. reflexivity.
  - reflexivity.
Qed.

(** The same edit as a key press: inside a user action of its own, when
    the addition joins the top of the undo stack. *)
Lemma key_press_joined (p : nat) (text : str) (st : NoteBuffer) (rest : list Action)
    (top top' : Action) :
  internal_action_count st = 0 ->
  in_composite st = 0 ->
  composite_actions st = [] ->
  text <> [] ->
  mem text delimiters = false \/ get_url_start (get_slice (buffer st) 0 p) = None ->
  (text = newline ->
   get_child_anchor (cells (buffer st)) (line_start_of (cells (buffer st)) p) = None) ->
  undo_actions st = rest ++ [top] ->
  maybe_join top (AdditionAction text (Z.of_nat p)) = Some top' ->
  exists st',
    user_action (buffer_insert get_url_start p text) st = Done tt st' /\
    buffer st' = raw_insert (buffer st) p text /\
    undo_actions st' = rest ++ [top'] /\
    redo_actions st' = redo_actions st.
Proof.
  intros Hc Hi Hca Hn Hl Hr Hu Hj. unfold user_action, buffer_insert.
  destruct text as [|c r] eqn:Et; [congruence|]. rewrite <- Et in *.
  unfold bind, run_handler.
  rewrite (on_insert_alone p text (begin_composite_action st) Hc Hl Hr).
  unfold modify.
  rewrite (join_or_add_joined _ (enter_internal_action (begin_composite_action st))
             rest top top' Hu Hj).
  set (s1 := set_buffer _ _).
  assert (Hi1 : in_composite s1 = 1).
  { unfold s1. cbn [in_composite set_buffer]. rewrite exit_in_composite. simpl. lia. }
  assert (Hca1 : composite_actions s1 = []).
  { unfold s1. cbn [composite_actions set_buffer]. rewrite exit_composite_actions.
    exact Hca. }
  rewrite (end_composite_none s1 Hi1 Hca1).
  eexists. split; [reflexivity|].
  unfold s1. cbn [buffer undo_actions redo_actions set_in_composite set_buffer].
  rewrite exit_buffer, exit_undo_actions, exit_redo_actions.
  repeat split.
Qed.

(** C10, as amended.  When a new edit joins the action on top of the
    undo stack, the join itself leaves the redo stack as it is.  So does an insertion as
    a whole, by [on_insert] and as a key press inside a user action,
    when [on_insert] makes no link and repeats no object with it; so
    does a deletion that joins; and so after an [undo] followed by such
    an insertion, where the redo stack keeps the entries it had and the
    undone action.  A delimiter typed behind a match of [get_url_start]
    is different: inside its user action it joins the addition on top
    of the undo stack, and then the tagging of the link is pushed and
    the redo stack is emptied. *)
Theorem merge_keeps_redo :
  (forall st a rest top top',
      undo_actions st = rest ++ [top] ->
      maybe_join top a = Some top' ->
      undo_actions (join_or_add a st) = rest ++ [top'] /\
      redo_actions (join_or_add a st) = redo_actions st) /\
  (forall st location text rest top top',
      internal_action_count st = 0 ->
      mem text delimiters = false \/
      get_url_start (get_slice (buffer st) 0 location) = None ->
      (text = newline ->
       get_child_anchor (cells (buffer st)) (line_start_of (cells (buffer st)) location)
       = None) ->
      undo_actions st = rest ++ [top] ->
      maybe_join top (AdditionAction text (Z.of_nat location)) = Some top' ->
      (exists st',
         on_insert get_url_start location text st = Done tt st' /\
         undo_actions st' = rest ++ [top'] /\
         redo_actions st' = redo_actions st) /\
      (in_composite st = 0 -> composite_actions st = [] -> text <> [] ->
       exists st',
         user_action (buffer_insert get_url_start location text) st = Done tt st' /\
         buffer st' = raw_insert (buffer st) location text /\
         undo_actions st' = rest ++ [top'] /\
         redo_actions st' = redo_actions st)) /\
  (forall st s e rest top top',
      internal_action_count st = 0 ->
      (s < e <= List.length (cells (buffer st)))%nat ->
      quiet_range (cells (buffer st)) s e = true ->
      undo_actions st = rest ++ [top] ->
      maybe_join top (new_DeletionAction (buffer st) s e) = Some top' ->
      exists st',
        buffer_delete s e st = Done tt st' /\
        (in_composite st = 0 -> composite_actions st = [] ->
         user_action (buffer_delete s e) st = Done tt st') /\
        undo_actions st' = rest ++ [top'] /\
        redo_actions st' = redo_actions st) /\
  (forall st rest top a a' s' location text top',
      internal_action_count st = 0 ->
      undo_actions st = (rest ++ [top]) ++ [a] ->
      action_undo get_url_start a
        (set_undo_actions (rest ++ [top]) (enter_internal_action st)) = Done a' s' ->
      mem text delimiters = false \/
      get_url_start (get_slice (buffer s') 0 location) = None ->
      (text = newline ->
       get_child_anchor (cells (buffer s')) (line_start_of (cells (buffer s')) location)
       = None) ->
      maybe_join top (AdditionAction text (Z.of_nat location)) = Some top' ->
      exists st1 st2,
        undo get_url_start st = Done tt st1 /\
        on_insert get_url_start location text st1 = Done tt st2 /\
        undo_actions st2 = rest ++ [top'] /\
        redo_actions st2 = redo_actions st ++ [a'] /\
        (in_composite st = 0 -> composite_actions st = [] -> text <> [] ->
         exists st3,
           user_action (buffer_insert get_url_start location text) st1 = Done tt st3 /\
           undo_actions st3 = rest ++ [top'] /\
           redo_actions st3 = redo_actions st ++ [a'])) /\
  (forall st p m d rest x q,
      internal_action_count st = 0 ->
      in_composite st = 0 ->
      composite_actions st = [] ->
      mem d delimiters = true ->
      str_eqb d [Ch "010"] = false ->
      (m <= p <= List.length (cells (buffer st)))%nat ->
      get_url_start (get_slice (buffer st) 0 p) = Some (Z.of_nat m) ->
      undo_actions st = rest ++ [AdditionAction x q] ->
      q + py_len x = Z.of_nat p ->
      maybe_join (AdditionAction x q) (AdditionAction d (Z.of_nat p))
      = Some (AdditionAction (x ++ d) q) /\
      exists st',
        user_action (buffer_insert get_url_start p d) st = Done tt st' /\
        undo_actions st'
        = rest ++ [AdditionAction (x ++ d) q;
                   TagAction (lit "link") (Z.of_nat m) (Z.of_nat p) true] /\
        redo_actions st' = []).
Proof.
  assert (P2 : forall st location text rest top top',
             internal_action_count st = 0 ->
             mem text delimiters = false \/
             get_url_start (get_slice (buffer st) 0 location) = None ->
             (text = newline ->
              get_child_anchor (cells (buffer st))
                (line_start_of (cells (buffer st)) location) = None) ->
             undo_actions st = rest ++ [top] ->
             maybe_join top (AdditionAction text (Z.of_nat location)) = Some top' ->
             exists st',
               on_insert get_url_start location text st = Done tt st' /\
               undo_actions st' = rest ++ [top'] /\
               redo_actions st' = redo_actions st).
  { intros st location text rest top top' Hc Hl Hr Hu Hj.
    rewrite on_insert_alone by assumption.
    eexists. split; [reflexivity|].
    rewrite exit_undo_actions, exit_redo_actions.
    rewrite (join_or_add_joined _ (enter_internal_action st) rest top top' Hu Hj).
    split; reflexivity. }
  split; [|split; [|split; [|split]]].
  - intros st a rest top top' Hu Hj.
    rewrite (join_or_add_joined _ st rest top top' Hu Hj). split; reflexivity.
  - intros st location text rest top top' Hc Hl Hr Hu Hj.
    split; [exact (P2 st location text rest top top' Hc Hl Hr Hu Hj)|].
    intros Hi Hca Hn.
    exact (key_press_joined location text st rest top top' Hc Hi Hca Hn Hl Hr Hu Hj).
  - intros st s e rest top top' Hc Hse Hq Hu Hj.
    destruct (quiet_deletion_joined s e st rest top top' Hc Hse Hq Hu Hj)
      as (st' & E & _ & _ & U & R).
    exists st'. split; [exact E|]. split; [|split; assumption].
    intros Hi Hca.
    destruct (quiet_deletion_key s e st Hc Hi Hca Hse Hq) as [K _].
    rewrite K. exact E.
  - intros st rest top a a' s' location text top' Hc Hu Ha Hl Hr Hj.
    assert (Hc0 : 0 <= internal_action_count st) by lia.
    destruct (undo_pops get_url_start st _ _ _ _ Hc0 Hu Ha) as [E Hb].
    set (st1 := exit_internal_action true
                  (set_redo_actions (redo_actions st ++ [a']) s')) in *.
    assert (Hc1 : internal_action_count st1 = 0).
    { unfold st1. rewrite exit_count. simpl. rewrite Hb. simpl. lia. }
    assert (Hu1 : undo_actions st1 = rest ++ [top]).
    { unfold st1. rewrite exit_undo_actions. simpl. rewrite Hb. reflexivity. }
    assert (Hr1 : redo_actions st1 = redo_actions st ++ [a']).
    { unfold st1. rewrite exit_redo_actions. reflexivity. }
    assert (Hb1 : buffer st1 = buffer s') by (unfold st1; rewrite exit_buffer; reflexivity).
    assert (Hl1 : mem text delimiters = false \/
                  get_url_start (get_slice (buffer st1) 0 location) = None)
      by (rewrite Hb1; exact Hl).
    assert (Hrep1 : text = newline ->
                    get_child_anchor (cells (buffer st1))
                      (line_start_of (cells (buffer st1)) location) = None)
      by (rewrite Hb1; exact Hr).
    destruct (P2 st1 location text rest top top' Hc1 Hl1 Hrep1 Hu1 Hj) as [st2 [E2 [U2 R2]]].
    exists st1, st2. split; [exact E|]. split; [exact E2|]. split; [exact U2|].
    split; [rewrite R2; exact Hr1|].
    intros Hi Hca Hn.
    assert (Hi1 : in_composite st1 = 0).
    { unfold st1. rewrite exit_in_composite. simpl. rewrite Hb. exact Hi. }
    assert (Hca1 : composite_actions st1 = []).
    { unfold st1. rewrite exit_composite_actions. simpl. rewrite Hb. exact Hca. }
    destruct (key_press_joined location text st1 rest top top' Hc1 Hi1 Hca1 Hn Hl1 Hrep1
                Hu1 Hj) as (st3 & E3 & _ & U3 & R3).
    exists st3. split; [exact E3|]. split; [exact U3|]. rewrite R3. exact Hr1.
  - intros st p m d rest x q Hc Hi Hca Hd Hn Hmp Hurl Hu Hq.
    split.
    { cbn [maybe_join].
      replace (Z.of_nat p =? q + py_len x) with true by (symmetry; apply Z.eqb_eq; lia).
      reflexivity. }
    destruct (insert_delimiter_link get_url_start p m d st Hc Hi Hca Hd Hn Hmp Hurl)
      as (_ & _ & _ & st2 & _ & _ & _ & _ & E2 & _ & _ & R2 & _ & UB).
    exists st2. split; [exact E2|]. split; [exact (UB rest x q Hu Hq) | exact R2].
Qed.

End MergeKeepsRedo.

(** ** Undoing a deletion that held a check box *)

(** C7 fails after a check box is put on the empty note, [a] is typed
    behind it and both are deleted.  Three entries are on the undo stack.
    [on_delete] puts the removal of the check box into the composite a
    second time, so the first [undo] brings back two check boxes, and
    after three calls of [undo] the buffer holds a check box. *)
Theorem undo_after_delete_duplicates_check_box :
  contents checklist_a_note = [Anchor (CheckButton false); Chr (Ch "a")] /\
  contents checklist_deleted_note = [] /\
  undo_actions checklist_deleted_note
  = [CompositeAction [ObjectInsertAction true check 0 None];
     AdditionAction (lit "a") 1;
     CompositeAction [ObjectInsertAction false check 0 (Some false);
                      DeletionAction (lit "a") 0 other;
                      ObjectInsertAction false check 0 (Some false)]] /\
  (exists s,
      undo_times no_url 1 checklist_deleted_note = Some s /\
      contents s = [Anchor (CheckButton false); Chr (Ch "a"); Anchor (CheckButton false)]) /\
  (exists s,
      undo_times no_url 3 checklist_deleted_note = Some s /\
      undo_actions s = [] /\
      contents s = [Anchor (CheckButton false)]).
Proof.
  split; [reflexivity|]. split; [reflexivity|]. split; [reflexivity|].
  split; eexists; (split; [vm_compute; reflexivity|]); repeat split.
Qed.

(** ** The statements on concrete notes *)

(** C5 as stated fails: [toggle_checklist] on a new note leaves a
    composite with one child on the undo stack. *)
Lemma toggle_checklist_single_child :
  undo_actions checklist_note = [CompositeAction [ObjectInsertAction true check 0 None]] /\
  forallb proper_composite (undo_actions checklist_note) = false.
Proof. split; reflexivity. Qed.

(** C9 as stated fails: a [#tag:] that no [:] closes is decoded without
    an error. *)
Lemma unterminated_tag_decodes :
  py_find (lit "#tag:bold") (Ch ":") 6 = -1 /\
  set_from_internal_markup no_url 2 (lit "#tag:bold") new_NoteBuffer
  = Some (Done tt new_NoteBuffer).
Proof. split; reflexivity. Qed.

(** C2 on a new note: [a], then [b] behind it. *)
Lemma addition_coalescing_witness :
  exists st1 st2 st3,
    buffer_insert no_url 0 (lit "a") new_NoteBuffer = Done tt st1 /\
    buffer_insert no_url (0 + List.length (lit "a")) (lit "b") st1 = Done tt st2 /\
    undo_actions st2
    = undo_actions new_NoteBuffer ++ [AdditionAction (lit "a" ++ lit "b") (Z.of_nat 0)] /\
    undo no_url st2 = Done tt st3 /\
    cells (buffer st3) = cells (buffer new_NoteBuffer) /\
    undo_actions st3 = undo_actions new_NoteBuffer.
Proof.
  apply (proj1 (proj2 (addition_coalescing no_url)) new_NoteBuffer 0%nat (lit "a") (lit "b"));
    try reflexivity; try discriminate.
  intros rest top H. destruct rest; discriminate.
Defined.

(** C3 on two presses of the Delete key at offset 3. *)
Lemma deletion_maybe_join_witness :
  maybe_join (DeletionAction (lit "b") 3 foreward) (DeletionAction (lit "c") 3 foreward)
  = Some (DeletionAction (lit "b" ++ lit "c") 3 foreward).
Proof.
  exact (proj2 (proj1 (proj2 (deletion_maybe_join (lit "b") (lit "c") 3 3 foreward foreward))
                  eq_refl eq_refl) eq_refl).
Defined.

(** C4 on a note whose redo stack holds an undone action. *)
Lemma new_action_clears_redo_witness :
  redo_actions undone_note = [AdditionAction (lit "c") 0] /\
  undo_actions (add_undo_action (TagAction (lit "bold") 0 2 true) undone_note)
  = undo_actions undone_note ++ [TagAction (lit "bold") 0 2 true] /\
  redo_actions (add_undo_action (TagAction (lit "bold") 0 2 true) undone_note) = [].
Proof.
  split; [reflexivity|].
  apply (proj1 (new_action_clears_redo no_url) undone_note). reflexivity.
Defined.

(** C5 on three tag actions recorded between [begin] and [end]. *)
Lemma end_composite_pushes_witness :
  undo_actions
    (end_composite_action
       (add_undo_action (TagAction (lit "red") 0 1 true)
          (add_undo_action (TagAction (lit "italic") 0 1 true)
             (add_undo_action (TagAction (lit "bold") 0 1 true)
                (begin_composite_action hash_note)))))
  = undo_actions hash_note
      ++ [CompositeAction [TagAction (lit "bold") 0 1 true;
                           TagAction (lit "italic") 0 1 true;
                           TagAction (lit "red") 0 1 true]].
Proof.
  exact (proj1 (proj2 end_composite_pushes hash_note
                  (TagAction (lit "bold") 0 1 true) (TagAction (lit "italic") 0 1 true)
                  (TagAction (lit "red") 0 1 true) eq_refl eq_refl)).
Defined.


(** C8 on a note inside a guarded block. *)
Lemma suppression_counter_witness :
  on_insert no_url 0 (lit "x") guarded_note = Done tt guarded_note.
Proof.
  apply (proj1 (suppression_counter no_url) guarded_note 0%nat (lit "x")).
  vm_compute. discriminate.
Defined.

(** C9 on the markup [ab#check:]. *)
Lemma truncated_check_raises_witness :
  exists st',
    set_from_internal_markup no_url 1 (lit "ab" ++ lit "#check" ++ lit ":") new_NoteBuffer
    = Some (Raised IndexError st').
Proof.
  apply (proj1 (proj2 (truncated_check_raises no_url)) (lit "ab") (lit ":") new_NoteBuffer 0%nat).
  - reflexivity.
  - simpl. lia.
Defined.

(** X1 on the note [abc] whose [ab] is bold, decoded on a new note. *)
Lemma markup_round_trip_plain_witness :
  exists text,
    get_internal_markup partly_bold_note = Done text partly_bold_note /\
    exists fuel st',
      set_from_internal_markup no_url fuel text new_NoteBuffer = Some (Done tt st') /\
      contents st' = contents partly_bold_note /\
      forall t, tagged t st' = tagged t partly_bold_note.
Proof.
  apply (markup_round_trip_plain no_url partly_bold_note new_NoteBuffer).
  - vm_compute. reflexivity.
  - simpl. lia.
Defined.

(** X3 on the text [a#b]. *)
Lemma unknown_token_never_ends_witness :
  (forall fuel open st, markup_loop no_url fuel (lit "a#b") 0 open st = None) /\
  (0 = 0 -> forall fuel st, set_from_internal_markup no_url fuel (lit "a#b") st = None).
Proof. apply (unknown_token_never_ends no_url (lit "a#b") 0); reflexivity. Defined.

(** X2 on the note that holds [##]. *)
Lemma markup_of_text_witness :
  get_internal_markup hash_note = Done (text_of (cells (buffer hash_note))) hash_note.
Proof. apply (markup_of_text hash_note). reflexivity. Defined.

(** X4 on the note [abc], all of it bold, decoded on a new note. *)
Lemma tag_at_end_lost_witness :
  exists text tags,
    get_internal_markup bold_note = Done text (print (TagsNotClosed tags) bold_note) /\
    mem (lit "bold") tags = true /\
    exists fuel st',
      set_from_internal_markup no_url fuel text new_NoteBuffer = Some (Done tt st') /\
      contents st' = contents bold_note /\
      mem (lit "bold")
          (tags_before (cells (buffer st')) (List.length (cells (buffer st')))) = false.
Proof.
  apply (tag_at_end_lost no_url bold_note new_NoteBuffer (lit "bold"));
    [reflexivity | reflexivity | simpl; lia].
Defined.

(** X5 on the note [abcd] with [bc] selected. *)
Lemma tag_selection_applies_witness :
  exists st',
    tag_selection (lit "bold") selected_note = Done tt st' /\
    contents st' = contents selected_note /\
    (forall j x,
        (j < List.length (cells (buffer selected_note)))%nat ->
        mem x (tags_at (cells (buffer st')) j)
        = mem x (tags_at (cells (buffer selected_note)) j)
          || ((fst (selection_or_cursor (buffer selected_note)) <=? j)%nat
              && (j <? snd (selection_or_cursor (buffer selected_note)))%nat
              && str_eqb (lit "bold") x)) /\
    (get_has_selection (buffer selected_note) = false -> buffer st' = buffer selected_note) /\
    undo_actions st'
    = undo_actions selected_note
      ++ [TagAction (lit "bold")
            (Z.of_nat (fst (selection_or_cursor (buffer selected_note))))
            (Z.of_nat (snd (selection_or_cursor (buffer selected_note)))) true] /\
    redo_actions st' = [] /\
    (internal_action_count selected_note = 0 ->
     content_changed st' = S (content_changed selected_note)).
Proof. apply (tag_selection_applies (lit "bold") selected_note); reflexivity. Defined.

(** X6 on the same note. *)
Lemma tag_selection_undo_witness :
  exists st1 st2,
    tag_selection (lit "bold") selected_note = Done tt st1 /\
    undo no_url st1 = Done tt st2 /\
    contents st2 = contents selected_note /\
    (forall j x,
        (j < List.length (cells (buffer selected_note)))%nat ->
        mem x (tags_at (cells (buffer st2)) j)
        = mem x (tags_at (cells (buffer selected_note)) j)
          && negb ((fst (selection_or_cursor (buffer selected_note)) <=? j)%nat
                   && (j <? snd (selection_or_cursor (buffer selected_note)))%nat
                   && str_eqb (lit "bold") x)) /\
    undo_actions st2 = undo_actions selected_note /\
    redo_actions st2
    = [TagAction (lit "bold")
         (Z.of_nat (fst (selection_or_cursor (buffer selected_note))))
         (Z.of_nat (snd (selection_or_cursor (buffer selected_note)))) true] /\
    ((forall j, (fst (selection_or_cursor (buffer selected_note)) <= j
                 < snd (selection_or_cursor (buffer selected_note)))%nat ->
                mem (lit "bold") (tags_at (cells (buffer selected_note)) j) = false) ->
     cells (buffer st2) = cells (buffer selected_note)).
Proof.
  apply (tag_selection_undo no_url (lit "bold") selected_note);
    [reflexivity | reflexivity | reflexivity | vm_compute; lia].
Defined.

(** X10 on the note that holds a check box and [a], at its end. *)
Lemma newline_in_checklist_undo_raises_witness :
  exists st1 st2,
    buffer_insert no_url 2 newline checklist_a_note = Done tt st1 /\
    (insert_mark (buffer checklist_a_note) = 2%nat ->
     composite_actions checklist_a_note = [] ->
     type_text no_url newline checklist_a_note = Done tt st1) /\
    contents st1
    = firstn 2 (contents checklist_a_note)
        ++ [Chr (Ch "010"); Anchor (CheckButton false)]
        ++ skipn 2 (contents checklist_a_note) /\
    undo_actions st1
    = undo_actions checklist_a_note
      ++ [CompositeAction
            [AdditionAction newline (Z.of_nat 2);
             ObjectInsertAction true check (Z.of_nat 2) None]] /\
    redo_actions st1 = [] /\
    undo no_url st1 = Raised AttributeError st2 /\
    buffer st2 = buffer st1 /\
    undo_actions st2 = undo_actions checklist_a_note /\
    redo_actions st2 = [] /\
    internal_action_count st2 = 0.
Proof.
  apply (newline_in_checklist_undo_raises no_url 2 false checklist_a_note);
    [reflexivity | reflexivity | vm_compute; lia | reflexivity | reflexivity].
Defined.

(** X11 on the note that holds a bullet and [a], at its end. *)
Lemma newline_in_bullet_list_redo_witness :
  exists st1 st2 st3,
    buffer_insert no_url 2 newline bullet_a_note = Done tt st1 /\
    (insert_mark (buffer bullet_a_note) = 2%nat ->
     composite_actions bullet_a_note = [] ->
     type_text no_url newline bullet_a_note = Done tt st1) /\
    contents st1
    = firstn 2 (contents bullet_a_note) ++ [Chr (Ch "010"); Anchor Image]
        ++ skipn 2 (contents bullet_a_note) /\
    undo no_url st1 = Done tt st2 /\
    cells (buffer st2) = cells (buffer bullet_a_note) /\
    undo_actions st2 = undo_actions bullet_a_note /\
    redo no_url st2 = Done tt st3 /\
    contents st3
    = firstn 2 (contents bullet_a_note) ++ [Anchor Image; Chr (Ch "010")]
        ++ skipn 2 (contents bullet_a_note) /\
    undo_actions st3 = undo_actions st1.
Proof.
  apply (newline_in_bullet_list_redo no_url 2 bullet_a_note);
    [reflexivity | reflexivity | vm_compute; lia | reflexivity | reflexivity].
Defined.

(** X15 on the note [abc], all of it bold: [ab] is deleted. *)
Lemma deletion_with_tag_toggle_unrecorded_witness :
  exists st',
    buffer_delete 0 2 bold_note = Done tt st' /\
    (in_composite bold_note = 0 -> composite_actions bold_note = [] ->
     user_action (buffer_delete 0 2) bold_note = Done tt st') /\
    cells (buffer st')
    = firstn 0 (cells (buffer bold_note)) ++ skipn 2 (cells (buffer bold_note)) /\
    printed st' = printed bold_note ++ [Traceback UnboundLocalError] /\
    undo_actions st' = undo_actions bold_note /\
    redo_actions st' = redo_actions bold_note /\
    composite_actions st' = composite_actions bold_note /\
    internal_action_count st' = 0.
Proof.
  apply (deletion_with_tag_toggle_unrecorded 0 2 bold_note);
    [reflexivity | vm_compute; lia | reflexivity | reflexivity].
Defined.

(** X12 on the note [abcd]: [bc] is deleted. *)
Lemma plain_deletion_round_trip_witness :
  exists st1 st2 st3,
    buffer_delete 1 3 abcd_note = Done tt st1 /\
    (composite_actions abcd_note = [] ->
     user_action (buffer_delete 1 3) abcd_note = Done tt st1) /\
    cells (buffer st1)
    = firstn 1 (cells (buffer abcd_note)) ++ skipn 3 (cells (buffer abcd_note)) /\
    undo_actions st1
    = undo_actions abcd_note ++ [new_DeletionAction (buffer abcd_note) 1 3] /\
    redo_actions st1 = [] /\
    undo no_url st1 = Done tt st2 /\
    cells (buffer st2) = cells (buffer abcd_note) /\
    undo_actions st2 = undo_actions abcd_note /\
    redo_actions st2 = [new_DeletionAction (buffer abcd_note) 1 3] /\
    redo no_url st2 = Done tt st3 /\
    cells (buffer st3) = cells (buffer st1) /\
    undo_actions st3 = undo_actions st1 /\
    redo_actions st3 = [].
Proof.
  apply (plain_deletion_round_trip no_url 1 3 abcd_note);
    [reflexivity | reflexivity | vm_compute; lia | reflexivity | reflexivity |].
  intros rest top H. top_of_stack H. reflexivity.
Defined.

(** X16 on the note [abc] whose [ab] is bold: [b] is deleted. *)
Lemma deletion_at_tag_end_loses_tag_witness :
  exists st1 st2,
    buffer_delete 1 2 partly_bold_note = Done tt st1 /\
    (composite_actions partly_bold_note = [] ->
     user_action (buffer_delete 1 2) partly_bold_note = Done tt st1) /\
    undo_actions st1
    = undo_actions partly_bold_note ++ [new_DeletionAction (buffer partly_bold_note) 1 2] /\
    undo no_url st1 = Done tt st2 /\
    contents st2 = contents partly_bold_note /\
    undo_actions st2 = undo_actions partly_bold_note /\
    (forall j, (1 <= j < 2)%nat ->
               mem (lit "bold") (tags_at (cells (buffer st2)) j) = false).
Proof.
  apply (deletion_at_tag_end_loses_tag no_url 1 2 (lit "bold") partly_bold_note);
    [reflexivity | reflexivity | vm_compute; lia | reflexivity | reflexivity | reflexivity |].
  intros rest top H. top_of_stack H. reflexivity.
Defined.

(** X13 on the note [abcd], with the cursor behind it: Backspace twice. *)
Lemma deletion_coalescing_witness :
  exists st1 st2 st3,
    buffer_delete (4 - 1) 4 abcd_note = Done tt st1 /\
    buffer_delete (4 - 2) (4 - 1) st1 = Done tt st2 /\
    (composite_actions abcd_note = [] ->
     user_action (buffer_delete (4 - 1) 4) abcd_note = Done tt st1 /\
     user_action (buffer_delete (4 - 2) (4 - 1)) st1 = Done tt st2) /\
    undo_actions st2
    = undo_actions abcd_note
      ++ [DeletionAction (get_slice (buffer abcd_note) (4 - 2) 4) (Z.of_nat (4 - 2)) backward] /\
    undo no_url st2 = Done tt st3 /\
    cells (buffer st3) = cells (buffer abcd_note) /\
    undo_actions st3 = undo_actions abcd_note.
Proof.
  apply (proj1 (deletion_coalescing no_url abcd_note eq_refl eq_refl eq_refl eq_refl) 4%nat);
    [reflexivity | vm_compute; lia | reflexivity |].
  intros rest top H. top_of_stack H. reflexivity.
Defined.

(** X18 on the note [abcd], with the cursor behind it. *)
Lemma toggle_adds_object_witness :
  exists st1 st1' st2 st3,
    toggle_checklist abcd_note = Done tt st1 /\
    buffer st1 = raw_insert_anchor (buffer abcd_note) 0 (CheckButton false) /\
    undo_actions st1
    = undo_actions abcd_note ++ [CompositeAction [ObjectInsertAction true check 0 None]] /\
    redo_actions st1 = [] /\
    toggle_bullets abcd_note = Done tt st1' /\
    buffer st1' = raw_insert_anchor (buffer abcd_note) 0 Image /\
    undo_actions st1'
    = undo_actions abcd_note ++ [CompositeAction [ObjectInsertAction true bullet 0 None]] /\
    redo_actions st1' = [] /\
    undo no_url st1 = Done tt st2 /\
    cells (buffer st2) = cells (buffer abcd_note) /\
    undo_actions st2 = undo_actions abcd_note /\
    redo no_url st2 = Done tt st3 /\
    cells (buffer st3) = cells (buffer st1) /\
    undo_actions st3
    = undo_actions abcd_note
      ++ [CompositeAction [ObjectInsertAction true check 0 (Some false)]].
Proof.
  apply (toggle_adds_object no_url abcd_note); reflexivity.
Defined.

(** X19 on the note of a check box and [a], with the cursor behind it. *)
Lemma toggle_removes_object_witness :
  exists st1 st2,
    toggle_checklist checklist_a_note = Done tt st1 /\
    toggle_bullets checklist_a_note = Done tt st1 /\
    cells (buffer st1)
    = firstn 0 (cells (buffer checklist_a_note)) ++ skipn 1 (cells (buffer checklist_a_note)) /\
    undo_actions st1
    = undo_actions checklist_a_note
      ++ [CompositeAction [ObjectInsertAction false check 0 (Some false)]] /\
    redo_actions st1 = [] /\
    undo no_url st1 = Done tt st2 /\
    contents st2 = contents checklist_a_note /\
    get_child_anchor (cells (buffer st2)) 0 = Some (CheckButton false) /\
    undo_actions st2 = undo_actions checklist_a_note.
Proof.
  apply (toggle_removes_object no_url (CheckButton false) checklist_a_note); reflexivity.
Defined.

(** X20 on the note [abcd], with the cursor behind it. *)
Lemma toggle_twice_witness :
  exists st1 st2 st1' st2',
    toggle_checklist abcd_note = Done tt st1 /\
    toggle_checklist st1 = Done tt st2 /\
    toggle_bullets st1 = Done tt st2 /\
    buffer st2 = buffer abcd_note /\
    undo_actions st2
    = undo_actions abcd_note
      ++ [CompositeAction [ObjectInsertAction true check 0 None];
          CompositeAction [ObjectInsertAction false check 0 (Some false)]] /\
    toggle_bullets abcd_note = Done tt st1' /\
    toggle_bullets st1' = Done tt st2' /\
    toggle_checklist st1' = Done tt st2' /\
    buffer st2' = buffer abcd_note /\
    undo_actions st2'
    = undo_actions abcd_note
      ++ [CompositeAction [ObjectInsertAction true bullet 0 None];
          CompositeAction [ObjectInsertAction false bullet 0 None]].
Proof.
  apply (toggle_twice abcd_note); reflexivity.
Defined.

(** X8 on the note [abcd], whose text is taken for a URL: a full stop
    goes in behind it. *)
Lemma link_detected_witness :
  exists st1 st2,
    buffer_insert url_at_start 4 (lit ".") abcd_note = Done tt st1 /\
    undo_actions st1
    = undo_actions abcd_note
      ++ [TagAction (lit "link") 0 4 true; AdditionAction (lit ".") 4] /\
    user_action (buffer_insert url_at_start 4 (lit ".")) abcd_note = Done tt st2 /\
    undo_actions st2 = [AdditionAction (lit "abcd" ++ lit ".") 0; TagAction (lit "link") 0 4 true] /\
    forall j, (0 <= j < 4)%nat -> mem (lit "link") (tags_at (cells (buffer st2)) j) = true.
Proof.
  destruct (link_detected url_at_start 4 0 (lit ".") abcd_note)
    as (T & _ & st1 & st2 & E1 & _ & U1 & _ & E2 & B2 & _ & _ & UB);
    [reflexivity | reflexivity | reflexivity | reflexivity | reflexivity
    | vm_compute; lia | reflexivity |].
  exists st1, st2.
  split; [exact E1|]. split; [exact U1|]. split; [exact E2|].
  split; [exact (UB [] (lit "abcd") 0 eq_refl eq_refl)|].
  rewrite B2. exact T.
Defined.

(** X9 on the note [abcd]: a full stop goes in behind [ab], which is
    taken for a URL. *)
Lemma link_undo_witness :
  exists st2 st3,
    user_action (buffer_insert url_at_start 2 (lit ".")) abcd_note = Done tt st2 /\
    undo url_at_start st2 = Done tt st3 /\
    contents st3 = contents abcd_note /\
    (forall j, (0 <= j < 2)%nat ->
               mem (lit "link") (tags_at (cells (buffer st3)) j) = false) /\
    undo_actions st3 = undo_actions abcd_note /\
    redo_actions st3
    = [CompositeAction [TagAction (lit "link") 0 2 true; AdditionAction (lit ".") 2]] /\
    ((forall j, (0 <= j < 2)%nat ->
                mem (lit "link") (tags_at (cells (buffer abcd_note)) j) = false) ->
     cells (buffer st3) = cells (buffer abcd_note)).
Proof.
  apply (link_undo url_at_start 2 0 (lit ".") abcd_note);
    [reflexivity | reflexivity | reflexivity | reflexivity | reflexivity
    | vm_compute; lia | reflexivity |].
  intros rest top H. top_of_stack H. reflexivity.
Defined.

(** X14 on the note [abcd] with the cursor behind [b]: the text comes
    back as [acbd]. *)
Lemma backward_join_misorders_witness :
  exists st1 st2 st3,
    buffer_delete 1 2 abcd_cursor_note = Done tt st1 /\
    buffer_delete 0 2 (place_cursor 2 st1) = Done tt st2 /\
    undo no_url st2 = Done tt st3 /\
    get_slice (buffer abcd_cursor_note) 0 4 = lit "abcd" /\
    get_slice (buffer st3) 0 4 = lit "acbd".
Proof.
  destruct (backward_join_misorders no_url [] [mkCell (Chr (Ch "d")) []]
              (Ch "a") (Ch "b") (Ch "c") abcd_cursor_note)
    as (st1 & st2 & st3 & E1 & _ & _ & E2 & _ & _ & _ & E3 & C3 & _);
    [reflexivity | reflexivity | reflexivity | reflexivity | reflexivity | reflexivity | |].
  - intros rest top H. top_of_stack H. reflexivity.
  - exists st1, st2, st3.
    split; [exact E1|]. split; [exact E2|]. split; [exact E3|].
    split; [reflexivity|]. unfold get_slice. rewrite C3. reflexivity.
Defined.

(** X7 on a new note: [ab] is typed, then [c] behind it, then [x] in
    front. *)
Lemma insertions_undo_redo_witness :
  exists st1 st2 st3,
    insert_all no_url [(0%nat, lit "ab"); (2%nat, lit "c"); (0%nat, lit "x")] new_NoteBuffer
    = Some st1 /\
    buffer st1
    = fold_left (fun b op => raw_insert b (fst op) (snd op))
        [(0%nat, lit "ab"); (2%nat, lit "c"); (0%nat, lit "x")] (buffer new_NoteBuffer) /\
    (List.length (undo_actions st1) <= 3)%nat /\
    undo_times no_url (List.length (undo_actions st1)) st1 = Some st2 /\
    cells (buffer st2) = cells (buffer new_NoteBuffer) /\
    undo_actions st2 = [] /\
    redo_times no_url (List.length (undo_actions st1)) st2 = Some st3 /\
    cells (buffer st3) = cells (buffer st1) /\
    undo_actions st3 = undo_actions st1 /\
    redo_actions st3 = redo_actions st1.
Proof.
  apply (insertions_undo_redo no_url
           [(0%nat, lit "ab"); (2%nat, lit "c"); (0%nat, lit "x")] new_NoteBuffer);
    reflexivity.
Defined.

(** X17 on the note of a check box and [a]: the check box is deleted. *)
Lemma object_deletion_witness :
  exists st1 st2 st3,
    buffer_delete 0 1 checklist_a_note = Done tt st1 /\
    (composite_actions checklist_a_note = [] ->
     user_action (buffer_delete 0 1) checklist_a_note = Done tt st1) /\
    buffer st1 = raw_delete (buffer checklist_a_note) 0 1 /\
    undo_actions st1
    = undo_actions checklist_a_note ++ [ObjectInsertAction false check 0 (Some false)] /\
    redo_actions st1 = [] /\
    undo no_url st1 = Done tt st2 /\
    contents st2 = contents checklist_a_note /\
    get_child_anchor (cells (buffer st2)) 0 = Some (CheckButton false) /\
    undo_actions st2 = undo_actions checklist_a_note /\
    redo_actions st2 = [ObjectInsertAction false check 0 (Some false)] /\
    redo no_url st2 = Done tt st3 /\
    cells (buffer st3) = cells (buffer st1) /\
    undo_actions st3 = undo_actions st1 /\
    redo_actions st3 = [].
Proof.
  apply (object_deletion no_url 0 (CheckButton false) checklist_a_note); reflexivity.
Defined.

(** C10 as stated fails: in the note with [ab] typed and the addition of
    [c] undone, the cursor is put behind [ab], which is taken for a URL,
    and a full stop is typed.  The full stop joins the addition of [ab],
    and the redo stack is emptied all the same. *)
Lemma link_key_press_clears_redo :
  undo_actions undone_note = [AdditionAction (lit "ab") 0] /\
  redo_actions undone_note = [AdditionAction (lit "c") 0] /\
  maybe_join (AdditionAction (lit "ab") 0) (AdditionAction (lit ".") 2)
  = Some (AdditionAction (lit "ab.") 0) /\
  exists st,
    type_text url_at_start (lit ".") (place_cursor 2 undone_note) = Done tt st /\
    undo_actions st
    = [AdditionAction (lit "ab.") 0; TagAction (lit "link") 0 2 true] /\
    redo_actions st = [].
Proof.
  split; [reflexivity|]. split; [reflexivity|]. split; [reflexivity|].
  eexists. split; [vm_compute; reflexivity|]. split; reflexivity.
Qed.

(** C10 on the note with [ab] and [c] typed: after [undo], a [d] typed
    behind [ab] joins the addition of [ab], and the undone addition of
    [c] stays on the redo stack. *)
Lemma merge_keeps_redo_witness :
  exists st1 st2,
    undo no_url typed_note = Done tt st1 /\
    on_insert no_url 2 (lit "d") st1 = Done tt st2 /\
    undo_actions st2 = [] ++ [AdditionAction (lit "abd") 0] /\
    redo_actions st2 = redo_actions typed_note ++ [AdditionAction (lit "c") 0] /\
    (in_composite typed_note = 0 -> composite_actions typed_note = [] -> lit "d" <> [] ->
     exists st3,
       user_action (buffer_insert no_url 2 (lit "d")) st1 = Done tt st3 /\
       undo_actions st3 = [] ++ [AdditionAction (lit "abd") 0] /\
       redo_actions st3 = redo_actions typed_note ++ [AdditionAction (lit "c") 0]).
Proof.
  apply (proj1 (proj2 (proj2 (proj2 (merge_keeps_redo no_url))))
           typed_note [] (AdditionAction (lit "ab") 0) (AdditionAction (lit "c") 0)
           (AdditionAction (lit "c") 0)
           (set_buffer (raw_delete (buffer typed_note) 0 1)
              (set_undo_actions ([] ++ [AdditionAction (lit "ab") 0])
                 (enter_internal_action typed_note)))
           2%nat (lit "d") (AdditionAction (lit "abd") 0));
    [reflexivity | reflexivity | vm_compute; reflexivity | left; reflexivity
    | intro H; discriminate H | reflexivity].
Defined.
